(** * Computron / Vomit x86 core: a shallow embedding of the CPU core

    The development follows the sources:
    - [x86/CPU.cpp]       paging, memory access, memory providers, far jumps
                          and returns, reset, HLT, CPUID, RDTSC;
    - [x86/interrupt.cpp] interrupt delivery in real and in protected mode;
    - [x86/186.cpp]       PUSHA, POPA, ENTER, LEAVE;
    - [8086/stack.c]      the stack instructions of the 8086 core;
    - [hw/SimpleMemoryProvider.cpp] memory kept by a provider;
    - [gui/Renderer.cpp]  the renderers of the graphics modes.

    Machine integers are [Z] with the wrap-around written out; guest memory is
    a byte-indexed function; the C++ exceptions and failed assertions are the
    [Throw] and [Crash] outcomes of a state-and-error monad, and [OutOfFuel]
    is the outcome of a bounded run of a loop that has not finished. *)

From Stdlib Require Import ZArith List Bool Lia.
Import ListNotations.
Open Scope Z_scope.

(** ** Fixed-width integers *)

Definition u8 (x : Z) : Z := x mod 2 ^ 8.
Definition u16 (x : Z) : Z := x mod 2 ^ 16.
Definition u32 (x : Z) : Z := x mod 2 ^ 32.

(** Modelled from the spec: [weld<u16>(high, low)] and [weld<u32>(high, low)]
    (declared in Common.h, not under src/), by which "composition uses
    little-endian byte order": the first argument is the upper half of the
    result and the second the lower half. *)
Definition weld16 (high low : Z) : Z := Z.lor (Z.shiftl (u8 high) 8) (u8 low).
Definition weld32 (high low : Z) : Z := Z.lor (Z.shiftl (u16 high) 16) (u16 low).

Inductive ValueSize := ByteSize | WordSize | DWordSize.

Definition size_bytes (s : ValueSize) : nat :=
  match s with ByteSize => 1%nat | WordSize => 2%nat | DWordSize => 4%nat end.

Definition size_of (s : ValueSize) : Z := Z.of_nat (size_bytes s).

Definition truncate (s : ValueSize) (x : Z) : Z := x mod 2 ^ (8 * size_of s).

(** ** Host memory: a byte array read and written in little-endian order *)

Definition Bytes := Z -> Z.

Definition poke (m : Bytes) (a v : Z) : Bytes :=
  fun a' => if a' =? a then u8 v else m a'.

Fixpoint le_load (n : nat) (m : Bytes) (a : Z) : Z :=
  match n with
  | O => 0
  | S k => u8 (m a) + 256 * le_load k m (a + 1)
  end.

Fixpoint le_store (n : nat) (m : Bytes) (a v : Z) : Bytes :=
  match n with
  | O => m
  | S k => le_store k (poke m a v) (a + 1) (v / 256)
  end.

(** ** Exceptions *)

(** [Exception(num, code, address, reason)]; the reason string is dropped. *)
Record Exception := mkException {
  exc_num : Z;
  exc_code : option Z;
  exc_address : option Z
}.

Definition GeneralProtectionFault (code : Z) := mkException 13 (Some (u16 code)) None.
Definition StackFault (code : Z) := mkException 12 (Some (u16 code)) None.
Definition NotPresent (code : Z) := mkException 11 (Some (u16 code)) None.
Definition InvalidTSS (code : Z) := mkException 10 (Some (u16 code)) None.
Definition InvalidOpcode := mkException 6 None None.

Inductive Result (A : Type) :=
| Ok (a : A)
| Throw (e : Exception)
| Crash
| OutOfFuel.
Arguments Ok {A} a.
Arguments Throw {A} e.
Arguments Crash {A}.
Arguments OutOfFuel {A}.

(** ** Enumerations *)

Inductive SegmentRegisterIndex := ES | CS | SS | DS | FS | GS.

Definition segreg_eqb (a b : SegmentRegisterIndex) : bool :=
  match a, b with
  | ES, ES | CS, CS | SS, SS | DS, DS | FS, FS | GS, GS => true
  | _, _ => false
  end.

Inductive MemoryAccessType := Read | Write | Execute | InternalPointer.

Definition is_write (t : MemoryAccessType) : bool :=
  match t with Write => true | _ => false end.

Definition is_execute (t : MemoryAccessType) : bool :=
  match t with Execute => true | _ => false end.

Inductive JumpType := Internal | IRET | RETF | INT | CALL | JMP.

Definition is_call (t : JumpType) : bool :=
  match t with CALL => true | _ => false end.

Inductive InterruptSource := SrcInternal | SrcExternal.

Inductive CPUState := Dead | Alive | Halted.

Inductive DebuggerRequest := NoDebuggerRequest | PleaseEnterDebugger | PleaseExitDebugger.

(** General-purpose register indices into [m_gpr]. *)
Definition RegisterEAX := 0.
Definition RegisterECX := 1.
Definition RegisterEDX := 2.
Definition RegisterEBX := 3.
Definition RegisterESP := 4.
Definition RegisterEBP := 5.
Definition RegisterESI := 6.
Definition RegisterEDI := 7.

(** ** Descriptors *)

(** A code or data segment descriptor; this is also the type of the cached
    descriptors of the six segment registers. *)
Record SegmentDescriptor := mkSegmentDescriptor {
  sd_null : bool;
  sd_code : bool;            (* is_code(); is_data() is its negation *)
  sd_base : Z;
  sd_effective_limit : Z;
  sd_dpl : Z;
  sd_present : bool;
  sd_D : bool;               (* D/B bit: is_32bit() *)
  sd_conforming : bool;      (* code segments *)
  sd_readable : bool;        (* code segments *)
  sd_writable : bool;        (* data segments *)
  m_rpl : Z;
  m_loaded_in_ss : bool
}.

Record Gate := mkGate {
  gate_selector : Z;
  gate_offset : Z;
  gate_parameter_count : Z;
  gate_dpl : Z;
  gate_present : bool;
  gate_is_32bit : bool
}.

Record TSSDescriptor := mkTSSDescriptor {
  tss_base : Z;
  tss_limit : Z;
  tss_dpl : Z;
  tss_present : bool;
  tss_busy : bool;
  tss_is_32bit : bool
}.

Inductive DescriptorError := NullSelector | LimitExceeded.

Inductive Descriptor :=
| ErrorDescriptor (e : DescriptorError)
| Segment (s : SegmentDescriptor)
| CallGate (g : Gate)
| TaskGate (g : Gate)
| OtherGate (g : Gate)
| TSS (t : TSSDescriptor)
| OtherSystem (dpl : Z) (present : bool).

Definition is_null (d : Descriptor) : bool :=
  match d with ErrorDescriptor NullSelector => true | _ => false end.

Definition is_outside_table_limits (d : Descriptor) : bool :=
  match d with ErrorDescriptor LimitExceeded => true | _ => false end.

Definition is_code (d : Descriptor) : bool :=
  match d with Segment s => sd_code s | _ => false end.

Definition is_data (d : Descriptor) : bool :=
  match d with Segment s => negb (sd_code s) | _ => false end.

Definition is_call_gate (d : Descriptor) : bool :=
  match d with CallGate _ => true | _ => false end.

Definition is_task_gate (d : Descriptor) : bool :=
  match d with TaskGate _ => true | _ => false end.

Definition is_gate (d : Descriptor) : bool :=
  match d with CallGate _ | TaskGate _ | OtherGate _ => true | _ => false end.

Definition is_tss (d : Descriptor) : bool :=
  match d with TSS _ => true | _ => false end.

Definition dpl (d : Descriptor) : Z :=
  match d with
  | ErrorDescriptor _ => 0
  | Segment s => sd_dpl s
  | CallGate g | TaskGate g | OtherGate g => gate_dpl g
  | TSS t => tss_dpl t
  | OtherSystem p _ => p
  end.

Definition present (d : Descriptor) : bool :=
  match d with
  | ErrorDescriptor _ => false
  | Segment s => sd_present s
  | CallGate g | TaskGate g | OtherGate g => gate_present g
  | TSS t => tss_present t
  | OtherSystem _ p => p
  end.

(** [SegmentDescriptor::linear_address(offset)]: base + offset in 32 bits. *)
Definition linear_address (d : SegmentDescriptor) (offset : Z) : Z :=
  u32 (sd_base d + offset).

(** The descriptor a [memset] to zero leaves in the cache. *)
Definition zero_descriptor : SegmentDescriptor :=
  mkSegmentDescriptor false false 0 0 0 false false false false false 0 false.

Record DescriptorTableRegister := mkDTR { dtr_base : Z; dtr_limit : Z }.

Record TaskRegister := mkTR {
  tr_selector : Z;
  tr_limit : Z;
  tr_base : Z;
  tr_is_32bit : bool
}.

(** ** Flags, control registers *)

Record Flags := mkFlags {
  m_cf : bool; m_pf : bool; m_af : bool; m_zf : bool; m_sf : bool;
  m_tf : bool; m_if : bool; m_df : bool; m_of : bool;
  m_iopl : Z; m_nt : bool; m_rf : bool; m_vm : bool; m_ac : bool;
  m_id : bool; m_vip : bool; m_vif : bool;
  m_dirty_flags : Z; m_last_result : Z; m_last_op_size : ValueSize
}.

Record ControlRegisters := mkCR {
  m_cr0 : Z; m_cr2 : Z; m_cr3 : Z; m_cr4 : Z;
  m_dr0 : Z; m_dr1 : Z; m_dr2 : Z; m_dr3 : Z;
  m_dr4 : Z; m_dr5 : Z; m_dr6 : Z; m_dr7 : Z
}.

Record Sizes := mkSizes {
  m_address_size32 : bool;
  m_operand_size32 : bool;
  m_effective_address_size32 : bool;
  m_effective_operand_size32 : bool;
  m_stackSize32 : bool
}.

(** Bits of CR0 and of page-table entries; page-fault error-code bits
    (bit0 P, bit1 W, bit2 U, bit4 I-fetch). *)
Module CR0.
Definition PE := 0x00000001.
Definition WP := 0x00010000.
Definition PG := 0x80000000.
End CR0.

Module PageTableEntryFlags.
Definition Present := 0x01.
Definition ReadWrite := 0x02.
Definition UserSupervisor := 0x04.
Definition Accessed := 0x20.
Definition Dirty := 0x40.
End PageTableEntryFlags.

Module PageFaultFlags.
Definition NotPresent := 0x00.
Definition ProtectionViolation := 0x01.
Definition Read := 0x00.
Definition Write := 0x02.
Definition UserMode := 0x04.
Definition SupervisorMode := 0x00.
Definition InstructionFetch := 0x10.
End PageFaultFlags.

(** ** Memory providers *)

(** The interface of [MemoryProvider]: a device owning a range of the low
    megabyte.  A read may change the device (latches), so it returns the
    device too. *)
Class MemoryProvider (P : Type) := {
  base_address : P -> Z;
  size : P -> Z;
  pointer_for_direct_read_access : P -> option Bytes;
  provider_read : ValueSize -> P -> Z -> Z * P;
  provider_write : ValueSize -> P -> Z -> Z -> P
}.

(** [SimpleMemoryProvider]: a byte vector at a base address. *)
Record SimpleMemoryProvider := mkSimple {
  smp_base : Z;
  smp_size : Z;
  smp_direct : bool;
  m_data : Bytes
}.

Definition smp_read_memory8 (p : SimpleMemoryProvider) (address : Z) : Z :=
  u8 (m_data p (address - smp_base p)).

Definition smp_write_memory8 (p : SimpleMemoryProvider) (address data : Z) : SimpleMemoryProvider :=
  mkSimple (smp_base p) (smp_size p) (smp_direct p) (poke (m_data p) (address - smp_base p) data).

Fixpoint smp_write_bytes (n : nat) (p : SimpleMemoryProvider) (address data : Z) : SimpleMemoryProvider :=
  match n with
  | O => p
  | S k => smp_write_bytes k (smp_write_memory8 p address data) (address + 1) (data / 256)
  end.

#[export] Instance SimpleMemoryProvider_provider : MemoryProvider SimpleMemoryProvider := {
  base_address := smp_base;
  size := smp_size;
  pointer_for_direct_read_access p := if smp_direct p then Some (m_data p) else None;
  provider_read s p a := (le_load (size_bytes s) (m_data p) (a - smp_base p), p);
  provider_write s p a v := smp_write_bytes (size_bytes s) p a v
}.

(** ** The 8086 core (8086/stack.c, include/8086.h) *)

Module Vomit8086.

(** The globals of the 8086 core: registers, flags, guest memory, the base
    CS:IP of the running instruction, and the alerts [vlog] has written. *)
Record Cpu := mkCpu {
  CS : Z; DS : Z; ES : Z; SS : Z;
  AX : Z; BX : Z; CX : Z; DX : Z;
  BasePointer : Z; StackPointer : Z; SI : Z; DI : Z; IP : Z;
  CF : bool; DF : bool; TF : bool; PF : bool; AF : bool;
  ZF : bool; SF : bool; IF : bool; OF : bool;
  mem_space : Bytes;
  BCS : Z; BIP : Z;
  alerts : list (Z * Z)
}.

Definition CPU_STATIC_FLAGS := 0x7002.

Definition mem_getword (st : Cpu) (seg off : Z) : Z :=
  le_load 2 (mem_space st) (u16 seg * 16 + u16 off).

(** The architectural state: everything but the log. *)
Definition architectural (st : Cpu) :=
  (CS st, DS st, ES st, SS st, (AX st, BX st, CX st, DX st),
   (BasePointer st, StackPointer st, SI st, DI st, IP st),
   (CF st, DF st, TF st, PF st, AF st, ZF st, SF st, IF st, OF st),
   mem_space st).

Definition vlog_alert (st : Cpu) : Cpu :=
  mkCpu (CS st) (DS st) (ES st) (SS st) (AX st) (BX st) (CX st) (DX st)
        (BasePointer st) (StackPointer st) (SI st) (DI st) (IP st)
        (CF st) (DF st) (TF st) (PF st) (AF st) (ZF st) (SF st) (IF st) (OF st)
        (mem_space st) (BCS st) (BIP st) ((BCS st, BIP st) :: alerts st).

(** [_POP_CS]: the handler only logs "Attempted either POP CS or 286+
    instruction." with the base CS:IP. *)
Definition _POP_CS (st : Cpu) : Cpu := vlog_alert st.

Definition bit (b : bool) (n : Z) : Z := if b then Z.shiftl 1 n else 0.

(** Modelled from the spec: [cpu_getflags], [mem_push] and [int_call] (declared
    in include/8086.h, defined outside src/).  Raising an exception on this
    core is the real-mode delivery of its vector: "push FLAGS, CS, IP; read
    (offset, selector) from [ISR*4]; clear IF and TF; jump". *)
Definition cpu_getflags (st : Cpu) : Z :=
  Z.lor CPU_STATIC_FLAGS
    (bit (CF st) 0 + bit (PF st) 2 + bit (AF st) 4 + bit (ZF st) 6 + bit (SF st) 7
     + bit (TF st) 8 + bit (IF st) 9 + bit (DF st) 10 + bit (OF st) 11).

Definition mem_push (value : Z) (st : Cpu) : Cpu :=
  let sp := u16 (StackPointer st - 2) in
  mkCpu (CS st) (DS st) (ES st) (SS st) (AX st) (BX st) (CX st) (DX st)
        (BasePointer st) sp (SI st) (DI st) (IP st)
        (CF st) (DF st) (TF st) (PF st) (AF st) (ZF st) (SF st) (IF st) (OF st)
        (le_store 2 (mem_space st) (u16 (SS st) * 16 + sp) value)
        (BCS st) (BIP st) (alerts st).

Definition int_call (isr : Z) (st : Cpu) : Cpu :=
  let st1 := mem_push (IP st) (mem_push (CS st) (mem_push (cpu_getflags st) st)) in
  mkCpu (le_load 2 (mem_space st) (u8 isr * 4 + 2)) (DS st1) (ES st1) (SS st1)
        (AX st1) (BX st1) (CX st1) (DX st1)
        (BasePointer st1) (StackPointer st1) (SI st1) (DI st1)
        (le_load 2 (mem_space st) (u8 isr * 4))
        (CF st1) (DF st1) false (PF st1) (AF st1) (ZF st1) (SF st1) false (OF st1)
        (mem_space st1) (BCS st1) (BIP st1) (alerts st1).

End Vomit8086.

(** ** The renderers of the graphics modes (gui/Renderer.cpp) *)

Module Renderer.

(** The columns or lines a loop runs over: 0, 1, ..., n-1. *)
Definition upto (n : nat) : list Z := map Z.of_nat (seq 0 n).

(** One scan line of [Mode04Renderer::render]: 80 bytes of video memory, four
    2-bit pixels each, most significant pair first; odd scan lines are read
    0x2000 bytes further on. *)
Definition mode04_scan_line (video_memory : Bytes) (scan_line : Z) : list Z :=
  let inp := (if Z.land scan_line 1 =? 0 then 0 else 0x2000) + (scan_line / 2) * 80 in
  flat_map (fun i =>
              let b := u8 (video_memory (inp + i)) in
              [ Z.land (Z.shiftr b 6) 3; Z.land (Z.shiftr b 4) 3;
                Z.land (Z.shiftr b 2) 3; Z.land (Z.shiftr b 0) 3 ])
           (upto 80).

(** [Mode04Renderer::render]: the 200 scan lines of the buffer;
    [video_memory] is [vga().text_memory() + vga().start_address()]. *)
Definition Mode04Renderer_render (video_memory : Bytes) : list (list Z) :=
  map (mode04_scan_line video_memory) (upto 200).

(** The macro [D(i)]: bit [i] of the byte at [offset] of the four planes, plane
    [k] giving bit [k] of the pixel. *)
Definition D (p0 p1 p2 p3 : Bytes) (offset i : Z) : Z :=
  Z.lor (Z.lor (Z.lor
    (Z.land (Z.shiftr (u8 (p0 offset)) i) 1)
    (Z.shiftl (Z.land (Z.shiftr (u8 (p1 offset)) i) 1) 1))
    (Z.shiftl (Z.land (Z.shiftr (u8 (p2 offset)) i) 1) 2))
    (Z.shiftl (Z.land (Z.shiftr (u8 (p3 offset)) i) 1) 3).

(** The loops shared by [Mode12Renderer::render] and [Mode0DRenderer::render]:
    [height] lines of [width] pixels, eight pixels for each byte offset, the
    offset running on from line to line. *)
Definition planar_line (width : nat) (p0 p1 p2 p3 : Bytes) (y : Z) : list Z :=
  flat_map (fun c =>
              let offset := y * Z.of_nat (width / 8) + c in
              [ D p0 p1 p2 p3 offset 7; D p0 p1 p2 p3 offset 6;
                D p0 p1 p2 p3 offset 5; D p0 p1 p2 p3 offset 4;
                D p0 p1 p2 p3 offset 3; D p0 p1 p2 p3 offset 2;
                D p0 p1 p2 p3 offset 1; D p0 p1 p2 p3 offset 0 ])
           (upto (width / 8)).

Definition planar_render (width height : nat) (p0 p1 p2 p3 : Bytes) : list (list Z) :=
  map (planar_line width p0 p1 p2 p3) (upto height).

(** [Mode12Renderer::render]: 640 x 480 from the start of the planes. *)
Definition Mode12Renderer_render (p0 p1 p2 p3 : Bytes) : list (list Z) :=
  planar_render 640 480 p0 p1 p2 p3.

(** [Mode0DRenderer::render]: 320 x 200 from [vga().start_address()]. *)
Definition Mode0DRenderer_render (start_address : Z) (p0 p1 p2 p3 : Bytes) : list (list Z) :=
  let shifted (p : Bytes) : Bytes := fun a => p (u16 start_address + a) in
  planar_render 320 200 (shifted p0) (shifted p1) (shifted p2) (shifted p3).

(** The byte of plane [k] at an offset. *)
Definition plane_byte (p0 p1 p2 p3 : Bytes) (k offset : Z) : Z :=
  u8 (nth (Z.to_nat k) [p0; p1; p2; p3] p0 offset).

End Renderer.


(** ** The CPU object *)

Section Machine.

Context {P : Type} `{MemoryProvider P}.

(** Constants and settings the sources take from headers and from the
    configuration: the granularity of the provider table, the [options]
    the embedded functions consult, and the autotest entry point. *)
Variable memory_provider_block_size : Z.
Variable options_crash_on_page_fault : bool.
Variable options_trace : bool.
Variable settings_entry_cs : Z.
Variable settings_entry_ip : Z.

(** Guest RAM ([m_memory], [m_memory_size]), the table of provider pointers
    indexed by block ([m_memory_providers]) and the provider objects the
    pointers designate. *)
Record Memory := mkMemory {
  m_memory : Bytes;
  m_memory_size : Z;
  m_memory_providers : Z -> option Z;
  provider_objects : Z -> P
}.

Record CPU := mkCPU {
  m_gpr : Z -> Z;
  m_eip : Z;
  m_segreg : SegmentRegisterIndex -> Z;
  m_descriptor : SegmentRegisterIndex -> SegmentDescriptor;
  m_segment_prefix : option SegmentRegisterIndex;
  m_cr : ControlRegisters;
  m_fl : Flags;
  m_gdtr : DescriptorTableRegister;
  m_idtr : DescriptorTableRegister;
  m_ldtr : DescriptorTableRegister;
  m_tr : TaskRegister;
  m_state : CPUState;
  m_sizes : Sizes;
  m_a20_enabled : bool;
  m_next_instruction_is_uninterruptible : bool;
  m_cycle : Z;
  m_mem : Memory;
  m_is_for_autotest : bool;
  m_should_hard_reboot : bool;
  m_debugger_request : DebuggerRequest;
  m_breakpoints : list (Z * Z);
  m_watches : list Z;
  m_debugger_active : bool;
  m_main_loop_needs_slow_stuff : bool
}.

(** Field updates. *)
Definition with_gpr (v : Z -> Z) (st : CPU) : CPU :=
  mkCPU v (m_eip st) (m_segreg st) (m_descriptor st) (m_segment_prefix st) (m_cr st) (m_fl st) (m_gdtr st) (m_idtr st) (m_ldtr st) (m_tr st) (m_state st) (m_sizes st) (m_a20_enabled st) (m_next_instruction_is_uninterruptible st) (m_cycle st) (m_mem st) (m_is_for_autotest st) (m_should_hard_reboot st) (m_debugger_request st) (m_breakpoints st) (m_watches st) (m_debugger_active st) (m_main_loop_needs_slow_stuff st).

Definition with_eip (v : Z) (st : CPU) : CPU :=
  mkCPU (m_gpr st) v (m_segreg st) (m_descriptor st) (m_segment_prefix st) (m_cr st) (m_fl st) (m_gdtr st) (m_idtr st) (m_ldtr st) (m_tr st) (m_state st) (m_sizes st) (m_a20_enabled st) (m_next_instruction_is_uninterruptible st) (m_cycle st) (m_mem st) (m_is_for_autotest st) (m_should_hard_reboot st) (m_debugger_request st) (m_breakpoints st) (m_watches st) (m_debugger_active st) (m_main_loop_needs_slow_stuff st).

Definition with_segreg (v : SegmentRegisterIndex -> Z) (st : CPU) : CPU :=
  mkCPU (m_gpr st) (m_eip st) v (m_descriptor st) (m_segment_prefix st) (m_cr st) (m_fl st) (m_gdtr st) (m_idtr st) (m_ldtr st) (m_tr st) (m_state st) (m_sizes st) (m_a20_enabled st) (m_next_instruction_is_uninterruptible st) (m_cycle st) (m_mem st) (m_is_for_autotest st) (m_should_hard_reboot st) (m_debugger_request st) (m_breakpoints st) (m_watches st) (m_debugger_active st) (m_main_loop_needs_slow_stuff st).

Definition with_descriptor (v : SegmentRegisterIndex -> SegmentDescriptor) (st : CPU) : CPU :=
  mkCPU (m_gpr st) (m_eip st) (m_segreg st) v (m_segment_prefix st) (m_cr st) (m_fl st) (m_gdtr st) (m_idtr st) (m_ldtr st) (m_tr st) (m_state st) (m_sizes st) (m_a20_enabled st) (m_next_instruction_is_uninterruptible st) (m_cycle st) (m_mem st) (m_is_for_autotest st) (m_should_hard_reboot st) (m_debugger_request st) (m_breakpoints st) (m_watches st) (m_debugger_active st) (m_main_loop_needs_slow_stuff st).

Definition with_cr (v : ControlRegisters) (st : CPU) : CPU :=
  mkCPU (m_gpr st) (m_eip st) (m_segreg st) (m_descriptor st) (m_segment_prefix st) v (m_fl st) (m_gdtr st) (m_idtr st) (m_ldtr st) (m_tr st) (m_state st) (m_sizes st) (m_a20_enabled st) (m_next_instruction_is_uninterruptible st) (m_cycle st) (m_mem st) (m_is_for_autotest st) (m_should_hard_reboot st) (m_debugger_request st) (m_breakpoints st) (m_watches st) (m_debugger_active st) (m_main_loop_needs_slow_stuff st).

Definition with_fl (v : Flags) (st : CPU) : CPU :=
  mkCPU (m_gpr st) (m_eip st) (m_segreg st) (m_descriptor st) (m_segment_prefix st) (m_cr st) v (m_gdtr st) (m_idtr st) (m_ldtr st) (m_tr st) (m_state st) (m_sizes st) (m_a20_enabled st) (m_next_instruction_is_uninterruptible st) (m_cycle st) (m_mem st) (m_is_for_autotest st) (m_should_hard_reboot st) (m_debugger_request st) (m_breakpoints st) (m_watches st) (m_debugger_active st) (m_main_loop_needs_slow_stuff st).

Definition with_state (v : CPUState) (st : CPU) : CPU :=
  mkCPU (m_gpr st) (m_eip st) (m_segreg st) (m_descriptor st) (m_segment_prefix st) (m_cr st) (m_fl st) (m_gdtr st) (m_idtr st) (m_ldtr st) (m_tr st) v (m_sizes st) (m_a20_enabled st) (m_next_instruction_is_uninterruptible st) (m_cycle st) (m_mem st) (m_is_for_autotest st) (m_should_hard_reboot st) (m_debugger_request st) (m_breakpoints st) (m_watches st) (m_debugger_active st) (m_main_loop_needs_slow_stuff st).

Definition with_sizes (v : Sizes) (st : CPU) : CPU :=
  mkCPU (m_gpr st) (m_eip st) (m_segreg st) (m_descriptor st) (m_segment_prefix st) (m_cr st) (m_fl st) (m_gdtr st) (m_idtr st) (m_ldtr st) (m_tr st) (m_state st) v (m_a20_enabled st) (m_next_instruction_is_uninterruptible st) (m_cycle st) (m_mem st) (m_is_for_autotest st) (m_should_hard_reboot st) (m_debugger_request st) (m_breakpoints st) (m_watches st) (m_debugger_active st) (m_main_loop_needs_slow_stuff st).

Definition with_mem (v : Memory) (st : CPU) : CPU :=
  mkCPU (m_gpr st) (m_eip st) (m_segreg st) (m_descriptor st) (m_segment_prefix st) (m_cr st) (m_fl st) (m_gdtr st) (m_idtr st) (m_ldtr st) (m_tr st) (m_state st) (m_sizes st) (m_a20_enabled st) (m_next_instruction_is_uninterruptible st) (m_cycle st) v (m_is_for_autotest st) (m_should_hard_reboot st) (m_debugger_request st) (m_breakpoints st) (m_watches st) (m_debugger_active st) (m_main_loop_needs_slow_stuff st).

Definition with_should_hard_reboot (v : bool) (st : CPU) : CPU :=
  mkCPU (m_gpr st) (m_eip st) (m_segreg st) (m_descriptor st) (m_segment_prefix st) (m_cr st) (m_fl st) (m_gdtr st) (m_idtr st) (m_ldtr st) (m_tr st) (m_state st) (m_sizes st) (m_a20_enabled st) (m_next_instruction_is_uninterruptible st) (m_cycle st) (m_mem st) (m_is_for_autotest st) v (m_debugger_request st) (m_breakpoints st) (m_watches st) (m_debugger_active st) (m_main_loop_needs_slow_stuff st).

Definition with_main_loop_needs_slow_stuff (v : bool) (st : CPU) : CPU :=
  mkCPU (m_gpr st) (m_eip st) (m_segreg st) (m_descriptor st) (m_segment_prefix st) (m_cr st) (m_fl st) (m_gdtr st) (m_idtr st) (m_ldtr st) (m_tr st) (m_state st) (m_sizes st) (m_a20_enabled st) (m_next_instruction_is_uninterruptible st) (m_cycle st) (m_mem st) (m_is_for_autotest st) (m_should_hard_reboot st) (m_debugger_request st) (m_breakpoints st) (m_watches st) (m_debugger_active st) v.

Definition with_memory (v : Bytes) (m : Memory) : Memory :=
  mkMemory v (m_memory_size m) (m_memory_providers m) (provider_objects m).

Definition with_provider (h : Z) (p : P) (m : Memory) : Memory :=
  mkMemory (m_memory m) (m_memory_size m) (m_memory_providers m)
           (fun h' => if h' =? h then p else provider_objects m h').

(** ** The monad of CPU operations *)

Definition M (A : Type) : Type := CPU -> Result A * CPU.

Definition ret {A} (a : A) : M A := fun st => (Ok a, st).

Definition bind {A B} (c : M A) (k : A -> M B) : M B :=
  fun st =>
    match c st with
    | (Ok a, st') => k a st'
    | (Throw e, st') => (Throw e, st')
    | (Crash, st') => (Crash, st')
    | (OutOfFuel, st') => (OutOfFuel, st')
    end.

Definition throw {A} (e : Exception) : M A := fun st => (Throw e, st).
Definition crash {A} : M A := fun st => (Crash, st).
Definition out_of_fuel {A} : M A := fun st => (OutOfFuel, st).
Definition gets {A} (f : CPU -> A) : M A := fun st => (Ok (f st), st).
Definition modify (f : CPU -> CPU) : M unit := fun st => (Ok tt, f st).

(** [ASSERT(cond)] and [ASSERT_NOT_REACHED()] stop the emulator. *)
Definition ASSERT (cond : bool) : M unit := if cond then ret tt else crash.
Definition ASSERT_NOT_REACHED {A} : M A := crash.

Definition when (cond : bool) (c : M unit) : M unit := if cond then c else ret tt.

Notation "x <- c ;; k" := (bind c (fun x => k))
  (at level 61, c at next level, right associativity).
Notation "c ;;; k" := (bind c (fun _ => k))
  (at level 61, right associativity).

(** ** Register and flag accessors *)

Definition has (x mask : Z) : bool := negb (Z.land x mask =? 0).

Definition get_cr0 (st : CPU) : Z := m_cr0 (m_cr st).
Definition get_cr2 (st : CPU) : Z := m_cr2 (m_cr st).
Definition get_cr3 (st : CPU) : Z := m_cr3 (m_cr st).

Definition set_cr2 (v : Z) (st : CPU) : CPU :=
  let c := m_cr st in
  with_cr (mkCR (m_cr0 c) v (m_cr3 c) (m_cr4 c) (m_dr0 c) (m_dr1 c) (m_dr2 c)
                (m_dr3 c) (m_dr4 c) (m_dr5 c) (m_dr6 c) (m_dr7 c)) st.

Definition get_pe (st : CPU) : bool := has (get_cr0 st) CR0.PE.
Definition get_pg (st : CPU) : bool := has (get_cr0 st) CR0.PG.
Definition get_vm (st : CPU) : bool := m_vm (m_fl st).
Definition get_if (st : CPU) : bool := m_if (m_fl st).
Definition get_tf (st : CPU) : bool := m_tf (m_fl st).

Definition cached_descriptor (st : CPU) (segreg : SegmentRegisterIndex) : SegmentDescriptor :=
  m_descriptor st segreg.

(** [get_cpl()]: the RPL kept in the cached CS descriptor (see [set_cpl]). *)
Definition get_cpl (st : CPU) : Z := m_rpl (cached_descriptor st CS).

Definition get_cs (st : CPU) : Z := m_segreg st CS.
Definition get_ss (st : CPU) : Z := m_segreg st SS.
Definition get_eip (st : CPU) : Z := m_eip st.
Definition get_ip (st : CPU) : Z := u16 (m_eip st).
Definition set_eip (v : Z) : M unit := modify (with_eip (u32 v)).

Definition read_register32 (i : Z) (st : CPU) : Z := m_gpr st i.
Definition read_register16 (i : Z) (st : CPU) : Z := u16 (m_gpr st i).

Definition write_register32 (i v : Z) (st : CPU) : CPU :=
  with_gpr (fun j => if j =? i then u32 v else m_gpr st j) st.

(** Writing the [low_u16] view keeps the upper half of the register. *)
Definition write_register16 (i v : Z) (st : CPU) : CPU :=
  with_gpr (fun j => if j =? i then m_gpr st i - u16 (m_gpr st i) + u16 v else m_gpr st j) st.

Definition get_esp : CPU -> Z := read_register32 RegisterESP.
Definition get_sp : CPU -> Z := read_register16 RegisterESP.
Definition set_esp (v : Z) : M unit := modify (write_register32 RegisterESP v).
Definition set_sp (v : Z) : M unit := modify (write_register16 RegisterESP v).

Definition s32 (st : CPU) : bool := m_stackSize32 (m_sizes st).
Definition s16 (st : CPU) : bool := negb (s32 st).
Definition o32 (st : CPU) : bool := m_effective_operand_size32 (m_sizes st).
Definition o16 (st : CPU) : bool := negb (o32 st).

Definition is_a20_enabled (st : CPU) : bool := m_a20_enabled st.
Definition a20_mask (st : CPU) : Z := if is_a20_enabled st then 0xFFFFFFFF else 0xFFEFFFFF.

(** ** Physical memory *)

Definition validate_physical_address (physicalAddress : Z) (st : CPU) : bool :=
  physicalAddress <? m_memory_size (m_mem st).

Definition memory_provider_for_address (st : CPU) (address : Z) : option Z :=
  if 1048576 <=? address then None
  else m_memory_providers (m_mem st) (address / memory_provider_block_size).

Definition read_physical_memory (T : ValueSize) (physicalAddress : Z) : M Z :=
  fun st =>
    if negb (validate_physical_address physicalAddress st) then (Ok 0, st)
    else match memory_provider_for_address st physicalAddress with
         | Some h =>
             let provider := provider_objects (m_mem st) h in
             match pointer_for_direct_read_access provider with
             | Some direct =>
                 (Ok (le_load (size_bytes T) direct (physicalAddress - base_address provider)), st)
             | None =>
                 let (v, provider') := provider_read T provider physicalAddress in
                 (Ok (truncate T v), with_mem (with_provider h provider' (m_mem st)) st)
             end
         | None => (Ok (le_load (size_bytes T) (m_memory (m_mem st)) physicalAddress), st)
         end.

Definition write_physical_memory (T : ValueSize) (physicalAddress data : Z) : M unit :=
  fun st =>
    if negb (validate_physical_address physicalAddress st) then (Ok tt, st)
    else match memory_provider_for_address st physicalAddress with
         | Some h =>
             let provider := provider_objects (m_mem st) h in
             (Ok tt, with_mem (with_provider h (provider_write T provider physicalAddress data)
                                             (m_mem st)) st)
         | None =>
             (Ok tt, with_mem (with_memory (le_store (size_bytes T) (m_memory (m_mem st))
                                                     physicalAddress data) (m_mem st)) st)
         end.

(** ** Paging *)

Definition makePFErrorCode (flags : Z) (accessType : MemoryAccessType) (inUserMode : bool) : Z :=
  Z.lor (Z.lor (Z.lor flags
    (if is_write accessType then PageFaultFlags.Write else PageFaultFlags.Read))
    (if inUserMode then PageFaultFlags.UserMode else PageFaultFlags.SupervisorMode))
    (if is_execute accessType then PageFaultFlags.InstructionFetch else 0).

(** [CPU::PageFault] loads CR2 and builds the exception that the caller throws. *)
Definition PageFault (linearAddress flags : Z) (accessType : MemoryAccessType)
    (inUserMode : bool) : M Exception :=
  let error := makePFErrorCode flags accessType inUserMode in
  modify (set_cr2 linearAddress) ;;;
  (if options_crash_on_page_fault then ASSERT_NOT_REACHED else ret tt) ;;;
  ret (mkException 0xe (Some error) (Some linearAddress)).

Definition translate_address_slow_case (linearAddress : Z) (accessType : MemoryAccessType)
    (effectiveCPL : Z) : M Z :=
  cr3 <- gets get_cr3 ;;
  memory_size <- gets (fun st => m_memory_size (m_mem st)) ;;
  ASSERT (cr3 <? memory_size) ;;;
  let dir := Z.land (Z.shiftr linearAddress 22) 0x3FF in
  let page := Z.land (Z.shiftr linearAddress 12) 0x3FF in
  let offset := Z.land linearAddress 0xFFF in
  ASSERT (Z.land cr3 0x03ff =? 0) ;;;
  let pdeAddress := u32 (cr3 + dir * 4) in
  pageDirectoryEntry <- read_physical_memory DWordSize pdeAddress ;;
  let pteAddress := u32 (Z.land pageDirectoryEntry 0xfffff000 + page * 4) in
  pageTableEntry <- read_physical_memory DWordSize pteAddress ;;
  cpl <- gets get_cpl ;;
  let inUserMode := if effectiveCPL =? 0xff then cpl =? 3 else effectiveCPL =? 3 in
  if negb (has pageDirectoryEntry PageTableEntryFlags.Present) then
    e <- PageFault linearAddress PageFaultFlags.NotPresent accessType inUserMode ;; throw e
  else if negb (has pageTableEntry PageTableEntryFlags.Present) then
    e <- PageFault linearAddress PageFaultFlags.NotPresent accessType inUserMode ;; throw e
  else if inUserMode && negb (has pageDirectoryEntry PageTableEntryFlags.UserSupervisor) then
    e <- PageFault linearAddress PageFaultFlags.ProtectionViolation accessType inUserMode ;; throw e
  else if inUserMode && negb (has pageTableEntry PageTableEntryFlags.UserSupervisor) then
    e <- PageFault linearAddress PageFaultFlags.ProtectionViolation accessType inUserMode ;; throw e
  else
    cr0 <- gets get_cr0 ;;
    let checkWrite := (inUserMode || has cr0 CR0.WP) && is_write accessType in
    if checkWrite && negb (has pageDirectoryEntry PageTableEntryFlags.ReadWrite) then
      e <- PageFault linearAddress PageFaultFlags.ProtectionViolation accessType inUserMode ;; throw e
    else if checkWrite && negb (has pageTableEntry PageTableEntryFlags.ReadWrite) then
      e <- PageFault linearAddress PageFaultFlags.ProtectionViolation accessType inUserMode ;; throw e
    else
      let pageTableEntry1 :=
        if is_write accessType then Z.lor pageTableEntry PageTableEntryFlags.Dirty
        else pageTableEntry in
      let pageDirectoryEntry' := Z.lor pageDirectoryEntry PageTableEntryFlags.Accessed in
      let pageTableEntry' := Z.lor pageTableEntry1 PageTableEntryFlags.Accessed in
      write_physical_memory DWordSize pdeAddress pageDirectoryEntry' ;;;
      write_physical_memory DWordSize pteAddress pageTableEntry' ;;;
      ret (Z.lor (Z.land pageTableEntry' 0xfffff000) offset).

Definition translate_address (linearAddress : Z) (accessType : MemoryAccessType)
    (effectiveCPL : Z) : M Z :=
  pe <- gets get_pe ;;
  pg <- gets get_pg ;;
  if negb pe || negb pg then ret linearAddress
  else translate_address_slow_case linearAddress accessType effectiveCPL.

(** ** Memory access by linear address *)

(** [LinearAddress::offset(n)]. *)
Definition la_offset (linearAddress n : Z) : Z := u32 (linearAddress + n).

(** The test [(la & 0xfffff000) != ((la + (sizeof(T) - 1)) & 0xfffff000)]. *)
Definition crosses_page (T : ValueSize) (linearAddress : Z) : bool :=
  negb (Z.land linearAddress 0xfffff000 =? Z.land (linearAddress + (size_of T - 1)) 0xfffff000).

(** The part of [read_memory<T>] after the [if constexpr] blocks; it is all
    of [read_memory<u8>]. *)
Definition read_memory_whole (T : ValueSize) (linearAddress : Z)
    (accessType : MemoryAccessType) (effectiveCPL : Z) : M Z :=
  physicalAddress <- translate_address linearAddress accessType effectiveCPL ;;
  mask <- gets a20_mask ;;
  read_physical_memory T (Z.land physicalAddress mask).

Definition read_memory (T : ValueSize) (linearAddress : Z)
    (accessType : MemoryAccessType) (effectiveCPL : Z) : M Z :=
  match T with
  | DWordSize =>
      pg <- gets get_pg ;;
      if pg && crosses_page DWordSize linearAddress then
        b1 <- read_memory_whole ByteSize (la_offset linearAddress 0) accessType effectiveCPL ;;
        b2 <- read_memory_whole ByteSize (la_offset linearAddress 1) accessType effectiveCPL ;;
        b3 <- read_memory_whole ByteSize (la_offset linearAddress 2) accessType effectiveCPL ;;
        b4 <- read_memory_whole ByteSize (la_offset linearAddress 3) accessType effectiveCPL ;;
        ret (weld32 (weld16 b4 b3) (weld16 b2 b1))
      else read_memory_whole DWordSize linearAddress accessType effectiveCPL
  | WordSize =>
      pg <- gets get_pg ;;
      if pg && crosses_page WordSize linearAddress then
        b1 <- read_memory_whole ByteSize (la_offset linearAddress 0) accessType effectiveCPL ;;
        b2 <- read_memory_whole ByteSize (la_offset linearAddress 1) accessType effectiveCPL ;;
        ret (weld16 b2 b1)
      else read_memory_whole WordSize linearAddress accessType effectiveCPL
  | ByteSize => read_memory_whole ByteSize linearAddress accessType effectiveCPL
  end.

Definition write_memory_whole (T : ValueSize) (linearAddress value effectiveCPL : Z) : M unit :=
  physicalAddress <- translate_address linearAddress Write effectiveCPL ;;
  mask <- gets a20_mask ;;
  write_physical_memory T (Z.land physicalAddress mask) value.

Definition write_memory (T : ValueSize) (linearAddress value effectiveCPL : Z) : M unit :=
  match T with
  | DWordSize =>
      pg <- gets get_pg ;;
      if pg && crosses_page DWordSize linearAddress then
        write_memory_whole ByteSize (la_offset linearAddress 0) (Z.land value 0xff) effectiveCPL ;;;
        write_memory_whole ByteSize (la_offset linearAddress 1)
          (Z.land (Z.shiftr value 8) 0xff) effectiveCPL ;;;
        write_memory_whole ByteSize (la_offset linearAddress 2)
          (Z.land (Z.shiftr value 16) 0xff) effectiveCPL ;;;
        write_memory_whole ByteSize (la_offset linearAddress 3)
          (Z.land (Z.shiftr value 24) 0xff) effectiveCPL
      else write_memory_whole DWordSize linearAddress value effectiveCPL
  | WordSize =>
      pg <- gets get_pg ;;
      if pg && crosses_page WordSize linearAddress then
        write_memory_whole ByteSize (la_offset linearAddress 0) (Z.land value 0xff) effectiveCPL ;;;
        write_memory_whole ByteSize (la_offset linearAddress 1)
          (Z.land (Z.shiftr value 8) 0xff) effectiveCPL
      else write_memory_whole WordSize linearAddress value effectiveCPL
  | ByteSize => write_memory_whole ByteSize linearAddress value effectiveCPL
  end.

(** ** Memory access through a segment *)

Definition fault_for (descriptor : SegmentDescriptor) : Exception :=
  if m_loaded_in_ss descriptor then StackFault 0 else GeneralProtectionFault 0.

Definition validate_address (T : ValueSize) (descriptor : SegmentDescriptor) (offset : Z)
    (accessType : MemoryAccessType) : M unit :=
  vm <- gets get_vm ;;
  (if negb vm then
     (if negb (is_execute accessType) && sd_null descriptor
      then throw (fault_for descriptor) else ret tt) ;;;
     match accessType with
     | Read =>
         if sd_code descriptor && negb (sd_readable descriptor)
         then throw (GeneralProtectionFault 0) else ret tt
     | Write =>
         if sd_code descriptor then throw (fault_for descriptor)
         else if negb (sd_writable descriptor) then throw (fault_for descriptor)
         else ret tt
     | Execute => ASSERT (sd_code descriptor)
     | InternalPointer => ret tt
     end
   else ret tt) ;;;
  if sd_effective_limit descriptor <? offset + (size_of T - 1)
  then throw (fault_for descriptor) else ret tt.

(** [read_memory<T>(descriptor, offset, accessType)]; the linear access takes
    the default [effectiveCPL = 0xff]. *)
Definition read_memory_descriptor (T : ValueSize) (descriptor : SegmentDescriptor)
    (offset : Z) (accessType : MemoryAccessType) : M Z :=
  let linearAddress := linear_address descriptor offset in
  pe <- gets get_pe ;;
  vm <- gets get_vm ;;
  when (pe && negb vm) (validate_address T descriptor offset accessType) ;;;
  read_memory T linearAddress accessType 0xff.

Definition read_memory_segreg (T : ValueSize) (segreg : SegmentRegisterIndex)
    (offset : Z) (accessType : MemoryAccessType) : M Z :=
  descriptor <- gets (fun st => cached_descriptor st segreg) ;;
  read_memory_descriptor T descriptor offset accessType.

Definition write_memory_descriptor (T : ValueSize) (descriptor : SegmentDescriptor)
    (offset value : Z) : M unit :=
  let linearAddress := linear_address descriptor offset in
  pe <- gets get_pe ;;
  vm <- gets get_vm ;;
  when (pe && negb vm) (validate_address T descriptor offset Write) ;;;
  write_memory T linearAddress value 0xff.

Definition write_memory_segreg (T : ValueSize) (segreg : SegmentRegisterIndex)
    (offset value : Z) : M unit :=
  descriptor <- gets (fun st => cached_descriptor st segreg) ;;
  write_memory_descriptor T descriptor offset value.

(** ** The stack *)

Definition current_stack_pointer (st : CPU) : Z := if s32 st then get_esp st else get_sp st.

Definition adjust_stack_pointer (delta : Z) : M unit :=
  st <- gets (fun st => st) ;;
  if s32 st then set_esp (get_esp st + delta) else set_sp (get_sp st + delta).

(** Modelled from the spec: [push16], [push32] and [push_value_with_size]
    (the stack helpers of the CPU class are not under src/).  A push stores the
    value at SS:(SP - size), SP taken in the width of the stack segment, and
    then lowers the stack pointer by the size. *)
Definition push_sized (T : ValueSize) (value : Z) : M unit :=
  st <- gets (fun st => st) ;;
  let new_esp := current_stack_pointer st - size_of T in
  let new_esp := if s16 st then u16 new_esp else u32 new_esp in
  write_memory_segreg T SS new_esp (truncate T value) ;;;
  adjust_stack_pointer (- size_of T).

Definition push16 (value : Z) : M unit := push_sized WordSize value.
Definition push32 (value : Z) : M unit := push_sized DWordSize value.

Definition push_value_with_size (value : Z) (size : ValueSize) : M unit :=
  match size with
  | WordSize => push16 value
  | _ => push32 value
  end.

Definition push_operand_sized_value (value : Z) : M unit :=
  st <- gets (fun st => st) ;;
  if o16 st then push16 value else push32 value.

(** Modelled from the spec: [TransactionalPopper] (declared in CPU.h, not
    under src/), "a staging helper that reads multiple stack values, validates
    them, and commits to SP atomically": it reads candidate values from the
    stack without moving SP, counting the bytes consumed in [m_offset]. *)
Record TransactionalPopper := mkPopper { m_offset : Z }.

Definition popper_pop (T : ValueSize) (popper : TransactionalPopper)
    : M (Z * TransactionalPopper) :=
  st <- gets (fun st => st) ;;
  let new_esp := current_stack_pointer st + m_offset popper in
  let new_esp := if s16 st then u16 new_esp else u32 new_esp in
  data <- read_memory_segreg T SS new_esp Read ;;
  ret (data, mkPopper (m_offset popper + size_of T)).

Definition popper_pop_operand_sized_value (popper : TransactionalPopper)
    : M (Z * TransactionalPopper) :=
  st <- gets (fun st => st) ;;
  if o16 st then popper_pop WordSize popper else popper_pop DWordSize popper.

Definition popper_adjust_stack_pointer (adjustment : Z) (popper : TransactionalPopper)
    : TransactionalPopper :=
  mkPopper (m_offset popper + adjustment).

Definition popper_commit (popper : TransactionalPopper) : M unit :=
  adjust_stack_pointer (m_offset popper).

(** Modelled from the spec: the non-transactional pops of
    [real_mode_far_return] read at SS:SP and then raise the stack pointer. *)
Definition pop_operand_sized_value : M Z :=
  r <- popper_pop_operand_sized_value (mkPopper 0) ;;
  popper_commit (snd r) ;;;
  ret (fst r).

(** ** Segment registers *)

(** Parts of the CPU class and of its collaborators that are not under src/:
    the descriptor-table lookup, the protected-mode selector load, the ring
    stacks of the current TSS, the task switch, the flags image, and the
    debugger, PIC and device hooks of the halted loop and of the reboot. *)
Variable get_descriptor : Z -> M Descriptor.
Variable write_segment_register_protected : SegmentRegisterIndex -> Z -> M unit.
Variable tss_get_ring_ss : Z -> M Z.
Variable tss_get_ring_esp : Z -> M Z.
Variable task_switch : Z -> TSSDescriptor -> JumpType -> M unit.
Variable get_flags : CPU -> Z.
Variable save_base_address : M unit.
Variable debugger_do_console : M unit.
Variable PIC_has_pending_irq : nat -> bool.
Variable PIC_service_irq : M unit.
Variable reset_all_io_devices : M unit.

Definition set_descriptor (segreg : SegmentRegisterIndex) (d : SegmentDescriptor)
    (st : CPU) : CPU :=
  with_descriptor (fun r => if segreg_eqb r segreg then d else m_descriptor st r) st.

Definition set_selector (segreg : SegmentRegisterIndex) (v : Z) (st : CPU) : CPU :=
  with_segreg (fun r => if segreg_eqb r segreg then u16 v else m_segreg st r) st.

Definition with_rpl (rpl : Z) (d : SegmentDescriptor) : SegmentDescriptor :=
  mkSegmentDescriptor (sd_null d) (sd_code d) (sd_base d) (sd_effective_limit d) (sd_dpl d)
    (sd_present d) (sd_D d) (sd_conforming d) (sd_readable d) (sd_writable d)
    rpl (m_loaded_in_ss d).

Definition with_loaded_in_ss (b : bool) (d : SegmentDescriptor) : SegmentDescriptor :=
  mkSegmentDescriptor (sd_null d) (sd_code d) (sd_base d) (sd_effective_limit d) (sd_dpl d)
    (sd_present d) (sd_D d) (sd_conforming d) (sd_readable d) (sd_writable d)
    (m_rpl d) b.

Definition set_cpl (cpl : Z) : M unit :=
  modify (fun st =>
    let st1 := if get_pe st && negb (get_vm st)
               then set_selector CS (Z.lor (Z.land (get_cs st) 0xfffc) (u8 cpl)) st
               else st in
    set_descriptor CS (with_rpl (u8 cpl) (cached_descriptor st1 CS)) st1).

Definition update_default_sizes : M unit :=
  modify (fun st =>
    let d := sd_D (cached_descriptor st CS) in
    let z := m_sizes st in
    with_sizes (mkSizes d d (m_effective_address_size32 z) (m_effective_operand_size32 z)
                        (m_stackSize32 z)) st).

Definition update_stack_size : M unit :=
  modify (fun st =>
    let z := m_sizes st in
    with_sizes (mkSizes (m_address_size32 z) (m_operand_size32 z)
                        (m_effective_address_size32 z) (m_effective_operand_size32 z)
                        (sd_D (cached_descriptor st SS))) st).

Definition update_code_segment_cache : M unit := ret tt.

(** The descriptor of a real-mode or VM86 segment: base = selector * 16 and a
    64 KiB limit, readable and writable, at ring 0 (ring 3 in VM86). *)
Definition real_mode_or_vm86_descriptor (st : CPU) (segreg : SegmentRegisterIndex)
    (selector : Z) : SegmentDescriptor :=
  let ring := if get_vm st then 3 else 0 in
  mkSegmentDescriptor false (segreg_eqb segreg CS) (u16 selector * 16) 0xffff ring
    true false false true true ring false.

(** Modelled from the spec: [write_segment_register] (not under src/).  In
    real and VM86 mode "selector and offset are written directly" and the
    descriptor cache is refreshed; CS then refreshes the default sizes and SS
    the stack size.  The protected-mode load is [write_segment_register_protected]. *)
Definition write_segment_register (segreg : SegmentRegisterIndex) (selector : Z) : M unit :=
  st <- gets (fun st => st) ;;
  if negb (get_pe st) || get_vm st then
    modify (set_selector segreg selector) ;;;
    modify (set_descriptor segreg (real_mode_or_vm86_descriptor st segreg selector)) ;;;
    match segreg with
    | CS => update_default_sizes ;;; update_code_segment_cache
    | SS =>
        modify (fun st => set_descriptor SS (with_loaded_in_ss true (cached_descriptor st SS)) st) ;;;
        update_stack_size
    | _ => ret tt
    end
  else write_segment_register_protected segreg selector.

Definition read_segment_register (segreg : SegmentRegisterIndex) (st : CPU) : Z :=
  m_segreg st segreg.

Definition set_cs := write_segment_register CS.
Definition set_ds := write_segment_register DS.
Definition set_es := write_segment_register ES.
Definition set_ss := write_segment_register SS.
Definition set_fs := write_segment_register FS.
Definition set_gs := write_segment_register GS.

(** ** Far jumps and calls *)

(** [BEGIN_ASSERT_NO_EXCEPTIONS ... END_ASSERT_NO_EXCEPTIONS]: an exception
    escaping the block stops the emulator. *)
Definition ASSERT_NO_EXCEPTIONS {A} (c : M A) : M A :=
  fun st => match c st with
            | (Throw _, st') => (Crash, st')
            | r => r
            end.

Definition as_segment_descriptor (d : Descriptor) : SegmentDescriptor :=
  match d with Segment s => s | _ => zero_descriptor end.

Definition real_mode_far_jump (selector offset : Z) (type : JumpType) : M unit :=
  st <- gets (fun st => st) ;;
  ASSERT (negb (get_pe st) || get_vm st) ;;;
  let originalCS := get_cs st in
  let originalEIP := get_eip st in
  set_cs selector ;;;
  set_eip offset ;;;
  if is_call type then
    push_operand_sized_value originalCS ;;;
    push_operand_sized_value originalEIP
  else ret tt.

(** [protected_mode_far_jump], with the recursive call of [far_jump] through
    a call gate as the parameter [far_jump]. *)
Definition protected_mode_far_jump_with
    (far_jump : Z -> Z -> JumpType -> option Gate -> M unit)
    (selector offset : Z) (type : JumpType) (gate : option Gate) : M unit :=
  st <- gets (fun st => st) ;;
  ASSERT (get_pe st) ;;;
  let pushSize :=
    match gate with
    | Some g => if gate_is_32bit g then DWordSize else WordSize
    | None => if o32 st then DWordSize else WordSize
    end in
  let originalSS := get_ss st in
  let originalESP := get_esp st in
  let originalCPL := get_cpl st in
  let originalCS := get_cs st in
  let originalEIP := get_eip st in
  let selectorRPL := Z.land selector 3 in
  descriptor <- get_descriptor selector ;;
  if is_null descriptor then throw (GeneralProtectionFault 0)
  else if is_outside_table_limits descriptor then
    throw (GeneralProtectionFault (Z.land selector 0xfffc))
  else if negb (is_code descriptor) && negb (is_call_gate descriptor)
          && negb (is_task_gate descriptor) && negb (is_tss descriptor) then
    throw (GeneralProtectionFault (Z.land selector 0xfffc))
  else if is_gate descriptor && (match gate with Some _ => true | None => false end) then
    throw (GeneralProtectionFault (Z.land selector 0xfffc))
  else
  match descriptor with
  | TaskGate _ => ASSERT_NOT_REACHED
  | CallGate g =>
      if negb (gate_parameter_count g =? 0) then ASSERT_NOT_REACHED
      else
        cpl <- gets get_cpl ;;
        if gate_dpl g <? cpl then throw (GeneralProtectionFault (Z.land selector 0xfffc))
        else if gate_dpl g <? selectorRPL then
          throw (GeneralProtectionFault (Z.land selector 0xfffc))
        else if negb (gate_present g) then throw (NotPresent (Z.land selector 0xfffc))
        else far_jump (gate_selector g) (gate_offset g) type (Some g)
  | TSS tssDescriptor =>
      cpl <- gets get_cpl ;;
      if tss_dpl tssDescriptor <? cpl then
        throw (GeneralProtectionFault (Z.land selector 0xfffc))
      else if tss_dpl tssDescriptor <? selectorRPL then
        throw (GeneralProtectionFault (Z.land selector 0xfffc))
      else if negb (tss_present tssDescriptor) then
        throw (NotPresent (Z.land selector 0xfffc))
      else task_switch selector tssDescriptor type
  | _ =>
      let codeSegment := as_segment_descriptor descriptor in
      (match type, gate with
       | CALL, None | JMP, None =>
           cpl <- gets get_cpl ;;
           if sd_conforming codeSegment then
             if cpl <? sd_dpl codeSegment
             then throw (GeneralProtectionFault (Z.land selector 0xfffc)) else ret tt
           else if sd_dpl codeSegment <? selectorRPL then
             throw (GeneralProtectionFault (Z.land selector 0xfffc))
           else if negb (sd_dpl codeSegment =? cpl) then
             throw (GeneralProtectionFault (Z.land selector 0xfffc))
           else ret tt
       | _, _ => ret tt
       end) ;;;
      let offset :=
        match gate with
        | Some g => if gate_is_32bit g then offset else Z.land offset 0xffff
        | None => offset
        end in
      let offset := if sd_D codeSegment then offset else Z.land offset 0xffff in
      if negb (sd_present codeSegment) then throw (NotPresent (Z.land selector 0xfffc))
      else if sd_effective_limit codeSegment <? offset then throw (GeneralProtectionFault 0)
      else
        set_cs selector ;;;
        set_eip offset ;;;
        (match type, gate with
         | CALL, Some _ =>
             if dpl descriptor <? originalCPL then
               newSS <- tss_get_ring_ss (dpl descriptor) ;;
               newESP <- tss_get_ring_esp (dpl descriptor) ;;
               newSSDescriptor <- get_descriptor newSS ;;
               if is_null newSSDescriptor then throw (InvalidTSS (Z.land newSS 0xfffc))
               else if is_outside_table_limits newSSDescriptor then
                 throw (InvalidTSS (Z.land newSS 0xfffc))
               else if negb (dpl newSSDescriptor =? dpl descriptor) then
                 throw (InvalidTSS (Z.land newSS 0xfffc))
               else if negb (is_data newSSDescriptor)
                       || negb (sd_writable (as_segment_descriptor newSSDescriptor)) then
                 throw (InvalidTSS (Z.land newSS 0xfffc))
               else if negb (present newSSDescriptor) then
                 throw (StackFault (Z.land newSS 0xfffc))
               else
                 ASSERT_NO_EXCEPTIONS (
                   set_cpl (dpl descriptor) ;;;
                   set_ss newSS ;;;
                   set_esp newESP ;;;
                   push_value_with_size originalSS pushSize ;;;
                   push_value_with_size originalESP pushSize)
             else set_cpl originalCPL
         | _, _ => ret tt
         end) ;;;
        (if is_call type then
           ASSERT_NO_EXCEPTIONS (
             push_value_with_size originalCS pushSize ;;;
             push_value_with_size originalEIP pushSize)
         else ret tt) ;;;
        match gate with
        | None => set_cpl originalCPL
        | Some _ => ret tt
        end
  end.

Fixpoint far_jump (fuel : nat) (selector offset : Z) (type : JumpType)
    (gate : option Gate) {struct fuel} : M unit :=
  match fuel with
  | O => out_of_fuel
  | S fuel' =>
      st <- gets (fun st => st) ;;
      if negb (get_pe st) || get_vm st then real_mode_far_jump selector offset type
      else protected_mode_far_jump_with (far_jump fuel') selector offset type gate
  end.

Definition protected_mode_far_jump (fuel : nat) :=
  protected_mode_far_jump_with (far_jump fuel).

(** ** Far returns *)

Definition is_nonconforming_code (d : SegmentDescriptor) : bool :=
  sd_code d && negb (sd_conforming d).

Definition clear_segment_register_after_return_if_needed (segreg : SegmentRegisterIndex)
    (type : JumpType) : M unit :=
  st <- gets (fun st => st) ;;
  if read_segment_register segreg st =? 0 then ret tt
  else
    let cached := cached_descriptor st segreg in
    if sd_null cached
       || ((sd_dpl cached <? get_cpl st) && (negb (sd_code cached) || is_nonconforming_code cached))
    then write_segment_register segreg 0
    else ret tt.

Definition protected_far_return (stack_adjustment : Z) : M unit :=
  pe <- gets get_pe ;;
  ASSERT pe ;;;
  let popper := mkPopper 0 in
  r1 <- popper_pop_operand_sized_value popper ;;
  let offset := u32 (fst r1) in
  r2 <- popper_pop_operand_sized_value (snd r1) ;;
  let selector := u16 (fst r2) in
  originalCPL <- gets get_cpl ;;
  let selectorRPL := Z.land selector 3 in
  let popper := popper_adjust_stack_pointer stack_adjustment (snd r2) in
  descriptor <- get_descriptor selector ;;
  if is_null descriptor then throw (GeneralProtectionFault 0)
  else if is_outside_table_limits descriptor then
    throw (GeneralProtectionFault (Z.land selector 0xfffc))
  else if negb (is_code descriptor) then
    throw (GeneralProtectionFault (Z.land selector 0xfffc))
  else
    cpl <- gets get_cpl ;;
    if selectorRPL <? cpl then throw (GeneralProtectionFault (Z.land selector 0xfffc))
    else
      let codeSegment := as_segment_descriptor descriptor in
      if sd_conforming codeSegment && (selectorRPL <? sd_dpl codeSegment) then
        throw (GeneralProtectionFault (Z.land selector 0xfffc))
      else if negb (sd_conforming codeSegment) && negb (sd_dpl codeSegment =? selectorRPL) then
        throw (GeneralProtectionFault (Z.land selector 0xfffc))
      else if negb (sd_present codeSegment) then throw (NotPresent (Z.land selector 0xfffc))
      else
        let offset := if sd_D codeSegment then offset else Z.land offset 0xffff in
        if sd_effective_limit codeSegment <? offset then throw (GeneralProtectionFault 0)
        else
          set_cs selector ;;;
          set_eip offset ;;;
          (if originalCPL <? selectorRPL then
             ASSERT_NO_EXCEPTIONS (
               r3 <- popper_pop_operand_sized_value popper ;;
               let newESP := u32 (fst r3) in
               r4 <- popper_pop_operand_sized_value (snd r3) ;;
               let newSS := u16 (fst r4) in
               set_ss newSS ;;;
               set_esp newESP ;;;
               clear_segment_register_after_return_if_needed ES RETF ;;;
               clear_segment_register_after_return_if_needed FS RETF ;;;
               clear_segment_register_after_return_if_needed GS RETF ;;;
               clear_segment_register_after_return_if_needed DS RETF)
           else popper_commit popper) ;;;
          cpl' <- gets get_cpl ;;
          if negb (cpl' =? originalCPL) then adjust_stack_pointer stack_adjustment
          else ret tt.

Definition real_mode_far_return (stack_adjustment : Z) : M unit :=
  offset <- pop_operand_sized_value ;;
  selector <- pop_operand_sized_value ;;
  set_cs (u16 selector) ;;;
  set_eip offset ;;;
  adjust_stack_pointer stack_adjustment.

Definition far_return (stack_adjustment : Z) : M unit :=
  st <- gets (fun st => st) ;;
  if negb (get_pe st) || get_vm st then real_mode_far_return stack_adjustment
  else protected_far_return stack_adjustment.

(** ** Reset and reboot *)

(** Modelled from the spec: [set_flags], [set_iopl], [set_if] and [set_tf]
    (flag accessors of the CPU class, not under src/), with the architectural
    bit positions of FLAGS. *)
Definition set_flags (flags : Z) : M unit :=
  modify (fun st =>
    let f := m_fl st in
    with_fl (mkFlags (Z.testbit flags 0) (Z.testbit flags 2) (Z.testbit flags 4)
                     (Z.testbit flags 6) (Z.testbit flags 7) (Z.testbit flags 8)
                     (Z.testbit flags 9) (Z.testbit flags 10) (Z.testbit flags 11)
                     (Z.land (Z.shiftr flags 12) 3) (Z.testbit flags 14)
                     (m_rf f) (m_vm f) (m_ac f) (m_id f) (m_vip f) (m_vif f)
                     (m_dirty_flags f) (m_last_result f) (m_last_op_size f)) st).

Definition set_iopl (iopl : Z) : M unit :=
  modify (fun st =>
    let f := m_fl st in
    with_fl (mkFlags (m_cf f) (m_pf f) (m_af f) (m_zf f) (m_sf f) (m_tf f) (m_if f) (m_df f)
                     (m_of f) iopl (m_nt f) (m_rf f) (m_vm f) (m_ac f) (m_id f) (m_vip f)
                     (m_vif f) (m_dirty_flags f) (m_last_result f) (m_last_op_size f)) st).

Definition set_if (v : bool) : M unit :=
  modify (fun st =>
    let f := m_fl st in
    with_fl (mkFlags (m_cf f) (m_pf f) (m_af f) (m_zf f) (m_sf f) (m_tf f) v (m_df f)
                     (m_of f) (m_iopl f) (m_nt f) (m_rf f) (m_vm f) (m_ac f) (m_id f) (m_vip f)
                     (m_vif f) (m_dirty_flags f) (m_last_result f) (m_last_op_size f)) st).

Definition set_tf (v : bool) : M unit :=
  modify (fun st =>
    let f := m_fl st in
    with_fl (mkFlags (m_cf f) (m_pf f) (m_af f) (m_zf f) (m_sf f) v (m_if f) (m_df f)
                     (m_of f) (m_iopl f) (m_nt f) (m_rf f) (m_vm f) (m_ac f) (m_id f) (m_vip f)
                     (m_vif f) (m_dirty_flags f) (m_last_result f) (m_last_op_size f)) st).

Definition recompute_main_loop_needs_slow_stuff : M unit :=
  modify (fun st =>
    with_main_loop_needs_slow_stuff
      (match m_debugger_request st with NoDebuggerRequest => false | _ => true end
       || m_should_hard_reboot st || options_trace
       || match m_breakpoints st with [] => false | _ => true end
       || m_debugger_active st
       || match m_watches st with [] => false | _ => true end) st).

Definition init_watches : M unit := ret tt.

(** The direct member assignments of [reset] up to the segment loads: the
    general registers, control and debug registers are zeroed, the flags
    IOPL, VM, VIP, VIF, NT, RF, AC and ID are cleared, the table registers
    are emptied and the descriptor cache is zeroed.  Guest memory is not
    assigned. *)
Definition reset_registers (st : CPU) : CPU :=
  let f := m_fl st in
  mkCPU (fun _ => 0) (m_eip st) (m_segreg st) (fun _ => zero_descriptor) None
        (mkCR 0 0 0 0 0 0 0 0 0 0 0 0)
        (mkFlags (m_cf f) (m_pf f) (m_af f) (m_zf f) (m_sf f) (m_tf f) (m_if f) (m_df f)
                 (m_of f) 0 false false false false false false false
                 (m_dirty_flags f) (m_last_result f) (m_last_op_size f))
        (mkDTR 0 0xffff) (mkDTR 0 0xffff) (mkDTR 0 0xffff)
        (mkTR 0 0xffff 0 false)
        (m_state st) (m_sizes st) false false (m_cycle st) (m_mem st)
        (m_is_for_autotest st) (m_should_hard_reboot st) (m_debugger_request st)
        (m_breakpoints st) (m_watches st) (m_debugger_active st)
        (m_main_loop_needs_slow_stuff st).

(** The assignments of [reset] after [set_iopl(3)]. *)
Definition reset_tail (st : CPU) : CPU :=
  let f := m_fl st in
  mkCPU (m_gpr st) (m_eip st) (m_segreg st) (m_descriptor st) (m_segment_prefix st)
        (m_cr st)
        (mkFlags (m_cf f) (m_pf f) (m_af f) (m_zf f) (m_sf f) (m_tf f) (m_if f) (m_df f)
                 (m_of f) (m_iopl f) (m_nt f) (m_rf f) (m_vm f) (m_ac f) (m_id f)
                 (m_vip f) (m_vif f) 0 0 ByteSize)
        (m_gdtr st) (m_idtr st) (m_ldtr st) (m_tr st)
        Alive (mkSizes false false false false (m_stackSize32 (m_sizes st)))
        (m_a20_enabled st) (m_next_instruction_is_uninterruptible st) 0 (m_mem st)
        (m_is_for_autotest st) (m_should_hard_reboot st) (m_debugger_request st)
        (m_breakpoints st) (m_watches st) (m_debugger_active st)
        (m_main_loop_needs_slow_stuff st).

Definition reset : M unit :=
  modify reset_registers ;;;
  set_cs 0 ;;;
  set_ds 0 ;;;
  set_es 0 ;;;
  set_ss 0 ;;;
  set_fs 0 ;;;
  set_gs 0 ;;;
  autotest <- gets m_is_for_autotest ;;
  (if autotest then far_jump 2 settings_entry_cs settings_entry_ip Internal None
   else far_jump 2 0xf000 0x0000 Internal None) ;;;
  set_flags 0x0200 ;;;
  set_iopl 3 ;;;
  modify reset_tail ;;;
  init_watches ;;;
  recompute_main_loop_needs_slow_stuff.

Definition hard_reboot : M unit :=
  reset_all_io_devices ;;;
  reset ;;;
  modify (with_should_hard_reboot false).

(** [new u8[size]] followed by [memset(m_memory, 0, size)]. *)
Definition set_memory_size_and_reallocate_if_needed (size : Z) : M unit :=
  st <- gets (fun st => st) ;;
  if m_memory_size (m_mem st) =? size then ret tt
  else
    modify (with_mem (mkMemory (fun _ => 0) size (m_memory_providers (m_mem st))
                               (provider_objects (m_mem st)))).

(** ** HLT *)

Fixpoint halted_loop (fuel : nat) : M unit :=
  fun st =>
    match m_state st with
    | Halted =>
        match fuel with
        | O => (OutOfFuel, st)
        | S fuel' =>
            (if m_should_hard_reboot st then hard_reboot
             else
               (when (m_debugger_active st) (save_base_address ;;; debugger_do_console)) ;;;
               (st1 <- gets (fun st => st) ;;
                when (PIC_has_pending_irq fuel' && get_if st1) PIC_service_irq) ;;;
               halted_loop fuel') st
        end
    | _ => (Ok tt, st)
    end.

Definition _HLT (fuel : nat) : M unit :=
  cpl <- gets get_cpl ;;
  if negb (cpl =? 0) then throw (GeneralProtectionFault 0)
  else
    modify (with_state Halted) ;;;
    halted_loop fuel.

(** ** Real-mode interrupts (x86/interrupt.cpp) *)

Definition realModeInterrupt (isr : Z) (source : InterruptSource) : M unit :=
  st <- gets (fun st => st) ;;
  ASSERT (negb (get_pe st)) ;;;
  let originalCS := get_cs st in
  let originalIP := get_ip st in
  let flags := u16 (get_flags st) in
  selector <- read_physical_memory WordSize (u8 isr * 4 + 2) ;;
  offset <- read_physical_memory WordSize (u8 isr * 4) ;;
  set_cs selector ;;;
  set_eip offset ;;;
  push16 flags ;;;
  push16 originalCS ;;;
  push16 originalIP ;;;
  set_if false ;;;
  set_tf false.

(** ** PUSHA (x86/186.cpp) *)

Definition _PUSHA : M unit :=
  oldSP <- gets get_sp ;;
  ax <- gets (read_register16 RegisterEAX) ;; push16 ax ;;;
  cx <- gets (read_register16 RegisterECX) ;; push16 cx ;;;
  dx <- gets (read_register16 RegisterEDX) ;; push16 dx ;;;
  bx <- gets (read_register16 RegisterEBX) ;; push16 bx ;;;
  push16 oldSP ;;;
  bp <- gets (read_register16 RegisterEBP) ;; push16 bp ;;;
  si <- gets (read_register16 RegisterESI) ;; push16 si ;;;
  di <- gets (read_register16 RegisterEDI) ;; push16 di.

(** ** Registering a memory provider (x86/CPU.cpp) *)

(** The loop of [register_memory_provider]: [count] consecutive slots of the
    provider table, from slot [i] on, are pointed at the provider. *)
Fixpoint register_blocks (count : nat) (i : Z) (h : Z) (table : Z -> option Z)
    : Z -> option Z :=
  match count with
  | O => table
  | S k => register_blocks k (i + 1) h (fun j => if j =? i then Some h else table j)
  end.

(** [register_memory_provider(provider)]; the reference is the handle [h] of
    the provider object.  The sum [base + size] is a 32-bit sum. *)
Definition register_memory_provider (h : Z) : M unit :=
  st <- gets (fun st => st) ;;
  let provider := provider_objects (m_mem st) h in
  let last := u32 (base_address provider + size provider) in
  if 1048576 <? last then ASSERT_NOT_REACHED
  else
    let first_block := base_address provider / memory_provider_block_size in
    let end_block := last / memory_provider_block_size in
    modify (with_mem
      (mkMemory (m_memory (m_mem st)) (m_memory_size (m_mem st))
                (register_blocks (Z.to_nat (end_block - first_block)) first_block h
                                 (m_memory_providers (m_mem st)))
                (provider_objects (m_mem st)))).

(** ** Registers in the width of the address size (x86/CPU.cpp) *)

Definition a32 (st : CPU) : bool := m_effective_address_size32 (m_sizes st).
Definition a16 (st : CPU) : bool := negb (a32 st).
Definition get_df (st : CPU) : bool := m_df (m_fl st).

Definition read_register_for_address_size (register_index : Z) (st : CPU) : Z :=
  if a32 st then read_register32 register_index st else read_register16 register_index st.

Definition write_register_for_address_size (register_index data : Z) : M unit :=
  modify (fun st =>
    if a32 st then write_register32 register_index data st
    else write_register16 register_index data st).

(** [get_df() ? -stepSize : stepSize] is a 32-bit value. *)
Definition step_register_for_address_size (register_index stepSize : Z) : M unit :=
  modify (fun st =>
    let step := if get_df st then u32 (- stepSize) else u32 stepSize in
    if a32 st then
      write_register32 register_index (read_register32 register_index st + step) st
    else
      write_register16 register_index (read_register16 register_index st + step) st).

Definition decrement_cx_for_address_size : M bool :=
  st <- gets (fun st => st) ;;
  if a32 st then
    modify (write_register32 RegisterECX (read_register32 RegisterECX st - 1)) ;;;
    gets (fun st => read_register32 RegisterECX st =? 0)
  else
    modify (write_register16 RegisterECX (read_register16 RegisterECX st - 1)) ;;;
    gets (fun st => read_register16 RegisterECX st =? 0).

(** ** POPA, ENTER and LEAVE (x86/186.cpp) *)

(** Modelled from the spec: [pop16] and [pop32] (stack helpers of the CPU
    class, not under src/).  A pop reads at SS:SP, SP taken in the width of
    the stack segment, and then raises the stack pointer by the size. *)
Definition pop_sized (T : ValueSize) : M Z :=
  r <- popper_pop T (mkPopper 0) ;;
  popper_commit (snd r) ;;;
  ret (fst r).

Definition pop16 : M Z := pop_sized WordSize.
Definition pop32 : M Z := pop_sized DWordSize.

Definition _POPA : M unit :=
  di <- pop16 ;; modify (write_register16 RegisterEDI di) ;;;
  si <- pop16 ;; modify (write_register16 RegisterESI si) ;;;
  bp <- pop16 ;; modify (write_register16 RegisterEBP bp) ;;;
  _ <- pop16 ;;
  bx <- pop16 ;; modify (write_register16 RegisterEBX bx) ;;;
  dx <- pop16 ;; modify (write_register16 RegisterEDX dx) ;;;
  cx <- pop16 ;; modify (write_register16 RegisterECX cx) ;;;
  ax <- pop16 ;; modify (write_register16 RegisterEAX ax).

(** The loop of [_ENTER]: each round pushes the word at SS:BP. *)
Fixpoint enter_frames (rounds : nat) : M unit :=
  match rounds with
  | O => ret tt
  | S k =>
      bp <- gets (read_register16 RegisterEBP) ;;
      w <- read_memory_segreg WordSize SS bp Read ;;
      push16 w ;;;
      enter_frames k
  end.

(** [_ENTER]; [size] and [level] are the immediate word and byte of the
    instruction.  The loop runs for [i = 1 .. nestingLevel - 2]. *)
Definition _ENTER (size level : Z) : M unit :=
  st <- gets (fun st => st) ;;
  ASSERT (o16 st) ;;;
  ASSERT (a16 st) ;;;
  let nestingLevel := Z.land (u8 level) 31 in
  bp <- gets (read_register16 RegisterEBP) ;;
  push16 bp ;;;
  frameTemp <- gets get_sp ;;
  (if 0 <? nestingLevel then
     enter_frames (Z.to_nat (nestingLevel - 2)) ;;;
     push16 frameTemp
   else ret tt) ;;;
  modify (write_register16 RegisterEBP frameTemp) ;;;
  sp <- gets get_sp ;;
  set_sp (sp - u16 size).

Definition _LEAVE : M unit :=
  st <- gets (fun st => st) ;;
  ASSERT (o16 st) ;;;
  ASSERT (a16 st) ;;;
  bp <- gets (read_register16 RegisterEBP) ;;
  set_sp bp ;;;
  w <- pop16 ;;
  modify (write_register16 RegisterEBP w).

(** ** Commands queued from outside the CPU thread (x86/CPU.cpp) *)

Inductive Command := EnterDebugger | ExitDebugger | HardReboot.

Definition with_debugger_request (v : DebuggerRequest) (st : CPU) : CPU :=
  mkCPU (m_gpr st) (m_eip st) (m_segreg st) (m_descriptor st) (m_segment_prefix st)
        (m_cr st) (m_fl st) (m_gdtr st) (m_idtr st) (m_ldtr st) (m_tr st) (m_state st)
        (m_sizes st) (m_a20_enabled st) (m_next_instruction_is_uninterruptible st)
        (m_cycle st) (m_mem st) (m_is_for_autotest st) (m_should_hard_reboot st) v
        (m_breakpoints st) (m_watches st) (m_debugger_active st)
        (m_main_loop_needs_slow_stuff st).

Definition queue_command (command : Command) : M unit :=
  modify (match command with
          | EnterDebugger => with_debugger_request PleaseEnterDebugger
          | ExitDebugger => with_debugger_request PleaseExitDebugger
          | HardReboot => with_should_hard_reboot true
          end) ;;;
  recompute_main_loop_needs_slow_stuff.

(** ** CPUID, RDTSC and the cache instructions (x86/CPU.cpp) *)

Definition get_eax : CPU -> Z := read_register32 RegisterEAX.
Definition set_eax (v : Z) : M unit := modify (write_register32 RegisterEAX v).
Definition set_ebx (v : Z) : M unit := modify (write_register32 RegisterEBX v).
Definition set_ecx (v : Z) : M unit := modify (write_register32 RegisterECX v).
Definition set_edx (v : Z) : M unit := modify (write_register32 RegisterEDX v).

(** The leaves after 0x80000001, which has no [return] and so falls into
    them with the EAX it has just written. *)
Definition cpuid_brand_leaves : M unit :=
  eax <- gets get_eax ;;
  if eax =? 0x80000002 then
    set_eax 0x61632049 ;;; set_ebx 0x2074276e ;;; set_ecx 0x696c6562 ;;; set_edx 0x20657665
  else
    eax <- gets get_eax ;;
    if eax =? 0x80000003 then
      set_eax 0x73277469 ;;; set_ebx 0x746f6e20 ;;; set_ecx 0x746e4920 ;;; set_edx 0x00216c65
    else
      eax <- gets get_eax ;;
      if eax =? 0x80000004 then set_eax 0 ;;; set_ebx 0 ;;; set_ecx 0 ;;; set_edx 0
      else ret tt.

Definition _CPUID : M unit :=
  eax <- gets get_eax ;;
  if eax =? 0 then
    set_eax 1 ;;; set_ebx 0x706d6f43 ;;; set_edx 0x6f727475 ;;; set_ecx 0x3638586e
  else
    eax <- gets get_eax ;;
    if eax =? 1 then
      let stepping := 0 in
      let model := 1 in
      let family := 3 in
      let type := 0 in
      set_eax (Z.lor (Z.lor (Z.lor stepping (Z.shiftl model 4)) (Z.shiftl family 8))
                     (Z.shiftl type 12)) ;;;
      set_ebx 0 ;;;
      set_edx (Z.lor (Z.shiftl 1 4) (Z.shiftl 1 15)) ;;;
      set_ecx 0
    else
      eax <- gets get_eax ;;
      if eax =? 0x80000000 then set_eax 0x80000004
      else
        eax <- gets get_eax ;;
        (if eax =? 0x80000001 then set_eax 0 ;;; set_ebx 0 ;;; set_ecx 0 ;;; set_edx 0
         else ret tt) ;;;
        cpuid_brand_leaves.

(** [get_tsd()]: the time-stamp-disable bit of CR4 (bit 2); the accessor is
    declared in CPU.h, outside src/. *)
Definition get_tsd (st : CPU) : bool := has (m_cr4 (m_cr st)) 0x04.

(** [m_cycle] is a 64-bit counter. *)
Definition _RDTSC : M unit :=
  st <- gets (fun st => st) ;;
  if get_tsd st && get_pe st && negb (get_cpl st =? 0) then throw (GeneralProtectionFault 0)
  else
    set_edx (Z.shiftr (m_cycle st) 32) ;;;
    set_eax (m_cycle st).

Definition _WBINVD : M unit :=
  st <- gets (fun st => st) ;;
  if get_pe st && negb (get_cpl st =? 0) then throw (GeneralProtectionFault 0) else ret tt.

Definition _INVLPG : M unit :=
  st <- gets (fun st => st) ;;
  if get_pe st && negb (get_cpl st =? 0) then throw (GeneralProtectionFault 0) else ret tt.

(** What an instruction that writes only EAX, EBX, ECX and EDX leaves alone. *)
Definition writes_only_abcd (st st' : CPU) : Prop :=
  (forall i, i <> RegisterEAX -> i <> RegisterEBX -> i <> RegisterECX -> i <> RegisterEDX ->
             m_gpr st' i = m_gpr st i)
  /\ m_eip st' = m_eip st /\ m_segreg st' = m_segreg st
  /\ m_descriptor st' = m_descriptor st /\ m_cr st' = m_cr st /\ m_fl st' = m_fl st
  /\ m_state st' = m_state st /\ m_sizes st' = m_sizes st /\ m_mem st' = m_mem st
  /\ m_cycle st' = m_cycle st.

Definition abcd_only (c : M unit) : Prop :=
  forall st, exists st', c st = (Ok tt, st') /\ writes_only_abcd st st'.

(** ** Interrupts in protected mode (x86/interrupt.cpp) *)

(** Modelled from the spec: the value of an [InterruptSource] as a number (the
    enumerators are declared in CPU.h, not under src/).  The external bit of
    an error code is set iff the source is a hardware IRQ, so [External] is 1
    and [Internal] is 0; protectedModeInterrupt passes
    [source == InterruptSource::External] for the same bit. *)
Definition source_bit (source : InterruptSource) : Z :=
  match source with SrcExternal => 1 | SrcInternal => 0 end.

(** [source == InterruptSource::Internal]. *)
Definition is_internal (source : InterruptSource) : bool :=
  match source with SrcInternal => true | SrcExternal => false end.

(** [makeErrorCode(num, idt, source)], a 16-bit value. *)
Definition makeErrorCode (num : Z) (idt : bool) (source : InterruptSource) : Z :=
  if idt then u16 (Z.lor (Z.lor (Z.shiftl (u16 num) 3) 2) (source_bit source))
  else Z.land (u16 num) 0xfc.

(** An entry of the IDT as [getInterruptGate] returns it: the gate with its
    type nibble, and whether it is null or a task gate. *)
Record InterruptGate := mkInterruptGate {
  ig_gate : Gate;
  ig_type : Z;
  ig_null : bool;
  ig_task_gate : bool
}.

(** [Descriptor::isError()]: the lookup gave no descriptor, because the
    selector is null or outside the limits of its table. *)
Definition is_error (d : Descriptor) : bool :=
  match d with ErrorDescriptor _ => true | _ => false end.

(** Modelled from the spec: [setRF] and [setNT] (flag accessors of the CPU
    class, not under src/). *)
Definition set_rf (v : bool) : M unit :=
  modify (fun st =>
    let f := m_fl st in
    with_fl (mkFlags (m_cf f) (m_pf f) (m_af f) (m_zf f) (m_sf f) (m_tf f) (m_if f) (m_df f)
                     (m_of f) (m_iopl f) (m_nt f) v (m_vm f) (m_ac f) (m_id f) (m_vip f)
                     (m_vif f) (m_dirty_flags f) (m_last_result f) (m_last_op_size f)) st).

Definition set_nt (v : bool) : M unit :=
  modify (fun st =>
    let f := m_fl st in
    with_fl (mkFlags (m_cf f) (m_pf f) (m_af f) (m_zf f) (m_sf f) (m_tf f) (m_if f) (m_df f)
                     (m_of f) (m_iopl f) v (m_rf f) (m_vm f) (m_ac f) (m_id f) (m_vip f)
                     (m_vif f) (m_dirty_flags f) (m_last_result f) (m_last_op_size f)) st).

Section InterruptTables.

(** Parts of the CPU class used by interrupt delivery that are not under
    src/: the IDT lookup, the descriptor lookup on behalf of SS, the test for
    a descriptor of the GDT, the task switch to a TSS, and EFLAGS. *)
Variable getInterruptGate : Z -> M InterruptGate.
Variable get_descriptor_for_ss : Z -> M Descriptor.
Variable isGlobal : Descriptor -> bool.
Variable taskSwitch : TSSDescriptor -> JumpType -> M unit.
Variable getEFlags : CPU -> Z.

Definition interruptToTaskGate (isr : Z) (source : InterruptSource) (errorCode : option Z)
    (gate : Gate) : M unit :=
  descriptor <- get_descriptor (gate_selector gate) ;;
  if negb (isGlobal descriptor) then
    throw (GeneralProtectionFault (makeErrorCode (gate_selector gate) false source))
  else
    match descriptor with
    | TSS tssDescriptor =>
        if tss_busy tssDescriptor then
          throw (GeneralProtectionFault (makeErrorCode (gate_selector gate) false source))
        else if negb (tss_present tssDescriptor) then
          throw (GeneralProtectionFault (makeErrorCode (gate_selector gate) false source))
        else
          taskSwitch tssDescriptor INT ;;;
          match errorCode with
          | Some code => if tss_is_32bit tssDescriptor then push32 code else push16 code
          | None => ret tt
          end
    | _ => throw (GeneralProtectionFault (makeErrorCode (gate_selector gate) false source))
    end.

Definition protectedModeInterrupt (isr : Z) (source : InterruptSource)
    (errorCode : option Z) : M unit :=
  pe <- gets get_pe ;;
  ASSERT pe ;;;
  ig <- getInterruptGate (u8 isr) ;;
  let gate := ig_gate ig in
  cpl <- gets get_cpl ;;
  if is_internal source && (gate_dpl gate <? cpl) then
    throw (GeneralProtectionFault (makeErrorCode (u8 isr) true source))
  else if negb (gate_present gate) then
    throw (NotPresent (makeErrorCode (u8 isr) true source))
  else if ig_null ig then
    throw (GeneralProtectionFault (makeErrorCode (u8 isr) true source))
  else if ig_task_gate ig then interruptToTaskGate (u8 isr) source errorCode gate
  else
    descriptor <- get_descriptor (gate_selector gate) ;;
    if is_error descriptor then
      throw (GeneralProtectionFault (makeErrorCode (gate_selector gate) false source))
    else if negb (is_code descriptor) then
      throw (GeneralProtectionFault (makeErrorCode (gate_selector gate) false source))
    else
      let codeDescriptor := as_segment_descriptor descriptor in
      cpl <- gets get_cpl ;;
      if cpl <? sd_dpl codeDescriptor then
        throw (GeneralProtectionFault (makeErrorCode (gate_selector gate) false source))
      else if negb (sd_present codeDescriptor) then
        throw (NotPresent (makeErrorCode (gate_selector gate) false source))
      else
        let t := ig_type ig in
        if negb ((t =? 0x7) || (t =? 0xf) || (t =? 0x6) || (t =? 0xe)) then
          throw (GeneralProtectionFault (u8 isr))
        else
          let isTrap := (t =? 0x7) || (t =? 0xf) in
          st <- gets (fun st => st) ;;
          let offset := u32 (gate_offset gate) in
          let flags := u32 (getEFlags st) in
          let originalSS := get_ss st in
          let originalESP := get_esp st in
          let originalCPL := get_cpl st in
          let originalCS := get_cs st in
          let originalEIP := get_eip st in
          let offset :=
            if negb (gate_is_32bit gate) || negb (sd_D codeDescriptor)
            then Z.land offset 0xffff else offset in
          if sd_effective_limit codeDescriptor <? offset then
            throw (GeneralProtectionFault 0)
          else
            (if negb (sd_conforming codeDescriptor) && (dpl descriptor <? originalCPL) then
               newSS <- tss_get_ring_ss (dpl descriptor) ;;
               newESP <- tss_get_ring_esp (dpl descriptor) ;;
               newSSDescriptor <- get_descriptor_for_ss newSS ;;
               if is_null newSSDescriptor then throw (InvalidTSS (source_bit source))
               else if is_error newSSDescriptor then
                 throw (InvalidTSS (makeErrorCode newSS false source))
               else if negb (dpl newSSDescriptor =? dpl descriptor) then
                 throw (InvalidTSS (makeErrorCode newSS false source))
               else if negb (is_data newSSDescriptor)
                       || negb (sd_writable (as_segment_descriptor newSSDescriptor)) then
                 throw (InvalidTSS (makeErrorCode newSS false source))
               else if negb (present newSSDescriptor) then
                 throw (StackFault (makeErrorCode newSS false source))
               else
                 set_ss newSS ;;;
                 set_esp newESP ;;;
                 (if gate_is_32bit gate then push32 originalSS ;;; push32 originalESP
                  else push16 originalSS ;;; push16 originalESP) ;;;
                 set_cpl (dpl descriptor)
             else if sd_conforming codeDescriptor || (sd_dpl codeDescriptor =? originalCPL) then
               set_cpl originalCPL
             else ASSERT_NOT_REACHED) ;;;
            (if gate_is_32bit gate then
               push32 flags ;;; push32 originalCS ;;; push32 originalEIP
             else
               push16 flags ;;; push16 originalCS ;;; push16 originalEIP) ;;;
            (match errorCode with
             | Some code => if gate_is_32bit gate then push32 code else push16 code
             | None => ret tt
             end) ;;;
            (if negb isTrap then set_if false else ret tt) ;;;
            set_tf false ;;;
            set_rf false ;;;
            set_nt false ;;;
            set_cs (gate_selector gate) ;;;
            set_eip offset.

(** [interrupt(isr, source, errorCode)]. *)
Definition interrupt (isr : Z) (source : InterruptSource) (errorCode : option Z) : M unit :=
  pe <- gets get_pe ;;
  if pe then protectedModeInterrupt isr source errorCode
  else realModeInterrupt isr source.

End InterruptTables.


(** ** Vocabulary of the statements *)

(** The value and the state a physical read yields ([read_physical_memory]
    never throws). *)
Definition physical_value (T : ValueSize) (physicalAddress : Z) (st : CPU) : Z :=
  match fst (read_physical_memory T physicalAddress st) with Ok v => v | _ => 0 end.

Definition after_read (T : ValueSize) (physicalAddress : Z) (st : CPU) : CPU :=
  snd (read_physical_memory T physicalAddress st).

(** The page-directory and page-table entries the translation of a linear
    address consults, and where they live. *)
Definition pde_address (st : CPU) (linearAddress : Z) : Z :=
  u32 (get_cr3 st + Z.land (Z.shiftr linearAddress 22) 0x3FF * 4).

Definition page_directory_entry (st : CPU) (linearAddress : Z) : Z :=
  physical_value DWordSize (pde_address st linearAddress) st.

Definition pte_address (st : CPU) (linearAddress : Z) : Z :=
  u32 (Z.land (page_directory_entry st linearAddress) 0xfffff000
       + Z.land (Z.shiftr linearAddress 12) 0x3FF * 4).

Definition page_table_entry (st : CPU) (linearAddress : Z) : Z :=
  physical_value DWordSize (pte_address st linearAddress)
    (after_read DWordSize (pde_address st linearAddress) st).

Definition after_entry_reads (st : CPU) (linearAddress : Z) : CPU :=
  after_read DWordSize (pte_address st linearAddress)
    (after_read DWordSize (pde_address st linearAddress) st).

(** The two assertions at the head of [translate_address_slow_case]. *)
Definition cr3_asserts (st : CPU) : bool :=
  (get_cr3 st <? m_memory_size (m_mem st)) && (Z.land (get_cr3 st) 0x03ff =? 0).

Definition in_user_mode (st : CPU) (effectiveCPL : Z) : bool :=
  if effectiveCPL =? 0xff then get_cpl st =? 3 else effectiveCPL =? 3.

Definition after_write (T : ValueSize) (physicalAddress data : Z) (st : CPU) : CPU :=
  snd (write_physical_memory T physicalAddress data st).

(** Guest RAM proper: no provider claims the address. *)
Definition ram_backed (st : CPU) (physicalAddress : Z) : Prop :=
  memory_provider_for_address st physicalAddress = None.

(** The protection checks of [translate_address_slow_case] on the two entries. *)
Definition access_permitted (st : CPU) (linearAddress : Z) (accessType : MemoryAccessType)
    (effectiveCPL : Z) : bool :=
  let pde := page_directory_entry st linearAddress in
  let pte := page_table_entry st linearAddress in
  let inUserMode := in_user_mode st effectiveCPL in
  let checkWrite := (inUserMode || has (get_cr0 st) CR0.WP) && is_write accessType in
  has pde PageTableEntryFlags.Present && has pte PageTableEntryFlags.Present
  && (negb inUserMode
      || (has pde PageTableEntryFlags.UserSupervisor && has pte PageTableEntryFlags.UserSupervisor))
  && (negb checkWrite
      || (has pde PageTableEntryFlags.ReadWrite && has pte PageTableEntryFlags.ReadWrite)).

(** The entries [translate_address_slow_case] writes back on success. *)
Definition pde_written (st : CPU) (linearAddress : Z) : Z :=
  Z.lor (page_directory_entry st linearAddress) PageTableEntryFlags.Accessed.

Definition pte_written (st : CPU) (linearAddress : Z) (accessType : MemoryAccessType) : Z :=
  Z.lor (if is_write accessType
         then Z.lor (page_table_entry st linearAddress) PageTableEntryFlags.Dirty
         else page_table_entry st linearAddress)
        PageTableEntryFlags.Accessed.

Definition after_translation (st : CPU) (linearAddress : Z) (accessType : MemoryAccessType)
    : CPU :=
  after_write DWordSize (pte_address st linearAddress) (pte_written st linearAddress accessType)
    (after_write DWordSize (pde_address st linearAddress) (pde_written st linearAddress)
       (after_entry_reads st linearAddress)).

(** The first linear address of the page after the one holding [linearAddress]. *)
Definition second_page (linearAddress : Z) : Z := u32 (Z.land linearAddress 0xfffff000 + 0x1000).

(** Two page-table entries that differ at most in Accessed and Dirty. *)
Definition pt_agree (x y : Z) : Prop := Z.lor x 0x60 = Z.lor y 0x60.

(** [s] is [st] after accesses that only set Accessed and Dirty bits in guest
    RAM (and possibly touched provider objects). *)
Definition same_tables (st s : CPU) : Prop :=
  exists mem',
    s = with_mem mem' st
    /\ m_memory_size mem' = m_memory_size (m_mem st)
    /\ m_memory_providers mem' = m_memory_providers (m_mem st)
    /\ forall b, b mod 4 = 0 ->
         pt_agree (le_load 4 (m_memory mem') b) (le_load 4 (m_memory (m_mem st)) b).

(** The flags a reset leaves: those of the image 0x0200, that is IF set and
    every other flag clear, with IOPL then set to 3; the bookkeeping of the
    lazily computed flags is cleared. *)
Definition reset_flags : Flags :=
  mkFlags false false false false false false true false false 3 false false false false
          false false false 0 0 ByteSize.

(** The physical address an access to a mapped linear address reaches: the
    frame of its page-table entry, the offset within the page, and the A20
    mask on top. *)
Definition physical_address (st : CPU) (linearAddress : Z) : Z :=
  Z.land (Z.lor (Z.land (page_table_entry st linearAddress) 0xfffff000)
                (Z.land linearAddress 0xFFF))
         (a20_mask st).

(** The page-directory and page-table entries consulted by an access that
    starts in the page of [linearAddress] and ends in the next one. *)
Definition straddle_entries (st : CPU) (linearAddress : Z) : list Z :=
  [ pde_address st linearAddress; pte_address st linearAddress;
    pde_address st (second_page linearAddress); pte_address st (second_page linearAddress) ].

(** [b] is none of the four bytes of any of the entries at [entries]. *)
Definition outside_entries (entries : list Z) (b : Z) : Prop :=
  forall e, In e entries -> b < e \/ e + 4 <= b.

(** Byte [i] of an access at [linearAddress] is an ordinary byte of guest
    RAM: inside the array, claimed by no provider, and not part of the
    page-table entries the access goes through. *)
Definition data_byte (st : CPU) (linearAddress i : Z) : Prop :=
  let pa := physical_address st (la_offset linearAddress i) in
  pa < m_memory_size (m_mem st) /\ ram_backed st pa
  /\ outside_entries (straddle_entries st linearAddress) pa.

(** [s] is [st] after accesses that changed guest RAM only; the entries at
    [entries] differ at most in Accessed and Dirty. *)
Definition entries_kept (st : CPU) (entries : list Z) (s : CPU) : Prop :=
  exists mem',
    s = with_mem mem' st
    /\ m_memory_size mem' = m_memory_size (m_mem st)
    /\ m_memory_providers mem' = m_memory_providers (m_mem st)
    /\ provider_objects mem' = provider_objects (m_mem st)
    /\ forall e, In e entries ->
         pt_agree (le_load 4 (m_memory mem') e) (le_load 4 (m_memory (m_mem st)) e).

(** [p] lies in the page of [linearAddress] or in the next one. *)
Definition on_pages (linearAddress p : Z) : Prop :=
  Z.shiftr p 12 = Z.shiftr linearAddress 12
  \/ Z.shiftr p 12 = Z.shiftr (second_page linearAddress) 12.

(** The invariant of a run of byte accesses from [st]: the entries are kept
    and guest RAM outside them is [W]. *)
Definition bytes_are (st : CPU) (linearAddress : Z) (W : Bytes) (s : CPU) : Prop :=
  entries_kept st (straddle_entries st linearAddress) s
  /\ forall b, outside_entries (straddle_entries st linearAddress) b ->
               m_memory (m_mem s) b = W b.

(** A 16-bit real-mode stack whose offsets [lo, hi) lie in guest RAM proper,
    below 1 MiB (so that the A20 mask does not fold them). *)
Definition real_stack_window (st : CPU) (lo hi : Z) : Prop :=
  get_pe st = false /\ get_pg st = false /\ s16 st = true
  /\ 0 <= lo /\ hi <= 2 ^ 16
  /\ 0 <= sd_base (cached_descriptor st SS)
  /\ sd_base (cached_descriptor st SS) + hi <= 2 ^ 20
  /\ sd_base (cached_descriptor st SS) + hi <= m_memory_size (m_mem st)
  /\ forall a, sd_base (cached_descriptor st SS) + lo <= a
               < sd_base (cached_descriptor st SS) + hi -> ram_backed st a.

(** The word of guest RAM at SS:offset. *)
Definition stack_word (st : CPU) (offset : Z) : Z :=
  le_load 2 (m_memory (m_mem st)) (sd_base (cached_descriptor st SS) + offset).

(** Frame properties of a computation: it leaves the general registers (and
    so the stack pointer) alone; it never throws; whenever it throws, the
    general registers are as they were. *)
Definition preserves_gpr {A} (c : M A) : Prop :=
  forall st r st', c st = (r, st') -> m_gpr st' = m_gpr st.

Definition never_throws {A} (c : M A) : Prop :=
  forall st e st', c st <> (Throw e, st').

Definition throw_keeps_gpr {A} (c : M A) : Prop :=
  forall st e st', c st = (Throw e, st') -> m_gpr st' = m_gpr st.

(** The validation of the return selector in [protected_far_return] that
    ends in #GP: null selector, selector outside the table limit, non-code
    target, RPL below CPL, and the DPL rule of conforming and non-conforming
    code segments. *)
Definition far_return_validation_fails (descriptor : Descriptor) (selector cpl : Z) : bool :=
  let codeSegment := as_segment_descriptor descriptor in
  let selectorRPL := Z.land selector 3 in
  is_null descriptor
  || is_outside_table_limits descriptor
  || negb (is_code descriptor)
  || (selectorRPL <? cpl)
  || (sd_conforming codeSegment && (selectorRPL <? sd_dpl codeSegment))
  || (negb (sd_conforming codeSegment) && negb (sd_dpl codeSegment =? selectorRPL)).

(** The stack frame of a far CALL to an inner ring, in the words of the
    claim: switch to the inner-ring SS:ESP, then push the old SS, the old ESP,
    the old CS and the old EIP, in this order and each with the given size.
    EFLAGS is not pushed. *)
Definition inner_ring_call_frame (newSS newESP oldSS oldESP oldCS oldEIP ring : Z)
    (pushSize : ValueSize) : M unit :=
  ASSERT_NO_EXCEPTIONS (
    set_cpl ring ;;;
    set_ss newSS ;;;
    set_esp newESP ;;;
    push_value_with_size oldSS pushSize ;;;
    push_value_with_size oldESP pushSize) ;;;
  ASSERT_NO_EXCEPTIONS (
    push_value_with_size oldCS pushSize ;;;
    push_value_with_size oldEIP pushSize).

(** The entry offset a call gate yields in a code segment: cut to 16 bits by
    a 16-bit gate and by a 16-bit segment. *)
Definition gate_entry_offset (g : Gate) (codeSegment : SegmentDescriptor) : Z :=
  let offset := if gate_is_32bit g then gate_offset g else Z.land (gate_offset g) 0xffff in
  if sd_D codeSegment then offset else Z.land offset 0xffff.

Definition gate_push_size (g : Gate) : ValueSize :=
  if gate_is_32bit g then DWordSize else WordSize.

(** ** Lemmas on the byte array *)

Lemma u8_range x : 0 <= u8 x < 256.
Proof. unfold u8. change (2 ^ 8) with 256. apply Z.mod_pos_bound. lia. Qed.

Lemma le_load_range n m a : 0 <= le_load n m a < 2 ^ (8 * Z.of_nat n).
Proof.
  revert a. induction n as [|n IH]; intro a.
  - simpl. lia.
  - cbn [le_load]. pose proof (u8_range (m a)). pose proof (IH (a + 1)).
    replace (8 * Z.of_nat (S n)) with (8 + 8 * Z.of_nat n) by lia.
    rewrite Z.pow_add_r by lia. change (2 ^ 8) with 256. nia.
Qed.

Lemma poke_same m a v : poke m a v a = u8 v.
Proof. unfold poke. now rewrite Z.eqb_refl. Qed.

Lemma poke_other m a v b : b <> a -> poke m a v b = m b.
Proof. unfold poke. intro. destruct (Z.eqb_spec b a); congruence. Qed.

Lemma le_store_below n m a v b : b < a -> le_store n m a v b = m b.
Proof.
  revert m a v. induction n as [|n IH]; intros m a v Hb; cbn [le_store].
  - reflexivity.
  - rewrite IH by lia. apply poke_other. lia.
Qed.

Lemma le_store_above n m a v b : a + Z.of_nat n <= b -> le_store n m a v b = m b.
Proof.
  revert m a v. induction n as [|n IH]; intros m a v Hb; cbn [le_store].
  - reflexivity.
  - rewrite IH by lia. apply poke_other. lia.
Qed.

Lemma le_load_ext k m m' b :
  (forall x, b <= x < b + Z.of_nat k -> m' x = m x) -> le_load k m' b = le_load k m b.
Proof.
  revert b. induction k as [|k IH]; intros b Hx; cbn [le_load].
  - reflexivity.
  - rewrite Hx by lia. rewrite IH; [reflexivity|]. intros. apply Hx. lia.
Qed.

Lemma le_load_store_disjoint n k m a v b :
  b + Z.of_nat k <= a \/ a + Z.of_nat n <= b ->
  le_load k (le_store n m a v) b = le_load k m b.
Proof.
  intro Hd. apply le_load_ext. intros x Hx.
  destruct Hd; [apply le_store_below | apply le_store_above]; lia.
Qed.

Lemma le_load_store_same n m a v :
  le_load n (le_store n m a v) a = v mod 2 ^ (8 * Z.of_nat n).
Proof.
  revert m a v. induction n as [|n IH]; intros m a v.
  - simpl. now rewrite Z.mod_1_r.
  - cbn [le_load le_store]. rewrite IH.
    rewrite le_store_below by lia. rewrite poke_same.
    unfold u8. rewrite Z.mod_mod by (change (2 ^ 8) with 256; lia).
    replace (8 * Z.of_nat (S n)) with (8 + 8 * Z.of_nat n) by lia.
    rewrite Z.pow_add_r by lia. change (2 ^ 8) with 256.
    assert (0 < 2 ^ (8 * Z.of_nat n)) by (apply Z.pow_pos_nonneg; lia).
    rewrite Z.rem_mul_r by lia. lia.
Qed.

(** ** Frame lemmas of the physical accesses *)

Ltac monad_unfold :=
  cbv beta iota zeta delta
    [bind gets modify ret throw crash out_of_fuel ASSERT ASSERT_NOT_REACHED when].

Lemma with_mem_id st : with_mem (m_mem st) st = st.
Proof. destruct st; reflexivity. Qed.

Lemma read_physical_memory_eq T pa st :
  read_physical_memory T pa st = (Ok (physical_value T pa st), after_read T pa st).
Proof.
  unfold physical_value, after_read, read_physical_memory.
  destruct (negb (validate_physical_address pa st)); [reflexivity|].
  destruct (memory_provider_for_address st pa); [|reflexivity].
  destruct (pointer_for_direct_read_access _); [reflexivity|].
  destruct (provider_read _ _ _); reflexivity.
Qed.

(** A physical read leaves everything but the provider objects as it was. *)
Lemma after_read_frame T pa st :
  exists mem', after_read T pa st = with_mem mem' st
    /\ m_memory mem' = m_memory (m_mem st)
    /\ m_memory_size mem' = m_memory_size (m_mem st)
    /\ m_memory_providers mem' = m_memory_providers (m_mem st).
Proof.
  unfold after_read, read_physical_memory.
  destruct (negb (validate_physical_address pa st));
    [exists (m_mem st); rewrite with_mem_id; auto|].
  destruct (memory_provider_for_address st pa);
    [|exists (m_mem st); rewrite with_mem_id; auto].
  destruct (pointer_for_direct_read_access _);
    [exists (m_mem st); rewrite with_mem_id; auto|].
  destruct (provider_read _ _ _). simpl. eexists; split; [reflexivity|]. simpl. auto.
Qed.

Lemma after_entry_reads_frame st la :
  exists mem', after_entry_reads st la = with_mem mem' st
    /\ m_memory mem' = m_memory (m_mem st)
    /\ m_memory_size mem' = m_memory_size (m_mem st)
    /\ m_memory_providers mem' = m_memory_providers (m_mem st).
Proof.
  unfold after_entry_reads.
  destruct (after_read_frame DWordSize (pde_address st la) st) as (m1 & E1 & A1 & B1 & C1).
  destruct (after_read_frame DWordSize (pte_address st la) (after_read DWordSize (pde_address st la) st))
    as (m2 & E2 & A2 & B2 & C2).
  rewrite E2, E1. rewrite E1 in A2, B2, C2. simpl in *.
  exists m2. split; [destruct st; reflexivity|]. repeat split; congruence.
Qed.

(** A read of guest RAM proper: no provider, inside the array. *)
Lemma physical_value_ram T pa st :
  validate_physical_address pa st = true ->
  memory_provider_for_address st pa = None ->
  physical_value T pa st = le_load (size_bytes T) (m_memory (m_mem st)) pa
  /\ after_read T pa st = st.
Proof.
  intros Hv Hp. unfold physical_value, after_read, read_physical_memory.
  rewrite Hv, Hp. simpl. auto.
Qed.

Lemma physical_value_outside T pa st :
  validate_physical_address pa st = false -> physical_value T pa st = 0.
Proof.
  intros Hv. unfold physical_value, read_physical_memory. now rewrite Hv.
Qed.

(** ** The page-fault error code *)

Lemma makePFErrorCode_not_present accessType inUserMode :
  let err := makePFErrorCode PageFaultFlags.NotPresent accessType inUserMode in
  Z.testbit err 0 = false /\ Z.testbit err 1 = is_write accessType
  /\ Z.testbit err 2 = inUserMode /\ Z.testbit err 4 = is_execute accessType.
Proof. destruct accessType, inUserMode; repeat split; reflexivity. Qed.

(** The translation of an address whose PDE or PTE is not present. *)
Lemma translate_not_present st la accessType effectiveCPL :
  cr3_asserts st = true ->
  options_crash_on_page_fault = false ->
  has (page_directory_entry st la) PageTableEntryFlags.Present = false
  \/ has (page_table_entry st la) PageTableEntryFlags.Present = false ->
  translate_address_slow_case la accessType effectiveCPL st
  = (Throw (mkException 14
              (Some (makePFErrorCode PageFaultFlags.NotPresent accessType
                                     (in_user_mode st effectiveCPL)))
              (Some la)),
     set_cr2 la (after_entry_reads st la)).
Proof.
  intros Ha Hc Hnp. unfold cr3_asserts in Ha. apply andb_true_iff in Ha as [Ha1 Ha2].
  unfold translate_address_slow_case. monad_unfold. rewrite Ha1, Ha2. cbv beta iota.
  rewrite read_physical_memory_eq.
  fold (pde_address st la). fold (page_directory_entry st la).
  rewrite read_physical_memory_eq.
  fold (pte_address st la). fold (page_table_entry st la). fold (after_entry_reads st la).
  destruct (after_entry_reads_frame st la) as (m2 & E2 & _).
  assert (Hcpl : get_cpl (after_entry_reads st la) = get_cpl st) by (rewrite E2; reflexivity).
  rewrite Hcpl. fold (in_user_mode st effectiveCPL).
  unfold PageFault. monad_unfold. rewrite Hc.
  destruct (has (page_directory_entry st la) PageTableEntryFlags.Present) eqn:Hpde; simpl.
  - destruct Hnp as [Hnp|Hnp]; [discriminate|]. rewrite Hnp. simpl. reflexivity.
  - reflexivity.
Qed.

Lemma write_physical_memory_eq T pa v st :
  write_physical_memory T pa v st = (Ok tt, after_write T pa v st).
Proof.
  unfold after_write, write_physical_memory.
  destruct (negb (validate_physical_address pa st)); [reflexivity|].
  destruct (memory_provider_for_address st pa); reflexivity.
Qed.

Lemma after_write_frame T pa v st :
  exists mem', after_write T pa v st = with_mem mem' st
    /\ m_memory_size mem' = m_memory_size (m_mem st)
    /\ m_memory_providers mem' = m_memory_providers (m_mem st).
Proof.
  unfold after_write, write_physical_memory.
  destruct (negb (validate_physical_address pa st));
    [exists (m_mem st); rewrite with_mem_id; auto|].
  destruct (memory_provider_for_address st pa); simpl; eexists; split; try reflexivity; auto.
Qed.

Lemma after_write_ram T pa v st :
  validate_physical_address pa st = true -> ram_backed st pa ->
  after_write T pa v st
  = with_mem (with_memory (le_store (size_bytes T) (m_memory (m_mem st)) pa v) (m_mem st)) st.
Proof.
  intros Hv Hp. unfold after_write, write_physical_memory. rewrite Hv, Hp. reflexivity.
Qed.

(** [translate_address_slow_case] in closed form: the outcome is decided by
    the checks on the two entries read at the start. *)
Lemma translate_slow_eq st la accessType effectiveCPL :
  cr3_asserts st = true ->
  translate_address_slow_case la accessType effectiveCPL st
  = if access_permitted st la accessType effectiveCPL then
      (Ok (Z.lor (Z.land (pte_written st la accessType) 0xfffff000) (Z.land la 0xFFF)),
       after_translation st la accessType)
    else
      (if options_crash_on_page_fault then Crash
       else Throw (mkException 14
              (Some (makePFErrorCode
                 (if has (page_directory_entry st la) PageTableEntryFlags.Present
                     && has (page_table_entry st la) PageTableEntryFlags.Present
                  then PageFaultFlags.ProtectionViolation else PageFaultFlags.NotPresent)
                 accessType (in_user_mode st effectiveCPL)))
              (Some la)),
       set_cr2 la (after_entry_reads st la)).
Proof.
  intros Ha. unfold cr3_asserts in Ha. apply andb_true_iff in Ha as [Ha1 Ha2].
  unfold translate_address_slow_case. monad_unfold. rewrite Ha1, Ha2. cbv beta iota.
  rewrite read_physical_memory_eq.
  fold (pde_address st la). fold (page_directory_entry st la).
  rewrite read_physical_memory_eq.
  fold (pte_address st la). fold (page_table_entry st la). fold (after_entry_reads st la).
  destruct (after_entry_reads_frame st la) as (m2 & E2 & _).
  assert (Hcpl : get_cpl (after_entry_reads st la) = get_cpl st) by (rewrite E2; reflexivity).
  assert (Hcr0 : get_cr0 (after_entry_reads st la) = get_cr0 st) by (rewrite E2; reflexivity).
  rewrite Hcpl. fold (in_user_mode st effectiveCPL).
  unfold access_permitted, after_translation, pte_written, pde_written, PageFault.
  monad_unfold.
  destruct (has (page_directory_entry st la) PageTableEntryFlags.Present);
  destruct (has (page_table_entry st la) PageTableEntryFlags.Present);
  destruct (in_user_mode st effectiveCPL);
  cbv beta iota delta [negb andb orb];
  try (destruct options_crash_on_page_fault; reflexivity);
  destruct (has (page_directory_entry st la) PageTableEntryFlags.UserSupervisor);
  destruct (has (page_table_entry st la) PageTableEntryFlags.UserSupervisor);
  cbv beta iota delta [negb andb orb];
  try (destruct options_crash_on_page_fault; reflexivity);
  rewrite ?Hcr0;
  destruct (has (get_cr0 st) CR0.WP);
  destruct (is_write accessType);
  cbv beta iota delta [negb andb orb];
  rewrite ?write_physical_memory_eq; try reflexivity;
  destruct (has (page_directory_entry st la) PageTableEntryFlags.ReadWrite);
  destruct (has (page_table_entry st la) PageTableEntryFlags.ReadWrite);
  cbv beta iota delta [negb andb orb];
  rewrite ?write_physical_memory_eq;
  try reflexivity;
  destruct options_crash_on_page_fault; reflexivity.
Qed.

(** ** Bit-level facts *)

Lemma land_ones_low x m n :
  0 <= n -> Z.land m (Z.ones n) = 0 -> (Z.land x m) mod 2 ^ n = 0.
Proof.
  intros Hn Hm. rewrite <- Z.land_ones by assumption.
  rewrite <- Z.land_assoc, Hm. apply Z.land_0_r.
Qed.

Lemma frame_aligned x : (Z.land x 0xfffff000) mod 4 = 0.
Proof.
  pose proof (land_ones_low x 0xfffff000 12 ltac:(lia) eq_refl) as E.
  change (2 ^ 12) with 4096 in E.
  rewrite (Z.div_mod (Z.land x 4294963200) 4096) by lia. rewrite E.
  replace (4096 * (Z.land x 4294963200 / 4096) + 0)
    with ((1024 * (Z.land x 4294963200 / 4096)) * 4) by lia.
  apply Z.mod_mul. lia.
Qed.

Lemma u32_aligned x : x mod 4 = 0 -> u32 x mod 4 = 0.
Proof.
  intro E. unfold u32. change (2 ^ 32) with (4 * 1073741824).
  rewrite Z.rem_mul_r by lia. rewrite E.
  replace (0 + 4 * (x / 4 mod 1073741824)) with ((x / 4 mod 1073741824) * 4) by lia.
  apply Z.mod_mul. lia.
Qed.

Lemma cr3_aligned x : Z.land x 0x03ff = 0 -> x mod 4 = 0.
Proof.
  intro E. change 0x03ff with (Z.ones 10) in E. rewrite Z.land_ones in E by lia.
  change (2 ^ 10) with (4 * 256) in E. rewrite Z.rem_mul_r in E by lia.
  pose proof (Z.mod_pos_bound x 4 ltac:(lia)).
  pose proof (Z.mod_pos_bound (x / 4) 256 ltac:(lia)). lia.
Qed.

Lemma lor_range32 a b : 0 <= a < 2 ^ 32 -> 0 <= b < 2 ^ 32 -> 0 <= Z.lor a b < 2 ^ 32.
Proof.
  intros Ha Hb.
  assert (E : Z.lor a b = Z.lor a b mod 2 ^ 32).
  { rewrite <- (Z.land_ones _ 32) by lia. rewrite Z.land_lor_distr_l.
    rewrite !Z.land_ones by lia. rewrite !Z.mod_small by lia. reflexivity. }
  rewrite E. apply Z.mod_pos_bound. lia.
Qed.

Lemma has_zero mask : has 0 mask = false.
Proof. reflexivity. Qed.

Lemma pde_address_aligned st la : cr3_asserts st = true -> pde_address st la mod 4 = 0.
Proof.
  intro Ha. unfold cr3_asserts in Ha. apply andb_true_iff in Ha as [_ Ha].
  apply Z.eqb_eq in Ha. apply cr3_aligned in Ha.
  unfold pde_address. apply u32_aligned.
  rewrite Z.add_mod by lia. rewrite Ha, Z.mod_mul by lia. reflexivity.
Qed.

Lemma pte_address_aligned st la : pte_address st la mod 4 = 0.
Proof.
  unfold pte_address. apply u32_aligned.
  rewrite Z.add_mod by lia. rewrite frame_aligned, Z.mod_mul by lia. reflexivity.
Qed.

(** An entry that is present was read from inside the RAM array. *)
Lemma present_validated T pa st :
  has (physical_value T pa st) PageTableEntryFlags.Present = true ->
  validate_physical_address pa st = true.
Proof.
  intro Hp. destruct (validate_physical_address pa st) eqn:E; [reflexivity|].
  rewrite (physical_value_outside _ _ _ E) in Hp. discriminate.
Qed.

Lemma physical_value_range32 pa st :
  ram_backed st pa -> 0 <= physical_value DWordSize pa st < 2 ^ 32.
Proof.
  intro Hr. destruct (validate_physical_address pa st) eqn:E.
  - destruct (physical_value_ram DWordSize pa st E Hr) as [-> _].
    apply (le_load_range 4).
  - rewrite (physical_value_outside _ _ _ E). lia.
Qed.

Lemma access_permitted_present st la accessType effectiveCPL :
  access_permitted st la accessType effectiveCPL = true ->
  has (page_directory_entry st la) PageTableEntryFlags.Present = true
  /\ has (page_table_entry st la) PageTableEntryFlags.Present = true.
Proof.
  unfold access_permitted. cbv zeta. intro Hp.
  repeat (apply andb_true_iff in Hp; destruct Hp as [Hp ?]). auto.
Qed.

(** What guest RAM holds after a successful translation whose two entries
    live in RAM proper. *)
Lemma after_translation_ram st la accessType effectiveCPL :
  cr3_asserts st = true ->
  access_permitted st la accessType effectiveCPL = true ->
  ram_backed st (pde_address st la) -> ram_backed st (pte_address st la) ->
  after_translation st la accessType
  = with_mem (with_memory
      (le_store 4 (le_store 4 (m_memory (m_mem st)) (pde_address st la) (pde_written st la))
                (pte_address st la) (pte_written st la accessType)) (m_mem st)) st.
Proof.
  intros Ha Hp Hr1 Hr2.
  destruct (access_permitted_present _ _ _ _ Hp) as [Hp1 Hp2].
  pose proof (present_validated _ _ _ Hp1) as Hv1.
  destruct (physical_value_ram DWordSize _ _ Hv1 Hr1) as [_ E1].
  unfold page_table_entry in Hp2. rewrite E1 in Hp2.
  pose proof (present_validated _ _ _ Hp2) as Hv2.
  destruct (physical_value_ram DWordSize _ _ Hv2 Hr2) as [_ E2].
  unfold after_translation, after_entry_reads. rewrite E1, E2.
  rewrite (after_write_ram DWordSize (pde_address st la) _ st Hv1 Hr1).
  rewrite after_write_ram; [destruct st; reflexivity | exact Hv2 | exact Hr2].
Qed.

(** ** Paging: page faults (C1) *)

(** C1.  With paging enabled, a byte read at a linear address whose
    page-directory entry or page-table entry has Present = 0 raises #PF
    (vector 14); CR2 holds exactly the faulting linear address, and the error
    code has bit 0 (P) clear, bit 1 (W) clear unless the access is a write,
    and bit 2 (U) set iff the effective privilege is user mode.  The
    hypotheses are the function's own assertions on CR3 and the
    crash-on-page-fault debugging option being off. *)
Theorem non_present_entry_raises_page_fault st la accessType effectiveCPL :
  get_pe st = true -> get_pg st = true ->
  cr3_asserts st = true ->
  options_crash_on_page_fault = false ->
  has (page_directory_entry st la) PageTableEntryFlags.Present = false
  \/ has (page_table_entry st la) PageTableEntryFlags.Present = false ->
  exists err st',
    read_memory ByteSize la accessType effectiveCPL st
    = (Throw (mkException 14 (Some err) (Some la)), st')
    /\ get_cr2 st' = la
    /\ Z.testbit err 0 = false
    /\ Z.testbit err 1 = is_write accessType
    /\ Z.testbit err 2 = in_user_mode st effectiveCPL.
Proof.
  intros Hpe Hpg Ha Hc Hnp.
  destruct (makePFErrorCode_not_present accessType (in_user_mode st effectiveCPL))
    as (B0 & B1 & B2 & _).
  eexists; eexists. split; [|split; [|split; [exact B0|split; [exact B1|exact B2]]]].
  - unfold read_memory, read_memory_whole, translate_address. monad_unfold.
    rewrite Hpe, Hpg. cbv beta iota delta [negb orb].
    rewrite (translate_not_present st la accessType effectiveCPL Ha Hc Hnp). reflexivity.
  - reflexivity.
Qed.

(** ** Paging: Accessed and Dirty (C6) *)

(** C6.  A translation that succeeds writes the PDE back with Accessed set and
    the PTE back with Accessed set and, for a write access only, Dirty set
    (for other accesses the Dirty bit of the PTE is as it was); when the two
    entries live in guest RAM, RAM holds exactly these values afterwards.  A
    translation that does not succeed writes nothing: guest RAM is unchanged,
    and a #PF only loads CR2. *)
Theorem accessed_dirty_written_back_exactly_on_success st la accessType effectiveCPL :
  match translate_address_slow_case la accessType effectiveCPL st with
  | (Ok pa, st') =>
      st' = after_translation st la accessType
      /\ pa = Z.lor (Z.land (pte_written st la accessType) 0xfffff000) (Z.land la 0xFFF)
      /\ Z.testbit (pde_written st la) 5 = true
      /\ Z.testbit (pte_written st la accessType) 5 = true
      /\ Z.testbit (pte_written st la accessType) 6
         = (is_write accessType || Z.testbit (page_table_entry st la) 6)%bool
      /\ (ram_backed st (pde_address st la) -> ram_backed st (pte_address st la) ->
          le_load 4 (m_memory (m_mem st')) (pte_address st la) = pte_written st la accessType
          /\ le_load 4 (m_memory (m_mem st')) (pde_address st la)
             = if pde_address st la =? pte_address st la
               then pte_written st la accessType else pde_written st la)
  | (Throw e, st') =>
      exc_num e = 14 /\ st' = set_cr2 la (after_entry_reads st la)
      /\ m_memory (m_mem st') = m_memory (m_mem st)
  | (_, st') => m_memory (m_mem st') = m_memory (m_mem st)
  end.
Proof.
  assert (Hframe : m_memory (m_mem (set_cr2 la (after_entry_reads st la)))
                   = m_memory (m_mem st)).
  { destruct (after_entry_reads_frame st la) as (m2 & E2 & A2 & _). rewrite E2. exact A2. }
  destruct (cr3_asserts st) eqn:Ha.
  2:{ unfold translate_address_slow_case. monad_unfold.
      unfold cr3_asserts in Ha.
      destruct (get_cr3 st <? m_memory_size (m_mem st)); cbv beta iota; [|reflexivity].
      simpl in Ha. rewrite Ha. reflexivity. }
  rewrite (translate_slow_eq st la accessType effectiveCPL Ha).
  destruct (access_permitted st la accessType effectiveCPL) eqn:Hp.
  2:{ destruct options_crash_on_page_fault; [exact Hframe|].
      split; [reflexivity|]. split; [reflexivity|exact Hframe]. }
  split; [reflexivity|]. split; [reflexivity|].
  split. { unfold pde_written. rewrite Z.lor_spec. apply orb_true_r. }
  split. { unfold pte_written. rewrite Z.lor_spec. apply orb_true_r. }
  split.
  { unfold pte_written. destruct (is_write accessType).
    - rewrite !Z.lor_spec. simpl. now rewrite orb_true_r.
    - rewrite Z.lor_spec. simpl. now rewrite orb_false_r. }
  intros Hr1 Hr2.
  rewrite (after_translation_ram st la accessType effectiveCPL Ha Hp Hr1 Hr2).
  cbn [m_mem with_mem m_memory with_memory].
  assert (R1 : 0 <= pde_written st la < 2 ^ 32).
  { apply lor_range32; [apply physical_value_range32; exact Hr1 | cbv; split; congruence]. }
  assert (R2 : 0 <= pte_written st la accessType < 2 ^ 32).
  { destruct (access_permitted_present _ _ _ _ Hp) as [Hp1 _].
    pose proof (present_validated _ _ _ Hp1) as Hv1.
    destruct (physical_value_ram DWordSize _ _ Hv1 Hr1) as [_ E1].
    assert (0 <= page_table_entry st la < 2 ^ 32).
    { unfold page_table_entry. rewrite E1. apply physical_value_range32. exact Hr2. }
    unfold pte_written. destruct (is_write accessType);
      repeat apply lor_range32; try assumption; cbv; split; congruence. }
  split.
  - rewrite (le_load_store_same 4). change (2 ^ (8 * Z.of_nat 4)) with (2 ^ 32).
    apply Z.mod_small. exact R2.
  - destruct (Z.eqb_spec (pde_address st la) (pte_address st la)) as [E|N].
    + rewrite E. rewrite (le_load_store_same 4). change (2 ^ (8 * Z.of_nat 4)) with (2 ^ 32).
      apply Z.mod_small. exact R2.
    + pose proof (pde_address_aligned st la Ha) as A1.
      pose proof (pte_address_aligned st la) as A2.
      rewrite le_load_store_disjoint.
      * rewrite (le_load_store_same 4). change (2 ^ (8 * Z.of_nat 4)) with (2 ^ 32).
        apply Z.mod_small. exact R1.
      * change (Z.of_nat 4) with 4.
        rewrite (Z.div_mod (pde_address st la) 4), (Z.div_mod (pte_address st la) 4) in N |- * by lia.
        rewrite A1, A2 in *. lia.
Qed.

(** ** Accesses that straddle a page boundary (C2) *)

Lemma bind_ok {A B} (c : M A) (k : A -> M B) st a st' :
  c st = (Ok a, st') -> bind c k st = k a st'.
Proof. intro E. unfold bind. now rewrite E. Qed.

Lemma bind_gets {A B} (f : CPU -> A) (k : A -> M B) st : bind (gets f) k st = k (f st) st.
Proof. reflexivity. Qed.

Lemma bind_throw {A B} (c : M A) (k : A -> M B) st e st' :
  c st = (Throw e, st') -> bind c k st = (Throw e, st').
Proof. intro E. unfold bind. now rewrite E. Qed.

Lemma pt_agree_refl x : pt_agree x x.
Proof. reflexivity. Qed.

Lemma pt_agree_trans x y z : pt_agree x y -> pt_agree y z -> pt_agree x z.
Proof. unfold pt_agree. congruence. Qed.

Lemma pt_agree_lor x c : Z.lor c 0x60 = 0x60 -> pt_agree (Z.lor x c) x.
Proof. unfold pt_agree. intro E. now rewrite <- Z.lor_assoc, E. Qed.

Lemma pt_agree_land x y m : Z.land 0x60 m = 0 -> pt_agree x y -> Z.land x m = Z.land y m.
Proof.
  unfold pt_agree. intros Hm E.
  assert (forall z, Z.land z m = Z.land (Z.lor z 0x60) m) as R.
  { intro z. rewrite Z.land_lor_distr_l, Hm. now rewrite Z.lor_0_r. }
  rewrite (R x), (R y), E. reflexivity.
Qed.

Lemma pt_agree_has x y m : Z.land 0x60 m = 0 -> pt_agree x y -> has x m = has y m.
Proof. intros Hm E. unfold has. now rewrite (pt_agree_land x y m Hm E). Qed.

Lemma same_tables_refl st : same_tables st st.
Proof.
  exists (m_mem st). rewrite with_mem_id. repeat split; auto.
Qed.

Lemma after_read_ram_backed T pa st : ram_backed st pa -> after_read T pa st = st.
Proof.
  intro Hr. unfold after_read, read_physical_memory.
  destruct (negb (validate_physical_address pa st)); [reflexivity|].
  rewrite Hr. reflexivity.
Qed.

Lemma physical_value_ram_backed T pa st :
  ram_backed st pa ->
  physical_value T pa st
  = if validate_physical_address pa st
    then le_load (size_bytes T) (m_memory (m_mem st)) pa else 0.
Proof.
  intro Hr. unfold physical_value, read_physical_memory.
  destruct (validate_physical_address pa st); [|reflexivity].
  simpl. rewrite Hr. reflexivity.
Qed.

Section SameTables.

Variables st s : CPU.
Hypothesis Hs : same_tables st s.

Lemma same_tables_regs :
  get_cr0 s = get_cr0 st /\ get_cr3 s = get_cr3 st /\ get_cpl s = get_cpl st
  /\ a20_mask s = a20_mask st
  /\ m_memory_size (m_mem s) = m_memory_size (m_mem st)
  /\ m_memory_providers (m_mem s) = m_memory_providers (m_mem st).
Proof.
  destruct Hs as (mem' & -> & A & B & _). repeat split; assumption.
Qed.

Lemma same_tables_flags :
  get_pe s = get_pe st /\ get_pg s = get_pg st /\ cr3_asserts s = cr3_asserts st
  /\ forall eff, in_user_mode s eff = in_user_mode st eff.
Proof.
  destruct same_tables_regs as (A & B & C & _ & E & _).
  unfold get_pe, get_pg, cr3_asserts, in_user_mode. rewrite A, B, C, E. auto.
Qed.

Lemma same_tables_ram_backed pa : ram_backed s pa <-> ram_backed st pa.
Proof.
  destruct same_tables_regs as (_ & _ & _ & _ & _ & F).
  unfold ram_backed, memory_provider_for_address. rewrite F. reflexivity.
Qed.

Lemma same_tables_validate pa :
  validate_physical_address pa s = validate_physical_address pa st.
Proof.
  destruct same_tables_regs as (_ & _ & _ & _ & E & _).
  unfold validate_physical_address. now rewrite E.
Qed.

Lemma same_tables_value pa :
  pa mod 4 = 0 -> ram_backed st pa ->
  pt_agree (physical_value DWordSize pa s) (physical_value DWordSize pa st).
Proof.
  intros Hal Hr.
  rewrite (physical_value_ram_backed _ _ _ Hr).
  rewrite (physical_value_ram_backed _ _ s) by (apply same_tables_ram_backed; exact Hr).
  rewrite same_tables_validate.
  destruct (validate_physical_address pa st); [|apply pt_agree_refl].
  destruct Hs as (mem' & -> & _ & _ & Hag). apply Hag. exact Hal.
Qed.

Lemma same_tables_pde_address la : pde_address s la = pde_address st la.
Proof.
  destruct same_tables_regs as (_ & B & _). unfold pde_address. now rewrite B.
Qed.

Lemma same_tables_pde la :
  cr3_asserts st = true -> ram_backed st (pde_address st la) ->
  pt_agree (page_directory_entry s la) (page_directory_entry st la).
Proof.
  intros Ha Hr. unfold page_directory_entry. rewrite same_tables_pde_address.
  apply same_tables_value; [apply pde_address_aligned; exact Ha | exact Hr].
Qed.

Lemma same_tables_pte_address la :
  cr3_asserts st = true -> ram_backed st (pde_address st la) ->
  pte_address s la = pte_address st la.
Proof.
  intros Ha Hr. unfold pte_address.
  rewrite (pt_agree_land _ _ 0xfffff000 eq_refl (same_tables_pde la Ha Hr)). reflexivity.
Qed.

Lemma same_tables_pte la :
  cr3_asserts st = true ->
  ram_backed st (pde_address st la) -> ram_backed st (pte_address st la) ->
  pt_agree (page_table_entry s la) (page_table_entry st la).
Proof.
  intros Ha Hr1 Hr2. unfold page_table_entry.
  rewrite same_tables_pte_address by assumption. rewrite same_tables_pde_address.
  rewrite (after_read_ram_backed _ _ st Hr1).
  rewrite (after_read_ram_backed _ _ s) by (apply same_tables_ram_backed; exact Hr1).
  apply same_tables_value; [apply pte_address_aligned | exact Hr2].
Qed.

Lemma same_tables_permitted la accessType eff :
  cr3_asserts st = true ->
  ram_backed st (pde_address st la) -> ram_backed st (pte_address st la) ->
  access_permitted s la accessType eff = access_permitted st la accessType eff.
Proof.
  intros Ha Hr1 Hr2.
  pose proof (same_tables_pde la Ha Hr1) as A1.
  pose proof (same_tables_pte la Ha Hr1 Hr2) as A2.
  destruct same_tables_regs as (C0 & _).
  destruct same_tables_flags as (_ & _ & _ & U).
  unfold access_permitted. cbv zeta. rewrite U, C0.
  rewrite (pt_agree_has _ _ PageTableEntryFlags.Present eq_refl A1).
  rewrite (pt_agree_has _ _ PageTableEntryFlags.Present eq_refl A2).
  rewrite (pt_agree_has _ _ PageTableEntryFlags.UserSupervisor eq_refl A1).
  rewrite (pt_agree_has _ _ PageTableEntryFlags.UserSupervisor eq_refl A2).
  rewrite (pt_agree_has _ _ PageTableEntryFlags.ReadWrite eq_refl A1).
  rewrite (pt_agree_has _ _ PageTableEntryFlags.ReadWrite eq_refl A2).
  reflexivity.
Qed.

End SameTables.

Lemma aligned_apart a b :
  a mod 4 = 0 -> b mod 4 = 0 -> a <> b -> b + 4 <= a \/ a + 4 <= b.
Proof.
  intros Ha Hb N.
  pose proof (Z.div_mod a 4 ltac:(lia)). pose proof (Z.div_mod b 4 ltac:(lia)). lia.
Qed.

Lemma pde_written_range st la :
  ram_backed st (pde_address st la) -> 0 <= pde_written st la < 2 ^ 32.
Proof.
  intro Hr. apply lor_range32; [apply physical_value_range32; exact Hr | cbv; split; congruence].
Qed.

Lemma page_table_entry_ram st la :
  has (page_directory_entry st la) PageTableEntryFlags.Present = true ->
  ram_backed st (pde_address st la) ->
  page_table_entry st la = physical_value DWordSize (pte_address st la) st.
Proof.
  intros Hp Hr. unfold page_table_entry. now rewrite (after_read_ram_backed _ _ _ Hr).
Qed.

Lemma pte_written_range st la accessType :
  has (page_directory_entry st la) PageTableEntryFlags.Present = true ->
  ram_backed st (pde_address st la) -> ram_backed st (pte_address st la) ->
  0 <= pte_written st la accessType < 2 ^ 32.
Proof.
  intros Hp Hr1 Hr2.
  assert (0 <= page_table_entry st la < 2 ^ 32).
  { rewrite page_table_entry_ram by assumption. apply physical_value_range32. exact Hr2. }
  unfold pte_written. destruct (is_write accessType);
    repeat apply lor_range32; try assumption; cbv; split; congruence.
Qed.

(** The entries in guest RAM after a successful translation. *)
Lemma after_translation_load st la accessType effectiveCPL b :
  cr3_asserts st = true ->
  access_permitted st la accessType effectiveCPL = true ->
  ram_backed st (pde_address st la) -> ram_backed st (pte_address st la) ->
  b mod 4 = 0 ->
  le_load 4 (m_memory (m_mem (after_translation st la accessType))) b
  = if b =? pte_address st la then pte_written st la accessType
    else if b =? pde_address st la then pde_written st la
    else le_load 4 (m_memory (m_mem st)) b.
Proof.
  intros Ha Hp Hr1 Hr2 Hb.
  destruct (access_permitted_present _ _ _ _ Hp) as [Hp1 Hp2].
  rewrite (after_translation_ram st la accessType effectiveCPL Ha Hp Hr1 Hr2).
  cbn [m_mem with_mem m_memory with_memory].
  pose proof (pde_written_range st la Hr1) as R1.
  pose proof (pte_written_range st la accessType Hp1 Hr1 Hr2) as R2.
  pose proof (pde_address_aligned st la Ha) as A1.
  pose proof (pte_address_aligned st la) as A2.
  destruct (Z.eqb_spec b (pte_address st la)) as [E|N].
  - subst b. rewrite (le_load_store_same 4). change (2 ^ (8 * Z.of_nat 4)) with (2 ^ 32).
    apply Z.mod_small. exact R2.
  - rewrite le_load_store_disjoint
      by (change (Z.of_nat 4) with 4; destruct (aligned_apart _ _ Hb A2 N); lia).
    destruct (Z.eqb_spec b (pde_address st la)) as [E'|N'].
    + subst b. rewrite (le_load_store_same 4). change (2 ^ (8 * Z.of_nat 4)) with (2 ^ 32).
      apply Z.mod_small. exact R1.
    + apply le_load_store_disjoint.
      change (Z.of_nat 4) with 4. destruct (aligned_apart _ _ Hb A1 N'); lia.
Qed.

Lemma after_translation_agree st la accessType effectiveCPL b :
  cr3_asserts st = true ->
  access_permitted st la accessType effectiveCPL = true ->
  ram_backed st (pde_address st la) -> ram_backed st (pte_address st la) ->
  b mod 4 = 0 ->
  pt_agree (le_load 4 (m_memory (m_mem (after_translation st la accessType))) b)
           (le_load 4 (m_memory (m_mem st)) b).
Proof.
  intros Ha Hp Hr1 Hr2 Hb.
  rewrite (after_translation_load st la accessType effectiveCPL b) by assumption.
  destruct (access_permitted_present _ _ _ _ Hp) as [Hp1 Hp2].
  pose proof (present_validated _ _ _ Hp1) as Hv1.
  rewrite page_table_entry_ram in Hp2 by assumption.
  pose proof (present_validated _ _ _ Hp2) as Hv2.
  destruct (Z.eqb_spec b (pte_address st la)) as [E|N].
  - subst b. unfold pte_written. rewrite page_table_entry_ram by assumption.
    destruct (physical_value_ram DWordSize _ _ Hv2 Hr2) as [-> _].
    destruct (is_write accessType).
    + eapply pt_agree_trans; apply pt_agree_lor; reflexivity.
    + apply pt_agree_lor. reflexivity.
  - destruct (Z.eqb_spec b (pde_address st la)) as [E'|N'].
    + subst b. unfold pde_written, page_directory_entry.
      destruct (physical_value_ram DWordSize _ _ Hv1 Hr1) as [-> _].
      apply pt_agree_lor. reflexivity.
    + apply pt_agree_refl.
Qed.

Lemma same_tables_after_translation st s la accessType effectiveCPL :
  same_tables st s ->
  cr3_asserts st = true ->
  ram_backed st (pde_address st la) -> ram_backed st (pte_address st la) ->
  access_permitted st la accessType effectiveCPL = true ->
  same_tables st (after_translation s la accessType).
Proof.
  intros Hs Ha Hr1 Hr2 Hp.
  destruct (same_tables_flags st s Hs) as (_ & _ & Ha' & _).
  assert (Ha_s : cr3_asserts s = true) by congruence.
  assert (Hp_s : access_permitted s la accessType effectiveCPL = true)
    by (rewrite (same_tables_permitted st s Hs) by assumption; exact Hp).
  assert (Hr1_s : ram_backed s (pde_address s la)).
  { rewrite (same_tables_pde_address st s Hs). apply (same_tables_ram_backed st s Hs). exact Hr1. }
  assert (Hr2_s : ram_backed s (pte_address s la)).
  { rewrite (same_tables_pte_address st s Hs) by assumption.
    apply (same_tables_ram_backed st s Hs). exact Hr2. }
  pose proof (fun b => after_translation_agree s la accessType effectiveCPL b
                         Ha_s Hp_s Hr1_s Hr2_s) as Hag.
  rewrite (after_translation_ram s la accessType effectiveCPL Ha_s Hp_s Hr1_s Hr2_s) in *.
  destruct Hs as (mem' & -> & A & B & C).
  eexists. split; [destruct st; reflexivity|].
  cbn [m_mem with_mem m_memory with_memory m_memory_size m_memory_providers] in *.
  repeat split; try assumption.
  intros b Hb. eapply pt_agree_trans; [apply Hag; exact Hb | apply C; exact Hb].
Qed.

Lemma same_tables_after_read st s T pa :
  same_tables st s -> same_tables st (after_read T pa s).
Proof.
  intros (mem' & -> & A & B & C).
  destruct (after_read_frame T pa (with_mem mem' st)) as (m2 & -> & A2 & B2 & C2).
  cbn [m_mem with_mem] in *.
  exists m2. split; [destruct st; reflexivity|].
  rewrite A2, B2, C2. repeat split; assumption.
Qed.

(** A byte read through a page whose entries pass the checks. *)
Lemma read_byte_permitted st s la accessType effectiveCPL :
  same_tables st s ->
  get_pe st = true -> get_pg st = true -> cr3_asserts st = true ->
  ram_backed st (pde_address st la) -> ram_backed st (pte_address st la) ->
  access_permitted st la accessType effectiveCPL = true ->
  exists v s',
    read_memory_whole ByteSize la accessType effectiveCPL s = (Ok v, s')
    /\ same_tables st s'.
Proof.
  intros Hs Hpe Hpg Ha Hr1 Hr2 Hp.
  destruct (same_tables_flags st s Hs) as (Epe & Epg & Ea & _).
  unfold read_memory_whole, translate_address. monad_unfold.
  rewrite Epe, Epg, Hpe, Hpg. cbv beta iota delta [negb orb].
  rewrite translate_slow_eq by congruence.
  rewrite (same_tables_permitted st s Hs) by assumption. rewrite Hp.
  rewrite read_physical_memory_eq.
  eexists; eexists. split; [reflexivity|].
  apply same_tables_after_read.
  apply (same_tables_after_translation st s la accessType effectiveCPL); assumption.
Qed.

Lemma not_present_not_permitted st la accessType effectiveCPL :
  has (page_directory_entry st la) PageTableEntryFlags.Present = false
  \/ has (page_table_entry st la) PageTableEntryFlags.Present = false ->
  access_permitted st la accessType effectiveCPL = false.
Proof.
  unfold access_permitted. cbv zeta. intros [E|E]; rewrite E.
  - reflexivity.
  - now rewrite andb_false_r.
Qed.

(** A byte read through a page that is not present. *)
Lemma read_byte_not_present st s la accessType effectiveCPL :
  same_tables st s ->
  get_pe st = true -> get_pg st = true -> cr3_asserts st = true ->
  options_crash_on_page_fault = false ->
  ram_backed st (pde_address st la) -> ram_backed st (pte_address st la) ->
  has (page_directory_entry st la) PageTableEntryFlags.Present = false
  \/ has (page_table_entry st la) PageTableEntryFlags.Present = false ->
  exists err s',
    read_memory_whole ByteSize la accessType effectiveCPL s
    = (Throw (mkException 14 (Some err) (Some la)), s')
    /\ get_cr2 s' = la.
Proof.
  intros Hs Hpe Hpg Ha Hc Hr1 Hr2 Hnp.
  destruct (same_tables_flags st s Hs) as (Epe & Epg & Ea & _).
  unfold read_memory_whole, translate_address. monad_unfold.
  rewrite Epe, Epg, Hpe, Hpg. cbv beta iota delta [negb orb].
  rewrite translate_slow_eq by congruence.
  rewrite (same_tables_permitted st s Hs) by assumption.
  rewrite (not_present_not_permitted _ _ _ _ Hnp). rewrite Hc.
  eexists; eexists. split; reflexivity.
Qed.

(** Linear addresses as quotients and remainders. *)
Lemma land_frame x : Z.land x 0xfffff000 = 4096 * ((x / 4096) mod 1048576).
Proof.
  change 0xfffff000 with (Z.shiftl (Z.ones 20) 12).
  assert (E : Z.land x (Z.shiftl (Z.ones 20) 12)
              = Z.shiftl (Z.land (Z.shiftr x 12) (Z.ones 20)) 12).
  { apply Z.bits_inj'. intros n Hn.
    rewrite Z.land_spec. rewrite !Z.shiftl_spec by assumption.
    destruct (Z.ltb_spec n 12).
    - rewrite !(Z.testbit_neg_r _ (n - 12)) by lia. apply andb_false_r.
    - rewrite Z.land_spec, Z.shiftr_spec by lia.
      replace (n - 12 + 12) with n by lia. reflexivity. }
  rewrite E. rewrite Z.land_ones by lia. rewrite Z.shiftl_mul_pow2 by lia.
  rewrite Z.shiftr_div_pow2 by lia. change (2 ^ 12) with 4096. change (2 ^ 20) with 1048576.
  lia.
Qed.

Lemma shiftr_22 x : Z.shiftr x 22 = Z.shiftr (Z.shiftr x 12) 10.
Proof. rewrite Z.shiftr_shiftr by lia. reflexivity. Qed.

Section SamePage.

Variables (st : CPU) (a b : Z).
Hypothesis Hab : Z.shiftr a 12 = Z.shiftr b 12.

Lemma same_page_pde_address : pde_address st a = pde_address st b.
Proof. unfold pde_address. now rewrite !shiftr_22, Hab. Qed.

Lemma same_page_pde : page_directory_entry st a = page_directory_entry st b.
Proof. unfold page_directory_entry. now rewrite same_page_pde_address. Qed.

Lemma same_page_pte_address : pte_address st a = pte_address st b.
Proof. unfold pte_address. now rewrite same_page_pde, Hab. Qed.

Lemma same_page_pte : page_table_entry st a = page_table_entry st b.
Proof.
  unfold page_table_entry. now rewrite same_page_pte_address, same_page_pde_address.
Qed.

Lemma same_page_permitted accessType eff :
  access_permitted st a accessType eff = access_permitted st b accessType eff.
Proof. unfold access_permitted. now rewrite same_page_pde, same_page_pte. Qed.

End SamePage.

Lemma crosses_page_dword la :
  0 <= la < 2 ^ 32 -> crosses_page DWordSize la = true -> 4093 <= la mod 4096.
Proof.
  intros Hla Hc. unfold crosses_page in Hc. change (size_of DWordSize - 1) with 3 in Hc.
  rewrite !land_frame in Hc. apply negb_true_iff in Hc. apply Z.eqb_neq in Hc.
  destruct (Z_lt_le_dec (la mod 4096) 4093) as [L|L]; [|exact L].
  exfalso. apply Hc. f_equal. f_equal.
  pose proof (Z.div_mod la 4096 ltac:(lia)).
  pose proof (Z.mod_pos_bound la 4096 ltac:(lia)).
  apply (Z.div_unique (la + 3) 4096 (la / 4096) (la mod 4096 + 3)); lia.
Qed.

Lemma la_offset_same_page la i :
  0 <= la < 2 ^ 32 -> 0 <= i -> la mod 4096 + i < 4096 ->
  Z.shiftr (la_offset la i) 12 = Z.shiftr la 12.
Proof.
  intros Hla Hi Hlt.
  pose proof (Z.div_mod la 4096 ltac:(lia)).
  pose proof (Z.mod_pos_bound la 4096 ltac:(lia)).
  assert (la / 4096 < 1048576) by (apply Z.div_lt_upper_bound; lia).
  unfold la_offset, u32. rewrite Z.mod_small by lia.
  rewrite !Z.shiftr_div_pow2 by lia. change (2 ^ 12) with 4096.
  symmetry. apply (Z.div_unique (la + i) 4096 (la / 4096) (la mod 4096 + i)); lia.
Qed.

Lemma la_offset_second_page la i :
  0 <= la < 2 ^ 32 -> la mod 4096 + i = 4096 -> la_offset la i = second_page la.
Proof.
  intros Hla Hi.
  pose proof (Z.div_mod la 4096 ltac:(lia)).
  pose proof (Z.mod_pos_bound la 4096 ltac:(lia)).
  assert (0 <= la / 4096 < 1048576)
    by (split; [apply Z.div_pos; lia | apply Z.div_lt_upper_bound; lia]).
  unfold la_offset, second_page. rewrite land_frame.
  rewrite (Z.mod_small (la / 4096)) by lia. f_equal. lia.
Qed.

Section Straddle.

Variables (st : CPU) (la : Z) (accessType : MemoryAccessType) (effectiveCPL : Z).
Hypothesis Hpe : get_pe st = true.
Hypothesis Hpg : get_pg st = true.
Hypothesis Ha : cr3_asserts st = true.
Hypothesis Hla : 0 <= la < 2 ^ 32.

Lemma first_page_byte s i :
  same_tables st s ->
  ram_backed st (pde_address st la) -> ram_backed st (pte_address st la) ->
  access_permitted st la accessType effectiveCPL = true ->
  0 <= i -> la mod 4096 + i < 4096 ->
  exists v s',
    read_memory_whole ByteSize (la_offset la i) accessType effectiveCPL s = (Ok v, s')
    /\ same_tables st s'.
Proof.
  intros Hs Hr1 Hr2 Hp Hi Hlt.
  pose proof (la_offset_same_page la i Hla Hi Hlt) as E.
  apply (read_byte_permitted st s); try assumption.
  - now rewrite (same_page_pde_address st _ _ E).
  - now rewrite (same_page_pte_address st _ _ E).
  - now rewrite (same_page_permitted st _ _ E).
Qed.

Lemma second_page_byte s i :
  same_tables st s ->
  options_crash_on_page_fault = false ->
  ram_backed st (pde_address st (second_page la)) ->
  ram_backed st (pte_address st (second_page la)) ->
  has (page_directory_entry st (second_page la)) PageTableEntryFlags.Present = false
  \/ has (page_table_entry st (second_page la)) PageTableEntryFlags.Present = false ->
  la mod 4096 + i = 4096 ->
  exists err s',
    read_memory_whole ByteSize (la_offset la i) accessType effectiveCPL s
    = (Throw (mkException 14 (Some err) (Some (second_page la))), s')
    /\ get_cr2 s' = second_page la.
Proof.
  intros Hs Hc Hr1 Hr2 Hnp Hi.
  rewrite (la_offset_second_page la i Hla Hi).
  apply (read_byte_not_present st s); assumption.
Qed.

End Straddle.

Lemma lor_shiftl_add h l n :
  0 <= n -> 0 <= l < 2 ^ n -> Z.lor (Z.shiftl h n) l = h * 2 ^ n + l.
Proof.
  intros Hn Hl.
  assert (E : Z.land (Z.shiftl h n) l = 0).
  { rewrite <- (Z.mod_small l (2 ^ n)) by lia. rewrite <- Z.land_ones by lia.
    rewrite (Z.land_comm l), Z.land_assoc, Z.land_ones by lia.
    rewrite Z.shiftl_mul_pow2 by lia. rewrite Z.mod_mul by lia. reflexivity. }
  rewrite <- Z.lxor_lor by exact E. rewrite <- Z.add_nocarry_lxor by exact E.
  now rewrite Z.shiftl_mul_pow2 by lia.
Qed.

Lemma weld16_little_endian b2 b1 : weld16 b2 b1 = u8 b1 + 2 ^ 8 * u8 b2.
Proof.
  unfold weld16. rewrite lor_shiftl_add; [lia | lia | apply u8_range].
Qed.

Lemma weld32_little_endian b4 b3 b2 b1 :
  weld32 (weld16 b4 b3) (weld16 b2 b1)
  = u8 b1 + 2 ^ 8 * u8 b2 + 2 ^ 16 * u8 b3 + 2 ^ 24 * u8 b4.
Proof.
  pose proof (u8_range b1). pose proof (u8_range b2).
  pose proof (u8_range b3). pose proof (u8_range b4).
  unfold weld32. rewrite !weld16_little_endian. unfold u16.
  rewrite !Z.mod_small by lia.
  rewrite lor_shiftl_add; lia.
Qed.

(** ** Accesses that straddle two mapped pages *)

Lemma u8_idem x : u8 (u8 x) = u8 x.
Proof. unfold u8. apply Z.mod_mod. lia. Qed.

Lemma le_load_byte m a : le_load 1 m a = u8 (m a).
Proof. cbn [le_load]. lia. Qed.

Lemma le_store_byte m a v : le_store 1 m a v = poke m a v.
Proof. reflexivity. Qed.

Lemma land_low_byte v : u8 (Z.land v 0xff) = v mod 256.
Proof.
  change 0xff with (Z.ones 8). rewrite Z.land_ones by lia. unfold u8.
  change (2 ^ 8) with 256. apply Z.mod_mod. lia.
Qed.

Lemma shiftr_low_byte v n : 0 <= n -> u8 (Z.land (Z.shiftr v n) 0xff) = (v / 2 ^ n) mod 256.
Proof. intro Hn. rewrite land_low_byte, Z.shiftr_div_pow2 by exact Hn. reflexivity. Qed.

Lemma crosses_page_word la :
  0 <= la < 2 ^ 32 -> crosses_page WordSize la = true -> la mod 4096 = 4095.
Proof.
  intros Hla Hc. unfold crosses_page in Hc. change (size_of WordSize - 1) with 1 in Hc.
  rewrite !land_frame in Hc. apply negb_true_iff in Hc. apply Z.eqb_neq in Hc.
  pose proof (Z.mod_pos_bound la 4096 ltac:(lia)).
  destruct (Z_lt_le_dec (la mod 4096) 4095) as [L|L]; [|lia].
  exfalso. apply Hc. f_equal. f_equal.
  pose proof (Z.div_mod la 4096 ltac:(lia)).
  apply (Z.div_unique (la + 1) 4096 (la / 4096) (la mod 4096 + 1)); lia.
Qed.

Lemma la_offset_next_page la i :
  0 <= la < 2 ^ 32 -> 4096 <= la mod 4096 + i < 8192 ->
  Z.shiftr (la_offset la i) 12 = Z.shiftr (second_page la) 12.
Proof.
  intros Hla Hi.
  pose proof (Z.div_mod la 4096 ltac:(lia)) as D.
  pose proof (Z.mod_pos_bound la 4096 ltac:(lia)) as B.
  assert (0 <= la / 4096 < 1048576) as Q
    by (split; [apply Z.div_pos; lia | apply Z.div_lt_upper_bound; lia]).
  unfold la_offset, second_page, u32. rewrite land_frame.
  rewrite (Z.mod_small (la / 4096)) by lia.
  rewrite !Z.shiftr_div_pow2 by lia. change (2 ^ 12) with 4096.
  change (2 ^ 32) with 4294967296.
  set (q := la / 4096) in *. set (r := la mod 4096) in *.
  destruct (Z_lt_le_dec (q + 1) 1048576) as [L|L].
  - rewrite !Z.mod_small by lia.
    rewrite <- (Z.div_unique (la + i) 4096 (q + 1) (r + i - 4096)) by lia.
    apply (Z.div_unique (4096 * q + 4096) 4096 (q + 1) 0); lia.
  - rewrite <- (Z.mod_unique (la + i) 4294967296 1 (r + i - 4096)) by lia.
    rewrite <- (Z.mod_unique (4096 * q + 4096) 4294967296 1 0) by lia.
    rewrite Z.div_small by lia. reflexivity.
Qed.

Lemma la_offset_low la i :
  0 <= la < 2 ^ 32 -> 0 <= i -> Z.land (la_offset la i) 0xFFF = (la + i) mod 4096.
Proof.
  intros Hla Hi. unfold la_offset, u32. change 0xFFF with (Z.ones 12).
  rewrite Z.land_ones by lia. change (2 ^ 12) with 4096. change (2 ^ 32) with 4294967296.
  pose proof (Z.div_mod (la + i) 4294967296 ltac:(lia)).
  pose proof (Z.div_mod ((la + i) mod 4294967296) 4096 ltac:(lia)).
  pose proof (Z.mod_pos_bound ((la + i) mod 4294967296) 4096 ltac:(lia)).
  apply (Z.mod_unique (la + i) 4096
           (1048576 * ((la + i) / 4294967296) + ((la + i) mod 4294967296) / 4096)); lia.
Qed.

Lemma physical_address_low st la :
  Z.land (physical_address st la) 0xFFF = Z.land la 0xFFF.
Proof.
  unfold physical_address, a20_mask.
  rewrite <- Z.land_assoc.
  assert (E : Z.land (if is_a20_enabled st then 0xFFFFFFFF else 0xFFEFFFFF) 0xFFF = 0xFFF)
    by (destruct (is_a20_enabled st); reflexivity).
  rewrite E, Z.land_lor_distr_l, <- !Z.land_assoc.
  change (Z.land 0xfffff000 0xFFF) with 0. change (Z.land 0xFFF 0xFFF) with 0xFFF.
  rewrite Z.land_0_r. reflexivity.
Qed.

Section StraddleData.

Variables (st : CPU) (la : Z) (effectiveCPL : Z).
Hypothesis Hpe : get_pe st = true.
Hypothesis Hpg : get_pg st = true.
Hypothesis Ha : cr3_asserts st = true.
Hypothesis Hla : 0 <= la < 2 ^ 32.
Hypothesis Hram : forall e, In e (straddle_entries st la) -> ram_backed st e.

Lemma on_pages_entries p :
  on_pages la p ->
  In (pde_address st p) (straddle_entries st la) /\ In (pte_address st p) (straddle_entries st la).
Proof.
  unfold straddle_entries, on_pages. intros [E|E].
  - rewrite (same_page_pde_address st _ _ E), (same_page_pte_address st _ _ E).
    split; [left; reflexivity | right; left; reflexivity].
  - rewrite (same_page_pde_address st _ _ E), (same_page_pte_address st _ _ E).
    split; [right; right; left; reflexivity | right; right; right; left; reflexivity].
Qed.

Lemma entries_aligned e : In e (straddle_entries st la) -> e mod 4 = 0.
Proof.
  unfold straddle_entries. intros [<-|[<-|[<-|[<-|[]]]]];
    first [apply pde_address_aligned; exact Ha | apply pte_address_aligned].
Qed.

Lemma entries_kept_refl : entries_kept st (straddle_entries st la) st.
Proof.
  exists (m_mem st). rewrite with_mem_id. repeat split; auto.
Qed.

Section Kept.

Variable s : CPU.
Hypothesis Hs : entries_kept st (straddle_entries st la) s.

Lemma kept_regs :
  get_cr0 s = get_cr0 st /\ get_cr3 s = get_cr3 st /\ get_cpl s = get_cpl st
  /\ a20_mask s = a20_mask st
  /\ m_memory_size (m_mem s) = m_memory_size (m_mem st)
  /\ m_memory_providers (m_mem s) = m_memory_providers (m_mem st).
Proof.
  destruct Hs as (mem' & -> & A & B & _). repeat split; assumption.
Qed.

Lemma kept_flags :
  get_pe s = get_pe st /\ get_pg s = get_pg st /\ cr3_asserts s = cr3_asserts st
  /\ forall eff, in_user_mode s eff = in_user_mode st eff.
Proof.
  destruct kept_regs as (A & B & C & _ & E & _).
  unfold get_pe, get_pg, cr3_asserts, in_user_mode. rewrite A, B, C, E. auto.
Qed.

Lemma kept_ram_backed pa : ram_backed s pa <-> ram_backed st pa.
Proof.
  destruct kept_regs as (_ & _ & _ & _ & _ & F).
  unfold ram_backed, memory_provider_for_address. rewrite F. reflexivity.
Qed.

Lemma kept_validate pa :
  validate_physical_address pa s = validate_physical_address pa st.
Proof.
  destruct kept_regs as (_ & _ & _ & _ & E & _).
  unfold validate_physical_address. now rewrite E.
Qed.

Lemma kept_value e :
  In e (straddle_entries st la) ->
  pt_agree (physical_value DWordSize e s) (physical_value DWordSize e st).
Proof.
  intros Hin. pose proof (Hram e Hin) as Hr.
  rewrite (physical_value_ram_backed _ _ _ Hr).
  rewrite (physical_value_ram_backed _ _ s) by (apply kept_ram_backed; exact Hr).
  rewrite kept_validate.
  destruct (validate_physical_address e st); [|apply pt_agree_refl].
  destruct Hs as (mem' & -> & _ & _ & _ & Hag). apply Hag. exact Hin.
Qed.

Lemma kept_pde_address p : pde_address s p = pde_address st p.
Proof.
  destruct kept_regs as (_ & B & _). unfold pde_address. now rewrite B.
Qed.

Lemma kept_pde p :
  on_pages la p -> pt_agree (page_directory_entry s p) (page_directory_entry st p).
Proof.
  intros Hp. unfold page_directory_entry. rewrite kept_pde_address.
  apply kept_value. apply (on_pages_entries p Hp).
Qed.

Lemma kept_pte_address p : on_pages la p -> pte_address s p = pte_address st p.
Proof.
  intros Hp. unfold pte_address.
  rewrite (pt_agree_land _ _ 0xfffff000 eq_refl (kept_pde p Hp)). reflexivity.
Qed.

Lemma kept_pte p :
  on_pages la p -> pt_agree (page_table_entry s p) (page_table_entry st p).
Proof.
  intros Hp. destruct (on_pages_entries p Hp) as [I1 I2].
  unfold page_table_entry.
  rewrite kept_pte_address by exact Hp. rewrite kept_pde_address.
  rewrite (after_read_ram_backed _ _ st (Hram _ I1)).
  rewrite (after_read_ram_backed _ _ s) by (apply kept_ram_backed; exact (Hram _ I1)).
  apply kept_value. exact I2.
Qed.

Lemma kept_permitted p accessType :
  on_pages la p ->
  access_permitted s p accessType effectiveCPL = access_permitted st p accessType effectiveCPL.
Proof.
  intros Hp.
  pose proof (kept_pde p Hp) as A1.
  pose proof (kept_pte p Hp) as A2.
  destruct kept_regs as (C0 & _).
  destruct kept_flags as (_ & _ & _ & U).
  unfold access_permitted. cbv zeta. rewrite U, C0.
  rewrite (pt_agree_has _ _ PageTableEntryFlags.Present eq_refl A1).
  rewrite (pt_agree_has _ _ PageTableEntryFlags.Present eq_refl A2).
  rewrite (pt_agree_has _ _ PageTableEntryFlags.UserSupervisor eq_refl A1).
  rewrite (pt_agree_has _ _ PageTableEntryFlags.UserSupervisor eq_refl A2).
  rewrite (pt_agree_has _ _ PageTableEntryFlags.ReadWrite eq_refl A1).
  rewrite (pt_agree_has _ _ PageTableEntryFlags.ReadWrite eq_refl A2).
  reflexivity.
Qed.

(** The translation of an address on one of the two pages. *)
Lemma translate_kept p accessType :
  on_pages la p ->
  access_permitted st p accessType effectiveCPL = true ->
  exists s',
    translate_address p accessType effectiveCPL s
    = (Ok (Z.lor (Z.land (page_table_entry st p) 0xfffff000) (Z.land p 0xFFF)), s')
    /\ entries_kept st (straddle_entries st la) s'
    /\ forall b, outside_entries (straddle_entries st la) b ->
                 m_memory (m_mem s') b = m_memory (m_mem s) b.
Proof.
  intros Hp Hperm.
  destruct (on_pages_entries p Hp) as [I1 I2].
  destruct kept_flags as (Epe & Epg & Ea & _).
  assert (Ha_s : cr3_asserts s = true) by congruence.
  assert (Hp_s : access_permitted s p accessType effectiveCPL = true)
    by (rewrite kept_permitted by exact Hp; exact Hperm).
  assert (Hr1_s : ram_backed s (pde_address s p))
    by (rewrite kept_pde_address; apply kept_ram_backed; exact (Hram _ I1)).
  assert (Hr2_s : ram_backed s (pte_address s p))
    by (rewrite kept_pte_address by exact Hp; apply kept_ram_backed; exact (Hram _ I2)).
  unfold translate_address. rewrite !bind_gets, Epe, Epg, Hpe, Hpg.
  cbv beta iota delta [negb orb].
  rewrite translate_slow_eq by exact Ha_s. rewrite Hp_s.
  eexists. split; [|split].
  - f_equal. f_equal. f_equal.
    assert (F : Z.land (pte_written s p accessType) 0xfffff000
                = Z.land (page_table_entry s p) 0xfffff000).
    { unfold pte_written. destruct (is_write accessType);
        rewrite ?Z.land_lor_distr_l;
        change (Z.land PageTableEntryFlags.Accessed 0xfffff000) with 0;
        change (Z.land PageTableEntryFlags.Dirty 0xfffff000) with 0;
        rewrite ?Z.lor_0_r; reflexivity. }
    rewrite F. apply (pt_agree_land _ _ 0xfffff000 eq_refl (kept_pte p Hp)).
  - pose proof (fun b => after_translation_agree s p accessType effectiveCPL b
                           Ha_s Hp_s Hr1_s Hr2_s) as Hag.
    rewrite (after_translation_ram s p accessType effectiveCPL Ha_s Hp_s Hr1_s Hr2_s) in *.
    destruct Hs as (mem' & -> & A & B & C & D).
    eexists. split; [destruct st; reflexivity|].
    cbn [m_mem with_mem m_memory with_memory m_memory_size m_memory_providers
         provider_objects] in *.
    repeat split; try assumption.
    intros e He. eapply pt_agree_trans; [apply Hag; apply entries_aligned; exact He|].
    apply D. exact He.
  - intros b Hb.
    rewrite (after_translation_ram s p accessType effectiveCPL Ha_s Hp_s Hr1_s Hr2_s).
    cbn [m_mem with_mem m_memory with_memory].
    rewrite kept_pde_address, kept_pte_address by exact Hp.
    destruct (Hb _ I1), (Hb _ I2);
      repeat first [rewrite le_store_below by lia
                   |rewrite le_store_above by (change (Z.of_nat 4) with 4; lia)];
      reflexivity.
Qed.

End Kept.

(** Byte [i] of the access, read. *)
Lemma read_byte_kept W s accessType i :
  bytes_are st la W s ->
  on_pages la (la_offset la i) ->
  access_permitted st (la_offset la i) accessType effectiveCPL = true ->
  data_byte st la i ->
  exists s',
    read_memory_whole ByteSize (la_offset la i) accessType effectiveCPL s
    = (Ok (u8 (W (physical_address st (la_offset la i)))), s')
    /\ bytes_are st la W s'.
Proof.
  intros (Hk & Hw) Hp Hperm (Hin & Hr & Ho).
  destruct (translate_kept s Hk _ accessType Hp Hperm) as (s1 & E1 & K1 & M1).
  unfold read_memory_whole. rewrite (bind_ok _ _ _ _ _ E1), bind_gets.
  destruct (kept_regs s1 K1) as (_ & _ & _ & Em & Es & _).
  rewrite Em. fold (physical_address st (la_offset la i)).
  set (pa := physical_address st (la_offset la i)) in *.
  assert (Hv : validate_physical_address pa s1 = true).
  { rewrite (kept_validate s1 K1). apply Z.ltb_lt. exact Hin. }
  assert (Hr1 : ram_backed s1 pa) by (apply (kept_ram_backed s1 K1); exact Hr).
  rewrite read_physical_memory_eq.
  destruct (physical_value_ram ByteSize pa s1 Hv Hr1) as [-> ->].
  change (size_bytes ByteSize) with 1%nat. rewrite le_load_byte.
  rewrite (M1 pa Ho), (Hw pa Ho).
  eexists. split; [reflexivity|]. split; [exact K1|].
  intros b Hb. rewrite (M1 b Hb). apply Hw. exact Hb.
Qed.

(** Byte [i] of the access, written. *)
Lemma write_byte_kept W s v i :
  bytes_are st la W s ->
  on_pages la (la_offset la i) ->
  access_permitted st (la_offset la i) Write effectiveCPL = true ->
  data_byte st la i ->
  exists s',
    write_memory_whole ByteSize (la_offset la i) v effectiveCPL s = (Ok tt, s')
    /\ bytes_are st la (poke W (physical_address st (la_offset la i)) v) s'.
Proof.
  intros (Hk & Hw) Hp Hperm (Hin & Hr & Ho).
  destruct (translate_kept s Hk _ Write Hp Hperm) as (s1 & E1 & K1 & M1).
  unfold write_memory_whole. rewrite (bind_ok _ _ _ _ _ E1), bind_gets.
  destruct (kept_regs s1 K1) as (_ & _ & _ & Em & Es & _).
  rewrite Em. fold (physical_address st (la_offset la i)).
  set (pa := physical_address st (la_offset la i)) in *.
  assert (Hv : validate_physical_address pa s1 = true).
  { rewrite (kept_validate s1 K1). apply Z.ltb_lt. exact Hin. }
  assert (Hr1 : ram_backed s1 pa) by (apply (kept_ram_backed s1 K1); exact Hr).
  rewrite write_physical_memory_eq, (after_write_ram ByteSize pa v s1 Hv Hr1).
  change (size_bytes ByteSize) with 1%nat. rewrite le_store_byte.
  eexists. split; [reflexivity|]. split.
  - destruct K1 as (mem' & -> & A & B & C & D).
    eexists. split; [destruct st; reflexivity|].
    cbn [m_mem with_mem m_memory with_memory m_memory_size m_memory_providers
         provider_objects] in *.
    repeat split; try assumption.
    intros e He.
    assert (El : le_load 4 (poke (m_memory mem') pa v) e = le_load 4 (m_memory mem') e).
    { apply le_load_ext. intros x Hx. change (Z.of_nat 4) with 4 in Hx.
      apply poke_other. destruct (Ho e He); lia. }
    rewrite El. apply D. exact He.
  - intros b Hb. cbn [m_mem with_mem m_memory with_memory].
    unfold poke. destruct (b =? pa); [reflexivity|].
    rewrite (M1 b Hb). apply Hw. exact Hb.
Qed.

Lemma bytes_are_start : bytes_are st la (m_memory (m_mem st)) st.
Proof. split; [apply entries_kept_refl | reflexivity]. Qed.

(** Where the bytes of a straddling access lie. *)
Lemma byte_on_pages i : 0 <= i < 4 -> 4093 <= la mod 4096 + i -> on_pages la (la_offset la i).
Proof.
  intros Hi Hlo. pose proof (Z.mod_pos_bound la 4096 ltac:(lia)).
  destruct (Z_lt_le_dec (la mod 4096 + i) 4096).
  - left. apply la_offset_same_page; [exact Hla | lia | lia].
  - right. apply la_offset_next_page; [exact Hla | lia].
Qed.

Lemma byte_permitted accessType i :
  on_pages la (la_offset la i) ->
  access_permitted st la accessType effectiveCPL = true ->
  access_permitted st (second_page la) accessType effectiveCPL = true ->
  access_permitted st (la_offset la i) accessType effectiveCPL = true.
Proof.
  intros [E|E] H1 H2; rewrite (same_page_permitted st _ _ E); assumption.
Qed.

Lemma byte_addresses_differ i j :
  0 <= i < 4 -> 0 <= j < 4 -> i <> j ->
  physical_address st (la_offset la i) <> physical_address st (la_offset la j).
Proof.
  intros Hi Hj N E.
  apply (f_equal (fun x => Z.land x 0xFFF)) in E.
  rewrite !physical_address_low, !la_offset_low in E by lia.
  pose proof (Z.div_mod (la + i) 4096 ltac:(lia)).
  pose proof (Z.div_mod (la + j) 4096 ltac:(lia)).
  pose proof (Z.mod_pos_bound (la + i) 4096 ltac:(lia)).
  assert (4096 * ((la + i) / 4096 - (la + j) / 4096) = i - j) by lia.
  lia.
Qed.


Lemma straddling_word_read accessType :
  crosses_page WordSize la = true ->
  access_permitted st la accessType effectiveCPL = true ->
  access_permitted st (second_page la) accessType effectiveCPL = true ->
  data_byte st la 0 -> data_byte st la 1 ->
  exists st',
    read_memory WordSize la accessType effectiveCPL st
    = (Ok (u8 (m_memory (m_mem st) (physical_address st (la_offset la 0)))
           + 2 ^ 8 * u8 (m_memory (m_mem st) (physical_address st (la_offset la 1)))), st')
    /\ forall b, outside_entries (straddle_entries st la) b ->
                 m_memory (m_mem st') b = m_memory (m_mem st) b.
Proof.
  intros Hc P1 P2 D0 D1.
  pose proof (crosses_page_word la Hla Hc) as Hm.
  assert (O : forall i, 0 <= i < 2 -> on_pages la (la_offset la i))
    by (intros i Hi; apply byte_on_pages; lia).
  pose proof (fun i Hi => byte_permitted accessType i (O i Hi) P1 P2) as Pm.
  destruct (read_byte_kept (m_memory (m_mem st)) st accessType 0 bytes_are_start
              (O 0 ltac:(lia))
              (Pm 0 ltac:(lia)) D0) as (s1 & E1 & B1).
  destruct (read_byte_kept (m_memory (m_mem st)) s1 accessType 1 B1
              (O 1 ltac:(lia))
              (Pm 1 ltac:(lia)) D1) as (s2 & E2 & B2).
  unfold read_memory. rewrite bind_gets, Hpg, Hc. cbn [andb].
  rewrite (bind_ok _ _ _ _ _ E1), (bind_ok _ _ _ _ _ E2).
  exists s2. split; [|exact (proj2 B2)].
  unfold ret. rewrite weld16_little_endian, !u8_idem. reflexivity.
Qed.

Lemma straddling_dword_read accessType :
  crosses_page DWordSize la = true ->
  access_permitted st la accessType effectiveCPL = true ->
  access_permitted st (second_page la) accessType effectiveCPL = true ->
  (forall i, 0 <= i < 4 -> data_byte st la i) ->
  exists st',
    read_memory DWordSize la accessType effectiveCPL st
    = (Ok (u8 (m_memory (m_mem st) (physical_address st (la_offset la 0)))
           + 2 ^ 8 * u8 (m_memory (m_mem st) (physical_address st (la_offset la 1)))
           + 2 ^ 16 * u8 (m_memory (m_mem st) (physical_address st (la_offset la 2)))
           + 2 ^ 24 * u8 (m_memory (m_mem st) (physical_address st (la_offset la 3)))), st')
    /\ forall b, outside_entries (straddle_entries st la) b ->
                 m_memory (m_mem st') b = m_memory (m_mem st) b.
Proof.
  intros Hc P1 P2 Dt.
  pose proof (crosses_page_dword la Hla Hc) as Hm.
  assert (O : forall i, 0 <= i < 4 -> on_pages la (la_offset la i))
    by (intros i Hi; apply byte_on_pages; lia).
  pose proof (fun i Hi => byte_permitted accessType i (O i Hi) P1 P2) as Pm.
  destruct (read_byte_kept (m_memory (m_mem st)) st accessType 0 bytes_are_start
              (O 0 ltac:(lia))
              (Pm 0 ltac:(lia)) (Dt 0 ltac:(lia))) as (s1 & E1 & B1).
  destruct (read_byte_kept (m_memory (m_mem st)) s1 accessType 1 B1
              (O 1 ltac:(lia))
              (Pm 1 ltac:(lia)) (Dt 1 ltac:(lia))) as (s2 & E2 & B2).
  destruct (read_byte_kept (m_memory (m_mem st)) s2 accessType 2 B2
              (O 2 ltac:(lia))
              (Pm 2 ltac:(lia)) (Dt 2 ltac:(lia))) as (s3 & E3 & B3).
  destruct (read_byte_kept (m_memory (m_mem st)) s3 accessType 3 B3
              (O 3 ltac:(lia))
              (Pm 3 ltac:(lia)) (Dt 3 ltac:(lia))) as (s4 & E4 & B4).
  unfold read_memory. rewrite bind_gets, Hpg, Hc. cbn [andb].
  rewrite (bind_ok _ _ _ _ _ E1), (bind_ok _ _ _ _ _ E2), (bind_ok _ _ _ _ _ E3),
    (bind_ok _ _ _ _ _ E4).
  exists s4. split; [|exact (proj2 B4)].
  unfold ret. rewrite weld32_little_endian, !u8_idem. reflexivity.
Qed.

Lemma straddling_word_write value :
  crosses_page WordSize la = true ->
  access_permitted st la Write effectiveCPL = true ->
  access_permitted st (second_page la) Write effectiveCPL = true ->
  data_byte st la 0 -> data_byte st la 1 ->
  exists st',
    write_memory WordSize la value effectiveCPL st = (Ok tt, st')
    /\ m_memory (m_mem st') (physical_address st (la_offset la 0)) = value mod 256
    /\ m_memory (m_mem st') (physical_address st (la_offset la 1)) = (value / 2 ^ 8) mod 256
    /\ forall b, outside_entries (straddle_entries st la) b ->
                 b <> physical_address st (la_offset la 0) ->
                 b <> physical_address st (la_offset la 1) ->
                 m_memory (m_mem st') b = m_memory (m_mem st) b.
Proof.
  intros Hc P1 P2 D0 D1.
  pose proof (crosses_page_word la Hla Hc) as Hm.
  assert (O : forall i, 0 <= i < 2 -> on_pages la (la_offset la i))
    by (intros i Hi; apply byte_on_pages; lia).
  pose proof (fun i Hi => byte_permitted Write i (O i Hi) P1 P2) as Pm.
  destruct (write_byte_kept (m_memory (m_mem st)) st (Z.land value 0xff) 0 bytes_are_start
              (O 0 ltac:(lia))
              (Pm 0 ltac:(lia)) D0) as (s1 & E1 & B1).
  destruct (write_byte_kept _ s1 (Z.land (Z.shiftr value 8) 0xff) 1 B1 (O 1 ltac:(lia))
              (Pm 1 ltac:(lia)) D1) as (s2 & E2 & B2).
  unfold write_memory. rewrite bind_gets, Hpg, Hc. cbn [andb].
  rewrite (bind_ok _ _ _ _ _ E1), E2.
  pose proof (byte_addresses_differ 0 1 ltac:(lia) ltac:(lia) ltac:(lia)) as N01.
  destruct B2 as (_ & W2).
  exists s2. split; [reflexivity|]. split; [|split].
  - rewrite (W2 _ (proj2 (proj2 D0))). rewrite poke_other by exact N01.
    rewrite poke_same. apply land_low_byte.
  - rewrite (W2 _ (proj2 (proj2 D1))). rewrite poke_same. apply shiftr_low_byte. lia.
  - intros b Hb N0 N1. rewrite (W2 b Hb), !poke_other by assumption. reflexivity.
Qed.

Lemma straddling_dword_write value :
  crosses_page DWordSize la = true ->
  access_permitted st la Write effectiveCPL = true ->
  access_permitted st (second_page la) Write effectiveCPL = true ->
  (forall i, 0 <= i < 4 -> data_byte st la i) ->
  exists st',
    write_memory DWordSize la value effectiveCPL st = (Ok tt, st')
    /\ (forall i, 0 <= i < 4 ->
          m_memory (m_mem st') (physical_address st (la_offset la i))
          = (value / 2 ^ (8 * i)) mod 256)
    /\ forall b, outside_entries (straddle_entries st la) b ->
                 (forall i, 0 <= i < 4 -> b <> physical_address st (la_offset la i)) ->
                 m_memory (m_mem st') b = m_memory (m_mem st) b.
Proof.
  intros Hc P1 P2 Dt.
  pose proof (crosses_page_dword la Hla Hc) as Hm.
  assert (O : forall i, 0 <= i < 4 -> on_pages la (la_offset la i))
    by (intros i Hi; apply byte_on_pages; lia).
  pose proof (fun i Hi => byte_permitted Write i (O i Hi) P1 P2) as Pm.
  destruct (write_byte_kept (m_memory (m_mem st)) st (Z.land value 0xff) 0 bytes_are_start
              (O 0 ltac:(lia))
              (Pm 0 ltac:(lia)) (Dt 0 ltac:(lia))) as (s1 & E1 & B1).
  destruct (write_byte_kept _ s1 (Z.land (Z.shiftr value 8) 0xff) 1 B1 (O 1 ltac:(lia))
              (Pm 1 ltac:(lia)) (Dt 1 ltac:(lia))) as (s2 & E2 & B2).
  destruct (write_byte_kept _ s2 (Z.land (Z.shiftr value 16) 0xff) 2 B2 (O 2 ltac:(lia))
              (Pm 2 ltac:(lia)) (Dt 2 ltac:(lia))) as (s3 & E3 & B3).
  destruct (write_byte_kept _ s3 (Z.land (Z.shiftr value 24) 0xff) 3 B3 (O 3 ltac:(lia))
              (Pm 3 ltac:(lia)) (Dt 3 ltac:(lia))) as (s4 & E4 & B4).
  unfold write_memory. rewrite bind_gets, Hpg, Hc. cbn [andb].
  rewrite (bind_ok _ _ _ _ _ E1), (bind_ok _ _ _ _ _ E2), (bind_ok _ _ _ _ _ E3), E4.
  pose proof (fun i j Hi Hj => byte_addresses_differ i j Hi Hj) as Nd.
  destruct B4 as (_ & W4).
  exists s4. split; [reflexivity|]. split.
  - intros i Hi. rewrite (W4 _ (proj2 (proj2 (Dt i Hi)))).
    assert (Hc4 : i = 0 \/ i = 1 \/ i = 2 \/ i = 3) by lia.
    destruct Hc4 as [-> | [-> | [-> | ->]]].
    + rewrite !poke_other by (apply Nd; lia). rewrite poke_same.
      change (2 ^ (8 * 0)) with 1. rewrite Z.div_1_r. apply land_low_byte.
    + rewrite !poke_other by (apply Nd; lia). rewrite poke_same.
      apply shiftr_low_byte. lia.
    + rewrite !poke_other by (apply Nd; lia). rewrite poke_same.
      apply shiftr_low_byte. lia.
    + rewrite poke_same. apply shiftr_low_byte. lia.
  - intros b Hb Nb. rewrite (W4 b Hb).
    rewrite !poke_other by (apply Nb; lia). reflexivity.
Qed.

End StraddleData.

(** C2.  With paging enabled, a 2-byte or 4-byte access whose bytes span two
    pages is carried out as single-byte accesses at ascending addresses, each
    translated on its own, and the bytes are composed in little-endian order
    (the low byte at the lowest address).  When both pages are mapped and the
    bytes lie in guest RAM proper, away from the page-table entries used, a
    read returns the bytes found at the translated addresses of [la], [la+1],
    ..., weighted 1, 2^8, ..., and a write leaves byte [i] of the value at
    the translated address of [la+i] and no other byte of data changed; the
    two pages need not be adjacent in physical memory.  A 4-byte read whose
    first page is accessible and whose second page is not present raises #PF
    with CR2 and the fault address equal to the first linear address of the
    second page.  The page-table entries involved are taken to live in guest
    RAM proper. *)
Theorem page_straddling_access_is_bytewise st la accessType effectiveCPL value :
  get_pg st = true ->
  (crosses_page WordSize la = true ->
     read_memory WordSize la accessType effectiveCPL st
     = (b1 <- read_memory ByteSize (la_offset la 0) accessType effectiveCPL ;;
        b2 <- read_memory ByteSize (la_offset la 1) accessType effectiveCPL ;;
        ret (weld16 b2 b1)) st
     /\ write_memory WordSize la value effectiveCPL st
        = (write_memory ByteSize (la_offset la 0) (Z.land value 0xff) effectiveCPL ;;;
           write_memory ByteSize (la_offset la 1) (Z.land (Z.shiftr value 8) 0xff)
             effectiveCPL) st)
  /\ (crosses_page DWordSize la = true ->
     read_memory DWordSize la accessType effectiveCPL st
     = (b1 <- read_memory ByteSize (la_offset la 0) accessType effectiveCPL ;;
        b2 <- read_memory ByteSize (la_offset la 1) accessType effectiveCPL ;;
        b3 <- read_memory ByteSize (la_offset la 2) accessType effectiveCPL ;;
        b4 <- read_memory ByteSize (la_offset la 3) accessType effectiveCPL ;;
        ret (weld32 (weld16 b4 b3) (weld16 b2 b1))) st
     /\ write_memory DWordSize la value effectiveCPL st
        = (write_memory ByteSize (la_offset la 0) (Z.land value 0xff) effectiveCPL ;;;
           write_memory ByteSize (la_offset la 1) (Z.land (Z.shiftr value 8) 0xff)
             effectiveCPL ;;;
           write_memory ByteSize (la_offset la 2) (Z.land (Z.shiftr value 16) 0xff)
             effectiveCPL ;;;
           write_memory ByteSize (la_offset la 3) (Z.land (Z.shiftr value 24) 0xff)
             effectiveCPL) st)
  /\ (get_pe st = true -> cr3_asserts st = true -> 0 <= la < 2 ^ 32 ->
      (forall e, In e (straddle_entries st la) -> ram_backed st e) ->
      let pa i := physical_address st (la_offset la i) in
      let M := m_memory (m_mem st) in
      let data b := outside_entries (straddle_entries st la) b in
      (crosses_page WordSize la = true ->
       access_permitted st la accessType effectiveCPL = true ->
       access_permitted st (second_page la) accessType effectiveCPL = true ->
       (forall i, 0 <= i < 2 -> data_byte st la i) ->
       exists st',
         read_memory WordSize la accessType effectiveCPL st
         = (Ok (u8 (M (pa 0)) + 2 ^ 8 * u8 (M (pa 1))), st')
         /\ forall b, data b -> m_memory (m_mem st') b = M b)
      /\ (crosses_page DWordSize la = true ->
          access_permitted st la accessType effectiveCPL = true ->
          access_permitted st (second_page la) accessType effectiveCPL = true ->
          (forall i, 0 <= i < 4 -> data_byte st la i) ->
          exists st',
            read_memory DWordSize la accessType effectiveCPL st
            = (Ok (u8 (M (pa 0)) + 2 ^ 8 * u8 (M (pa 1)) + 2 ^ 16 * u8 (M (pa 2))
                   + 2 ^ 24 * u8 (M (pa 3))), st')
            /\ forall b, data b -> m_memory (m_mem st') b = M b)
      /\ (crosses_page WordSize la = true ->
          access_permitted st la Write effectiveCPL = true ->
          access_permitted st (second_page la) Write effectiveCPL = true ->
          (forall i, 0 <= i < 2 -> data_byte st la i) ->
          exists st',
            write_memory WordSize la value effectiveCPL st = (Ok tt, st')
            /\ (forall i, 0 <= i < 2 ->
                  m_memory (m_mem st') (pa i) = (value / 2 ^ (8 * i)) mod 256)
            /\ forall b, data b -> (forall i, 0 <= i < 2 -> b <> pa i) ->
                         m_memory (m_mem st') b = M b)
      /\ (crosses_page DWordSize la = true ->
          access_permitted st la Write effectiveCPL = true ->
          access_permitted st (second_page la) Write effectiveCPL = true ->
          (forall i, 0 <= i < 4 -> data_byte st la i) ->
          exists st',
            write_memory DWordSize la value effectiveCPL st = (Ok tt, st')
            /\ (forall i, 0 <= i < 4 ->
                  m_memory (m_mem st') (pa i) = (value / 2 ^ (8 * i)) mod 256)
            /\ forall b, data b -> (forall i, 0 <= i < 4 -> b <> pa i) ->
                         m_memory (m_mem st') b = M b))
  /\ (get_pe st = true -> cr3_asserts st = true ->
      options_crash_on_page_fault = false ->
      0 <= la < 2 ^ 32 -> crosses_page DWordSize la = true ->
      ram_backed st (pde_address st la) -> ram_backed st (pte_address st la) ->
      ram_backed st (pde_address st (second_page la)) ->
      ram_backed st (pte_address st (second_page la)) ->
      access_permitted st la accessType effectiveCPL = true ->
      has (page_directory_entry st (second_page la)) PageTableEntryFlags.Present = false
      \/ has (page_table_entry st (second_page la)) PageTableEntryFlags.Present = false ->
      exists err st',
        read_memory DWordSize la accessType effectiveCPL st
        = (Throw (mkException 14 (Some err) (Some (second_page la))), st')
        /\ get_cr2 st' = second_page la).
Proof.
  intro Hpg.
  assert (D : crosses_page DWordSize la = true ->
     read_memory DWordSize la accessType effectiveCPL st
     = (b1 <- read_memory ByteSize (la_offset la 0) accessType effectiveCPL ;;
        b2 <- read_memory ByteSize (la_offset la 1) accessType effectiveCPL ;;
        b3 <- read_memory ByteSize (la_offset la 2) accessType effectiveCPL ;;
        b4 <- read_memory ByteSize (la_offset la 3) accessType effectiveCPL ;;
        ret (weld32 (weld16 b4 b3) (weld16 b2 b1))) st).
  { intro Hc. unfold read_memory at 1. unfold bind at 1, gets.
    rewrite Hpg, Hc. reflexivity. }
  split; [|split; [|split; [|]]].
  - intro Hc. split.
    + unfold read_memory at 1. unfold bind at 1, gets. rewrite Hpg, Hc. reflexivity.
    + unfold write_memory at 1. unfold bind at 1, gets. rewrite Hpg, Hc. reflexivity.
  - intro Hc. split; [exact (D Hc)|].
    unfold write_memory at 1. unfold bind at 1, gets. rewrite Hpg, Hc. reflexivity.
  - intros Hpe Ha Hla Hram pa M data.
    split; [|split; [|split]].
    + intros Hc P1 P2 Dt.
      apply (straddling_word_read st la effectiveCPL Hpe Hpg Ha Hla Hram accessType Hc P1 P2
               (Dt 0 ltac:(lia)) (Dt 1 ltac:(lia))).
    + intros Hc P1 P2 Dt.
      apply (straddling_dword_read st la effectiveCPL Hpe Hpg Ha Hla Hram accessType
               Hc P1 P2 Dt).
    + intros Hc P1 P2 Dt.
      destruct (straddling_word_write st la effectiveCPL Hpe Hpg Ha Hla Hram value Hc P1 P2
                  (Dt 0 ltac:(lia)) (Dt 1 ltac:(lia))) as (st' & E & B0 & B1 & F).
      exists st'. split; [exact E|]. split.
      * intros i Hi. assert (Hc2 : i = 0 \/ i = 1) by lia.
        destruct Hc2 as [-> | ->]; [|exact B1].
        change (2 ^ (8 * 0)) with 1. rewrite Z.div_1_r. exact B0.
      * intros b Hb Nb. apply F; [exact Hb | apply Nb; lia | apply Nb; lia].
    + intros Hc P1 P2 Dt.
      apply (straddling_dword_write st la effectiveCPL Hpe Hpg Ha Hla Hram value
               Hc P1 P2 Dt).
  - intros Hpe Ha Hcr Hla Hc Hr1 Hr2 Hr3 Hr4 Hp Hnp.
    rewrite (D Hc). unfold read_memory.
    pose proof (crosses_page_dword la Hla Hc) as Hlo.
    pose proof (Z.mod_pos_bound la 4096 ltac:(lia)) as Hhi.
    pose proof (fun s i => first_page_byte st la accessType effectiveCPL
                             Hpe Hpg Ha Hla s i) as OK.
    pose proof (fun s i Hs => second_page_byte st la accessType effectiveCPL
                             Hpe Hpg Ha Hla s i Hs Hcr Hr3 Hr4 Hnp) as KO.
    destruct (OK st 0 (same_tables_refl st) Hr1 Hr2 Hp ltac:(lia) ltac:(lia))
      as (v1 & s1 & E1 & T1).
    rewrite (bind_ok _ _ _ _ _ E1).
    destruct (Z.eq_dec (la mod 4096) 4095) as [K1|K1].
    { destruct (KO s1 1 T1 ltac:(lia)) as (err & s' & E & C).
      rewrite (bind_throw _ _ _ _ _ E). eauto. }
    destruct (OK s1 1 T1 Hr1 Hr2 Hp ltac:(lia) ltac:(lia)) as (v2 & s2 & E2 & T2).
    rewrite (bind_ok _ _ _ _ _ E2).
    destruct (Z.eq_dec (la mod 4096) 4094) as [K2|K2].
    { destruct (KO s2 2 T2 ltac:(lia)) as (err & s' & E & C).
      rewrite (bind_throw _ _ _ _ _ E). eauto. }
    destruct (OK s2 2 T2 Hr1 Hr2 Hp ltac:(lia) ltac:(lia)) as (v3 & s3 & E3 & T3).
    rewrite (bind_ok _ _ _ _ _ E3).
    destruct (KO s3 3 T3 ltac:(lia)) as (err & s' & E & C).
    rewrite (bind_throw _ _ _ _ _ E). eauto.
Qed.

(** ** HLT (C10) *)

(** C10.  HLT executed with CPL different from 0 raises #GP with error code 0
    and leaves the whole CPU state as it was (in particular the CPU does not
    become Halted); with CPL equal to 0 it sets the state to Halted and enters
    the halted loop. *)
Theorem hlt_requires_ring0 fuel st :
  (get_cpl st <> 0 ->
     _HLT fuel st = (Throw (mkException 13 (Some 0) None), st))
  /\ (get_cpl st = 0 ->
     _HLT fuel st = halted_loop fuel (with_state Halted st)
     /\ m_state (with_state Halted st) = Halted).
Proof.
  split; intro Hc; unfold _HLT; monad_unfold.
  - destruct (Z.eqb_spec (get_cpl st) 0); [contradiction|]. reflexivity.
  - rewrite Hc. split; reflexivity.
Qed.

(** ** The real-mode stack *)

Lemma a20_mask_below st a : 0 <= a < 2 ^ 20 -> Z.land a (a20_mask st) = a.
Proof.
  intro Ha.
  assert (E : a = Z.land a (Z.ones 20)) by (rewrite Z.land_ones, Z.mod_small; lia).
  rewrite E at 1. rewrite <- Z.land_assoc.
  unfold a20_mask. destruct (is_a20_enabled st);
    (match goal with |- Z.land a (Z.land ?x ?y) = _ =>
       change (Z.land x y) with (Z.ones 20) end);
    symmetry; exact E.
Qed.

(** One 16-bit push on a real-mode stack window. *)
Lemma push16_step st lo hi value :
  real_stack_window st lo hi ->
  lo + 2 <= get_sp st <= hi ->
  exists st',
    push16 value st = (Ok tt, st')
    /\ real_stack_window st' lo hi
    /\ get_sp st' = get_sp st - 2
    /\ m_memory (m_mem st')
       = le_store 2 (m_memory (m_mem st))
           (sd_base (cached_descriptor st SS) + (get_sp st - 2)) (u16 value)
    /\ sd_base (cached_descriptor st' SS) = sd_base (cached_descriptor st SS)
    /\ (forall i, i <> RegisterESP -> m_gpr st' i = m_gpr st i)
    /\ m_fl st' = m_fl st /\ m_segreg st' = m_segreg st /\ m_eip st' = m_eip st
    /\ m_cr st' = m_cr st.
Proof.
  intros (Hpe & Hpg & Hs16 & Hlo & Hhi & Hb & H20 & Hsz & Hram) Hsp.
  assert (Hs32 : s32 st = false) by (unfold s16 in Hs16; now apply negb_true_iff in Hs16).
  set (B := sd_base (cached_descriptor st SS)) in *.
  set (sp := get_sp st) in *.
  assert (Eu : u16 (sp - 2) = sp - 2) by (unfold u16; apply Z.mod_small; lia).
  assert (El : linear_address (cached_descriptor st SS) (sp - 2) = B + (sp - 2)).
  { unfold linear_address, u32. apply Z.mod_small. fold B. lia. }
  assert (Ev : validate_physical_address (B + (sp - 2)) st = true).
  { unfold validate_physical_address. apply Z.ltb_lt. lia. }
  assert (Er : ram_backed st (B + (sp - 2))) by (apply Hram; lia).
  unfold push16, push_sized, write_memory_segreg, write_memory_descriptor,
    write_memory, write_memory_whole, translate_address, adjust_stack_pointer.
  monad_unfold. unfold current_stack_pointer.
  repeat (first [rewrite Hs16 | rewrite Hs32 | rewrite Hpe | rewrite Hpg];
          cbv beta iota delta [negb andb orb]).
  fold sp.
  change (size_of WordSize) with 2. rewrite Eu, El.
  rewrite a20_mask_below by lia.
  rewrite write_physical_memory_eq. rewrite (after_write_ram _ _ _ _ Ev Er).
  cbv beta iota. unfold s32 at 1. cbn [m_sizes with_mem]. fold (s32 st). rewrite Hs32.
  unfold set_sp. monad_unfold.
  eexists. split; [reflexivity|].
  assert (Esp : get_sp (with_mem (with_memory
                   (le_store (size_bytes WordSize) (m_memory (m_mem st)) (B + (sp - 2))
                      (truncate WordSize value)) (m_mem st)) st) = sp) by reflexivity.
  rewrite Esp.
  split.
  { unfold real_stack_window. repeat split; try assumption; try (fold B; lia). }
  split.
  { unfold get_sp, read_register16, write_register16. cbn [m_gpr with_gpr with_mem].
    rewrite Z.eqb_refl. fold (read_register16 RegisterESP st). fold (get_sp st). fold sp.
    change (sp + - (2)) with (sp - 2). rewrite Eu.
    assert (Esp' : m_gpr st RegisterESP mod 2 ^ 16 = sp) by reflexivity.
    pose proof (Z.div_mod (m_gpr st RegisterESP) (2 ^ 16) ltac:(lia)) as D.
    rewrite Esp' in D. unfold u16.
    replace (m_gpr st RegisterESP - sp + (sp - 2))
      with ((sp - 2) + (m_gpr st RegisterESP / 2 ^ 16) * 2 ^ 16) by lia.
    rewrite Z.mod_add by lia. apply Z.mod_small. lia. }
  split; [reflexivity|]. split; [reflexivity|].
  split.
  { intros i Hi. unfold write_register16. cbn [m_gpr with_gpr with_mem].
    destruct (Z.eqb_spec i RegisterESP); [contradiction|reflexivity]. }
  repeat split.
Qed.

Lemma u16_idem x : u16 (u16 x) = u16 x.
Proof. unfold u16. apply Z.mod_mod. lia. Qed.

Lemma load_pushed_word m a v : le_load 2 (le_store 2 m a (u16 v)) a = u16 v.
Proof. rewrite le_load_store_same. apply u16_idem. Qed.

Ltac push_step W s E W' SP' M' B' G' :=
  let X := fresh "X" in
  let Hsp := fresh "Hsp" in
  match type of W with
  | real_stack_window ?st ?lo ?hi =>
      assert (Hsp : lo + 2 <= get_sp st <= hi) by lia;
      match goal with
      | |- context [bind (push16 ?v) _ st] =>
          destruct (push16_step st lo hi v W Hsp) as (s & E & W' & SP' & M' & B' & G' & X);
          rewrite (bind_ok _ _ _ _ _ E)
      | |- context [push16 ?v st] =>
          destruct (push16_step st lo hi v W Hsp) as (s & E & W' & SP' & M' & B' & G' & X);
          rewrite E
      end
  end.

(** ** PUSHA (C8) *)

(** PUSHA on a 16-bit real-mode stack: the registers are stored at descending
    addresses in the order AX, CX, DX, BX, original SP, BP, SI, DI. *)
Lemma pusha_layout st :
  real_stack_window st (get_sp st - 16) (get_sp st) ->
  exists st',
    _PUSHA st = (Ok tt, st')
    /\ get_sp st' = get_sp st - 16
    /\ stack_word st' (get_sp st - 2) = read_register16 RegisterEAX st
    /\ stack_word st' (get_sp st - 4) = read_register16 RegisterECX st
    /\ stack_word st' (get_sp st - 6) = read_register16 RegisterEDX st
    /\ stack_word st' (get_sp st - 8) = read_register16 RegisterEBX st
    /\ stack_word st' (get_sp st - 10) = get_sp st
    /\ stack_word st' (get_sp st - 12) = read_register16 RegisterEBP st
    /\ stack_word st' (get_sp st - 14) = read_register16 RegisterESI st
    /\ stack_word st' (get_sp st - 16) = read_register16 RegisterEDI st.
Proof.
  intro W.
  set (sp := get_sp st) in *.
  assert (Hsp0 : 0 <= sp - 16) by (destruct W as (_ & _ & _ & L & _); exact L).
  unfold _PUSHA. rewrite !bind_gets. fold sp.
  assert (Hsp : get_sp st = sp) by reflexivity.
  push_step W s1 E1 W1 SP1 M1 B1 G1. rewrite bind_gets.
  push_step W1 s2 E2 W2 SP2 M2 B2 G2. rewrite bind_gets.
  push_step W2 s3 E3 W3 SP3 M3 B3 G3. rewrite bind_gets.
  push_step W3 s4 E4 W4 SP4 M4 B4 G4.
  push_step W4 s5 E5 W5 SP5 M5 B5 G5. rewrite bind_gets.
  push_step W5 s6 E6 W6 SP6 M6 B6 G6. rewrite bind_gets.
  push_step W6 s7 E7 W7 SP7 M7 B7 G7. rewrite bind_gets.
  push_step W7 s8 E8 W8 SP8 M8 B8 G8.
  exists s8. split; [reflexivity|]. split; [lia|].
  unfold stack_word.
  rewrite M8, M7, M6, M5, M4, M3, M2, M1.
  rewrite B8, B7, B6, B5, B4, B3, B2, B1.
  rewrite SP7, SP6, SP5, SP4, SP3, SP2, SP1. fold sp.
  unfold read_register16.
  rewrite (G7 RegisterEDI), (G6 RegisterEDI), (G5 RegisterEDI), (G4 RegisterEDI),
    (G3 RegisterEDI), (G2 RegisterEDI), (G1 RegisterEDI) by discriminate.
  rewrite (G6 RegisterESI), (G5 RegisterESI), (G4 RegisterESI),
    (G3 RegisterESI), (G2 RegisterESI), (G1 RegisterESI) by discriminate.
  rewrite (G5 RegisterEBP), (G4 RegisterEBP),
    (G3 RegisterEBP), (G2 RegisterEBP), (G1 RegisterEBP) by discriminate.
  rewrite (G3 RegisterEBX), (G2 RegisterEBX), (G1 RegisterEBX) by discriminate.
  rewrite (G2 RegisterEDX), (G1 RegisterEDX) by discriminate.
  rewrite (G1 RegisterECX) by discriminate.
  set (B := sd_base (cached_descriptor st SS)).
  assert (Esp : u16 sp = sp) by (unfold sp, get_sp, read_register16; apply u16_idem).
  repeat split;
    repeat (rewrite le_load_store_disjoint by (change (Z.of_nat 2) with 2; lia));
    match goal with
    | |- le_load 2 (le_store 2 _ ?a (u16 _)) ?b = _ =>
        replace b with a by lia; rewrite load_pushed_word
    end; first [exact Esp | apply u16_idem].
Qed.

(** C8 (as amended).  16-bit PUSHA with SP = 0x1000 and AX=1, CX=2, DX=3,
    BX=4, BP=6, SI=7, DI=8 leaves the stack words at SP-2 down to SP-16 equal
    to AX, CX, DX, BX, the original SP, BP, SI, DI in that order, and SP ends
    at 0x0FF0. *)
Theorem pusha_words_in_push_order st :
  real_stack_window st 0x0FF0 0x1000 ->
  get_sp st = 0x1000 ->
  read_register16 RegisterEAX st = 1 -> read_register16 RegisterECX st = 2 ->
  read_register16 RegisterEDX st = 3 -> read_register16 RegisterEBX st = 4 ->
  read_register16 RegisterEBP st = 6 -> read_register16 RegisterESI st = 7 ->
  read_register16 RegisterEDI st = 8 ->
  exists st',
    _PUSHA st = (Ok tt, st')
    /\ get_sp st' = 0x0FF0
    /\ stack_word st' 0x0FFE = 1 /\ stack_word st' 0x0FFC = 2
    /\ stack_word st' 0x0FFA = 3 /\ stack_word st' 0x0FF8 = 4
    /\ stack_word st' 0x0FF6 = 0x1000 /\ stack_word st' 0x0FF4 = 6
    /\ stack_word st' 0x0FF2 = 7 /\ stack_word st' 0x0FF0 = 8.
Proof.
  intros W Hsp Hax Hcx Hdx Hbx Hbp Hsi Hdi.
  destruct (pusha_layout st) as (st' & E & R).
  { rewrite Hsp. exact W. }
  rewrite Hsp, Hax, Hcx, Hdx, Hbx, Hbp, Hsi, Hdi in R.
  exists st'. split; [exact E|]. exact R.
Qed.

(** ** Real-mode interrupt delivery (C4) *)

Lemma physical_value_range T pa st :
  0 <= physical_value T pa st < 2 ^ (8 * size_of T).
Proof.
  assert (Z0 : 0 <= 0 < 2 ^ (8 * size_of T)) by (destruct T; cbv; split; congruence).
  unfold physical_value, read_physical_memory.
  destruct (negb (validate_physical_address pa st)); [exact Z0|].
  destruct (memory_provider_for_address st pa); [|apply le_load_range].
  destruct (pointer_for_direct_read_access _); [apply le_load_range|].
  destruct (provider_read _ _ _). simpl. unfold truncate.
  apply Z.mod_pos_bound. destruct T; reflexivity.
Qed.

Lemma set_cs_real selector st :
  get_pe st = false ->
  exists st',
    set_cs selector st = (Ok tt, st')
    /\ get_cs st' = u16 selector
    /\ m_gpr st' = m_gpr st /\ m_mem st' = m_mem st /\ m_cr st' = m_cr st
    /\ m_fl st' = m_fl st /\ m_eip st' = m_eip st
    /\ cached_descriptor st' SS = cached_descriptor st SS
    /\ m_segreg st' SS = m_segreg st SS
    /\ m_stackSize32 (m_sizes st') = m_stackSize32 (m_sizes st)
    /\ m_a20_enabled st' = m_a20_enabled st.
Proof.
  intro Hpe. unfold set_cs, write_segment_register, update_default_sizes,
    update_code_segment_cache. monad_unfold. rewrite Hpe.
  cbv beta iota delta [negb orb].
  eexists. split; [reflexivity|]. repeat split.
Qed.

(** A 16-bit push in real mode always succeeds and moves only SP and memory. *)
Lemma push16_real value st :
  get_pe st = false -> get_pg st = false ->
  exists st',
    push16 value st = (Ok tt, st')
    /\ current_stack_pointer st'
       = (if s16 st then u16 (current_stack_pointer st - 2)
          else u32 (current_stack_pointer st - 2))
    /\ m_cr st' = m_cr st /\ m_fl st' = m_fl st /\ m_eip st' = m_eip st
    /\ m_segreg st' = m_segreg st /\ m_sizes st' = m_sizes st.
Proof.
  intros Hpe Hpg.
  unfold push16, push_sized, write_memory_segreg, write_memory_descriptor,
    write_memory, write_memory_whole, translate_address, adjust_stack_pointer.
  monad_unfold.
  repeat (first [rewrite Hpe | rewrite Hpg]; cbv beta iota delta [negb andb orb]).
  rewrite write_physical_memory_eq.
  match goal with |- context [after_write ?T ?pa ?v st] =>
    destruct (after_write_frame T pa v st) as (mem' & E & _); rewrite E end.
  cbv beta iota. change (s32 (with_mem mem' st)) with (s32 st).
  change (get_esp (with_mem mem' st)) with (get_esp st).
  change (get_sp (with_mem mem' st)) with (get_sp st).
  unfold current_stack_pointer, s16, set_esp, set_sp. monad_unfold.
  destruct (s32 st) eqn:Hs; cbv beta iota delta [negb];
    (eexists; split; [reflexivity|]); (split; [|repeat split]).
  - unfold current_stack_pointer. change (s32 _) with (s32 st). rewrite Hs.
    unfold get_esp, read_register32, write_register32. cbn [m_gpr with_gpr with_mem].
    rewrite Z.eqb_refl. reflexivity.
  - unfold current_stack_pointer. change (s32 _) with (s32 st). rewrite Hs.
    unfold get_sp, read_register16, write_register16. cbn [m_gpr with_gpr with_mem].
    rewrite Z.eqb_refl. unfold u16. change (size_of WordSize) with 2.
    set (r := m_gpr st RegisterESP).
    pose proof (Z.div_mod r (2 ^ 16) ltac:(lia)) as D.
    replace (r - r mod 2 ^ 16 + (r mod 2 ^ 16 + - (2)) mod 2 ^ 16)
      with ((r mod 2 ^ 16 + - (2)) mod 2 ^ 16 + (r / 2 ^ 16) * 2 ^ 16) by lia.
    rewrite Z.mod_add by lia. rewrite Z.mod_mod by lia. reflexivity.
Qed.

Lemma real_stack_window_frame st st' lo hi :
  m_cr st' = m_cr st ->
  m_memory_size (m_mem st') = m_memory_size (m_mem st) ->
  m_memory_providers (m_mem st') = m_memory_providers (m_mem st) ->
  cached_descriptor st' SS = cached_descriptor st SS ->
  m_stackSize32 (m_sizes st') = m_stackSize32 (m_sizes st) ->
  real_stack_window st lo hi -> real_stack_window st' lo hi.
Proof.
  intros Ecr Esz Etab Ed Es.
  unfold real_stack_window, get_pe, get_pg, get_cr0, s16, s32, ram_backed,
    memory_provider_for_address.
  rewrite Ecr, Esz, Etab, Ed, Es. tauto.
Qed.

Lemma u16_sub_idem a b : u16 (u16 a - b) = u16 (a - b).
Proof. unfold u16. apply Zminus_mod_idemp_l. Qed.

Lemma u32_sub_idem a b : u32 (u32 a - b) = u32 (a - b).
Proof. unfold u32. apply Zminus_mod_idemp_l. Qed.

(** C4.  In real mode, delivering interrupt vector n loads the new CS from
    physical address n*4+2 and the new IP from n*4, clears IF and TF, and
    lowers the stack pointer by three words; on a 16-bit stack lying in guest
    RAM the three words are FLAGS at SP-2, CS at SP-4 and IP at SP-6, that is
    FLAGS, CS, IP pushed in this order, 16 bits each. *)
Theorem real_mode_interrupt_delivery st isr source :
  get_pe st = false -> get_pg st = false ->
  exists st',
    realModeInterrupt isr source st = (Ok tt, st')
    /\ get_cs st' = physical_value WordSize (u8 isr * 4 + 2) st
    /\ get_eip st'
       = physical_value WordSize (u8 isr * 4) (after_read WordSize (u8 isr * 4 + 2) st)
    /\ get_if st' = false /\ get_tf st' = false
    /\ current_stack_pointer st'
       = (if s16 st then u16 (current_stack_pointer st - 6)
          else u32 (current_stack_pointer st - 6))
    /\ (real_stack_window st (get_sp st - 6) (get_sp st) ->
        get_sp st' = get_sp st - 6
        /\ stack_word st' (get_sp st - 2) = u16 (get_flags st)
        /\ stack_word st' (get_sp st - 4) = u16 (get_cs st)
        /\ stack_word st' (get_sp st - 6) = get_ip st).
Proof.
  intros Hpe Hpg.
  unfold realModeInterrupt. rewrite bind_gets.
  unfold ASSERT. rewrite Hpe. cbv beta iota delta [negb].
  rewrite (bind_ok _ _ st tt st eq_refl).
  rewrite (bind_ok _ _ _ _ _ (read_physical_memory_eq _ _ _)).
  rewrite (bind_ok _ _ _ _ _ (read_physical_memory_eq _ _ _)).
  set (selector := physical_value WordSize (u8 isr * 4 + 2) st).
  set (st1 := after_read WordSize (u8 isr * 4 + 2) st).
  set (offset := physical_value WordSize (u8 isr * 4) st1).
  set (st2 := after_read WordSize (u8 isr * 4) st1).
  assert (F2 : exists mem', st2 = with_mem mem' st
            /\ m_memory mem' = m_memory (m_mem st)
            /\ m_memory_size mem' = m_memory_size (m_mem st)
            /\ m_memory_providers mem' = m_memory_providers (m_mem st)).
  { destruct (after_read_frame WordSize (u8 isr * 4 + 2) st) as (m1 & E1 & A1 & B1 & C1).
    destruct (after_read_frame WordSize (u8 isr * 4) st1) as (m2 & E2 & A2 & B2 & C2).
    fold st1 in E1. fold st2 in E2. rewrite E1 in E2, A2, B2, C2. cbn [m_mem with_mem] in *.
    exists m2. split; [rewrite E2; destruct st; reflexivity|]. repeat split; congruence. }
  destruct F2 as (mem2 & F2 & FA & FB & FC).
  assert (Hpe2 : get_pe st2 = false) by (rewrite F2; exact Hpe).
  destruct (set_cs_real selector st2 Hpe2)
    as (st3 & E3 & Cs3 & G3 & M3 & Cr3 & Fl3 & Ip3 & D3 & Sg3 & Sz3 & A3).
  rewrite (bind_ok _ _ _ _ _ E3).
  unfold set_eip at 1. unfold modify at 1.
  rewrite (bind_ok _ _ st3 tt (with_eip (u32 offset) st3) eq_refl).
  set (st4 := with_eip (u32 offset) st3).
  assert (Hpe4 : get_pe st4 = false) by (unfold get_pe, get_cr0; cbn; rewrite Cr3, F2; exact Hpe).
  assert (Hpg4 : get_pg st4 = false) by (unfold get_pg, get_cr0; cbn; rewrite Cr3, F2; exact Hpg).
  destruct (push16_real (u16 (get_flags st)) st4 Hpe4 Hpg4)
    as (s5 & E5 & SP5 & Cr5 & Fl5 & Ip5 & Sg5 & Sz5).
  assert (Hpe5 : get_pe s5 = false) by (unfold get_pe, get_cr0; rewrite Cr5; exact Hpe4).
  assert (Hpg5 : get_pg s5 = false) by (unfold get_pg, get_cr0; rewrite Cr5; exact Hpg4).
  destruct (push16_real (get_cs st) s5 Hpe5 Hpg5)
    as (s6 & E6 & SP6 & Cr6 & Fl6 & Ip6 & Sg6 & Sz6).
  assert (Hpe6 : get_pe s6 = false) by (unfold get_pe, get_cr0; rewrite Cr6; exact Hpe5).
  assert (Hpg6 : get_pg s6 = false) by (unfold get_pg, get_cr0; rewrite Cr6; exact Hpg5).
  destruct (push16_real (get_ip st) s6 Hpe6 Hpg6)
    as (s7 & E7 & SP7 & Cr7 & Fl7 & Ip7 & Sg7 & Sz7).
  rewrite (bind_ok _ _ _ _ _ E5), (bind_ok _ _ _ _ _ E6), (bind_ok _ _ _ _ _ E7).
  unfold set_if at 1, set_tf at 1. monad_unfold.
  eexists. split; [reflexivity|].
  assert (Es16 : forall x, s16 x = negb (m_stackSize32 (m_sizes x))) by reflexivity.
  assert (S4 : s16 st4 = s16 st) by (rewrite !Es16; cbn; rewrite Sz3, F2; reflexivity).
  assert (S5 : s16 s5 = s16 st) by (rewrite <- S4, !Es16, Sz5; reflexivity).
  assert (S6 : s16 s6 = s16 st) by (rewrite <- S5, !Es16, Sz6; reflexivity).
  assert (C4 : current_stack_pointer st4 = current_stack_pointer st).
  { unfold current_stack_pointer, s32, get_esp, get_sp, read_register32, read_register16.
    cbn. rewrite Sz3, G3, F2. reflexivity. }
  split. { unfold get_cs. cbn. rewrite Sg7, Sg6, Sg5. cbn. fold (get_cs st3). rewrite Cs3.
           unfold u16. apply Z.mod_small. apply (physical_value_range WordSize). }
  split. { unfold get_eip. cbn. rewrite Ip7, Ip6, Ip5. cbn.
           unfold u32. apply Z.mod_small.
           pose proof (physical_value_range WordSize (u8 isr * 4) st1) as R. fold offset in R.
           change (2 ^ (8 * size_of WordSize)) with 65536 in R.
           change (2 ^ 32) with 4294967296. clearbody offset. lia. }
  split; [reflexivity|]. split; [reflexivity|].
  split.
  { match goal with |- current_stack_pointer ?x = _ =>
      change (current_stack_pointer x) with (current_stack_pointer s7) end.
    rewrite SP7, SP6, SP5, S6, S5, S4, C4.
    set (csp := current_stack_pointer st).
    destruct (s16 st).
    - rewrite (u16_sub_idem (csp - 2) 2), u16_sub_idem. f_equal. lia.
    - rewrite (u32_sub_idem (csp - 2) 2), u32_sub_idem. f_equal. lia. }
  intro W.
  assert (Hsp4 : get_sp st4 = get_sp st).
  { unfold get_sp, read_register16. cbn. rewrite G3, F2. reflexivity. }
  assert (Hm4 : m_memory (m_mem st4) = m_memory (m_mem st)).
  { unfold st4. cbn. rewrite M3, F2. exact FA. }
  assert (Hb4 : sd_base (cached_descriptor st4 SS) = sd_base (cached_descriptor st SS)).
  { unfold st4. cbn. fold (cached_descriptor st3 SS). rewrite D3, F2. reflexivity. }
  assert (W4 : real_stack_window st4 (get_sp st - 6) (get_sp st)).
  { apply (real_stack_window_frame st st4); try assumption.
    - unfold st4. cbn. rewrite Cr3, F2. reflexivity.
    - unfold st4. cbn. rewrite M3, F2. exact FB.
    - unfold st4. cbn. rewrite M3, F2. exact FC.
    - unfold st4. cbn. fold (cached_descriptor st3 SS). rewrite D3, F2. reflexivity.
    - unfold st4. cbn. rewrite Sz3, F2. reflexivity. }
  assert (L0 : 0 <= get_sp st - 6) by (destruct W as (_ & _ & _ & L & _); exact L).
  destruct (push16_step st4 _ _ (u16 (get_flags st)) W4 ltac:(lia))
    as (t5 & T5 & W5 & P5 & N5 & B5 & _).
  rewrite E5 in T5. injection T5 as <-.
  destruct (push16_step s5 _ _ (get_cs st) W5 ltac:(lia))
    as (t6 & T6 & W6 & P6 & N6 & B6 & _).
  rewrite E6 in T6. injection T6 as <-.
  destruct (push16_step s6 _ _ (get_ip st) W6 ltac:(lia))
    as (t7 & T7 & W7 & P7 & N7 & B7 & _).
  rewrite E7 in T7. injection T7 as <-.
  split. { change (get_sp s7 = get_sp st - 6). lia. }
  unfold stack_word. cbn [m_mem with_fl cached_descriptor m_descriptor].
  fold (cached_descriptor s7 SS).
  rewrite N7, N6, N5, B7, B6, B5, P6, P5, Hsp4, Hm4, Hb4.
  assert (Eip : u16 (get_ip st) = get_ip st) by apply u16_idem.
  repeat split;
    repeat (rewrite le_load_store_disjoint by (change (Z.of_nat 2) with 2; lia));
    match goal with
    | |- le_load 2 (le_store 2 _ ?a (u16 _)) ?b = _ =>
        replace b with a by lia; rewrite load_pushed_word
    end; first [exact Eip | apply u16_idem | reflexivity].
Qed.

(** ** Reset and reboot (C7) *)

Lemma write_segment_register_real segreg selector st :
  get_pe st = false ->
  exists st',
    write_segment_register segreg selector st = (Ok tt, st')
    /\ (forall r, m_segreg st' r = if segreg_eqb r segreg then u16 selector else m_segreg st r)
    /\ m_gpr st' = m_gpr st /\ m_mem st' = m_mem st /\ m_cr st' = m_cr st
    /\ m_fl st' = m_fl st /\ m_eip st' = m_eip st
    /\ m_is_for_autotest st' = m_is_for_autotest st.
Proof.
  intro Hpe. unfold write_segment_register, update_default_sizes, update_stack_size,
    update_code_segment_cache. monad_unfold. rewrite Hpe.
  cbv beta iota delta [negb orb].
  destruct segreg; (eexists; split; [reflexivity|]); repeat split.
Qed.

Lemma far_jump_real_internal selector offset st :
  get_pe st = false ->
  exists st',
    far_jump 2 selector offset Internal None st = (Ok tt, st')
    /\ get_cs st' = u16 selector /\ get_eip st' = u32 offset
    /\ m_gpr st' = m_gpr st /\ m_mem st' = m_mem st /\ m_cr st' = m_cr st
    /\ m_fl st' = m_fl st /\ m_is_for_autotest st' = m_is_for_autotest st.
Proof.
  intro Hpe. cbn [far_jump]. rewrite bind_gets. rewrite Hpe. cbv beta iota delta [negb orb].
  unfold real_mode_far_jump. rewrite bind_gets. unfold ASSERT. rewrite Hpe.
  cbv beta iota delta [negb orb is_call].
  rewrite (bind_ok _ _ st tt st eq_refl).
  destruct (write_segment_register_real CS selector st Hpe)
    as (s1 & E1 & Sg1 & G1 & M1 & Cr1 & Fl1 & Ip1 & At1).
  unfold set_cs. rewrite (bind_ok _ _ _ _ _ E1).
  unfold set_eip. monad_unfold.
  eexists. split; [reflexivity|]. repeat split; try assumption.
  unfold get_cs. cbn. apply (Sg1 CS).
Qed.

Ltac pe_of Cr Hpe := unfold get_pe, get_cr0; rewrite Cr; exact Hpe.

(** [reset] always completes; it zeroes the registers and rebuilds the
    flags and CS:IP, and does not assign guest memory. *)
Lemma reset_effect st :
  exists st',
    reset st = (Ok tt, st')
    /\ (forall i, m_gpr st' i = 0)
    /\ get_cs st' = (if m_is_for_autotest st then u16 settings_entry_cs else 0xf000)
    /\ get_eip st' = (if m_is_for_autotest st then u32 settings_entry_ip else 0)
    /\ (m_cf (m_fl st') = false /\ m_pf (m_fl st') = false /\ m_af (m_fl st') = false
        /\ m_zf (m_fl st') = false /\ m_sf (m_fl st') = false /\ m_tf (m_fl st') = false
        /\ m_if (m_fl st') = true /\ m_df (m_fl st') = false /\ m_of (m_fl st') = false
        /\ m_nt (m_fl st') = false)
    /\ m_iopl (m_fl st') = 3
    /\ m_state st' = Alive
    /\ m_mem st' = m_mem st
    /\ m_fl st' = reset_flags.
Proof.
  unfold reset. unfold modify at 1.
  rewrite (bind_ok _ _ st tt (reset_registers st) eq_refl).
  set (s0 := reset_registers st).
  assert (Hpe0 : get_pe s0 = false) by reflexivity.
  destruct (write_segment_register_real CS 0 s0 Hpe0)
    as (s1 & E1 & _ & G1 & M1 & Cr1 & F1 & _ & A1).
  unfold set_cs at 1. rewrite (bind_ok _ _ _ _ _ E1).
  assert (Hpe1 : get_pe s1 = false) by pe_of Cr1 Hpe0.
  destruct (write_segment_register_real DS 0 s1 Hpe1)
    as (s2 & E2 & _ & G2 & M2 & Cr2 & F2 & _ & A2).
  unfold set_ds. rewrite (bind_ok _ _ _ _ _ E2).
  assert (Hpe2 : get_pe s2 = false) by pe_of Cr2 Hpe1.
  destruct (write_segment_register_real ES 0 s2 Hpe2)
    as (s3 & E3 & _ & G3 & M3 & Cr3 & F3 & _ & A3).
  unfold set_es. rewrite (bind_ok _ _ _ _ _ E3).
  assert (Hpe3 : get_pe s3 = false) by pe_of Cr3 Hpe2.
  destruct (write_segment_register_real SS 0 s3 Hpe3)
    as (s4 & E4 & _ & G4 & M4 & Cr4 & F4 & _ & A4).
  unfold set_ss. rewrite (bind_ok _ _ _ _ _ E4).
  assert (Hpe4 : get_pe s4 = false) by pe_of Cr4 Hpe3.
  destruct (write_segment_register_real FS 0 s4 Hpe4)
    as (s5 & E5 & _ & G5 & M5 & Cr5 & F5 & _ & A5).
  unfold set_fs. rewrite (bind_ok _ _ _ _ _ E5).
  assert (Hpe5 : get_pe s5 = false) by pe_of Cr5 Hpe4.
  destruct (write_segment_register_real GS 0 s5 Hpe5)
    as (s6 & E6 & _ & G6 & M6 & Cr6 & F6 & _ & A6).
  unfold set_gs. rewrite (bind_ok _ _ _ _ _ E6).
  assert (Hpe6 : get_pe s6 = false) by pe_of Cr6 Hpe5.
  rewrite bind_gets.
  assert (At : m_is_for_autotest s6 = m_is_for_autotest st)
    by (rewrite A6, A5, A4, A3, A2, A1; reflexivity).
  assert (Gz : forall i, m_gpr s6 i = 0)
    by (intro i; rewrite G6, G5, G4, G3, G2, G1; reflexivity).
  assert (Mz : m_mem s6 = m_mem st)
    by (rewrite M6, M5, M4, M3, M2, M1; reflexivity).
  rewrite At.
  assert (J : exists s7,
    (if m_is_for_autotest st
     then far_jump 2 settings_entry_cs settings_entry_ip Internal None
     else far_jump 2 0xf000 0 Internal None) s6 = (Ok tt, s7)
    /\ get_cs s7 = (if m_is_for_autotest st then u16 settings_entry_cs else 0xf000)
    /\ get_eip s7 = (if m_is_for_autotest st then u32 settings_entry_ip else 0)
    /\ m_gpr s7 = m_gpr s6 /\ m_mem s7 = m_mem s6 /\ m_fl s7 = m_fl s6).
  { destruct (m_is_for_autotest st).
    - destruct (far_jump_real_internal settings_entry_cs settings_entry_ip s6 Hpe6)
        as (s7 & E7 & C7 & I7 & G7 & M7 & _ & F7 & _). exists s7. auto 7.
    - destruct (far_jump_real_internal 0xf000 0 s6 Hpe6)
        as (s7 & E7 & C7 & I7 & G7 & M7 & _ & F7 & _). exists s7. auto 7. }
  destruct J as (s7 & E7 & C7 & I7 & G7 & M7 & F7).
  assert (Fz : m_fl s7 = m_fl s0) by (rewrite F7, F6, F5, F4, F3, F2, F1; reflexivity).
  rewrite (bind_ok _ _ _ _ _ E7).
  unfold set_flags, set_iopl, init_watches, recompute_main_loop_needs_slow_stuff.
  monad_unfold.
  eexists. split; [reflexivity|].
  split. { intro i. cbn. rewrite G7. apply Gz. }
  split. { exact C7. }
  split. { exact I7. }
  split. { repeat split. }
  split. { reflexivity. }
  split. { reflexivity. }
  split. { cbn. rewrite M7. exact Mz. }
  cbn. rewrite Fz. reflexivity.
Qed.

(** C7 (as amended).  Every reset of the CPU zeroes the general-purpose
    registers, sets EFLAGS to 0x0200 (IF set and every other flag clear,
    among them NT, RF, VM, AC, ID, VIP and VIF), sets IOPL to 3, and jumps to
    the configured entry point in autotest mode or to F000:0000 otherwise; so
    does the reset triggered by the HardReboot command, which also clears the
    request.  Guest memory is left as it is, by [reset] and by [hard_reboot]:
    it is zeroed only when it is allocated or reallocated with a different
    size. *)
Theorem reset_keeps_guest_memory st :
  (exists st',
     reset st = (Ok tt, st')
     /\ (forall i, m_gpr st' i = 0)
     /\ m_fl st' = reset_flags
     /\ get_cs st' = (if m_is_for_autotest st then u16 settings_entry_cs else 0xf000)
     /\ get_eip st' = (if m_is_for_autotest st then u32 settings_entry_ip else 0)
     /\ m_state st' = Alive
     /\ m_mem st' = m_mem st)
  /\ (forall st1, reset_all_io_devices st = (Ok tt, st1) ->
      exists st',
        hard_reboot st = (Ok tt, st')
        /\ (forall i, m_gpr st' i = 0)
        /\ m_fl st' = reset_flags
        /\ get_cs st' = (if m_is_for_autotest st1 then u16 settings_entry_cs else 0xf000)
        /\ get_eip st' = (if m_is_for_autotest st1 then u32 settings_entry_ip else 0)
        /\ m_state st' = Alive
        /\ m_should_hard_reboot st' = false
        /\ m_mem st' = m_mem st1)
  /\ (forall size,
      let st' := snd (set_memory_size_and_reallocate_if_needed size st) in
      if m_memory_size (m_mem st) =? size then st' = st
      else m_memory_size (m_mem st') = size /\ forall a, m_memory (m_mem st') a = 0).
Proof.
  split; [|split].
  - destruct (reset_effect st) as (s2 & E2 & G2 & C2 & I2 & _ & _ & S2 & M2 & F2).
    exists s2. repeat split; assumption.
  - intros st1 E1. unfold hard_reboot. rewrite (bind_ok _ _ _ _ _ E1).
    destruct (reset_effect st1) as (s2 & E2 & G2 & C2 & I2 & _ & _ & S2 & M2 & F2).
    rewrite (bind_ok _ _ _ _ _ E2). unfold modify.
    eexists. split; [reflexivity|]. repeat split; assumption.
  - intro size. unfold set_memory_size_and_reallocate_if_needed. rewrite bind_gets.
    destruct (m_memory_size (m_mem st) =? size); cbn; auto.
Qed.

(** ** Far return: the stack pointer on a fault (C5) *)

Lemma preserves_ret {A} (a : A) : preserves_gpr (ret a).
Proof. intros st r st' E. injection E as _ <-. reflexivity. Qed.

Lemma preserves_gets {A} (f : CPU -> A) : preserves_gpr (gets f).
Proof. intros st r st' E. injection E as _ <-. reflexivity. Qed.

Lemma preserves_throw {A} e : preserves_gpr (@throw A e).
Proof. intros st r st' E. injection E as _ <-. reflexivity. Qed.

Lemma preserves_crash {A} : preserves_gpr (@crash A).
Proof. intros st r st' E. injection E as _ <-. reflexivity. Qed.

Lemma preserves_modify f : (forall st, m_gpr (f st) = m_gpr st) -> preserves_gpr (modify f).
Proof. intros Hf st r st' E. injection E as _ <-. apply Hf. Qed.

Lemma preserves_bind {A B} (c : M A) (k : A -> M B) :
  preserves_gpr c -> (forall a, preserves_gpr (k a)) -> preserves_gpr (bind c k).
Proof.
  intros Hc Hk st r st' E. unfold bind in E.
  destruct (c st) as [[a| e | | ] s1] eqn:E1.
  - rewrite (Hk a s1 r st' E). exact (Hc _ _ _ E1).
  - injection E as _ <-. exact (Hc _ _ _ E1).
  - injection E as _ <-. exact (Hc _ _ _ E1).
  - injection E as _ <-. exact (Hc _ _ _ E1).
Qed.

Lemma preserves_read_physical T pa : preserves_gpr (read_physical_memory T pa).
Proof.
  intros st r st' E. rewrite read_physical_memory_eq in E. injection E as _ <-.
  destruct (after_read_frame T pa st) as (m & -> & _). reflexivity.
Qed.

Lemma preserves_write_physical T pa v : preserves_gpr (write_physical_memory T pa v).
Proof.
  intros st r st' E. rewrite write_physical_memory_eq in E. injection E as _ <-.
  destruct (after_write_frame T pa v st) as (m & -> & _). reflexivity.
Qed.

Ltac preserves :=
  repeat first
    [ apply preserves_ret | apply preserves_gets | apply preserves_throw
    | apply preserves_crash | apply preserves_read_physical | apply preserves_write_physical
    | apply preserves_modify; intro; reflexivity
    | match goal with H : _ |- preserves_gpr _ => apply H end
    | progress cbv zeta
    | apply preserves_bind; [|intro]
    | match goal with
      | |- preserves_gpr (if ?c then _ else _) => destruct c
      | |- preserves_gpr (match ?x with _ => _ end) => destruct x
      | |- preserves_gpr (ASSERT ?c) => unfold ASSERT
      | |- preserves_gpr ASSERT_NOT_REACHED => unfold ASSERT_NOT_REACHED
      | |- preserves_gpr (when ?c _) => unfold when
      end ].

Lemma preserves_PageFault la flags accessType inUserMode :
  preserves_gpr (PageFault la flags accessType inUserMode).
Proof. unfold PageFault. preserves. Qed.

Lemma preserves_translate_slow la accessType eff :
  preserves_gpr (translate_address_slow_case la accessType eff).
Proof.
  pose proof preserves_PageFault.
  unfold translate_address_slow_case. preserves.
Qed.

Lemma preserves_translate la accessType eff :
  preserves_gpr (translate_address la accessType eff).
Proof. pose proof preserves_translate_slow. unfold translate_address. preserves. Qed.

Lemma preserves_read_memory_whole T la accessType eff :
  preserves_gpr (read_memory_whole T la accessType eff).
Proof. pose proof preserves_translate. unfold read_memory_whole. preserves. Qed.

Lemma preserves_read_memory T la accessType eff :
  preserves_gpr (read_memory T la accessType eff).
Proof. pose proof preserves_read_memory_whole. unfold read_memory. preserves. Qed.

Lemma preserves_validate_address T d offset accessType :
  preserves_gpr (validate_address T d offset accessType).
Proof. unfold validate_address. preserves. Qed.

Lemma preserves_read_memory_segreg T segreg offset accessType :
  preserves_gpr (read_memory_segreg T segreg offset accessType).
Proof.
  pose proof preserves_read_memory. pose proof preserves_validate_address.
  unfold read_memory_segreg, read_memory_descriptor. preserves.
Qed.

Lemma preserves_popper_pop popper : preserves_gpr (popper_pop_operand_sized_value popper).
Proof.
  pose proof preserves_read_memory_segreg.
  unfold popper_pop_operand_sized_value, popper_pop. preserves.
Qed.

Lemma never_throws_ret {A} (a : A) : never_throws (ret a).
Proof. intros st e st' E. discriminate. Qed.

Lemma never_throws_gets {A} (f : CPU -> A) : never_throws (gets f).
Proof. intros st e st' E. discriminate. Qed.

Lemma never_throws_modify f : never_throws (modify f).
Proof. intros st e st' E. discriminate. Qed.

Lemma never_throws_bind {A B} (c : M A) (k : A -> M B) :
  never_throws c -> (forall a, never_throws (k a)) -> never_throws (bind c k).
Proof.
  intros Hc Hk st e st' E. unfold bind in E.
  destruct (c st) as [[a| e1 | | ] s1] eqn:E1; try discriminate.
  - exact (Hk a s1 e st' E).
  - exact (Hc st e1 s1 E1).
Qed.

Lemma never_throws_ASSERT_NO_EXCEPTIONS {A} (c : M A) : never_throws (ASSERT_NO_EXCEPTIONS c).
Proof.
  intros st e st' E. unfold ASSERT_NO_EXCEPTIONS in E.
  destruct (c st) as [[a| e1 | | ] s1]; discriminate.
Qed.

Lemma never_throws_adjust_stack_pointer delta : never_throws (adjust_stack_pointer delta).
Proof.
  unfold adjust_stack_pointer. apply never_throws_bind; [apply never_throws_gets|].
  intro s. destruct (s32 s); apply never_throws_modify.
Qed.

Lemma throw_keeps_of_never {A} (c : M A) : never_throws c -> throw_keeps_gpr c.
Proof. intros Hn st e st' E. destruct (Hn st e st' E). Qed.

Lemma throw_keeps_of_preserves {A} (c : M A) : preserves_gpr c -> throw_keeps_gpr c.
Proof. intros Hp st e st' E. exact (Hp _ _ _ E). Qed.

Lemma throw_keeps_bind {A B} (c : M A) (k : A -> M B) :
  preserves_gpr c -> (forall a, throw_keeps_gpr (k a)) -> throw_keeps_gpr (bind c k).
Proof.
  intros Hc Hk st e st' E. unfold bind in E.
  destruct (c st) as [[a| e1 | | ] s1] eqn:E1; try discriminate.
  - rewrite (Hk a s1 e st' E). exact (Hc _ _ _ E1).
  - injection E as _ <-. exact (Hc _ _ _ E1).
Qed.

Section FarReturn.

(** The descriptor lookup and the protected-mode segment load do not write
    the general registers. *)
Hypothesis get_descriptor_gpr : forall selector, preserves_gpr (get_descriptor selector).
Hypothesis load_gpr :
  forall segreg selector, preserves_gpr (write_segment_register_protected segreg selector).

Lemma preserves_write_segment_register segreg selector :
  preserves_gpr (write_segment_register segreg selector).
Proof.
  pose proof load_gpr.
  unfold write_segment_register, update_default_sizes, update_stack_size,
    update_code_segment_cache. preserves.
Qed.

Lemma protected_far_return_throw_keeps stack_adjustment :
  throw_keeps_gpr (protected_far_return stack_adjustment).
Proof.
  pose proof preserves_popper_pop as Hpop.
  pose proof preserves_write_segment_register as Hws.
  unfold protected_far_return.
  repeat first
    [ apply throw_keeps_bind; [solve [preserves] | intro]
    | match goal with
      | |- throw_keeps_gpr (if ?c then throw _ else _) =>
          destruct c; [apply throw_keeps_of_preserves; apply preserves_throw|]
      end ].
  apply throw_keeps_of_never.
  apply never_throws_bind.
  - destruct (_ <? _).
    + apply never_throws_ASSERT_NO_EXCEPTIONS.
    + unfold popper_commit. apply never_throws_adjust_stack_pointer.
  - intro. apply never_throws_bind; [apply never_throws_gets|]. intro.
    destruct (negb _); [apply never_throws_adjust_stack_pointer | apply never_throws_ret].
Qed.

(** C5.  A protected-mode far RET that raises an exception, in particular
    #GP from the validation of the return selector (null selector, selector
    outside the table limit, non-code target, RPL below CPL, or a violated
    conforming/non-conforming DPL rule), leaves the stack pointer and all
    general registers exactly as they were: the pops are staged in the
    transactional popper and committed only after every check has passed. *)
Theorem far_return_fault_keeps_stack_pointer st stack_adjustment :
  (forall e st',
     protected_far_return stack_adjustment st = (Throw e, st') ->
     get_esp st' = get_esp st /\ m_gpr st' = m_gpr st)
  /\ (forall r1 st1 r2 st2 d st3,
      get_pe st = true ->
      popper_pop_operand_sized_value (mkPopper 0) st = (Ok r1, st1) ->
      popper_pop_operand_sized_value (snd r1) st1 = (Ok r2, st2) ->
      get_descriptor (u16 (fst r2)) st2 = (Ok d, st3) ->
      far_return_validation_fails d (u16 (fst r2)) (get_cpl st3) = true ->
      exists code,
        protected_far_return stack_adjustment st
        = (Throw (GeneralProtectionFault code), st3)
        /\ get_esp st3 = get_esp st).
Proof.
  split.
  - intros e st' E.
    pose proof (protected_far_return_throw_keeps stack_adjustment st e st' E) as G.
    split; [unfold get_esp, read_register32; now rewrite G | exact G].
  - intros r1 st1 r2 st2 d st3 Hpe E1 E2 E3 Hv.
    assert (G : m_gpr st3 = m_gpr st).
    { rewrite (get_descriptor_gpr _ _ _ _ E3).
      rewrite (preserves_popper_pop _ _ _ _ E2).
      exact (preserves_popper_pop _ _ _ _ E1). }
    assert (Hesp : get_esp st3 = get_esp st)
      by (unfold get_esp, read_register32; now rewrite G).
    unfold protected_far_return. rewrite bind_gets. rewrite Hpe.
    unfold ASSERT. rewrite (bind_ok _ _ st tt st eq_refl).
    rewrite (bind_ok _ _ _ _ _ E1), (bind_ok _ _ _ _ _ E2).
    rewrite bind_gets. rewrite (bind_ok _ _ _ _ _ E3).
    unfold far_return_validation_fails in Hv. cbv zeta in Hv.
    destruct (is_null d); [eexists; split; [reflexivity|exact Hesp]|].
    destruct (is_outside_table_limits d); [eexists; split; [reflexivity|exact Hesp]|].
    destruct (is_code d); cbv beta iota delta [negb];
      [|eexists; split; [reflexivity|exact Hesp]].
    rewrite bind_gets.
    destruct (Z.land (u16 (fst r2)) 3 <? get_cpl st3);
      [eexists; split; [reflexivity|exact Hesp]|].
    destruct (sd_conforming (as_segment_descriptor d)); cbv beta iota delta [negb andb orb] in *.
    + destruct (Z.land (u16 (fst r2)) 3 <? sd_dpl (as_segment_descriptor d));
        [eexists; split; [reflexivity|exact Hesp]|discriminate].
    + destruct (sd_dpl (as_segment_descriptor d) =? Z.land (u16 (fst r2)) 3);
        [discriminate|eexists; split; [reflexivity|exact Hesp]].
Qed.

End FarReturn.

(** ** Far CALL through a call gate to an inner ring (C3) *)

Lemma bind_ret_unit (c : M unit) st : bind c (fun _ => ret tt) st = c st.
Proof.
  unfold bind, ret. destruct (c st) as [[[]| | | ] s]; reflexivity.
Qed.

(** C3.  A protected-mode far CALL through a call gate whose target code
    segment has DPL below the current CPL, once the gate, the code segment and
    the new stack segment have passed their checks, is exactly this: the CPU
    takes the inner-ring SS:ESP from the current TSS, switches to it, and
    pushes the old SS, the old ESP, the old CS and the old EIP in this order,
    each in the gate's size; EFLAGS is not pushed.  The hypotheses name the
    results of the descriptor lookups, of the CS load and of the TSS reads. *)
Theorem far_call_through_gate_to_inner_ring
    fuel st selector offset g c nd newSS newESP st1 st2 st3 st5 st6 st7 :
  get_pe st = true -> get_vm st = false ->
  get_descriptor selector st = (Ok (CallGate g), st1) ->
  gate_parameter_count g = 0 ->
  get_cpl st1 <= gate_dpl g -> Z.land selector 3 <= gate_dpl g ->
  gate_present g = true ->
  get_pe st1 = true -> get_vm st1 = false ->
  get_descriptor (gate_selector g) st1 = (Ok (Segment c), st2) ->
  sd_code c = true -> sd_present c = true ->
  gate_entry_offset g c <= sd_effective_limit c ->
  set_cs (gate_selector g) st2 = (Ok tt, st3) ->
  sd_dpl c < get_cpl st1 ->
  tss_get_ring_ss (sd_dpl c) (with_eip (u32 (gate_entry_offset g c)) st3) = (Ok newSS, st5) ->
  tss_get_ring_esp (sd_dpl c) st5 = (Ok newESP, st6) ->
  get_descriptor newSS st6 = (Ok (Segment nd), st7) ->
  sd_code nd = false -> sd_writable nd = true -> sd_present nd = true ->
  sd_dpl nd = sd_dpl c ->
  far_jump (S (S fuel)) selector offset CALL None st
  = inner_ring_call_frame newSS newESP (get_ss st1) (get_esp st1) (get_cs st1) (get_eip st1)
      (sd_dpl c) (gate_push_size g) st7.
Proof.
  intros Hpe Hvm Hgate Hpc Hgd Hrpl Hgp Hpe1 Hvm1 Hcode Hc Hcp Hlim Hcs Hesc
    Hss Hesp Hnd Hndc Hndw Hndp Hnddpl.
  cbn [far_jump]. rewrite bind_gets. rewrite Hpe, Hvm. cbv beta iota delta [negb orb].
  unfold protected_mode_far_jump_with at 1. rewrite bind_gets.
  unfold ASSERT at 1. rewrite Hpe. rewrite (bind_ok _ _ st tt st eq_refl).
  rewrite (bind_ok _ _ _ _ _ Hgate).
  cbv beta iota delta [is_null is_outside_table_limits is_code is_call_gate is_task_gate
                        is_tss is_gate negb andb orb].
  rewrite Hpc. cbv beta iota delta [Z.eqb negb].
  rewrite bind_gets.
  rewrite (proj2 (Z.ltb_ge _ _) Hgd), (proj2 (Z.ltb_ge _ _) Hrpl), Hgp.
  cbv beta iota delta [negb].
  rewrite bind_gets. rewrite Hpe1, Hvm1. cbv beta iota delta [negb orb].
  unfold protected_mode_far_jump_with. rewrite bind_gets.
  unfold ASSERT at 1. rewrite Hpe1. rewrite (bind_ok _ _ st1 tt st1 eq_refl).
  rewrite (bind_ok _ _ _ _ _ Hcode).
  cbv beta iota delta [is_null is_outside_table_limits is_code is_call_gate is_task_gate
                        is_tss is_gate negb andb orb as_segment_descriptor dpl].
  rewrite Hc. cbv beta iota delta [negb andb orb].
  rewrite (bind_ok _ _ st2 tt st2 eq_refl).
  rewrite Hcp. cbv beta iota delta [negb].
  fold (gate_entry_offset g c).
  rewrite (proj2 (Z.ltb_ge _ _) Hlim).
  rewrite (bind_ok _ _ _ _ _ Hcs).
  unfold set_eip at 1. unfold modify at 1.
  rewrite (bind_ok _ _ st3 tt (with_eip (u32 (gate_entry_offset g c)) st3) eq_refl).
  rewrite (proj2 (Z.ltb_lt _ _) Hesc).
  unfold inner_ring_call_frame, is_call. fold (gate_push_size g).
  unfold bind at 1. unfold bind at 1.
  rewrite Hss. unfold bind at 1. rewrite Hesp. unfold bind at 1. rewrite Hnd.
  cbv beta iota delta [is_null is_outside_table_limits is_data present dpl
                        as_segment_descriptor].
  rewrite Hndc, Hndw, Hndp, Hnddpl, Z.eqb_refl.
  cbv beta iota delta [negb andb orb].
  unfold bind at 7.
  destruct (ASSERT_NO_EXCEPTIONS _ st7) as [[[]| | | ] s8]; try reflexivity.
  apply bind_ret_unit.
Qed.

(** * Further properties of the memory subsystem *)

Lemma land_a20_mask_nonneg st a : 0 <= Z.land a (a20_mask st).
Proof.
  apply Z.land_nonneg. right. unfold a20_mask. destruct (is_a20_enabled st); lia.
Qed.

Lemma translate_address_unpaged st la accessType effectiveCPL :
  get_pg st = false ->
  translate_address la accessType effectiveCPL st = (Ok la, st).
Proof.
  intro Hpg. unfold translate_address. monad_unfold. rewrite Hpg.
  rewrite orb_true_r. reflexivity.
Qed.

Lemma read_memory_unpaged st T la accessType effectiveCPL :
  get_pg st = false ->
  read_memory T la accessType effectiveCPL st
  = read_physical_memory T (Z.land la (a20_mask st)) st.
Proof.
  intro Hpg.
  assert (W : read_memory_whole T la accessType effectiveCPL st
              = read_physical_memory T (Z.land la (a20_mask st)) st).
  { unfold read_memory_whole. rewrite (bind_ok _ _ _ _ _ (translate_address_unpaged _ _ _ _ Hpg)).
    rewrite bind_gets. reflexivity. }
  destruct T; cbn [read_memory]; try exact W;
    rewrite bind_gets, Hpg; cbv beta iota delta [andb]; exact W.
Qed.

Lemma write_memory_unpaged st T la value effectiveCPL :
  get_pg st = false ->
  write_memory T la value effectiveCPL st
  = write_physical_memory T (Z.land la (a20_mask st)) value st.
Proof.
  intro Hpg.
  assert (W : write_memory_whole T la value effectiveCPL st
              = write_physical_memory T (Z.land la (a20_mask st)) value st).
  { unfold write_memory_whole. rewrite (bind_ok _ _ _ _ _ (translate_address_unpaged _ _ _ _ Hpg)).
    rewrite bind_gets. reflexivity. }
  destruct T; cbn [write_memory]; try exact W;
    rewrite bind_gets, Hpg; cbv beta iota delta [andb]; exact W.
Qed.




(** ** Registering a memory provider *)

Lemma register_blocks_spec count i h table j :
  register_blocks count i h table j
  = if (i <=? j) && (j <? i + Z.of_nat count) then Some h else table j.
Proof.
  revert i table. induction count as [|k IH]; intros i table.
  - cbn [register_blocks]. destruct (i <=? j) eqn:E1, (j <? i + Z.of_nat 0) eqn:E2;
      try reflexivity. apply Z.leb_le in E1. apply Z.ltb_lt in E2. lia.
  - cbn [register_blocks]. rewrite IH.
    destruct (Z.leb_spec (i + 1) j), (Z.ltb_spec j (i + 1 + Z.of_nat k)),
      (Z.leb_spec i j), (Z.ltb_spec j (i + Z.of_nat (S k))), (Z.eqb_spec j i);
      cbn [andb]; try reflexivity; lia.
Qed.

(** X4.  Registering a provider that ends at or below 1 MiB points every block
    from the one holding its base address up to, and not including, the one
    holding [base + size] at the provider: the addresses of these blocks are
    then dispatched to it, and all other addresses are dispatched as before.
    Guest RAM and the provider objects are not touched. *)
Theorem registered_provider_is_dispatched st h :
  0 < memory_provider_block_size ->
  0 <= base_address (provider_objects (m_mem st) h) ->
  0 <= size (provider_objects (m_mem st) h) ->
  base_address (provider_objects (m_mem st) h) + size (provider_objects (m_mem st) h)
    <= 1048576 ->
  let first_block := base_address (provider_objects (m_mem st) h) / memory_provider_block_size in
  let end_block :=
    (base_address (provider_objects (m_mem st) h) + size (provider_objects (m_mem st) h))
    / memory_provider_block_size in
  exists st',
    register_memory_provider h st = (Ok tt, st')
    /\ (forall a, first_block * memory_provider_block_size <= a
                  < end_block * memory_provider_block_size ->
                  memory_provider_for_address st' a = Some h)
    /\ (forall a, a < first_block * memory_provider_block_size
                  \/ end_block * memory_provider_block_size <= a ->
                  memory_provider_for_address st' a = memory_provider_for_address st a)
    /\ m_memory (m_mem st') = m_memory (m_mem st)
    /\ m_memory_size (m_mem st') = m_memory_size (m_mem st)
    /\ provider_objects (m_mem st') = provider_objects (m_mem st).
Proof.
  intros Hblk Hbase Hsize Hend first_block end_block.
  set (p := provider_objects (m_mem st) h) in *.
  assert (Eu : u32 (base_address p + size p) = base_address p + size p)
    by (unfold u32; apply Z.mod_small; lia).
  assert (Hfe : first_block <= end_block)
    by (apply Z.div_le_mono; lia).
  assert (Hend20 : end_block * memory_provider_block_size <= 1048576).
  { pose proof (Z.mul_div_le (base_address p + size p) memory_provider_block_size Hblk).
    unfold end_block. lia. }
  unfold register_memory_provider. rewrite bind_gets. fold p. rewrite Eu.
  destruct (Z.ltb_spec 1048576 (base_address p + size p)); [lia|].
  fold first_block end_block.
  eexists. split; [reflexivity|].
  assert (Hblock : forall a lo, lo * memory_provider_block_size <= a <-> lo <= a / memory_provider_block_size).
  { intros a lo. split; intro L.
    - apply Z.div_le_lower_bound; lia.
    - pose proof (Z.mul_div_le a memory_provider_block_size Hblk). nia. }
  assert (Hblock' : forall a hi, a < hi * memory_provider_block_size <-> a / memory_provider_block_size < hi).
  { intros a hi. split; intro L.
    - apply Z.div_lt_upper_bound; lia.
    - destruct (Z.lt_ge_cases a (hi * memory_provider_block_size)) as [|G]; [assumption|].
      apply Hblock in G. lia. }
  split.
  { intros a [L U]. unfold memory_provider_for_address.
    destruct (Z.leb_spec 1048576 a); [lia|].
    cbn [m_mem with_mem m_memory_providers]. rewrite register_blocks_spec.
    rewrite Z2Nat.id by lia.
    apply Hblock in L. apply Hblock' in U.
    destruct (Z.leb_spec first_block (a / memory_provider_block_size)),
      (Z.ltb_spec (a / memory_provider_block_size) (first_block + (end_block - first_block)));
      cbn [andb]; try reflexivity; lia. }
  split.
  { intros a Ha. unfold memory_provider_for_address.
    destruct (Z.leb_spec 1048576 a); [reflexivity|].
    cbn [m_mem with_mem m_memory_providers]. rewrite register_blocks_spec.
    rewrite Z2Nat.id by lia.
    destruct (Z.leb_spec first_block (a / memory_provider_block_size)) as [L|L],
      (Z.ltb_spec (a / memory_provider_block_size) (first_block + (end_block - first_block)))
        as [U|U]; cbn [andb]; try reflexivity.
    apply Hblock in L. assert (U' : a / memory_provider_block_size < end_block) by lia.
    apply Hblock' in U'. lia. }
  repeat split.
Qed.


(** ** The segment checks of a memory access *)

(** X6.  Outside VM86 mode, a write through a segment passes [validate_address]
    exactly when the descriptor is not null, is a writable data segment and the
    last byte of the access lies within the effective limit; a read passes
    exactly when the descriptor is not null, is not an execute-only code
    segment and the access lies within the limit.  A refused access raises
    #SS(0) when the descriptor is loaded in SS and #GP(0) otherwise (always
    #GP(0) for the read of an execute-only segment), and changes nothing. *)
Theorem validate_address_decides st T d offset :
  get_vm st = false ->
  validate_address T d offset Write st
  = (if negb (sd_null d) && negb (sd_code d) && sd_writable d
        && (offset + (size_of T - 1) <=? sd_effective_limit d)
     then (Ok tt, st) else (Throw (fault_for d), st))
  /\ validate_address T d offset Read st
     = (if sd_null d then (Throw (fault_for d), st)
        else if sd_code d && negb (sd_readable d) then (Throw (GeneralProtectionFault 0), st)
        else if offset + (size_of T - 1) <=? sd_effective_limit d then (Ok tt, st)
        else (Throw (fault_for d), st)).
Proof.
  intro Hvm. unfold validate_address. monad_unfold. rewrite Hvm.
  cbv beta iota delta [negb is_execute andb].
  rewrite (Z.leb_antisym (sd_effective_limit d) (offset + (size_of T - 1))).
  split.
  - destruct (sd_null d), (sd_code d), (sd_writable d),
      (sd_effective_limit d <? offset + (size_of T - 1)); reflexivity.
  - destruct (sd_null d), (sd_code d), (sd_readable d),
      (sd_effective_limit d <? offset + (size_of T - 1)); reflexivity.
Qed.

(** * Registers in the width of the address size *)

Lemma write_register16_read i v st :
  read_register16 i (write_register16 i v st) = u16 v.
Proof.
  unfold read_register16, write_register16. cbn [m_gpr with_gpr]. rewrite Z.eqb_refl.
  unfold u16.
  pose proof (Z.div_mod (m_gpr st i) (2 ^ 16) ltac:(lia)) as D.
  replace (m_gpr st i - m_gpr st i mod 2 ^ 16 + v mod 2 ^ 16)
    with (v mod 2 ^ 16 + (m_gpr st i / 2 ^ 16) * 2 ^ 16) by lia.
  rewrite Z.mod_add by lia. apply Z.mod_mod. lia.
Qed.

Lemma write_register16_upper i v st :
  m_gpr (write_register16 i v st) i / 2 ^ 16 = m_gpr st i / 2 ^ 16.
Proof.
  unfold write_register16. cbn [m_gpr with_gpr]. rewrite Z.eqb_refl. unfold u16.
  pose proof (Z.div_mod (m_gpr st i) (2 ^ 16) ltac:(lia)) as D.
  pose proof (Z.mod_pos_bound v (2 ^ 16) ltac:(lia)) as B.
  replace (m_gpr st i - m_gpr st i mod 2 ^ 16 + v mod 2 ^ 16)
    with (v mod 2 ^ 16 + (m_gpr st i / 2 ^ 16) * 2 ^ 16) by lia.
  rewrite Z.div_add by lia. rewrite Z.div_small by lia. lia.
Qed.

Lemma write_register16_other i j v st :
  j <> i -> m_gpr (write_register16 i v st) j = m_gpr st j.
Proof.
  intro N. unfold write_register16. cbn [m_gpr with_gpr].
  destruct (Z.eqb_spec j i); [contradiction|reflexivity].
Qed.

Lemma write_register32_other i j v st :
  j <> i -> m_gpr (write_register32 i v st) j = m_gpr st j.
Proof.
  intro N. unfold write_register32. cbn [m_gpr with_gpr].
  destruct (Z.eqb_spec j i); [contradiction|reflexivity].
Qed.

Lemma write_register32_read i v st : read_register32 i (write_register32 i v st) = u32 v.
Proof. unfold read_register32, write_register32. cbn [m_gpr with_gpr]. now rewrite Z.eqb_refl. Qed.

Lemma u16_u32 x : u16 (u32 x) = u16 x.
Proof.
  unfold u16, u32. symmetry.
  rewrite (Z.div_mod x (2 ^ 32)) at 1 by lia.
  replace (2 ^ 32 * (x / 2 ^ 32) + x mod 2 ^ 32)
    with (x mod 2 ^ 32 + (2 ^ 16 * (x / 2 ^ 32)) * 2 ^ 16) by lia.
  apply Z.mod_add. lia.
Qed.

Lemma u16_add_u32 a b : u16 (a + u32 b) = u16 (a + b).
Proof.
  unfold u16. rewrite <- (Z.add_mod_idemp_r a (u32 b)) by lia.
  fold (u16 (u32 b)). rewrite u16_u32. unfold u16. rewrite Z.add_mod_idemp_r by lia.
  reflexivity.
Qed.

Lemma u32_add_u32 a b : u32 (a + u32 b) = u32 (a + b).
Proof. unfold u32. rewrite Z.add_mod_idemp_r by lia. reflexivity. Qed.

(** X7.  [step_register_for_address_size] moves a string pointer by the step,
    forwards with DF clear and backwards with DF set, and wraps in the
    address width: with 16-bit addresses the low half of the register wraps
    modulo 65536 and the upper half is kept.  No other register changes. *)
Theorem step_register_wraps_in_address_width st register_index stepSize :
  exists st',
    step_register_for_address_size register_index stepSize st = (Ok tt, st')
    /\ read_register_for_address_size register_index st'
       = (if a32 st then u32 else u16)
           (read_register_for_address_size register_index st
            + (if get_df st then - stepSize else stepSize))
    /\ (a32 st = false -> m_gpr st' register_index / 2 ^ 16 = m_gpr st register_index / 2 ^ 16)
    /\ (forall j, j <> register_index -> m_gpr st' j = m_gpr st j)
    /\ m_mem st' = m_mem st /\ m_fl st' = m_fl st /\ m_sizes st' = m_sizes st.
Proof.
  unfold step_register_for_address_size, modify.
  eexists. split; [reflexivity|].
  unfold read_register_for_address_size.
  destruct (a32 st) eqn:Ea.
  - assert (Ea' : a32 (write_register32 register_index
                    (read_register32 register_index st
                     + (if get_df st then u32 (- stepSize) else u32 stepSize)) st) = true)
      by exact Ea.
    rewrite Ea'. rewrite write_register32_read.
    split; [destruct (get_df st); apply u32_add_u32|].
    split; [discriminate|].
    split; [intros j Hj; now apply write_register32_other|].
    repeat split.
  - assert (Ea' : a32 (write_register16 register_index
                    (read_register16 register_index st
                     + (if get_df st then u32 (- stepSize) else u32 stepSize)) st) = false)
      by exact Ea.
    rewrite Ea'. rewrite write_register16_read.
    split; [destruct (get_df st); apply u16_add_u32|].
    split; [intros _; apply write_register16_upper|].
    split; [intros j Hj; now apply write_register16_other|].
    repeat split.
Qed.

(** X8.  [decrement_cx_for_address_size] lowers the count register in the
    address width and reports whether it reached zero: the answer is true
    exactly when the count was 1, and a count of 0 wraps to all ones (the
    answer is then false). *)
Theorem decrement_cx_reports_zero st :
  exists st',
    decrement_cx_for_address_size st
    = (Ok ((if a32 st then u32 else u16) (read_register_for_address_size RegisterECX st) =? 1),
       st')
    /\ read_register_for_address_size RegisterECX st'
       = (if a32 st then u32 else u16) (read_register_for_address_size RegisterECX st - 1)
    /\ (read_register_for_address_size RegisterECX st = 0 ->
        read_register_for_address_size RegisterECX st' = if a32 st then 0xFFFFFFFF else 0xFFFF)
    /\ (forall j, j <> RegisterECX -> m_gpr st' j = m_gpr st j).
Proof.
  unfold decrement_cx_for_address_size. rewrite bind_gets.
  unfold read_register_for_address_size.
  destruct (a32 st) eqn:Ea.
  - unfold bind, modify, gets. eexists. split.
    + f_equal. f_equal. rewrite write_register32_read.
      unfold u32.
      pose proof (Z.mod_pos_bound (read_register32 RegisterECX st) (2 ^ 32) ltac:(lia)) as B.
      destruct (Z.eqb_spec (read_register32 RegisterECX st mod 2 ^ 32) 1) as [E|N].
      * apply Z.eqb_eq. rewrite <- Zminus_mod_idemp_l, E. reflexivity.
      * apply Z.eqb_neq. rewrite <- Zminus_mod_idemp_l.
        destruct (Z.eq_dec (read_register32 RegisterECX st mod 2 ^ 32) 0) as [Z0|NZ].
        -- rewrite Z0. discriminate.
        -- rewrite Z.mod_small by lia. lia.
    + assert (Ea' : a32 (write_register32 RegisterECX (read_register32 RegisterECX st - 1) st)
                    = true) by exact Ea.
      rewrite Ea', write_register32_read.
      split; [reflexivity|].
      split; [intros ->; reflexivity|].
      intros j Hj. now apply write_register32_other.
  - unfold bind, modify, gets. eexists. split.
    + f_equal. f_equal. rewrite write_register16_read.
      assert (Er : u16 (read_register16 RegisterECX st) = read_register16 RegisterECX st)
        by apply u16_idem.
      rewrite Er.
      assert (B : 0 <= read_register16 RegisterECX st < 2 ^ 16)
        by (unfold read_register16, u16; apply Z.mod_pos_bound; lia).
      unfold u16 at 1.
      destruct (Z.eqb_spec (read_register16 RegisterECX st) 1) as [E|N].
      * apply Z.eqb_eq. rewrite E. reflexivity.
      * apply Z.eqb_neq.
        destruct (Z.eq_dec (read_register16 RegisterECX st) 0) as [Z0|NZ].
        -- rewrite Z0. discriminate.
        -- rewrite Z.mod_small by lia. lia.
    + assert (Ea' : a32 (write_register16 RegisterECX (read_register16 RegisterECX st - 1) st)
                    = false) by exact Ea.
      rewrite Ea', write_register16_read.
      split; [reflexivity|].
      split; [intros ->; reflexivity|].
      intros j Hj. now apply write_register16_other.
Qed.

(** * The privilege level *)

Lemma land_u16_low x m : 0 <= m < 2 ^ 16 -> Z.land (u16 x) m = Z.land x m.
Proof.
  intro Hm. unfold u16. rewrite <- Z.land_ones by lia.
  rewrite <- Z.land_assoc. f_equal.
  rewrite Z.land_comm, Z.land_ones by lia. apply Z.mod_small. exact Hm.
Qed.

(** X9.  In protected mode outside VM86, [set_cpl] with a level from 0 to 3
    makes that level the CPL and writes it into the two low bits of the CS
    selector, leaving the rest of the selector as it was; in real and VM86 mode
    the selector is not touched. *)
Theorem set_cpl_sets_selector_rpl st cpl :
  0 <= cpl <= 3 ->
  exists st',
    set_cpl cpl st = (Ok tt, st')
    /\ get_cpl st' = cpl
    /\ (get_pe st && negb (get_vm st) = true ->
        Z.land (get_cs st') 3 = cpl
        /\ Z.land (get_cs st') 0xfffc = Z.land (get_cs st) 0xfffc)
    /\ (get_pe st && negb (get_vm st) = false -> get_cs st' = get_cs st)
    /\ m_gpr st' = m_gpr st /\ m_mem st' = m_mem st /\ m_eip st' = m_eip st.
Proof.
  intro Hc. unfold set_cpl, modify. eexists. split; [reflexivity|].
  assert (Eu : u8 cpl = cpl) by (unfold u8; apply Z.mod_small; lia).
  rewrite Eu.
  split.
  { unfold get_cpl, cached_descriptor, set_descriptor. cbn [m_descriptor with_descriptor].
    cbn [segreg_eqb]. reflexivity. }
  split.
  { intro Hpm. rewrite Hpm.
    unfold get_cs, set_descriptor, set_selector.
    cbn [m_segreg with_descriptor with_segreg segreg_eqb].
    rewrite !land_u16_low by lia.
    rewrite !Z.land_lor_distr_l, <- !Z.land_assoc.
    change (Z.land 0xfffc 3) with 0. change (Z.land 0xfffc 0xfffc) with 0xfffc.
    rewrite Z.land_0_r, Z.lor_0_l.
    assert (E3 : Z.land cpl 3 = cpl).
    { change 3 with (Z.ones 2). rewrite Z.land_ones by lia. apply Z.mod_small. lia. }
    assert (E4 : Z.land cpl 0xfffc = 0).
    { rewrite <- E3, <- Z.land_assoc. change (Z.land 3 0xfffc) with 0. apply Z.land_0_r. }
    rewrite E3, E4, Z.lor_0_r. split; reflexivity. }
  split.
  { intro Hpm. rewrite Hpm. reflexivity. }
  repeat split; destruct (get_pe st && negb (get_vm st)); reflexivity.
Qed.

(** * The stack instructions of the 186 *)

(** One 16-bit pop on a real-mode stack window. *)
Lemma pop16_step st lo hi :
  real_stack_window st lo hi ->
  lo <= get_sp st -> get_sp st + 2 <= hi ->
  exists st',
    pop16 st = (Ok (stack_word st (get_sp st)), st')
    /\ real_stack_window st' lo hi
    /\ get_sp st' = u16 (get_sp st + 2)
    /\ m_mem st' = m_mem st
    /\ m_descriptor st' = m_descriptor st
    /\ (forall i, i <> RegisterESP -> m_gpr st' i = m_gpr st i)
    /\ m_fl st' = m_fl st /\ m_segreg st' = m_segreg st /\ m_eip st' = m_eip st
    /\ m_cr st' = m_cr st /\ m_sizes st' = m_sizes st.
Proof.
  intros (Hpe & Hpg & Hs16 & Hlo & Hhi & Hb & H20 & Hsz & Hram) Hl Hh.
  assert (Hs32 : s32 st = false) by (unfold s16 in Hs16; now apply negb_true_iff in Hs16).
  set (B := sd_base (cached_descriptor st SS)) in *.
  set (sp := get_sp st) in *.
  assert (Eu : u16 (sp + 0) = sp).
  { rewrite Z.add_0_r. unfold sp, get_sp, read_register16. apply u16_idem. }
  assert (El : linear_address (cached_descriptor st SS) sp = B + sp).
  { unfold linear_address, u32. apply Z.mod_small. fold B. lia. }
  assert (Ev : validate_physical_address (B + sp) st = true).
  { unfold validate_physical_address. apply Z.ltb_lt. lia. }
  assert (Er : ram_backed st (B + sp)) by (apply Hram; lia).
  unfold pop16, pop_sized, popper_pop, popper_commit, read_memory_segreg,
    read_memory_descriptor, adjust_stack_pointer.
  monad_unfold. unfold current_stack_pointer.
  repeat (first [rewrite Hs16 | rewrite Hs32 | rewrite Hpe | rewrite Hpg];
          cbv beta iota delta [negb andb orb]).
  fold sp. cbn [m_offset]. rewrite Eu, El.
  rewrite read_memory_unpaged by exact Hpg.
  rewrite a20_mask_below by lia.
  rewrite read_physical_memory_eq, (after_read_ram_backed _ _ _ Er),
    (proj1 (physical_value_ram _ _ _ Ev Er)).
  cbv beta iota. cbn [fst snd m_offset]. rewrite Hs32.
  unfold set_sp, modify. fold sp.
  change (0 + size_of WordSize) with 2.
  eexists. split; [reflexivity|].
  split.
  { unfold real_stack_window. repeat split; try assumption; try (fold B; lia). }
  split.
  { unfold get_sp at 1. apply write_register16_read. }
  split; [reflexivity|]. split; [reflexivity|].
  split; [intros i Hi; now apply write_register16_other|].
  repeat split.
Qed.

(** PUSHA on a 16-bit real-mode stack, with its frame: what it stores, and
    what it leaves alone. *)
Lemma pusha_effect st :
  real_stack_window st (get_sp st - 16) (get_sp st) ->
  exists st',
    _PUSHA st = (Ok tt, st')
    /\ real_stack_window st' (get_sp st - 16) (get_sp st)
    /\ get_sp st' = get_sp st - 16
    /\ (stack_word st' (get_sp st - 2) = read_register16 RegisterEAX st
        /\ stack_word st' (get_sp st - 4) = read_register16 RegisterECX st
        /\ stack_word st' (get_sp st - 6) = read_register16 RegisterEDX st
        /\ stack_word st' (get_sp st - 8) = read_register16 RegisterEBX st
        /\ stack_word st' (get_sp st - 10) = get_sp st
        /\ stack_word st' (get_sp st - 12) = read_register16 RegisterEBP st
        /\ stack_word st' (get_sp st - 14) = read_register16 RegisterESI st
        /\ stack_word st' (get_sp st - 16) = read_register16 RegisterEDI st)
    /\ (forall b, b < sd_base (cached_descriptor st SS) + (get_sp st - 16)
                  \/ sd_base (cached_descriptor st SS) + get_sp st <= b ->
                  m_memory (m_mem st') b = m_memory (m_mem st) b)
    /\ sd_base (cached_descriptor st' SS) = sd_base (cached_descriptor st SS)
    /\ (forall i, i <> RegisterESP -> m_gpr st' i = m_gpr st i)
    /\ m_fl st' = m_fl st /\ m_segreg st' = m_segreg st /\ m_eip st' = m_eip st
    /\ m_cr st' = m_cr st.
Proof.
  intro W.
  destruct (pusha_layout st W) as (st0 & E0 & _ & L).
  set (sp := get_sp st) in *.
  assert (Hsp0 : 0 <= sp - 16) by (destruct W as (_ & _ & _ & L0 & _); exact L0).
  revert E0. unfold _PUSHA. rewrite !bind_gets. fold sp.
  assert (Hsp : get_sp st = sp) by reflexivity.
  push_step W s1 E1 W1 SP1 M1 B1 G1. rewrite bind_gets.
  push_step W1 s2 E2 W2 SP2 M2 B2 G2. rewrite bind_gets.
  push_step W2 s3 E3 W3 SP3 M3 B3 G3. rewrite bind_gets.
  push_step W3 s4 E4 W4 SP4 M4 B4 G4.
  push_step W4 s5 E5 W5 SP5 M5 B5 G5. rewrite bind_gets.
  push_step W5 s6 E6 W6 SP6 M6 B6 G6. rewrite bind_gets.
  push_step W6 s7 E7 W7 SP7 M7 B7 G7. rewrite bind_gets.
  push_step W7 s8 E8 W8 SP8 M8 B8 G8.
  intro E0. injection E0 as <-.
  exists s8. split; [reflexivity|]. split; [exact W8|]. split; [lia|].
  split; [exact L|].
  split.
  { intros b Hb. rewrite M8, M7, M6, M5, M4, M3, M2, M1.
    rewrite B7, B6, B5, B4, B3, B2, B1.
    rewrite SP7, SP6, SP5, SP4, SP3, SP2, SP1. fold sp.
    destruct Hb as [Hb|Hb].
    - rewrite !le_store_below by lia. reflexivity.
    - rewrite !le_store_above by (change (Z.of_nat 2) with 2; lia). reflexivity. }
  split; [rewrite B8, B7, B6, B5, B4, B3, B2, B1; reflexivity|].
  split.
  { intros i Hi. rewrite (G8 i Hi), (G7 i Hi), (G6 i Hi), (G5 i Hi), (G4 i Hi), (G3 i Hi),
      (G2 i Hi), (G1 i Hi). reflexivity. }
  destruct X as (F1 & S1 & I1 & C1), X0 as (F2 & S2 & I2 & C2), X1 as (F3 & S3 & I3 & C3),
    X2 as (F4 & S4 & I4 & C4), X3 as (F5 & S5 & I5 & C5), X4 as (F6 & S6 & I6 & C6),
    X5 as (F7 & S7 & I7 & C7), X6 as (F8 & S8 & I8 & C8).
  repeat split; congruence.
Qed.

Lemma bind_modify {B} (f : CPU -> CPU) (k : unit -> M B) st :
  bind (modify f) k st = k tt (f st).
Proof. reflexivity. Qed.

Lemma write_register16_window r v st lo hi :
  real_stack_window st lo hi -> real_stack_window (write_register16 r v st) lo hi.
Proof. apply real_stack_window_frame; reflexivity. Qed.

Lemma write_register16_sp r v st :
  r <> RegisterESP -> get_sp (write_register16 r v st) = get_sp st.
Proof.
  intro N. unfold get_sp, read_register16. rewrite write_register16_other; [reflexivity|].
  intro E. apply N. symmetry. exact E.
Qed.

Lemma write_register16_restore r st s :
  m_gpr s r = m_gpr st r ->
  m_gpr (write_register16 r (read_register16 r st) s) r = m_gpr st r.
Proof.
  intro E. unfold write_register16, read_register16. cbn [m_gpr with_gpr].
  rewrite Z.eqb_refl, E, u16_idem. lia.
Qed.

(** A pop into a 16-bit register other than SP. *)
Lemma pop16_into st lo hi r :
  real_stack_window st lo hi ->
  lo <= get_sp st -> get_sp st + 2 <= hi -> get_sp st + 2 < 2 ^ 16 ->
  r <> RegisterESP ->
  exists st',
    (forall k : M unit,
       bind pop16 (fun v => bind (modify (write_register16 r v)) (fun _ => k)) st = k st')
    /\ bind pop16 (fun v => modify (write_register16 r v)) st = (Ok tt, st')
    /\ real_stack_window st' lo hi
    /\ get_sp st' = get_sp st + 2
    /\ m_mem st' = m_mem st /\ m_descriptor st' = m_descriptor st
    /\ m_gpr st' r = m_gpr st r - u16 (m_gpr st r) + u16 (stack_word st (get_sp st))
    /\ (forall i, i <> RegisterESP -> i <> r -> m_gpr st' i = m_gpr st i)
    /\ m_fl st' = m_fl st /\ m_segreg st' = m_segreg st /\ m_eip st' = m_eip st
    /\ m_cr st' = m_cr st /\ m_sizes st' = m_sizes st.
Proof.
  intros W Hl Hh Hw Hr.
  destruct (pop16_step st lo hi W Hl Hh)
    as (s & E & W' & SP' & Mem' & D' & G' & F' & S' & I' & C' & Z').
  unfold u16 in SP'. rewrite Z.mod_small in SP'
    by (pose proof (Z.mod_pos_bound (m_gpr st RegisterESP) (2 ^ 16) ltac:(lia));
        unfold get_sp, read_register16, u16 in *; lia).
  exists (write_register16 r (stack_word st (get_sp st)) s).
  split; [intro k; rewrite (bind_ok _ _ _ _ _ E); reflexivity|].
  split; [rewrite (bind_ok _ _ _ _ _ E); reflexivity|].
  split; [apply write_register16_window; exact W'|].
  split; [rewrite write_register16_sp by exact Hr; exact SP'|].
  split; [exact Mem'|]. split; [exact D'|].
  split.
  { unfold write_register16. cbn [m_gpr with_gpr]. rewrite Z.eqb_refl.
    rewrite (G' r Hr). reflexivity. }
  split.
  { intros i Hi Hir. rewrite write_register16_other by exact Hir. apply G'. exact Hi. }
  repeat split; assumption.
Qed.

(** A pop whose value is dropped. *)
Lemma pop16_drop st lo hi :
  real_stack_window st lo hi ->
  lo <= get_sp st -> get_sp st + 2 <= hi -> get_sp st + 2 < 2 ^ 16 ->
  exists st',
    (forall k : M unit, bind pop16 (fun _ => k) st = k st')
    /\ real_stack_window st' lo hi
    /\ get_sp st' = get_sp st + 2
    /\ m_mem st' = m_mem st /\ m_descriptor st' = m_descriptor st
    /\ (forall i, i <> RegisterESP -> m_gpr st' i = m_gpr st i)
    /\ m_fl st' = m_fl st /\ m_segreg st' = m_segreg st /\ m_eip st' = m_eip st
    /\ m_cr st' = m_cr st /\ m_sizes st' = m_sizes st.
Proof.
  intros W Hl Hh Hw.
  destruct (pop16_step st lo hi W Hl Hh)
    as (s & E & W' & SP' & Mem' & D' & G' & F' & S' & I' & C' & Z').
  unfold u16 in SP'. rewrite Z.mod_small in SP'
    by (pose proof (Z.mod_pos_bound (m_gpr st RegisterESP) (2 ^ 16) ltac:(lia));
        unfold get_sp, read_register16, u16 in *; lia).
  exists s. split; [intro k; rewrite (bind_ok _ _ _ _ _ E); reflexivity|].
  split; [exact W'|]. repeat split; assumption.
Qed.

Lemma stack_word_frame st st' offset :
  m_mem st' = m_mem st -> m_descriptor st' = m_descriptor st ->
  stack_word st' offset = stack_word st offset.
Proof. intros Em Ed. unfold stack_word, cached_descriptor. now rewrite Em, Ed. Qed.

Lemma restore_low_half g : g - u16 g + u16 (u16 g) = g.
Proof. rewrite u16_idem. lia. Qed.

(** X10.  On a 16-bit real-mode stack with 16 bytes of room, POPA after PUSHA
    restores all eight 16-bit registers, SP included, and every general
    register other than ESP in full; flags, segment registers and EIP are
    untouched, and guest memory changes only in the 16 bytes below the
    original SP. *)
Theorem pusha_popa_round_trip st :
  real_stack_window st (get_sp st - 16) (get_sp st) ->
  exists st',
    bind _PUSHA (fun _ => _POPA) st = (Ok tt, st')
    /\ (forall i, read_register16 i st' = read_register16 i st)
    /\ (forall i, i <> RegisterESP -> m_gpr st' i = m_gpr st i)
    /\ (forall b, b < sd_base (cached_descriptor st SS) + (get_sp st - 16)
                  \/ sd_base (cached_descriptor st SS) + get_sp st <= b ->
                  m_memory (m_mem st') b = m_memory (m_mem st) b)
    /\ m_fl st' = m_fl st /\ m_segreg st' = m_segreg st /\ m_eip st' = m_eip st.
Proof.
  intro W.
  destruct (pusha_effect st W)
    as (s0 & E0 & W0 & SP0 & (A1 & A2 & A3 & A4 & A5 & A6 & A7 & A8) & Mo & B0 & G0
        & F0 & S0 & I0 & C0).
  rewrite (bind_ok _ _ _ _ _ E0).
  set (sp := get_sp st) in *.
  assert (Hsp : 0 <= sp < 2 ^ 16)
    by (unfold sp, get_sp, read_register16, u16; apply Z.mod_pos_bound; lia).
  assert (Hsp0 : 0 <= sp - 16) by (destruct W as (_ & _ & _ & L0 & _); exact L0).
  unfold _POPA.
  destruct (pop16_into s0 _ _ RegisterEDI W0 ltac:(lia) ltac:(lia) ltac:(lia) ltac:(discriminate))
    as (s1 & K1 & _ & W1 & SP1 & M1 & D1 & R1 & G1 & F1 & S1 & I1 & C1 & Z1).
  rewrite K1.
  destruct (pop16_into s1 _ _ RegisterESI W1 ltac:(lia) ltac:(lia) ltac:(lia) ltac:(discriminate))
    as (s2 & K2 & _ & W2 & SP2 & M2 & D2 & R2 & G2 & F2 & S2 & I2 & C2 & Z2).
  rewrite K2.
  destruct (pop16_into s2 _ _ RegisterEBP W2 ltac:(lia) ltac:(lia) ltac:(lia) ltac:(discriminate))
    as (s3 & K3 & _ & W3 & SP3 & M3 & D3 & R3 & G3 & F3 & S3 & I3 & C3 & Z3).
  rewrite K3.
  destruct (pop16_drop s3 _ _ W3 ltac:(lia) ltac:(lia) ltac:(lia))
    as (s4 & K4 & W4 & SP4 & M4 & D4 & G4 & F4 & S4 & I4 & C4 & Z4).
  rewrite K4.
  destruct (pop16_into s4 _ _ RegisterEBX W4 ltac:(lia) ltac:(lia) ltac:(lia) ltac:(discriminate))
    as (s5 & K5 & _ & W5 & SP5 & M5 & D5 & R5 & G5 & F5 & S5 & I5 & C5 & Z5).
  rewrite K5.
  destruct (pop16_into s5 _ _ RegisterEDX W5 ltac:(lia) ltac:(lia) ltac:(lia) ltac:(discriminate))
    as (s6 & K6 & _ & W6 & SP6 & M6 & D6 & R6 & G6 & F6 & S6 & I6 & C6 & Z6).
  rewrite K6.
  destruct (pop16_into s6 _ _ RegisterECX W6 ltac:(lia) ltac:(lia) ltac:(lia) ltac:(discriminate))
    as (s7 & K7 & _ & W7 & SP7 & M7 & D7 & R7 & G7 & F7 & S7 & I7 & C7 & Z7).
  rewrite K7.
  destruct (pop16_into s7 _ _ RegisterEAX W7 ltac:(lia) ltac:(lia) ltac:(lia) ltac:(discriminate))
    as (s8 & _ & K8 & W8 & SP8 & M8 & D8 & R8 & G8 & F8 & S8 & I8 & C8 & Z8).
  rewrite K8.
  exists s8. split; [reflexivity|].
  assert (Em : m_mem s1 = m_mem s0 /\ m_mem s2 = m_mem s0 /\ m_mem s3 = m_mem s0
               /\ m_mem s4 = m_mem s0 /\ m_mem s5 = m_mem s0 /\ m_mem s6 = m_mem s0
               /\ m_mem s7 = m_mem s0 /\ m_mem s8 = m_mem s0) by (repeat split; congruence).
  assert (Ed : m_descriptor s1 = m_descriptor s0 /\ m_descriptor s2 = m_descriptor s0
               /\ m_descriptor s3 = m_descriptor s0 /\ m_descriptor s4 = m_descriptor s0
               /\ m_descriptor s5 = m_descriptor s0 /\ m_descriptor s6 = m_descriptor s0
               /\ m_descriptor s7 = m_descriptor s0) by (repeat split; congruence).
  destruct Em as (Em1 & Em2 & Em3 & Em4 & Em5 & Em6 & Em7 & Em8).
  destruct Ed as (Ed1 & Ed2 & Ed3 & Ed4 & Ed5 & Ed6 & Ed7).
  assert (Q : forall i, i <> RegisterESP -> m_gpr s8 i = m_gpr st i).
  { intros i Hi.
    destruct (Z.eq_dec i RegisterEDI) as [->|N1].
    { rewrite (G8 RegisterEDI), (G7 RegisterEDI), (G6 RegisterEDI), (G5 RegisterEDI), (G4 RegisterEDI), (G3 RegisterEDI), (G2 RegisterEDI) by discriminate. rewrite R1. 
      replace (get_sp s0) with (sp - 16) by lia. rewrite A8.
      rewrite (G0 RegisterEDI) by discriminate. unfold read_register16. apply restore_low_half. }
    destruct (Z.eq_dec i RegisterESI) as [->|N2].
    { rewrite (G8 RegisterESI), (G7 RegisterESI), (G6 RegisterESI), (G5 RegisterESI), (G4 RegisterESI), (G3 RegisterESI) by discriminate. rewrite R2. rewrite (stack_word_frame s0 s1) by assumption. 
      replace (get_sp s1) with (sp - 14) by lia. rewrite A7.
      rewrite (G1 RegisterESI), (G0 RegisterESI) by discriminate. unfold read_register16. apply restore_low_half. }
    destruct (Z.eq_dec i RegisterEBP) as [->|N3].
    { rewrite (G8 RegisterEBP), (G7 RegisterEBP), (G6 RegisterEBP), (G5 RegisterEBP), (G4 RegisterEBP) by discriminate. rewrite R3. rewrite (stack_word_frame s0 s2) by assumption. 
      replace (get_sp s2) with (sp - 12) by lia. rewrite A6.
      rewrite (G2 RegisterEBP), (G1 RegisterEBP), (G0 RegisterEBP) by discriminate. unfold read_register16. apply restore_low_half. }
    destruct (Z.eq_dec i RegisterEBX) as [->|N5].
    { rewrite (G8 RegisterEBX), (G7 RegisterEBX), (G6 RegisterEBX) by discriminate. rewrite R5. rewrite (stack_word_frame s0 s4) by assumption. 
      replace (get_sp s4) with (sp - 8) by lia. rewrite A4.
      rewrite (G4 RegisterEBX), (G3 RegisterEBX), (G2 RegisterEBX), (G1 RegisterEBX), (G0 RegisterEBX) by discriminate. unfold read_register16. apply restore_low_half. }
    destruct (Z.eq_dec i RegisterEDX) as [->|N6].
    { rewrite (G8 RegisterEDX), (G7 RegisterEDX) by discriminate. rewrite R6. rewrite (stack_word_frame s0 s5) by assumption. 
      replace (get_sp s5) with (sp - 6) by lia. rewrite A3.
      rewrite (G5 RegisterEDX), (G4 RegisterEDX), (G3 RegisterEDX), (G2 RegisterEDX), (G1 RegisterEDX), (G0 RegisterEDX) by discriminate. unfold read_register16. apply restore_low_half. }
    destruct (Z.eq_dec i RegisterECX) as [->|N7].
    { rewrite (G8 RegisterECX) by discriminate. rewrite R7. rewrite (stack_word_frame s0 s6) by assumption. 
      replace (get_sp s6) with (sp - 4) by lia. rewrite A2.
      rewrite (G6 RegisterECX), (G5 RegisterECX), (G4 RegisterECX), (G3 RegisterECX), (G2 RegisterECX), (G1 RegisterECX), (G0 RegisterECX) by discriminate. unfold read_register16. apply restore_low_half. }
    destruct (Z.eq_dec i RegisterEAX) as [->|N8].
    { rewrite R8. rewrite (stack_word_frame s0 s7) by assumption. 
      replace (get_sp s7) with (sp - 2) by lia. rewrite A1.
      rewrite (G7 RegisterEAX), (G6 RegisterEAX), (G5 RegisterEAX), (G4 RegisterEAX), (G3 RegisterEAX), (G2 RegisterEAX), (G1 RegisterEAX), (G0 RegisterEAX) by discriminate. unfold read_register16. apply restore_low_half. }
    rewrite (G8 i), (G7 i), (G6 i), (G5 i), (G4 i), (G3 i), (G2 i), (G1 i), (G0 i)
      by assumption. reflexivity. }
  split.
  { intro i. destruct (Z.eq_dec i RegisterESP) as [->|N].
    - change (get_sp s8 = get_sp st). fold sp. lia.
    - unfold read_register16. now rewrite Q. }
  split; [exact Q|].
  split; [intros b Hb; rewrite Em8; apply Mo; exact Hb|].
  repeat split; congruence.
Qed.

(** One 16-bit push on a real-mode stack window, with everything it keeps. *)
Lemma push16_step_full st lo hi value :
  real_stack_window st lo hi ->
  lo + 2 <= get_sp st <= hi ->
  exists st',
    push16 value st = (Ok tt, st')
    /\ real_stack_window st' lo hi
    /\ get_sp st' = get_sp st - 2
    /\ m_memory (m_mem st')
       = le_store 2 (m_memory (m_mem st))
           (sd_base (cached_descriptor st SS) + (get_sp st - 2)) (u16 value)
    /\ m_descriptor st' = m_descriptor st
    /\ (forall i, i <> RegisterESP -> m_gpr st' i = m_gpr st i)
    /\ m_gpr st' RegisterESP / 2 ^ 16 = m_gpr st RegisterESP / 2 ^ 16
    /\ m_fl st' = m_fl st /\ m_segreg st' = m_segreg st /\ m_eip st' = m_eip st
    /\ m_cr st' = m_cr st /\ m_sizes st' = m_sizes st.
Proof.
  intros (Hpe & Hpg & Hs16 & Hlo & Hhi & Hb & H20 & Hsz & Hram) Hsp.
  assert (Hs32 : s32 st = false) by (unfold s16 in Hs16; now apply negb_true_iff in Hs16).
  set (B := sd_base (cached_descriptor st SS)) in *.
  set (sp := get_sp st) in *.
  assert (Eu : u16 (sp - 2) = sp - 2) by (unfold u16; apply Z.mod_small; lia).
  assert (El : linear_address (cached_descriptor st SS) (sp - 2) = B + (sp - 2)).
  { unfold linear_address, u32. apply Z.mod_small. fold B. lia. }
  assert (Ev : validate_physical_address (B + (sp - 2)) st = true).
  { unfold validate_physical_address. apply Z.ltb_lt. lia. }
  assert (Er : ram_backed st (B + (sp - 2))) by (apply Hram; lia).
  unfold push16, push_sized, write_memory_segreg, write_memory_descriptor,
    adjust_stack_pointer.
  monad_unfold. unfold current_stack_pointer.
  repeat (first [rewrite Hs16 | rewrite Hs32 | rewrite Hpe | rewrite Hpg];
          cbv beta iota delta [negb andb orb]).
  fold sp.
  change (size_of WordSize) with 2. rewrite Eu, El.
  rewrite write_memory_unpaged by exact Hpg.
  rewrite a20_mask_below by lia.
  rewrite write_physical_memory_eq. rewrite (after_write_ram _ _ _ _ Ev Er).
  cbv beta iota. unfold s32 at 1. cbn [m_sizes with_mem]. fold (s32 st). rewrite Hs32.
  unfold set_sp. monad_unfold.
  eexists. split; [reflexivity|].
  assert (Esp : get_sp (with_mem (with_memory
                   (le_store (size_bytes WordSize) (m_memory (m_mem st)) (B + (sp - 2))
                      (truncate WordSize value)) (m_mem st)) st) = sp) by reflexivity.
  rewrite Esp.
  split.
  { unfold real_stack_window. repeat split; try assumption; try (fold B; lia). }
  split.
  { unfold get_sp at 1. rewrite write_register16_read.
    change (sp + - (2)) with (sp - 2). exact Eu. }
  split; [reflexivity|]. split; [reflexivity|].
  split; [intros i Hi; now rewrite write_register16_other|].
  split; [now rewrite write_register16_upper|].
  repeat split.
Qed.

(** A word read through a segment register in real mode, paging off: it
    never faults, and guest RAM and the registers are as before. *)
Lemma read_word_real st segreg offset :
  get_pe st = false -> get_pg st = false ->
  exists v mem',
    read_memory_segreg WordSize segreg offset Read st = (Ok v, with_mem mem' st)
    /\ m_memory mem' = m_memory (m_mem st)
    /\ m_memory_size mem' = m_memory_size (m_mem st)
    /\ m_memory_providers mem' = m_memory_providers (m_mem st).
Proof.
  intros Hpe Hpg.
  unfold read_memory_segreg, read_memory_descriptor. rewrite !bind_gets.
  rewrite Hpe. cbv beta iota delta [andb when]. rewrite (bind_ok _ _ st tt st eq_refl).
  rewrite read_memory_unpaged by exact Hpg.
  rewrite read_physical_memory_eq.
  destruct (after_read_frame WordSize
              (Z.land (linear_address (cached_descriptor st segreg) offset) (a20_mask st)) st)
    as (mem' & E & A & B & C).
  rewrite E. exists (physical_value WordSize
              (Z.land (linear_address (cached_descriptor st segreg) offset) (a20_mask st)) st),
    mem'. repeat split; assumption.
Qed.

Lemma enter_frames_effect n : forall st lo hi,
  real_stack_window st lo hi ->
  lo + 2 * Z.of_nat n <= get_sp st <= hi ->
  exists st',
    enter_frames n st = (Ok tt, st')
    /\ real_stack_window st' lo hi
    /\ get_sp st' = get_sp st - 2 * Z.of_nat n
    /\ (forall b, b < sd_base (cached_descriptor st SS) + (get_sp st - 2 * Z.of_nat n)
                  \/ sd_base (cached_descriptor st SS) + get_sp st <= b ->
                  m_memory (m_mem st') b = m_memory (m_mem st) b)
    /\ m_descriptor st' = m_descriptor st
    /\ (forall i, i <> RegisterESP -> m_gpr st' i = m_gpr st i)
    /\ m_fl st' = m_fl st /\ m_segreg st' = m_segreg st /\ m_eip st' = m_eip st
    /\ m_cr st' = m_cr st /\ m_sizes st' = m_sizes st.
Proof.
  induction n as [|n IH]; intros st lo hi W Hsp.
  - exists st. split; [reflexivity|]. split; [exact W|].
    split; [simpl; lia|]. repeat split; reflexivity.
  - cbn [enter_frames]. rewrite bind_gets.
    pose proof W as (Hpe & Hpg & _).
    destruct (read_word_real st SS (read_register16 RegisterEBP st) Hpe Hpg)
      as (v & mem' & E & Am & As & Ap).
    rewrite (bind_ok _ _ _ _ _ E).
    assert (W1 : real_stack_window (with_mem mem' st) lo hi)
      by (apply (real_stack_window_frame st); try reflexivity; assumption).
    assert (Hsp1 : lo + 2 <= get_sp (with_mem mem' st) <= hi)
      by (change (get_sp (with_mem mem' st)) with (get_sp st); lia).
    destruct (push16_step_full _ lo hi v W1 Hsp1)
      as (s2 & E2 & W2 & SP2 & M2 & D2 & G2 & _ & F2 & S2 & I2 & C2 & Z2).
    rewrite (bind_ok _ _ _ _ _ E2).
    change (get_sp (with_mem mem' st)) with (get_sp st) in SP2, M2.
    change (cached_descriptor (with_mem mem' st) SS) with (cached_descriptor st SS) in M2.
    cbn [m_mem with_mem] in M2. rewrite Am in M2.
    destruct (IH s2 lo hi W2 ltac:(lia))
      as (s3 & E3 & W3 & SP3 & M3 & D3 & G3 & F3 & S3 & I3 & C3 & Z3).
    exists s3. split; [exact E3|]. split; [exact W3|].
    split; [lia|].
    assert (Eb : sd_base (cached_descriptor s2 SS) = sd_base (cached_descriptor st SS))
      by (unfold cached_descriptor; rewrite D2; reflexivity).
    split.
    { intros b Hb. rewrite M3 by (rewrite Eb; lia). rewrite M2.
      destruct Hb; [apply le_store_below | apply le_store_above; change (Z.of_nat 2) with 2];
        lia. }
    split; [rewrite D3, D2; reflexivity|].
    split; [intros i Hi; rewrite (G3 i Hi), (G2 i Hi); reflexivity|].
    cbn [m_fl m_segreg m_eip m_cr m_sizes with_mem] in F2, S2, I2, C2, Z2.
    repeat split; congruence.
Qed.

Lemma set_sp_effect v st :
  exists st',
    set_sp v st = (Ok tt, st')
    /\ get_sp st' = u16 v
    /\ (forall i, i <> RegisterESP -> m_gpr st' i = m_gpr st i)
    /\ m_mem st' = m_mem st /\ m_descriptor st' = m_descriptor st
    /\ m_fl st' = m_fl st /\ m_segreg st' = m_segreg st /\ m_eip st' = m_eip st
    /\ m_cr st' = m_cr st /\ m_sizes st' = m_sizes st
    /\ forall lo hi, real_stack_window st lo hi -> real_stack_window st' lo hi.
Proof.
  unfold set_sp, modify. eexists. split; [reflexivity|].
  split; [apply write_register16_read|].
  split; [intros i Hi; now rewrite write_register16_other|].
  do 7 (split; [reflexivity|]). intros lo hi. apply write_register16_window.
Qed.

Lemma bind_assert_true {B} (k : unit -> M B) st : bind (ASSERT true) k st = k tt st.
Proof. reflexivity. Qed.

(** ENTER on a 16-bit real-mode stack: BP is pushed at SP-2 and then points
    at that word; pushes of the nesting level go below it. *)
Lemma enter_effect st size level :
  let nestingLevel := Z.land (u8 level) 31 in
  let pushed := if 0 <? nestingLevel then 2 * Z.max 0 (nestingLevel - 2) + 4 else 2 in
  real_stack_window st (get_sp st - pushed) (get_sp st) ->
  o16 st = true -> a16 st = true ->
  exists st',
    _ENTER size level st = (Ok tt, st')
    /\ real_stack_window st' (get_sp st - pushed) (get_sp st)
    /\ read_register16 RegisterEBP st' = get_sp st - 2
    /\ stack_word st' (get_sp st - 2) = read_register16 RegisterEBP st
    /\ m_gpr st' RegisterEBP / 2 ^ 16 = m_gpr st RegisterEBP / 2 ^ 16
    /\ (forall i, i <> RegisterESP -> i <> RegisterEBP -> m_gpr st' i = m_gpr st i)
    /\ (forall b, b < sd_base (cached_descriptor st SS) + (get_sp st - pushed)
                  \/ sd_base (cached_descriptor st SS) + get_sp st <= b ->
                  m_memory (m_mem st') b = m_memory (m_mem st) b)
    /\ m_descriptor st' = m_descriptor st /\ m_sizes st' = m_sizes st.
Proof.
  intros nestingLevel pushed W Ho Ha.
  set (sp := get_sp st) in *. set (B := sd_base (cached_descriptor st SS)) in *.
  assert (Hn : 0 <= nestingLevel < 32).
  { unfold nestingLevel. change 31 with (Z.ones 5). rewrite Z.land_ones by lia.
    apply Z.mod_pos_bound. lia. }
  assert (Hsp : 0 <= sp < 2 ^ 16)
    by (unfold sp, get_sp, read_register16, u16; apply Z.mod_pos_bound; lia).
  assert (Hp : 2 <= pushed) by (unfold pushed; destruct (0 <? nestingLevel); lia).
  assert (Hlo : 0 <= sp - pushed) by (destruct W as (_ & _ & _ & L0 & _); exact L0).
  unfold _ENTER. rewrite bind_gets. rewrite Ho, Ha. rewrite !bind_assert_true.
  fold nestingLevel. rewrite bind_gets.
  destruct (push16_step_full st _ _ (read_register16 RegisterEBP st) W ltac:(fold sp; lia))
    as (s1 & E1 & W1 & SP1 & M1 & D1 & G1 & U1 & F1 & S1 & I1 & C1 & Z1).
  rewrite (bind_ok _ _ _ _ _ E1). rewrite bind_gets. fold sp in SP1, M1. fold B in M1.
  rewrite SP1.
  assert (Eb1 : sd_base (cached_descriptor s1 SS) = B)
    by (unfold cached_descriptor; rewrite D1; reflexivity).
  assert (Mid : exists s2,
    (if 0 <? nestingLevel
     then bind (enter_frames (Z.to_nat (nestingLevel - 2))) (fun _ => push16 (sp - 2))
     else ret tt) s1 = (Ok tt, s2)
    /\ real_stack_window s2 (sp - pushed) sp
    /\ (forall b, b < B + (sp - pushed) \/ B + (sp - 2) <= b ->
                  m_memory (m_mem s2) b = m_memory (m_mem s1) b)
    /\ m_descriptor s2 = m_descriptor s1
    /\ (forall i, i <> RegisterESP -> m_gpr s2 i = m_gpr s1 i)
    /\ m_sizes s2 = m_sizes s1).
  { unfold pushed in *. destruct (0 <? nestingLevel).
    - destruct (enter_frames_effect (Z.to_nat (nestingLevel - 2)) s1 _ _ W1 ltac:(lia))
        as (s2 & E2 & W2 & SP2 & M2 & D2 & G2 & F2 & S2 & I2 & C2 & Z2).
      rewrite (bind_ok _ _ _ _ _ E2).
      destruct (push16_step_full s2 _ _ (sp - 2) W2 ltac:(lia))
        as (s3 & E3 & W3 & SP3 & M3 & D3 & G3 & U3 & F3 & S3 & I3 & C3 & Z3).
      exists s3. split; [exact E3|]. split; [exact W3|].
      assert (Eb2 : sd_base (cached_descriptor s2 SS) = B)
        by (unfold cached_descriptor; rewrite D2; exact Eb1).
      split.
      { intros b Hb. rewrite M3, Eb2.
        rewrite <- (M2 b) by (rewrite Eb1; lia).
        destruct Hb; [apply le_store_below | apply le_store_above; change (Z.of_nat 2) with 2];
          lia. }
      split; [congruence|].
      split; [intros i Hi; rewrite (G3 i Hi), (G2 i Hi); reflexivity|].
      congruence.
    - exists s1. split; [reflexivity|]. split; [exact W1|]. repeat split; reflexivity. }
  destruct Mid as (s2 & E2 & W2 & M2 & D2 & G2 & Z2).
  rewrite (bind_ok _ _ _ _ _ E2). rewrite bind_modify, bind_gets.
  destruct (set_sp_effect (get_sp (write_register16 RegisterEBP (sp - 2) s2) - u16 size)
              (write_register16 RegisterEBP (sp - 2) s2))
    as (s3 & E3 & _ & G3 & M3 & D3 & _ & _ & _ & _ & Z3 & W3).
  exists s3. split; [exact E3|].
  split; [apply W3, write_register16_window; exact W2|].
  split.
  { unfold read_register16. rewrite G3 by discriminate.
    fold (read_register16 RegisterEBP (write_register16 RegisterEBP (sp - 2) s2)).
    rewrite write_register16_read. unfold u16. apply Z.mod_small. lia. }
  split.
  { unfold stack_word, cached_descriptor. rewrite M3, D3. cbn [m_mem m_descriptor with_gpr write_register16].
    rewrite D2, D1. fold (cached_descriptor st SS). fold B.
    rewrite (le_load_ext 2 (m_memory (m_mem s1)) (m_memory (m_mem s2)))
      by (intros x Hx; apply M2; lia).
    rewrite M1. rewrite load_pushed_word. unfold read_register16. apply u16_idem. }
  split.
  { rewrite G3 by discriminate. rewrite write_register16_upper.
    rewrite G2, G1 by discriminate. reflexivity. }
  split.
  { intros i Hi Hb. rewrite (G3 i Hi). rewrite write_register16_other by exact Hb.
    rewrite (G2 i Hi), (G1 i Hi). reflexivity. }
  split.
  { intros b Hb. rewrite M3. cbn [m_mem with_gpr write_register16].
    rewrite M2 by lia. rewrite M1.
    destruct Hb; [apply le_store_below | apply le_store_above; change (Z.of_nat 2) with 2];
      lia. }
  split; [rewrite D3; cbn [m_descriptor with_gpr write_register16]; congruence|].
  rewrite Z3. cbn [m_sizes with_gpr write_register16]. congruence.
Qed.


(** * Far calls and returns in real mode *)

Lemma set_cs_real_frame selector st :
  get_pe st = false ->
  exists st',
    set_cs selector st = (Ok tt, st')
    /\ get_cs st' = u16 selector
    /\ sd_base (cached_descriptor st' CS) = u16 selector * 16
    /\ m_gpr st' = m_gpr st /\ m_mem st' = m_mem st /\ m_cr st' = m_cr st
    /\ m_fl st' = m_fl st /\ m_eip st' = m_eip st
    /\ o16 st' = o16 st
    /\ (forall r, r <> CS -> m_segreg st' r = m_segreg st r)
    /\ forall lo hi, real_stack_window st lo hi -> real_stack_window st' lo hi.
Proof.
  intro Hpe. unfold set_cs, write_segment_register, update_default_sizes,
    update_code_segment_cache. monad_unfold. rewrite Hpe.
  cbv beta iota delta [negb orb].
  eexists. split; [reflexivity|].
  do 8 (split; [reflexivity|]).
  split; [intros r Hr; destruct r; try reflexivity; contradiction|].
  intros lo hi. apply real_stack_window_frame; reflexivity.
Qed.

Lemma push_operand_sized_value_16 value st :
  o16 st = true -> push_operand_sized_value value st = push16 value st.
Proof. intro Ho. unfold push_operand_sized_value. rewrite bind_gets, Ho. reflexivity. Qed.

Lemma pop_operand_sized_value_16 st :
  o16 st = true -> pop_operand_sized_value st = pop16 st.
Proof.
  intro Ho. unfold pop_operand_sized_value, popper_pop_operand_sized_value, pop16, pop_sized.
  unfold bind at 1 3. unfold bind at 1. unfold gets. rewrite Ho. reflexivity.
Qed.

Lemma set_eip_window v st lo hi :
  real_stack_window st lo hi -> real_stack_window (with_eip v st) lo hi.
Proof. apply real_stack_window_frame; reflexivity. Qed.

Lemma u32_u16 x : u32 (u16 x) = u16 x.
Proof.
  unfold u32, u16. apply Z.mod_small.
  pose proof (Z.mod_pos_bound x (2 ^ 16) ltac:(lia)). lia.
Qed.

(** X12.  In real mode with 16-bit operands and stack, a far CALL followed by
    a far RET comes back: the call transfers to selector:offset with the old
    CS and IP pushed, and the return restores CS, IP and SP.  Flags and the
    other general registers are untouched. *)
Theorem real_mode_far_call_returns st fuel selector offset :
  real_stack_window st (get_sp st - 4) (get_sp st) ->
  o16 st = true ->
  exists st1 st',
    far_jump (S fuel) selector offset CALL None st = (Ok tt, st1)
    /\ get_cs st1 = u16 selector /\ get_eip st1 = u32 offset
    /\ get_sp st1 = get_sp st - 4
    /\ stack_word st1 (get_sp st - 2) = u16 (get_cs st)
    /\ stack_word st1 (get_sp st - 4) = u16 (get_eip st)
    /\ far_return 0 st1 = (Ok tt, st')
    /\ get_cs st' = u16 (get_cs st) /\ get_eip st' = u16 (get_eip st)
    /\ get_sp st' = get_sp st
    /\ (forall i, i <> RegisterESP -> m_gpr st' i = m_gpr st i)
    /\ m_fl st' = m_fl st.
Proof.
  intros W Ho.
  pose proof W as (Hpe & Hpg & _).
  set (sp := get_sp st) in *.
  assert (Hsp : 0 <= sp < 2 ^ 16)
    by (unfold sp, get_sp, read_register16, u16; apply Z.mod_pos_bound; lia).
  assert (Hlo : 0 <= sp - 4) by (destruct W as (_ & _ & _ & L0 & _); exact L0).
  cbn [far_jump]. rewrite bind_gets. rewrite Hpe. cbv beta iota delta [negb orb].
  unfold real_mode_far_jump. rewrite bind_gets. rewrite Hpe.
  cbv beta iota delta [negb orb is_call]. rewrite bind_assert_true.
  destruct (set_cs_real_frame selector st Hpe)
    as (s1 & E1 & Cs1 & _ & G1 & M1 & Cr1 & Fl1 & Ip1 & O1 & Sg1 & Wf1).
  rewrite (bind_ok _ _ _ _ _ E1). unfold set_eip at 1. rewrite bind_modify.
  set (s2 := with_eip (u32 offset) s1).
  assert (W2 : real_stack_window s2 (sp - 4) sp) by (apply set_eip_window, Wf1, W).
  assert (O2 : o16 s2 = true) by (change (o16 s2) with (o16 s1); congruence).
  assert (SP2 : get_sp s2 = sp) by (unfold s2, sp, get_sp, read_register16; cbn; now rewrite G1).
  destruct (push16_step_full s2 _ _ (get_cs st) W2 ltac:(lia))
    as (s3 & E3 & W3 & SP3 & M3 & D3 & G3 & _ & F3 & S3 & I3 & C3 & Z3).
  rewrite <- (push_operand_sized_value_16 _ _ O2) in E3.
  rewrite (bind_ok _ _ _ _ _ E3).
  assert (O3 : o16 s3 = true) by (unfold o16, o32; rewrite Z3; exact O2).
  destruct (push16_step_full s3 _ _ (get_eip st) W3 ltac:(lia))
    as (s4 & E4 & W4 & SP4 & M4 & D4 & G4 & _ & F4 & S4 & I4 & C4 & Z4).
  rewrite <- (push_operand_sized_value_16 _ _ O3) in E4.
  rewrite E4.
  assert (O4 : o16 s4 = true) by (unfold o16, o32; rewrite Z4; exact O3).
  assert (Eb : sd_base (cached_descriptor s3 SS) = sd_base (cached_descriptor s2 SS))
    by (unfold cached_descriptor; now rewrite D3).
  assert (K2 : stack_word s4 (sp - 2) = u16 (get_cs st)).
  { unfold stack_word, cached_descriptor. rewrite D4, D3. fold (cached_descriptor s2 SS).
    rewrite M4, M3, Eb, SP3, SP2.
    rewrite le_load_store_disjoint by (change (Z.of_nat 2) with 2; lia).
    apply load_pushed_word. }
  assert (K4 : stack_word s4 (sp - 4) = u16 (get_eip st)).
  { unfold stack_word, cached_descriptor. rewrite D4, D3. fold (cached_descriptor s2 SS).
    rewrite M4, Eb, SP3, SP2.
    replace (sp - 2 - 2) with (sp - 4) by lia. apply load_pushed_word. }
  exists s4.
  assert (Hpe4 : get_pe s4 = false) by (destruct W4 as (X & _); exact X).
  unfold far_return. rewrite bind_gets, Hpe4. cbv beta iota delta [negb orb].
  unfold real_mode_far_return.
  destruct (pop16_step s4 _ _ W4 ltac:(lia) ltac:(lia))
    as (s5 & E5 & W5 & SP5 & M5 & D5 & G5 & F5 & S5 & I5 & C5 & Z5).
  rewrite <- (pop_operand_sized_value_16 _ O4) in E5.
  rewrite (bind_ok _ _ _ _ _ E5).
  assert (O5 : o16 s5 = true) by (unfold o16, o32; rewrite Z5; exact O4).
  unfold u16 in SP5 at 1. rewrite Z.mod_small in SP5 by lia.
  destruct (pop16_step s5 _ _ W5 ltac:(lia) ltac:(lia))
    as (s6 & E6 & W6 & SP6 & M6 & D6 & G6 & F6 & S6 & I6 & C6 & Z6).
  rewrite <- (pop_operand_sized_value_16 _ O5) in E6.
  rewrite (bind_ok _ _ _ _ _ E6).
  unfold u16 in SP6 at 1. rewrite Z.mod_small in SP6 by lia.
  assert (Hpe6 : get_pe s6 = false) by (destruct W6 as (X & _); exact X).
  destruct (set_cs_real_frame (u16 (stack_word s5 (get_sp s5))) s6 Hpe6)
    as (s7 & E7 & Cs7 & _ & G7 & M7 & Cr7 & Fl7 & Ip7 & O7 & Sg7 & Wf7).
  rewrite (bind_ok _ _ _ _ _ E7). unfold set_eip. rewrite bind_modify.
  pose proof (set_eip_window (u32 (stack_word s4 (get_sp s4))) s7 _ _ (Wf7 _ _ W6)) as W8.
  set (s8 := with_eip (u32 (stack_word s4 (get_sp s4))) s7) in *.
  unfold adjust_stack_pointer. rewrite bind_gets.
  assert (Hs8 : s32 s8 = false).
  { destruct W8 as (_ & _ & X & _). unfold s16 in X. now apply negb_true_iff in X. }
  rewrite Hs8.
  destruct (set_sp_effect (get_sp s8 + 0) s8)
    as (s9 & E9 & SP9 & G9 & M9 & D9 & F9 & S9 & I9 & _).
  exists s9.
  assert (SP8 : get_sp s8 = sp).
  { unfold s8, get_sp, read_register16. cbn [m_gpr with_eip]. rewrite G7.
    fold (read_register16 RegisterESP s6). fold (get_sp s6). lia. }
  split; [reflexivity|].
  split; [unfold get_cs; rewrite S4, S3; exact Cs1|].
  split; [unfold get_eip; rewrite I4, I3; reflexivity|].
  split; [lia|].
  split; [exact K2|]. split; [exact K4|].
  split; [exact E9|].
  assert (V5 : stack_word s5 (get_sp s5) = u16 (get_cs st)).
  { rewrite (stack_word_frame s4 s5) by assumption.
    replace (get_sp s5) with (sp - 2) by lia. exact K2. }
  assert (V4 : stack_word s4 (get_sp s4) = u16 (get_eip st)).
  { replace (get_sp s4) with (sp - 4) by lia. exact K4. }
  split.
  { unfold get_cs. rewrite S9. change (m_segreg s8 CS) with (get_cs s7).
    rewrite Cs7, V5, !u16_idem. reflexivity. }
  split.
  { unfold get_eip. rewrite I9. unfold s8. cbn [m_eip with_eip]. rewrite V4. apply u32_u16. }
  split.
  { rewrite SP9, SP8, Z.add_0_r. unfold u16. apply Z.mod_small. lia. }
  split.
  { intros i Hi. rewrite (G9 i Hi). unfold s8. cbn [m_gpr with_eip]. rewrite G7.
    rewrite (G6 i Hi), (G5 i Hi), (G4 i Hi), (G3 i Hi). unfold s2. cbn [m_gpr with_eip].
    now rewrite G1. }
  rewrite F9. unfold s8. cbn [m_fl with_eip]. rewrite Fl7, F6, F5, F4, F3. unfold s2.
  cbn [m_fl with_eip]. exact Fl1.
Qed.

(** * Far jumps and returns in protected mode *)

Lemma bind_ok_inv {A B} (c : M A) (k : A -> M B) st b st' :
  bind c k st = (Ok b, st') -> exists a s, c st = (Ok a, s) /\ k a s = (Ok b, st').
Proof.
  unfold bind. destruct (c st) as [[a| | | ] s]; intro E; try discriminate.
  exists a, s. split; [reflexivity|exact E].
Qed.

(** X13.  In protected mode a far JMP or CALL whose selector is null raises
    #GP(0), and one whose selector lies outside its table, or designates
    anything but a code segment, a call gate, a task gate or a TSS, raises #GP
    with the selector (RPL bits cleared) as error code.  The fault is raised
    right after the descriptor lookup: nothing is pushed and CS:EIP are not
    loaded. *)
Theorem far_jump_rejects_bad_selector st fuel selector offset type gate d st1 :
  get_pe st = true -> get_vm st = false ->
  get_descriptor selector st = (Ok d, st1) ->
  (is_null d = true ->
     far_jump (S fuel) selector offset type gate st = (Throw (GeneralProtectionFault 0), st1))
  /\ (is_null d = false ->
      is_outside_table_limits d = true
      \/ (is_code d = false /\ is_call_gate d = false /\ is_task_gate d = false
          /\ is_tss d = false) ->
      far_jump (S fuel) selector offset type gate st
      = (Throw (GeneralProtectionFault (Z.land selector 0xfffc)), st1)).
Proof.
  intros Hpe Hvm Hd.
  assert (E : far_jump (S fuel) selector offset type gate st
              = protected_mode_far_jump_with (far_jump fuel) selector offset type gate st).
  { cbn [far_jump]. rewrite bind_gets, Hpe, Hvm. reflexivity. }
  rewrite E. unfold protected_mode_far_jump_with. rewrite bind_gets, Hpe, bind_assert_true.
  rewrite (bind_ok _ _ _ _ _ Hd).
  split.
  - intros ->. reflexivity.
  - intros -> [->|(-> & -> & -> & ->)]; [reflexivity|].
    destruct (is_outside_table_limits d); reflexivity.
Qed.

Lemma set_cpl_get_cpl cpl st r st' :
  set_cpl cpl st = (r, st') -> get_cpl st' = u8 cpl.
Proof.
  unfold set_cpl, modify. intro E. injection E as _ <-.
  unfold get_cpl, cached_descriptor, set_descriptor. cbn [m_descriptor with_descriptor].
  cbn [segreg_eqb]. reflexivity.
Qed.

(** X14.  A far JMP or CALL in protected mode that names a segment directly
    (no gate) and completes has reached a present code segment within its
    limit, and the CPL is what it was before: for JMP and CALL the target is a
    conforming segment with DPL <= CPL, or a non-conforming one with
    RPL <= DPL and DPL = CPL. *)
Theorem direct_far_jump_keeps_cpl st fuel selector offset type c st1 st' :
  get_pe st = true -> get_vm st = false ->
  0 <= get_cpl st <= 3 ->
  get_descriptor selector st = (Ok (Segment c), st1) ->
  far_jump (S fuel) selector offset type None st = (Ok tt, st') ->
  get_cpl st' = get_cpl st
  /\ sd_code c = true /\ sd_present c = true
  /\ (if sd_D c then offset else Z.land offset 0xffff) <= sd_effective_limit c
  /\ (type = CALL \/ type = JMP ->
      if sd_conforming c then sd_dpl c <= get_cpl st1
      else Z.land selector 3 <= sd_dpl c /\ sd_dpl c = get_cpl st1).
Proof.
  intros Hpe Hvm Hc Hd.
  assert (E : far_jump (S fuel) selector offset type None st
              = protected_mode_far_jump_with (far_jump fuel) selector offset type None st).
  { cbn [far_jump]. rewrite bind_gets, Hpe, Hvm. reflexivity. }
  rewrite E. unfold protected_mode_far_jump_with. rewrite bind_gets, Hpe, bind_assert_true.
  rewrite (bind_ok _ _ _ _ _ Hd).
  cbv beta iota delta [is_null is_outside_table_limits is_code is_call_gate is_task_gate
                        is_tss is_gate negb andb orb as_segment_descriptor dpl].
  destruct (sd_code c) eqn:Ecode; [|discriminate].
  cbv beta iota delta [negb andb].
  intro R. apply bind_ok_inv in R. destruct R as ([] & s2 & Rchk & R).
  destruct (sd_present c) eqn:Epres; [|discriminate].
  cbv beta iota delta [negb] in R.
  destruct (Z.ltb_spec (sd_effective_limit c) (if sd_D c then offset else Z.land offset 0xffff))
    as [Hl|Hl]; [discriminate|].
  apply bind_ok_inv in R. destruct R as ([] & s3 & _ & R).
  apply bind_ok_inv in R. destruct R as ([] & s4 & _ & R).
  apply bind_ok_inv in R. destruct R as ([] & s5 & _ & R).
  apply bind_ok_inv in R. destruct R as ([] & s6 & _ & R).
  apply set_cpl_get_cpl in R.
  split; [rewrite R; unfold u8; apply Z.mod_small; lia|].
  split; [reflexivity|]. split; [reflexivity|]. split; [exact Hl|].
  intros Ht.
  assert (Chk : (cpl <- gets get_cpl ;;
                 if sd_conforming c then
                   if cpl <? sd_dpl c
                   then throw (GeneralProtectionFault (Z.land selector 0xfffc)) else ret tt
                 else if sd_dpl c <? Z.land selector 3 then
                   throw (GeneralProtectionFault (Z.land selector 0xfffc))
                 else if negb (sd_dpl c =? get_cpl st1) then
                   throw (GeneralProtectionFault (Z.land selector 0xfffc))
                 else ret tt) st1 = (Ok tt, s2)).
  { destruct Ht as [-> | ->]; exact Rchk. }
  rewrite bind_gets in Chk.
  destruct (sd_conforming c).
  - destruct (Z.ltb_spec (get_cpl st1) (sd_dpl c)); [discriminate|lia].
  - destruct (Z.ltb_spec (sd_dpl c) (Z.land selector 3)); [discriminate|].
    destruct (Z.eqb_spec (sd_dpl c) (get_cpl st1)); [lia|discriminate].
Qed.

Lemma far_return_checks st stack_adjustment r1 st1 r2 st2 d st3 :
  get_pe st = true ->
  popper_pop_operand_sized_value (mkPopper 0) st = (Ok r1, st1) ->
  popper_pop_operand_sized_value (snd r1) st1 = (Ok r2, st2) ->
  get_descriptor (u16 (fst r2)) st2 = (Ok d, st3) ->
  let selector := u16 (fst r2) in
  let c := as_segment_descriptor d in
  let offset := if sd_D c then u32 (fst r1) else Z.land (u32 (fst r1)) 0xffff in
  protected_far_return stack_adjustment st
  = (if is_null d then (Throw (GeneralProtectionFault 0), st3)
     else if far_return_validation_fails d selector (get_cpl st3)
     then (Throw (GeneralProtectionFault (Z.land selector 0xfffc)), st3)
     else if negb (sd_present c) then (Throw (NotPresent (Z.land selector 0xfffc)), st3)
     else if sd_effective_limit c <? offset then (Throw (GeneralProtectionFault 0), st3)
     else protected_far_return stack_adjustment st).
Proof.
  intros Hpe E1 E2 E3 selector c offset.
  destruct (is_null d) eqn:En.
  { unfold protected_far_return. rewrite bind_gets, Hpe, bind_assert_true.
    rewrite (bind_ok _ _ _ _ _ E1), (bind_ok _ _ _ _ _ E2), bind_gets.
    rewrite (bind_ok _ _ _ _ _ E3), En. reflexivity. }
  unfold far_return_validation_fails. rewrite En. cbv zeta. cbn [orb].
  fold selector c.
  destruct (is_outside_table_limits d) eqn:Eo.
  { unfold protected_far_return. rewrite bind_gets, Hpe, bind_assert_true.
    rewrite (bind_ok _ _ _ _ _ E1), (bind_ok _ _ _ _ _ E2), bind_gets.
    rewrite (bind_ok _ _ _ _ _ E3), En, Eo. reflexivity. }
  destruct (is_code d) eqn:Ec; cbn [negb orb].
  2:{ unfold protected_far_return. rewrite bind_gets, Hpe, bind_assert_true.
      rewrite (bind_ok _ _ _ _ _ E1), (bind_ok _ _ _ _ _ E2), bind_gets.
      rewrite (bind_ok _ _ _ _ _ E3), En, Eo, Ec. reflexivity. }
  destruct (Z.land selector 3 <? get_cpl st3) eqn:Er; cbn [orb].
  { unfold protected_far_return. rewrite bind_gets, Hpe, bind_assert_true.
    rewrite (bind_ok _ _ _ _ _ E1), (bind_ok _ _ _ _ _ E2), bind_gets.
    rewrite (bind_ok _ _ _ _ _ E3), En, Eo, Ec. cbn [negb]. rewrite bind_gets.
    fold selector. rewrite Er. reflexivity. }
  destruct (sd_conforming c && (Z.land selector 3 <? sd_dpl c)) eqn:Ef1; cbn [orb].
  { unfold protected_far_return. rewrite bind_gets, Hpe, bind_assert_true.
    rewrite (bind_ok _ _ _ _ _ E1), (bind_ok _ _ _ _ _ E2), bind_gets.
    rewrite (bind_ok _ _ _ _ _ E3), En, Eo, Ec. cbn [negb]. rewrite bind_gets.
    fold selector. rewrite Er. fold c. rewrite Ef1. reflexivity. }
  destruct (negb (sd_conforming c) && negb (sd_dpl c =? Z.land selector 3)) eqn:Ef2.
  { unfold protected_far_return. rewrite bind_gets, Hpe, bind_assert_true.
    rewrite (bind_ok _ _ _ _ _ E1), (bind_ok _ _ _ _ _ E2), bind_gets.
    rewrite (bind_ok _ _ _ _ _ E3), En, Eo, Ec. cbn [negb]. rewrite bind_gets.
    fold selector. rewrite Er. fold c. rewrite Ef1, Ef2. reflexivity. }
  destruct (negb (sd_present c)) eqn:Ep.
  { unfold protected_far_return. rewrite bind_gets, Hpe, bind_assert_true.
    rewrite (bind_ok _ _ _ _ _ E1), (bind_ok _ _ _ _ _ E2), bind_gets.
    rewrite (bind_ok _ _ _ _ _ E3), En, Eo, Ec. cbn [negb]. rewrite bind_gets.
    fold selector. rewrite Er. fold c. rewrite Ef1, Ef2, Ep. reflexivity. }
  destruct (sd_effective_limit c <? offset) eqn:El; [|reflexivity].
  unfold protected_far_return. rewrite bind_gets, Hpe, bind_assert_true.
  rewrite (bind_ok _ _ _ _ _ E1), (bind_ok _ _ _ _ _ E2), bind_gets.
  rewrite (bind_ok _ _ _ _ _ E3), En, Eo, Ec. cbn [negb]. rewrite bind_gets.
  fold selector. rewrite Er. fold c. rewrite Ef1, Ef2, Ep. fold offset. rewrite El.
  reflexivity.
Qed.

(** X15.  The error codes of a refused protected-mode far RET: #GP(0) for a
    null return selector; #GP with the return selector (RPL bits cleared) when
    the selector is outside its table, is not a code segment, has RPL < CPL or
    breaks the DPL rule of its segment; #NP with the selector when the code
    segment is not present; and #GP(0) when the return offset is beyond the
    segment limit.  The checks are made in this order, and the state is the
    one the descriptor lookup left. *)
Theorem far_return_error_codes st stack_adjustment r1 st1 r2 st2 d st3 :
  get_pe st = true ->
  popper_pop_operand_sized_value (mkPopper 0) st = (Ok r1, st1) ->
  popper_pop_operand_sized_value (snd r1) st1 = (Ok r2, st2) ->
  get_descriptor (u16 (fst r2)) st2 = (Ok d, st3) ->
  let selector := u16 (fst r2) in
  let c := as_segment_descriptor d in
  let offset := if sd_D c then u32 (fst r1) else Z.land (u32 (fst r1)) 0xffff in
  (is_null d = true ->
     protected_far_return stack_adjustment st = (Throw (GeneralProtectionFault 0), st3))
  /\ (is_null d = false ->
      far_return_validation_fails d selector (get_cpl st3) = true ->
      protected_far_return stack_adjustment st
      = (Throw (GeneralProtectionFault (Z.land selector 0xfffc)), st3))
  /\ (far_return_validation_fails d selector (get_cpl st3) = false ->
      sd_present c = false ->
      protected_far_return stack_adjustment st
      = (Throw (NotPresent (Z.land selector 0xfffc)), st3))
  /\ (far_return_validation_fails d selector (get_cpl st3) = false ->
      sd_present c = true -> sd_effective_limit c < offset ->
      protected_far_return stack_adjustment st = (Throw (GeneralProtectionFault 0), st3)).
Proof.
  intros Hpe E1 E2 E3 selector c offset.
  pose proof (far_return_checks st stack_adjustment r1 st1 r2 st2 d st3 Hpe E1 E2 E3) as K.
  cbv zeta in K. fold selector c offset in K.
  assert (Hn : far_return_validation_fails d selector (get_cpl st3) = false ->
               is_null d = false).
  { unfold far_return_validation_fails. destruct (is_null d); [discriminate|reflexivity]. }
  repeat split.
  - intro En. rewrite En in K. exact K.
  - intros En Ef. rewrite En, Ef in K. exact K.
  - intros Ef Ep. rewrite (Hn Ef), Ef, Ep in K. exact K.
  - intros Ef Ep Hl. rewrite (Hn Ef), Ef, Ep in K. cbn [negb] in K.
    rewrite (proj2 (Z.ltb_lt _ _) Hl) in K. exact K.
Qed.

(** * The halted loop *)

Lemma halted_loop_sleeps fuel : forall st,
  m_state st = Halted -> m_should_hard_reboot st = false ->
  m_debugger_active st = false -> get_if st = false ->
  halted_loop fuel st = (OutOfFuel, st).
Proof.
  induction fuel as [|fuel IH]; intros st Hs Hr Hd Hi.
  - cbn [halted_loop]. rewrite Hs. reflexivity.
  - cbn [halted_loop]. rewrite Hs, Hr, Hd.
    unfold when at 1. rewrite (bind_ok _ _ st tt st eq_refl).
    rewrite (bind_ok _ _ st tt st).
    + apply IH; assumption.
    + rewrite bind_gets. rewrite Hi, andb_false_r. reflexivity.
Qed.

(** X16.  HLT in ring 0 with interrupts disabled, no reboot requested and the
    debugger inactive never wakes: however long the halted loop runs, the CPU
    is still halted and nothing else has changed; a pending IRQ is not
    serviced. *)
Theorem hlt_with_interrupts_off_sleeps st fuel :
  get_cpl st = 0 -> get_if st = false ->
  m_should_hard_reboot st = false -> m_debugger_active st = false ->
  _HLT fuel st = (OutOfFuel, with_state Halted st).
Proof.
  intros Hc Hi Hr Hd. unfold _HLT. rewrite bind_gets, Hc. cbn [Z.eqb negb].
  rewrite bind_modify. apply halted_loop_sleeps; [reflexivity|exact Hr|exact Hd|exact Hi].
Qed.

(** X17.  A HardReboot command wakes a halted CPU: after
    [queue_command(HardReboot)] the slow path of the main loop is requested,
    and HLT in ring 0 then leaves the halted loop through [hard_reboot], with
    the CPU alive, the request cleared, the general registers zero and CS:EIP
    at the reset entry point. *)
Theorem hard_reboot_wakes_halted_cpu st fuel s1 :
  get_cpl st = 0 ->
  reset_all_io_devices (with_state Halted (snd (queue_command HardReboot st))) = (Ok tt, s1) ->
  m_main_loop_needs_slow_stuff (snd (queue_command HardReboot st)) = true
  /\ exists st',
       bind (queue_command HardReboot) (fun _ => _HLT (S fuel)) st = (Ok tt, st')
       /\ m_state st' = Alive
       /\ m_should_hard_reboot st' = false
       /\ (forall i, m_gpr st' i = 0)
       /\ get_cs st' = (if m_is_for_autotest s1 then u16 settings_entry_cs else 0xf000)
       /\ get_eip st' = (if m_is_for_autotest s1 then u32 settings_entry_ip else 0).
Proof.
  intros Hc Hio.
  split.
  { unfold queue_command, recompute_main_loop_needs_slow_stuff, bind, modify.
    cbn [snd m_main_loop_needs_slow_stuff with_main_loop_needs_slow_stuff
         m_should_hard_reboot with_should_hard_reboot].
    rewrite orb_true_r. reflexivity. }
  set (sq := snd (queue_command HardReboot st)) in *.
  assert (Eq : queue_command HardReboot st = (Ok tt, sq)) by reflexivity.
  rewrite (bind_ok _ _ _ _ _ Eq).
  unfold _HLT. rewrite bind_gets.
  change (get_cpl sq) with (get_cpl st). rewrite Hc. cbn [Z.eqb negb].
  rewrite bind_modify. cbn [halted_loop].
  change (m_state (with_state Halted sq)) with Halted. cbv iota.
  change (m_should_hard_reboot (with_state Halted sq)) with true. cbv iota.
  unfold hard_reboot. rewrite (bind_ok _ _ _ _ _ Hio).
  destruct (reset_effect s1) as (s2 & E2 & G2 & Cs2 & Ip2 & _ & _ & St2 & _).
  rewrite (bind_ok _ _ _ _ _ E2). unfold modify.
  eexists. split; [reflexivity|].
  split; [exact St2|]. split; [reflexivity|]. split; [exact G2|].
  split; [exact Cs2|exact Ip2].
Qed.

(** * CPUID and RDTSC *)

Lemma writes_only_abcd_refl st : writes_only_abcd st st.
Proof. unfold writes_only_abcd. repeat split; reflexivity. Qed.

Lemma writes_only_abcd_trans a b c :
  writes_only_abcd a b -> writes_only_abcd b c -> writes_only_abcd a c.
Proof.
  intros (G1 & X1) (G2 & X2). split.
  - intros i H1 H2 H3 H4. rewrite G2, G1 by assumption. reflexivity.
  - repeat match goal with H : _ /\ _ |- _ => destruct H end. repeat split; congruence.
Qed.

Lemma abcd_only_ret : abcd_only (ret tt).
Proof. intro st. exists st. split; [reflexivity|apply writes_only_abcd_refl]. Qed.

Lemma abcd_only_bind (c k : M unit) :
  abcd_only c -> abcd_only k -> abcd_only (bind c (fun _ => k)).
Proof.
  intros Hc Hk st. destruct (Hc st) as (s1 & E1 & W1). destruct (Hk s1) as (s2 & E2 & W2).
  exists s2. split; [rewrite (bind_ok _ _ _ _ _ E1); exact E2|].
  eapply writes_only_abcd_trans; eassumption.
Qed.

Lemma abcd_only_gets {A} (f : CPU -> A) (k : A -> M unit) :
  (forall a, abcd_only (k a)) -> abcd_only (bind (gets f) k).
Proof. intros Hk st. rewrite bind_gets. apply Hk. Qed.

Lemma abcd_only_write r v :
  r = RegisterEAX \/ r = RegisterEBX \/ r = RegisterECX \/ r = RegisterEDX ->
  abcd_only (modify (write_register32 r v)).
Proof.
  intros Hr st. eexists. split; [reflexivity|].
  split; [|repeat split].
  intros i H1 H2 H3 H4. apply write_register32_other.
  destruct Hr as [-> | [-> | [-> | ->]]]; assumption.
Qed.

Ltac abcd :=
  repeat first
    [ apply abcd_only_ret
    | apply abcd_only_write; auto
    | apply abcd_only_gets; intro
    | apply abcd_only_bind
    | match goal with |- abcd_only (if ?b then _ else _) => destruct b end ].

Lemma bind_ret {A B} (a : A) (k : A -> M B) st : bind (ret a) k st = k a st.
Proof. reflexivity. Qed.

(** X18.  CPUID never faults and writes nothing but EAX, EBX, ECX and EDX;
    for a leaf it does not know (any EAX other than 0, 1 and
    0x80000000-0x80000004) it leaves even those as they are. *)
Theorem cpuid_writes_only_abcd st :
  exists st',
    _CPUID st = (Ok tt, st')
    /\ writes_only_abcd st st'
    /\ (get_eax st <> 0 -> get_eax st <> 1 ->
        (get_eax st < 0x80000000 \/ 0x80000004 < get_eax st) -> st' = st).
Proof.
  assert (A : abcd_only _CPUID).
  { unfold _CPUID, cpuid_brand_leaves, set_eax, set_ebx, set_ecx, set_edx. cbv zeta. abcd. }
  destruct (A st) as (st' & E & W). exists st'. split; [exact E|]. split; [exact W|].
  intros H0 H1 Hx. revert E. unfold _CPUID, cpuid_brand_leaves.
  rewrite bind_gets. destruct (Z.eqb_spec (get_eax st) 0); [contradiction|].
  rewrite bind_gets. destruct (Z.eqb_spec (get_eax st) 1); [contradiction|].
  rewrite bind_gets. destruct (Z.eqb_spec (get_eax st) 0x80000000); [lia|].
  rewrite bind_gets. destruct (Z.eqb_spec (get_eax st) 0x80000001); [lia|].
  rewrite bind_ret.
  rewrite bind_gets. destruct (Z.eqb_spec (get_eax st) 0x80000002); [lia|].
  rewrite bind_gets. destruct (Z.eqb_spec (get_eax st) 0x80000003); [lia|].
  rewrite bind_gets. destruct (Z.eqb_spec (get_eax st) 0x80000004); [lia|].
  intro E. injection E as <-. reflexivity.
Qed.

(** X19.  RDTSC faults with #GP(0) exactly when CR4.TSD is set in protected
    mode outside ring 0; otherwise it returns the cycle counter in EDX:EAX
    (high half in EDX) and changes no other register.  WBINVD and INVLPG
    fault with #GP(0) exactly in protected mode outside ring 0 and otherwise do
    nothing. *)
Theorem rdtsc_returns_cycle_counter st :
  0 <= m_cycle st < 2 ^ 64 ->
  (get_tsd st && get_pe st && negb (get_cpl st =? 0) = true ->
     _RDTSC st = (Throw (GeneralProtectionFault 0), st))
  /\ (get_tsd st && get_pe st && negb (get_cpl st =? 0) = false ->
      exists st',
        _RDTSC st = (Ok tt, st')
        /\ read_register32 RegisterEDX st' * 2 ^ 32 + read_register32 RegisterEAX st'
           = m_cycle st
        /\ writes_only_abcd st st'
        /\ m_gpr st' RegisterEBX = m_gpr st RegisterEBX
        /\ m_gpr st' RegisterECX = m_gpr st RegisterECX)
  /\ _WBINVD st = (if get_pe st && negb (get_cpl st =? 0)
                   then (Throw (GeneralProtectionFault 0), st) else (Ok tt, st))
  /\ _INVLPG st = (if get_pe st && negb (get_cpl st =? 0)
                   then (Throw (GeneralProtectionFault 0), st) else (Ok tt, st)).
Proof.
  intro Hc. split; [|split; [|split]].
  - intro T. unfold _RDTSC. rewrite bind_gets, T. reflexivity.
  - intro T. unfold _RDTSC. rewrite bind_gets, T.
    unfold set_edx, set_eax, bind, modify. eexists. split; [reflexivity|].
    split.
    { rewrite write_register32_read.
      unfold read_register32. rewrite write_register32_other by discriminate.
      fold (read_register32 RegisterEDX
              (write_register32 RegisterEDX (Z.shiftr (m_cycle st) 32) st)).
      rewrite write_register32_read. unfold u32.
      rewrite Z.shiftr_div_pow2 by lia.
      rewrite (Z.mod_small (m_cycle st / 2 ^ 32)).
      - pose proof (Z.div_mod (m_cycle st) (2 ^ 32) ltac:(lia)). lia.
      - split; [apply Z.div_pos; lia|]. apply Z.div_lt_upper_bound; lia. }
    split.
    { split; [|repeat split].
      intros i H1 H2 H3 H4. rewrite !write_register32_other by assumption. reflexivity. }
    split; rewrite !write_register32_other by discriminate; reflexivity.
  - unfold _WBINVD. rewrite bind_gets. destruct (get_pe st && negb (get_cpl st =? 0)); reflexivity.
  - unfold _INVLPG. rewrite bind_gets. destruct (get_pe st && negb (get_cpl st =? 0)); reflexivity.
Qed.

(** * Paging: protection and the translated address *)

Lemma makePFErrorCode_protection accessType inUserMode :
  let err := makePFErrorCode PageFaultFlags.ProtectionViolation accessType inUserMode in
  Z.testbit err 0 = true /\ Z.testbit err 1 = is_write accessType
  /\ Z.testbit err 2 = inUserMode /\ Z.testbit err 4 = is_execute accessType.
Proof. destruct accessType, inUserMode; repeat split. Qed.

(** X20.  The protection checks of the page walk, both entries being
    present.  A user-mode access to a page whose PDE or PTE has U/S clear
    raises #PF with P and U set in the error code; a write, made in user mode
    or with CR0.WP set, to a page whose PDE or PTE has R/W clear raises #PF with
    P and W set; CR2 holds the linear address and guest memory is not written.
    A supervisor access with CR0.WP clear passes whatever U/S and R/W say. *)
Theorem page_protection_faults st la accessType effectiveCPL :
  cr3_asserts st = true ->
  options_crash_on_page_fault = false ->
  has (page_directory_entry st la) PageTableEntryFlags.Present = true ->
  has (page_table_entry st la) PageTableEntryFlags.Present = true ->
  let pde := page_directory_entry st la in
  let pte := page_table_entry st la in
  let user := in_user_mode st effectiveCPL in
  let refused :=
    (user && negb (has pde PageTableEntryFlags.UserSupervisor
                   && has pte PageTableEntryFlags.UserSupervisor))
    || ((user || has (get_cr0 st) CR0.WP) && is_write accessType
        && negb (has pde PageTableEntryFlags.ReadWrite
                 && has pte PageTableEntryFlags.ReadWrite)) in
  (refused = true ->
     exists err st',
       translate_address_slow_case la accessType effectiveCPL st
       = (Throw (mkException 14 (Some err) (Some la)), st')
       /\ Z.testbit err 0 = true /\ Z.testbit err 1 = is_write accessType
       /\ Z.testbit err 2 = user
       /\ get_cr2 st' = la
       /\ m_memory (m_mem st') = m_memory (m_mem st))
  /\ (refused = false ->
      fst (translate_address_slow_case la accessType effectiveCPL st)
      = Ok (Z.lor (Z.land (pte_written st la accessType) 0xfffff000) (Z.land la 0xFFF)))
  /\ (user = false -> has (get_cr0 st) CR0.WP = false -> refused = false).
Proof.
  intros Ha Hc Hp1 Hp2 pde pte user refused.
  rewrite (translate_slow_eq st la accessType effectiveCPL Ha).
  assert (Hperm : access_permitted st la accessType effectiveCPL = negb refused).
  { unfold access_permitted, refused. cbv zeta. fold pde pte user.
    unfold pde, pte in *. rewrite Hp1, Hp2.
    destruct user, (has (get_cr0 st) CR0.WP), (is_write accessType),
      (has (page_directory_entry st la) PageTableEntryFlags.UserSupervisor),
      (has (page_table_entry st la) PageTableEntryFlags.UserSupervisor),
      (has (page_directory_entry st la) PageTableEntryFlags.ReadWrite),
      (has (page_table_entry st la) PageTableEntryFlags.ReadWrite); reflexivity. }
  rewrite Hperm. split; [|split].
  - intro R. rewrite R. cbn [negb]. rewrite Hc, Hp1, Hp2. cbn [andb].
    destruct (makePFErrorCode_protection accessType user) as (B0 & B1 & B2 & _).
    eexists. eexists. split; [reflexivity|].
    split; [exact B0|]. split; [exact B1|]. split; [exact B2|].
    split; [reflexivity|].
    destruct (after_entry_reads_frame st la) as (mem' & E & M & _).
    rewrite E. exact M.
  - intro R. rewrite R. reflexivity.
  - intros Hu Hw. unfold refused. rewrite Hu, Hw. reflexivity.
Qed.

Lemma land_low12_frame x : Z.land (Z.land x 0xfffff000) 0xFFF = 0.
Proof. rewrite <- Z.land_assoc. change (Z.land 0xfffff000 0xFFF) with 0. apply Z.land_0_r. Qed.

(** X21.  A successful translation keeps the offset within the page and takes
    the frame from the page-table entry: the low 12 bits of the physical
    address are those of the linear address, and its upper 20 bits are those
    of the entry. *)
Theorem translation_keeps_page_offset st la accessType effectiveCPL pa st' :
  cr3_asserts st = true ->
  translate_address_slow_case la accessType effectiveCPL st = (Ok pa, st') ->
  Z.land pa 0xFFF = Z.land la 0xFFF
  /\ Z.land pa 0xfffff000 = Z.land (page_table_entry st la) 0xfffff000
  /\ 0 <= pa < 2 ^ 32.
Proof.
  intros Ha E. rewrite (translate_slow_eq st la accessType effectiveCPL Ha) in E.
  destruct (access_permitted st la accessType effectiveCPL);
    [|destruct options_crash_on_page_fault; discriminate].
  injection E as <- _.
  assert (F : Z.land (pte_written st la accessType) 0xfffff000
              = Z.land (page_table_entry st la) 0xfffff000).
  { unfold pte_written. destruct (is_write accessType);
      rewrite ?Z.land_lor_distr_l;
      change (Z.land PageTableEntryFlags.Accessed 0xfffff000) with 0;
      change (Z.land PageTableEntryFlags.Dirty 0xfffff000) with 0;
      rewrite ?Z.lor_0_r; reflexivity. }
  rewrite F. split; [|split].
  - rewrite Z.land_lor_distr_l, land_low12_frame, Z.lor_0_l, <- Z.land_assoc.
    reflexivity.
  - rewrite Z.land_lor_distr_l, <- !Z.land_assoc.
    change (Z.land 0xfffff000 0xfffff000) with 0xfffff000.
    change (Z.land 0xFFF 0xfffff000) with 0. rewrite Z.land_0_r, Z.lor_0_r. reflexivity.
  - apply lor_range32.
    + change 0xfffff000 with (Z.land 0xfffff000 (Z.ones 32)).
      rewrite Z.land_assoc, Z.land_ones by lia. apply Z.mod_pos_bound. lia.
    + change 0xFFF with (Z.ones 12). rewrite Z.land_ones by lia.
      pose proof (Z.mod_pos_bound la (2 ^ 12) ltac:(lia)). lia.
Qed.

(** * Interrupts in protected mode *)

Lemma lor_shiftl3_low n c :
  0 <= n -> 0 <= c < 8 -> Z.lor (Z.shiftl n 3) c = 8 * n + c.
Proof.
  intros Hn Hc.
  assert (E : Z.land (Z.shiftl n 3) c = 0).
  { apply Z.bits_inj'. intros i Hi. rewrite Z.land_spec, Z.bits_0.
    destruct (Z.ltb_spec i 3) as [Hlt|Hge].
    - rewrite Z.shiftl_spec_low by exact Hlt. reflexivity.
    - destruct (Z.eq_dec c 0) as [->|Hc0].
      + rewrite Z.bits_0. apply andb_false_r.
      + rewrite (Z.bits_above_log2 c i); [apply andb_false_r|lia|].
        assert (Z.log2 c < 3) by (apply Z.log2_lt_pow2; lia). lia. }
  rewrite <- Z.lxor_lor by exact E. rewrite <- Z.add_nocarry_lxor by exact E.
  rewrite Z.shiftl_mul_pow2 by lia. lia.
Qed.

Lemma makeErrorCode_idt isr source :
  0 <= isr < 256 ->
  makeErrorCode isr true source = 8 * isr + 2 + source_bit source.
Proof.
  intros Hr. unfold makeErrorCode.
  assert (Eu : u16 isr = isr) by (unfold u16; apply Z.mod_small; lia).
  rewrite Eu, <- Z.lor_assoc.
  assert (Es : Z.lor 2 (source_bit source) = 2 + source_bit source)
    by (destruct source; reflexivity).
  rewrite Es, lor_shiftl3_low by (destruct source; cbn [source_bit]; lia).
  unfold u16. rewrite Z.mod_small by (destruct source; cbn [source_bit]; lia). lia.
Qed.

Lemma makeErrorCode_selector num source :
  makeErrorCode num false source = 4 * ((num mod 256) / 4).
Proof.
  unfold makeErrorCode, u16.
  change 0xfc with (Z.ldiff (Z.ones 8) (Z.ones 2)).
  rewrite Z.ldiff_land, Z.land_assoc.
  rewrite (Z.land_ones _ 8) by lia.
  rewrite <- Z.ldiff_land, Z.ldiff_ones_r by lia.
  rewrite Z.shiftr_div_pow2, Z.shiftl_mul_pow2 by lia.
  change (2 ^ 16) with (256 * 256). change (2 ^ 8) with 256. change (2 ^ 2) with 4.
  rewrite Z.mul_comm.
  replace ((num mod (256 * 256)) mod 256) with (num mod 256); [reflexivity|].
  pose proof (Z.mod_pos_bound num (256 * 256) ltac:(lia)) as B.
  pose proof (Z.div_mod num (256 * 256) ltac:(lia)) as D.
  symmetry. apply Z.mod_unique with (q := (num mod (256 * 256)) / 256 - 256 * (- (num / (256 * 256)))).
  - left. apply Z.mod_pos_bound. lia.
  - pose proof (Z.div_mod (num mod (256 * 256)) 256 ltac:(lia)). lia.
Qed.

(** X22.  The error code of an interrupt-related fault.  For a vector of the
    IDT the code is [8 * vector + 2], plus 1 when the source is external: the
    vector is recovered by dividing by 8, bit 1 (IDT) is set and bit 0 is the
    external bit.  For a selector the code is the selector's low byte with its
    two lowest bits cleared, so it is below 256 and equals the selector with
    the RPL cleared only for selectors below 256. *)
Theorem error_code_layout isr selector source :
  0 <= isr < 256 ->
  makeErrorCode isr true source = 8 * isr + 2 + source_bit source
  /\ makeErrorCode isr true source / 8 = isr
  /\ Z.testbit (makeErrorCode isr true source) 1 = true
  /\ Z.testbit (makeErrorCode isr true source) 0
     = match source with SrcExternal => true | SrcInternal => false end
  /\ makeErrorCode selector false source = 4 * ((selector mod 256) / 4)
  /\ 0 <= makeErrorCode selector false source < 256.
Proof.
  intros Hr. rewrite makeErrorCode_idt by exact Hr. rewrite makeErrorCode_selector.
  split; [reflexivity|].
  split; [symmetry; apply Z.div_unique with (r := 2 + source_bit source);
          destruct source; cbn [source_bit]; lia|].
  split.
  { apply Z.testbit_true; [lia|]. change (2 ^ 1) with 2.
    replace ((8 * isr + 2 + source_bit source) / 2) with (1 + (2 * isr) * 2).
    - rewrite Z.mod_add by lia. reflexivity.
    - apply Z.div_unique with (r := source_bit source);
        destruct source; cbn [source_bit]; lia. }
  split.
  { destruct source; cbn [source_bit].
    - apply Z.testbit_false; [lia|]. change (2 ^ 0) with 1. rewrite Z.div_1_r.
      replace (8 * isr + 2 + 0) with (0 + (4 * isr + 1) * 2) by lia.
      rewrite Z.mod_add by lia. reflexivity.
    - apply Z.testbit_true; [lia|]. change (2 ^ 0) with 1. rewrite Z.div_1_r.
      replace (8 * isr + 2 + 1) with (1 + (4 * isr + 1) * 2) by lia.
      rewrite Z.mod_add by lia. reflexivity. }
  split; [reflexivity|].
  pose proof (Z.mod_pos_bound selector 256 ltac:(lia)) as B.
  pose proof (Z.mul_div_le (selector mod 256) 4 ltac:(lia)).
  assert (0 <= (selector mod 256) / 4) by (apply Z.div_pos; lia). lia.
Qed.

Section InterruptChecks.

Variable getInterruptGate : Z -> M InterruptGate.
Variable get_descriptor_for_ss : Z -> M Descriptor.
Variable isGlobal : Descriptor -> bool.
Variable taskSwitch : TSSDescriptor -> JumpType -> M unit.
Variable getEFlags : CPU -> Z.

Lemma interrupt_gate_checks st isr source errorCode ig st1 :
  get_pe st = true ->
  getInterruptGate (u8 isr) st = (Ok ig, st1) ->
  protectedModeInterrupt getInterruptGate get_descriptor_for_ss isGlobal taskSwitch
       getEFlags isr source errorCode st
  = (if is_internal source && (gate_dpl (ig_gate ig) <? get_cpl st1)
     then (Throw (GeneralProtectionFault (makeErrorCode (u8 isr) true source)), st1)
     else if negb (gate_present (ig_gate ig))
     then (Throw (NotPresent (makeErrorCode (u8 isr) true source)), st1)
     else if ig_null ig
     then (Throw (GeneralProtectionFault (makeErrorCode (u8 isr) true source)), st1)
     else if ig_task_gate ig
     then interruptToTaskGate isGlobal taskSwitch (u8 isr) source errorCode (ig_gate ig) st1
     else protectedModeInterrupt getInterruptGate get_descriptor_for_ss isGlobal taskSwitch
       getEFlags isr source errorCode st).
Proof.
  intros Hpe Eg.
  destruct (is_internal source && (gate_dpl (ig_gate ig) <? get_cpl st1)) eqn:E1.
  { unfold protectedModeInterrupt. rewrite bind_gets, Hpe, bind_assert_true.
    rewrite (bind_ok _ _ _ _ _ Eg), bind_gets.
    rewrite E1. reflexivity. }
  destruct (negb (gate_present (ig_gate ig))) eqn:E2.
  { unfold protectedModeInterrupt. rewrite bind_gets, Hpe, bind_assert_true.
    rewrite (bind_ok _ _ _ _ _ Eg), bind_gets.
    rewrite E1, E2. reflexivity. }
  destruct (ig_null ig) eqn:E3.
  { unfold protectedModeInterrupt. rewrite bind_gets, Hpe, bind_assert_true.
    rewrite (bind_ok _ _ _ _ _ Eg), bind_gets.
    rewrite E1, E2, E3. reflexivity. }
  destruct (ig_task_gate ig) eqn:E4; [|reflexivity].
  unfold protectedModeInterrupt. rewrite bind_gets, Hpe, bind_assert_true.
  rewrite (bind_ok _ _ _ _ _ Eg), bind_gets.
  rewrite E1, E2, E3, E4. reflexivity.
Qed.

(** X23.  The checks protectedModeInterrupt makes on the gate of the IDT, in
    order, for a vector below 256.  A software interrupt through a gate whose
    DPL is below the CPL raises #GP; a gate that is not present raises #NP; a
    null gate raises #GP.  The error code is [8 * vector + 2], plus 1 for an
    external interrupt, and the machine is left as the gate lookup left it:
    nothing has been pushed. *)
Theorem interrupt_gate_is_checked st isr source errorCode ig st1 :
  get_pe st = true ->
  0 <= isr < 256 ->
  getInterruptGate isr st = (Ok ig, st1) ->
  let code := 8 * isr + 2 + source_bit source in
  (source = SrcInternal -> gate_dpl (ig_gate ig) < get_cpl st1 ->
     protectedModeInterrupt getInterruptGate get_descriptor_for_ss isGlobal taskSwitch
       getEFlags isr source errorCode st
     = (Throw (GeneralProtectionFault code), st1))
  /\ ((source = SrcExternal \/ get_cpl st1 <= gate_dpl (ig_gate ig)) ->
      gate_present (ig_gate ig) = false ->
      protectedModeInterrupt getInterruptGate get_descriptor_for_ss isGlobal taskSwitch
       getEFlags isr source errorCode st = (Throw (NotPresent code), st1))
  /\ ((source = SrcExternal \/ get_cpl st1 <= gate_dpl (ig_gate ig)) ->
      gate_present (ig_gate ig) = true -> ig_null ig = true ->
      protectedModeInterrupt getInterruptGate get_descriptor_for_ss isGlobal taskSwitch
       getEFlags isr source errorCode st
      = (Throw (GeneralProtectionFault code), st1)).
Proof.
  intros Hpe Hr Eg code.
  assert (Eu : u8 isr = isr) by (unfold u8; apply Z.mod_small; lia).
  rewrite <- Eu in Eg.
  pose proof (interrupt_gate_checks st isr source errorCode ig st1 Hpe Eg) as K.
  rewrite Eu, makeErrorCode_idt in K by exact Hr. fold code in K.
  assert (Hpass : source = SrcExternal \/ get_cpl st1 <= gate_dpl (ig_gate ig) ->
                  is_internal source && (gate_dpl (ig_gate ig) <? get_cpl st1) = false).
  { intros [->|Hle]; [reflexivity|].
    rewrite (proj2 (Z.ltb_ge _ _) Hle). apply andb_false_r. }
  split; [|split].
  - intros -> Hlt. cbn [is_internal andb] in K.
    rewrite (proj2 (Z.ltb_lt _ _) Hlt) in K. exact K.
  - intros Hs Hp. rewrite (Hpass Hs), Hp in K. exact K.
  - intros Hs Hp Hn. rewrite (Hpass Hs), Hp, Hn in K. exact K.
Qed.

Lemma interrupt_target_checks st isr source errorCode ig st1 d st2 :
  get_pe st = true ->
  getInterruptGate (u8 isr) st = (Ok ig, st1) ->
  is_internal source && (gate_dpl (ig_gate ig) <? get_cpl st1) = false ->
  gate_present (ig_gate ig) = true -> ig_null ig = false ->
  get_descriptor (gate_selector (ig_gate ig)) st1 = (Ok d, st2) ->
  let selector := gate_selector (ig_gate ig) in
  protectedModeInterrupt getInterruptGate get_descriptor_for_ss isGlobal taskSwitch
       getEFlags isr source errorCode st
  = (if ig_task_gate ig then
       if negb (isGlobal d)
       then (Throw (GeneralProtectionFault (makeErrorCode selector false source)), st2)
       else match d with
            | TSS t =>
                if tss_busy t
                then (Throw (GeneralProtectionFault (makeErrorCode selector false source)), st2)
                else if negb (tss_present t)
                then (Throw (GeneralProtectionFault (makeErrorCode selector false source)), st2)
                else protectedModeInterrupt getInterruptGate get_descriptor_for_ss isGlobal taskSwitch
       getEFlags isr source errorCode st
            | _ => (Throw (GeneralProtectionFault (makeErrorCode selector false source)), st2)
            end
     else if is_error d
     then (Throw (GeneralProtectionFault (makeErrorCode selector false source)), st2)
     else if negb (is_code d)
     then (Throw (GeneralProtectionFault (makeErrorCode selector false source)), st2)
     else if get_cpl st2 <? sd_dpl (as_segment_descriptor d)
     then (Throw (GeneralProtectionFault (makeErrorCode selector false source)), st2)
     else if negb (sd_present (as_segment_descriptor d))
     then (Throw (NotPresent (makeErrorCode selector false source)), st2)
     else protectedModeInterrupt getInterruptGate get_descriptor_for_ss isGlobal taskSwitch
       getEFlags isr source errorCode st).
Proof.
  intros Hpe Eg E1 E2 E3 Ed selector.
  pose proof (interrupt_gate_checks st isr source errorCode ig st1 Hpe Eg) as K.
  rewrite E1, E2, E3 in K. cbn [negb] in K.
  destruct (ig_task_gate ig) eqn:E4.
  { assert (Et : interruptToTaskGate isGlobal taskSwitch (u8 isr) source errorCode (ig_gate ig) st1
                 = bind (ret d) (fun descriptor =>
                     if negb (isGlobal descriptor) then
                       throw (GeneralProtectionFault (makeErrorCode selector false source))
                     else
                       match descriptor with
                       | TSS t =>
                           if tss_busy t then
                             throw (GeneralProtectionFault (makeErrorCode selector false source))
                           else if negb (tss_present t) then
                             throw (GeneralProtectionFault (makeErrorCode selector false source))
                           else
                             bind (taskSwitch t INT) (fun _ =>
                               match errorCode with
                               | Some code => if tss_is_32bit t then push32 code else push16 code
                               | None => ret tt
                               end)
                       | _ => throw (GeneralProtectionFault (makeErrorCode selector false source))
                       end) st2).
    { unfold interruptToTaskGate. rewrite (bind_ok _ _ _ _ _ Ed). rewrite bind_ret.
      reflexivity. }
    rewrite K, Et, bind_ret.
    destruct (isGlobal d) eqn:Eg'; cbn [negb]; [|reflexivity].
    destruct d as [e|s|g|g|g|t|dp pr]; try reflexivity.
    destruct (tss_busy t) eqn:Eb; [reflexivity|].
    destruct (tss_present t) eqn:Ep; cbn [negb]; reflexivity. }
  destruct (is_error d) eqn:E5.
  { unfold protectedModeInterrupt. rewrite bind_gets, Hpe, bind_assert_true.
    rewrite (bind_ok _ _ _ _ _ Eg), bind_gets.
    rewrite E1, E2, E3, E4. cbn [negb]. rewrite (bind_ok _ _ _ _ _ Ed), E5. reflexivity. }
  destruct (is_code d) eqn:E6; cbn [negb].
  2:{ unfold protectedModeInterrupt. rewrite bind_gets, Hpe, bind_assert_true.
      rewrite (bind_ok _ _ _ _ _ Eg), bind_gets.
      rewrite E1, E2, E3, E4. cbn [negb]. rewrite (bind_ok _ _ _ _ _ Ed), E5, E6.
      reflexivity. }
  destruct (get_cpl st2 <? sd_dpl (as_segment_descriptor d)) eqn:E7.
  { unfold protectedModeInterrupt. rewrite bind_gets, Hpe, bind_assert_true.
    rewrite (bind_ok _ _ _ _ _ Eg), bind_gets.
    rewrite E1, E2, E3, E4. cbn [negb]. rewrite (bind_ok _ _ _ _ _ Ed), E5, E6.
    cbn [negb]. rewrite bind_gets, E7. reflexivity. }
  destruct (sd_present (as_segment_descriptor d)) eqn:E8; cbn [negb]; [reflexivity|].
  unfold protectedModeInterrupt. rewrite bind_gets, Hpe, bind_assert_true.
  rewrite (bind_ok _ _ _ _ _ Eg), bind_gets.
  rewrite E1, E2, E3, E4. cbn [negb]. rewrite (bind_ok _ _ _ _ _ Ed), E5, E6.
  cbn [negb]. rewrite bind_gets, E7, E8. reflexivity.
Qed.

(** X24.  The checks protectedModeInterrupt makes on the target of a gate that
    passed the checks of the IDT entry.  A task gate whose selector names a
    descriptor that is not global, not a TSS, a busy TSS or a TSS that is not
    present raises #GP.  An interrupt or trap gate whose selector names
    anything but a code segment, or a code segment with DPL above the CPL,
    raises #GP, and a code segment that is not present raises #NP.  The error
    code is the low byte of the gate's selector with its two lowest bits
    cleared; the machine is left as the descriptor lookup left it. *)
Theorem interrupt_target_is_checked st isr source errorCode ig st1 d st2 :
  get_pe st = true ->
  getInterruptGate (u8 isr) st = (Ok ig, st1) ->
  (source = SrcExternal \/ get_cpl st1 <= gate_dpl (ig_gate ig)) ->
  gate_present (ig_gate ig) = true -> ig_null ig = false ->
  get_descriptor (gate_selector (ig_gate ig)) st1 = (Ok d, st2) ->
  let code := 4 * ((gate_selector (ig_gate ig) mod 256) / 4) in
  (ig_task_gate ig = true ->
   (isGlobal d = false \/ is_tss d = false
    \/ exists t, d = TSS t /\ (tss_busy t = true \/ tss_present t = false)) ->
   protectedModeInterrupt getInterruptGate get_descriptor_for_ss isGlobal taskSwitch
       getEFlags isr source errorCode st
   = (Throw (GeneralProtectionFault code), st2))
  /\ (ig_task_gate ig = false ->
      (is_code d = false \/ get_cpl st2 < sd_dpl (as_segment_descriptor d)) ->
      protectedModeInterrupt getInterruptGate get_descriptor_for_ss isGlobal taskSwitch
       getEFlags isr source errorCode st
      = (Throw (GeneralProtectionFault code), st2))
  /\ (ig_task_gate ig = false -> is_code d = true ->
      sd_dpl (as_segment_descriptor d) <= get_cpl st2 ->
      sd_present (as_segment_descriptor d) = false ->
      protectedModeInterrupt getInterruptGate get_descriptor_for_ss isGlobal taskSwitch
       getEFlags isr source errorCode st = (Throw (NotPresent code), st2)).
Proof.
  intros Hpe Eg Hs Hp Hn Ed code.
  assert (E1 : is_internal source && (gate_dpl (ig_gate ig) <? get_cpl st1) = false).
  { destruct Hs as [->|Hle]; [reflexivity|].
    rewrite (proj2 (Z.ltb_ge _ _) Hle). apply andb_false_r. }
  pose proof (interrupt_target_checks st isr source errorCode ig st1 d st2
                Hpe Eg E1 Hp Hn Ed) as K.
  cbv zeta in K. rewrite makeErrorCode_selector in K. fold code in K.
  split; [|split].
  - intros Et Hbad. rewrite Et in K. rewrite K.
    destruct (isGlobal d) eqn:Eglob; cbn [negb]; [|reflexivity].
    destruct Hbad as [Hg|[Ht|(t & -> & Hb)]]; [discriminate| |].
    + destruct d; try reflexivity. discriminate.
    + destruct Hb as [Hb|Hb]; rewrite Hb; [reflexivity|].
      destruct (tss_busy t); reflexivity.
  - intros Et Hbad. rewrite Et in K. rewrite K.
    destruct (is_error d) eqn:Ee; [reflexivity|].
    destruct Hbad as [Hc|Hd]; [rewrite Hc; reflexivity|].
    destruct (is_code d); cbn [negb]; [|reflexivity].
    rewrite (proj2 (Z.ltb_lt _ _) Hd). reflexivity.
  - intros Et Hc Hd Hpr. rewrite Et in K. rewrite K.
    assert (Ee : is_error d = false) by (destruct d; try reflexivity; discriminate).
    rewrite Ee, Hc. cbn [negb]. rewrite (proj2 (Z.ltb_ge _ _) Hd), Hpr. reflexivity.
Qed.

End InterruptChecks.

End Machine.

(** ** POP CS on the 8086 core (C9) *)

(** C9 (as amended).  The POP CS handler raises nothing: it writes one alert
    carrying the base CS:IP to the log and changes no architectural state (in
    particular CS, IP and SP are unchanged). *)
Theorem pop_cs_only_logs (st : Vomit8086.Cpu) :
  Vomit8086.architectural (Vomit8086._POP_CS st) = Vomit8086.architectural st
  /\ Vomit8086.CS (Vomit8086._POP_CS st) = Vomit8086.CS st
  /\ Vomit8086.StackPointer (Vomit8086._POP_CS st) = Vomit8086.StackPointer st
  /\ Vomit8086.alerts (Vomit8086._POP_CS st)
     = (Vomit8086.BCS st, Vomit8086.BIP st) :: Vomit8086.alerts st.
Proof. repeat split. Qed.

(** ** The renderers of the graphics modes *)

Module RendererFacts.
Import Renderer.

Lemma upto_length n : length (upto n) = n.
Proof. unfold upto. now rewrite length_map, length_seq. Qed.

Lemma upto_nth n i : (i < n)%nat -> nth i (upto n) 0 = Z.of_nat i.
Proof.
  intro Hi. unfold upto. change 0 with (Z.of_nat 0).
  rewrite map_nth, seq_nth by exact Hi. reflexivity.
Qed.

Lemma flat_map_length_const {A B} (f : A -> list B) k l :
  (forall a, length (f a) = k) -> length (flat_map f l) = (length l * k)%nat.
Proof.
  intro Hk. induction l as [|a l IH]; cbn [flat_map length]; [reflexivity|].
  rewrite length_app, Hk, IH. lia.
Qed.

Lemma flat_map_nth_const {A B} (f : A -> list B) k l i j da db :
  (forall a, length (f a) = k) -> (j < k)%nat -> (i < length l)%nat ->
  nth (i * k + j) (flat_map f l) db = nth j (f (nth i l da)) db.
Proof.
  intros Hk Hj. revert i. induction l as [|a l IH]; intros i Hi; cbn [length] in Hi; [lia|].
  cbn [flat_map]. destruct i as [|i].
  - cbn [Nat.mul Nat.add nth]. apply app_nth1. rewrite Hk. exact Hj.
  - cbn [nth]. rewrite app_nth2 by (rewrite Hk; lia). rewrite Hk.
    replace (S i * k + j - k)%nat with (i * k + j)%nat by lia.
    apply IH. lia.
Qed.

Lemma column_split x k :
  0 < k -> 0 <= x ->
  Z.to_nat x = (Z.to_nat (x / k) * Z.to_nat k + Z.to_nat (x mod k))%nat.
Proof.
  intros Hk Hx. pose proof (Z.div_mod x k ltac:(lia)) as E.
  pose proof (Z.mod_pos_bound x k Hk). assert (0 <= x / k) by (apply Z.div_pos; lia).
  rewrite <- Z2Nat.inj_mul, <- Z2Nat.inj_add by nia. f_equal. lia.
Qed.

Lemma render_line {L} (line : Z -> L) n y d :
  0 <= y < Z.of_nat n -> nth (Z.to_nat y) (map line (upto n)) d = line y.
Proof.
  intro Hy. rewrite (nth_indep _ d (line 0)) by (rewrite length_map, upto_length; lia).
  rewrite map_nth, upto_nth by lia. f_equal. lia.
Qed.

Lemma pair_of_bits b s :
  0 <= s -> Z.land (Z.shiftr b s) 3 = (b / 2 ^ s) mod 4.
Proof.
  intro Hs. rewrite Z.shiftr_div_pow2 by exact Hs.
  change 3 with (Z.ones 2). rewrite Z.land_ones by lia. reflexivity.
Qed.

(** X25.  [Mode04Renderer::render] fills 200 scan lines of 320 pixels.  The
    pixel at column x of line y is the 2-bit field number [x mod 4], counted
    from the most significant end, of byte [x / 4] of the line; the bytes of
    line y start at [(y / 2) * 80], for odd lines 0x2000 further on.  Every
    pixel is a colour below 4, and the four pixels of a byte give the byte
    back: nothing of the video memory shown is lost. *)
Theorem mode04_pixels (video_memory : Bytes) (y x : Z) :
  0 <= y < 200 -> 0 <= x < 320 ->
  let pixel x := nth (Z.to_nat x) (nth (Z.to_nat y) (Mode04Renderer_render video_memory) nil) 0 in
  let byte := u8 (video_memory ((y mod 2) * 0x2000 + (y / 2) * 80 + x / 4)) in
  length (Mode04Renderer_render video_memory) = 200%nat
  /\ length (nth (Z.to_nat y) (Mode04Renderer_render video_memory) nil) = 320%nat
  /\ pixel x = (byte / 4 ^ (3 - x mod 4)) mod 4
  /\ 0 <= pixel x < 4
  /\ 64 * pixel (4 * (x / 4)) + 16 * pixel (4 * (x / 4) + 1)
     + 4 * pixel (4 * (x / 4) + 2) + pixel (4 * (x / 4) + 3) = byte.
Proof.
  intros Hy Hx pixel byte.
  assert (Hline : nth (Z.to_nat y) (Mode04Renderer_render video_memory) nil
                  = mode04_scan_line video_memory y).
  { unfold Mode04Renderer_render. apply render_line. lia. }
  assert (Hpix : forall x', 0 <= x' < 320 -> x' / 4 = x / 4 ->
                   pixel x' = (byte / 4 ^ (3 - x' mod 4)) mod 4).
  { intros x' Hx' Hq. unfold pixel. rewrite Hline. unfold mode04_scan_line.
    pose proof (Z.mod_pos_bound x' 4 ltac:(lia)) as Hm.
    assert (0 <= x' / 4 < 80) as Hd
      by (split; [apply Z.div_pos; lia | apply Z.div_lt_upper_bound; lia]).
    rewrite (column_split x' 4) by lia. change (Z.to_nat 4) with 4%nat.
    rewrite (flat_map_nth_const _ 4 _ _ _ 0 0);
      [|reflexivity|lia|rewrite upto_length; lia].
    rewrite upto_nth by lia. rewrite Z2Nat.id by lia.
    assert (Eb : u8 (video_memory ((if Z.land y 1 =? 0 then 0 else 8192)
                                   + y / 2 * 80 + x' / 4)) = byte).
    { unfold byte. rewrite Hq. do 2 f_equal.
      change 1 with (Z.ones 1). rewrite Z.land_ones by lia. change (2 ^ 1) with 2.
      pose proof (Z.mod_pos_bound y 2 ltac:(lia)).
      destruct (Z.eqb_spec (y mod 2) 0) as [->|Hn]; [reflexivity|].
      replace (y mod 2) with 1 by lia. reflexivity. }
    rewrite Eb.
    assert (Hc : x' mod 4 = 0 \/ x' mod 4 = 1 \/ x' mod 4 = 2 \/ x' mod 4 = 3) by lia.
    destruct Hc as [E|[E|[E|E]]]; rewrite E;
      [change (Z.to_nat 0) with 0%nat | change (Z.to_nat 1) with 1%nat
      |change (Z.to_nat 2) with 2%nat | change (Z.to_nat 3) with 3%nat];
      cbn [nth]; rewrite pair_of_bits by lia; reflexivity. }
  split; [unfold Mode04Renderer_render; now rewrite length_map, upto_length|].
  split.
  { rewrite Hline. unfold mode04_scan_line.
    rewrite (flat_map_length_const _ 4) by reflexivity. now rewrite upto_length. }
  split; [apply Hpix; [exact Hx|reflexivity]|].
  split; [rewrite (Hpix x Hx eq_refl); apply Z.mod_pos_bound; lia|].
  assert (0 <= x / 4 < 80) as Hd
    by (split; [apply Z.div_pos; lia | apply Z.div_lt_upper_bound; lia]).
  assert (Hq : forall j, 0 <= j < 4 -> (4 * (x / 4) + j) / 4 = x / 4).
  { intros j Hj. symmetry. apply Z.div_unique with (r := j); lia. }
  assert (Hr : forall j, 0 <= j < 4 -> (4 * (x / 4) + j) mod 4 = j).
  { intros j Hj. symmetry. apply Z.mod_unique with (q := x / 4); lia. }
  replace (4 * (x / 4)) with (4 * (x / 4) + 0) at 1 by lia.
  rewrite !Hpix by (try apply Hq; lia). rewrite !Hr by lia.
  assert (Hb : 0 <= byte < 256) by (unfold byte, u8; apply Z.mod_pos_bound; lia).
  change (4 ^ (3 - 0)) with 64. change (4 ^ (3 - 1)) with 16.
  change (4 ^ (3 - 2)) with 4. change (4 ^ (3 - 3)) with 1.
  rewrite Z.div_1_r.
  pose proof (Z.div_mod byte 4 ltac:(lia)). pose proof (Z.div_mod (byte / 4) 4 ltac:(lia)).
  pose proof (Z.div_mod (byte / 4 / 4) 4 ltac:(lia)).
  assert (E16 : byte / 16 = byte / 4 / 4) by (rewrite Z.div_div by lia; reflexivity).
  assert (E64 : byte / 64 = byte / 4 / 4 / 4) by (rewrite !Z.div_div by lia; reflexivity).
  rewrite E16, E64.
  assert (byte / 4 / 4 / 4 < 4).
  { apply Z.div_lt_upper_bound; [lia|]. apply Z.div_lt_upper_bound; [lia|].
    apply Z.div_lt_upper_bound; lia. }
  assert (0 <= byte / 4 / 4 / 4) by (repeat apply Z.div_pos; lia).
  rewrite (Z.mod_small (byte / 4 / 4 / 4) 4) by lia. lia.
Qed.

Lemma bit_of_byte b i : 0 <= i -> Z.land (Z.shiftr b i) 1 = Z.b2z (Z.testbit b i).
Proof.
  intro Hi. rewrite Z.shiftr_div_pow2 by exact Hi.
  change 1 with (Z.ones 1). rewrite Z.land_ones by lia. change (2 ^ 1) with 2.
  symmetry. apply Z.testbit_spec'. exact Hi.
Qed.

Lemma D_bits p0 p1 p2 p3 offset i :
  0 <= i ->
  0 <= D p0 p1 p2 p3 offset i < 16
  /\ Z.testbit (D p0 p1 p2 p3 offset i) 0 = Z.testbit (u8 (p0 offset)) i
  /\ Z.testbit (D p0 p1 p2 p3 offset i) 1 = Z.testbit (u8 (p1 offset)) i
  /\ Z.testbit (D p0 p1 p2 p3 offset i) 2 = Z.testbit (u8 (p2 offset)) i
  /\ Z.testbit (D p0 p1 p2 p3 offset i) 3 = Z.testbit (u8 (p3 offset)) i.
Proof.
  intro Hi. unfold D. rewrite !bit_of_byte by exact Hi.
  destruct (Z.testbit (u8 (p0 offset)) i), (Z.testbit (u8 (p1 offset)) i),
    (Z.testbit (u8 (p2 offset)) i), (Z.testbit (u8 (p3 offset)) i);
    cbn; repeat split; lia.
Qed.

Lemma planar_pixel width height p0 p1 p2 p3 y x :
  (width mod 8 = 0)%nat ->
  0 <= y < Z.of_nat height -> 0 <= x < Z.of_nat width ->
  nth (Z.to_nat x) (nth (Z.to_nat y) (planar_render width height p0 p1 p2 p3) nil) 0
  = D p0 p1 p2 p3 (y * Z.of_nat (width / 8) + x / 8) (7 - x mod 8).
Proof.
  intros Hw Hy Hx. unfold planar_render. rewrite render_line by exact Hy.
  unfold planar_line.
  pose proof (Z.mod_pos_bound x 8 ltac:(lia)) as Hm.
  assert (Ew : Z.of_nat width = 8 * Z.of_nat (width / 8)).
  { pose proof (Nat.div_mod_eq width 8). lia. }
  assert (0 <= x / 8 < Z.of_nat (width / 8)) as Hd
    by (split; [apply Z.div_pos; lia | apply Z.div_lt_upper_bound; lia]).
  rewrite (column_split x 8) by lia. change (Z.to_nat 8) with 8%nat.
  rewrite (flat_map_nth_const _ 8 _ _ _ 0 0);
    [|reflexivity|lia|rewrite upto_length; lia].
  rewrite upto_nth by lia. rewrite Z2Nat.id by lia.
  assert (Hc : x mod 8 = 0 \/ x mod 8 = 1 \/ x mod 8 = 2 \/ x mod 8 = 3
               \/ x mod 8 = 4 \/ x mod 8 = 5 \/ x mod 8 = 6 \/ x mod 8 = 7) by lia.
  destruct Hc as [E|[E|[E|[E|[E|[E|[E|E]]]]]]]; rewrite E;
    [change (Z.to_nat 0) with 0%nat | change (Z.to_nat 1) with 1%nat
    |change (Z.to_nat 2) with 2%nat | change (Z.to_nat 3) with 3%nat
    |change (Z.to_nat 4) with 4%nat | change (Z.to_nat 5) with 5%nat
    |change (Z.to_nat 6) with 6%nat | change (Z.to_nat 7) with 7%nat];
    cbn [nth]; reflexivity.
Qed.

(** X26.  The planar 16-colour renderers.  In [Mode12Renderer::render]
    (640 x 480) the pixel at column x of line y is a colour below 16 whose bit
    k is bit [7 - x mod 8] of the byte at offset [y * 80 + x / 8] of plane k:
    the leftmost pixel of a byte comes from its most significant bit.
    [Mode0DRenderer::render] (320 x 200) does the same with 40 bytes a line,
    counted from the start address. *)
Theorem planar_pixels (p0 p1 p2 p3 : Bytes) (start_address y x k : Z) :
  0 <= k < 4 ->
  (0 <= y < 480 -> 0 <= x < 640 ->
   let pixel :=
     nth (Z.to_nat x) (nth (Z.to_nat y) (Mode12Renderer_render p0 p1 p2 p3) nil) 0 in
   0 <= pixel < 16
   /\ Z.testbit pixel k = Z.testbit (plane_byte p0 p1 p2 p3 k (y * 80 + x / 8)) (7 - x mod 8))
  /\ (0 <= y < 200 -> 0 <= x < 320 ->
      let pixel :=
        nth (Z.to_nat x)
            (nth (Z.to_nat y) (Mode0DRenderer_render start_address p0 p1 p2 p3) nil) 0 in
      0 <= pixel < 16
      /\ Z.testbit pixel k
         = Z.testbit (plane_byte p0 p1 p2 p3 k (u16 start_address + (y * 40 + x / 8)))
                     (7 - x mod 8)).
Proof.
  intros Hk.
  assert (Hc : k = 0 \/ k = 1 \/ k = 2 \/ k = 3) by lia.
  split; intros Hy Hx pixel.
  - unfold pixel, Mode12Renderer_render.
    rewrite planar_pixel by (try reflexivity; lia).
    change (Z.of_nat (640 / 8)) with 80.
    pose proof (Z.mod_pos_bound x 8 ltac:(lia)) as Hm.
    destruct (D_bits p0 p1 p2 p3 (y * 80 + x / 8) (7 - x mod 8) ltac:(lia))
      as (Hr & B0 & B1 & B2 & B3).
    split; [exact Hr|].
    destruct Hc as [-> | [-> | [-> | ->]]]; assumption.
  - unfold pixel, Mode0DRenderer_render.
    rewrite planar_pixel by (try reflexivity; lia).
    change (Z.of_nat (320 / 8)) with 40.
    pose proof (Z.mod_pos_bound x 8 ltac:(lia)) as Hm.
    match goal with |- context [D ?a ?b ?c ?d ?o ?i] =>
      destruct (D_bits a b c d o i ltac:(lia)) as (Hr & B0 & B1 & B2 & B3) end.
    split; [exact Hr|].
    destruct Hc as [-> | [-> | [-> | ->]]]; assumption.
Qed.

End RendererFacts.


(** ** Memory behind a SimpleMemoryProvider *)

Lemma smp_write_bytes_spec n : forall p a v,
  smp_base (smp_write_bytes n p a v) = smp_base p
  /\ smp_size (smp_write_bytes n p a v) = smp_size p
  /\ smp_direct (smp_write_bytes n p a v) = smp_direct p
  /\ m_data (smp_write_bytes n p a v) = le_store n (m_data p) (a - smp_base p) v.
Proof.
  induction n as [|n IH]; intros p a v; cbn [smp_write_bytes le_store].
  - repeat split.
  - destruct (IH (smp_write_memory8 p a v) (a + 1) (v / 256)) as (Eb & Es & Ed & Em).
    rewrite Eb, Es, Ed, Em. cbn [smp_write_memory8 smp_base smp_size smp_direct m_data].
    repeat split. f_equal. lia.
Qed.


(** * Concrete machines *)

(** The theorems at work on machines with 8 MiB of guest RAM and no memory
    provider registered. *)

Definition flat_memory (bytes : Bytes) : @Memory SimpleMemoryProvider :=
  mkMemory bytes 8388608 (fun _ => None) (fun _ => mkSimple 0 0 false (fun _ => 0)).

Definition flat_segment (base : Z) (is32 : bool) (ring : Z) : SegmentDescriptor :=
  mkSegmentDescriptor false false base 0xffffffff ring true is32 false true true ring false.

Definition clear_flags : Flags :=
  mkFlags false false false false false false false false false 0 false false false false
          false false false 0 0 ByteSize.

Definition machine (gpr : Z -> Z) (eip : Z) (selectors : SegmentRegisterIndex -> Z)
    (descriptors : SegmentRegisterIndex -> SegmentDescriptor) (cr0 cr3 : Z) (is32 : bool)
    (bytes : Bytes) : @CPU SimpleMemoryProvider :=
  mkCPU gpr eip selectors descriptors None (mkCR cr0 0 cr3 0 0 0 0 0 0 0 0 0) clear_flags
        (mkDTR 0 0xffff) (mkDTR 0 0xffff) (mkDTR 0 0xffff) (mkTR 0 0xffff 0 false)
        Alive (mkSizes is32 is32 is32 is32 is32) true false 0 (flat_memory bytes)
        false false NoDebuggerRequest [] [] false false.

(** Paging on, page directory at 0x1000, linear 0x00400000 mapped through the
    page table at 0x2000; the entry of the page at 0x00400000 is [pte0] and
    the following page is not mapped. *)
Definition paged_machine (pte0 : Z) : @CPU SimpleMemoryProvider :=
  machine (fun _ => 0) 0 (fun _ => 0) (fun _ => flat_segment 0 true 0) 0x80000001 0x1000 true
    (le_store 4 (le_store 4 (fun _ => 0) 0x1004 0x2007) 0x2000 pte0).

(** C1 at the spec's scenario: the PTE of 0x00400000 with Present cleared. *)
(** A byte read at 0x400000, whose page-table entry is not present. *)
Lemma non_present_entry_raises_page_fault_witness :
  exists err st',
    read_memory 16384 false ByteSize 0x400000 Read 0xff (paged_machine 0x100006)
    = (Throw (mkException 14 (Some err) (Some 0x400000)), st')
    /\ get_cr2 st' = 0x400000
    /\ Z.testbit err 0 = false /\ Z.testbit err 1 = false /\ Z.testbit err 2 = false.
Proof.
  apply (non_present_entry_raises_page_fault 16384 false (paged_machine 0x100006)
           0x400000 Read 0xff); [reflexivity | reflexivity | reflexivity | reflexivity |].
  right. reflexivity.
Defined.

(** Paging on, page directory at 0x1000, page table at 0x2000: the page at
    0x00400000 is mapped to the frame at 0x100000 and the page at 0x00401000
    to the frame at 0x300000, both writable by the user.  The bytes 0x44
    and 0x33 end the first frame and the bytes 0x22 and 0x11 begin the
    second. *)
Definition two_page_machine : @CPU SimpleMemoryProvider :=
  machine (fun _ => 0) 0 (fun _ => 0) (fun _ => flat_segment 0 true 0) 0x80000001 0x1000 true
    (le_store 2 (le_store 2
       (le_store 4 (le_store 4 (le_store 4 (fun _ => 0) 0x1004 0x2007) 0x2000 0x100007)
                 0x2004 0x300007)
       0x100FFE 0x3344) 0x300000 0x1122).

Lemma two_page_machine_entries e :
  In e (straddle_entries 16384 two_page_machine 0x400FFE) ->
  (e = 0x1004 \/ e = 0x2000 \/ e = 0x2004) /\ ram_backed 16384 two_page_machine e.
Proof.
  intros [<-|[<-|[<-|[<-|[]]]]]; (split; [vm_compute; tauto | reflexivity]).
Qed.

Lemma two_page_machine_data i :
  0 <= i < 4 -> data_byte 16384 two_page_machine 0x400FFE i.
Proof.
  intros Hi. assert (Hc : i = 0 \/ i = 1 \/ i = 2 \/ i = 3) by lia.
  destruct Hc as [-> | [-> | [-> | ->]]];
    (split; [reflexivity|]; split; [reflexivity|]; intros e He;
     destruct (two_page_machine_entries e He) as ([-> | [-> | ->]] & _);
     vm_compute; (left; reflexivity) || (right; discriminate)).
Qed.

(** C2: a dword read at 0x00400FFE composes the bytes at 0x100FFE, 0x100FFF,
    0x300000 and 0x300001, low byte first; the dword 0xAABBCCDD written there
    lands at these four addresses; and a dword read at 0x00400FFE when the
    page at 0x00401000 is not mapped faults on 0x00401000. *)
Lemma page_straddling_access_is_bytewise_witness :
  (exists st',
     read_memory 16384 false DWordSize 0x400FFE Read 0xff two_page_machine
     = (Ok 0x11223344, st'))
  /\ (exists st',
        write_memory 16384 false DWordSize 0x400FFE 0xAABBCCDD 0xff two_page_machine
        = (Ok tt, st')
        /\ m_memory (m_mem st') 0x100FFE = 0xDD /\ m_memory (m_mem st') 0x100FFF = 0xCC
        /\ m_memory (m_mem st') 0x300000 = 0xBB /\ m_memory (m_mem st') 0x300001 = 0xAA)
  /\ (exists err st',
        read_memory 16384 false DWordSize 0x400FFE Read 0xff (paged_machine 0x100007)
        = (Throw (mkException 14 (Some err) (Some 0x401000)), st')
        /\ get_cr2 st' = 0x401000).
Proof.
  split; [|split].
  - destruct (page_straddling_access_is_bytewise 16384 false two_page_machine
                0x400FFE Read 0xff 0 eq_refl) as (_ & _ & Mp & _).
    destruct (Mp eq_refl eq_refl ltac:(lia)
                (fun e He => proj2 (two_page_machine_entries e He)))
      as (_ & Rd & _).
    destruct (Rd eq_refl eq_refl eq_refl two_page_machine_data) as (st' & E & _).
    exists st'. exact E.
  - destruct (page_straddling_access_is_bytewise 16384 false two_page_machine
                0x400FFE Read 0xff 0xAABBCCDD eq_refl) as (_ & _ & Mp & _).
    destruct (Mp eq_refl eq_refl ltac:(lia)
                (fun e He => proj2 (two_page_machine_entries e He)))
      as (_ & _ & _ & Wd).
    destruct (Wd eq_refl eq_refl eq_refl two_page_machine_data) as (st' & E & B & _).
    exists st'. split; [exact E|].
    split; [exact (B 0 ltac:(lia))|]. split; [exact (B 1 ltac:(lia))|].
    split; [exact (B 2 ltac:(lia))|exact (B 3 ltac:(lia))].
  - destruct (page_straddling_access_is_bytewise 16384 false (paged_machine 0x100007)
                0x400FFE Read 0xff 0 eq_refl) as (_ & _ & _ & F).
    apply F; try reflexivity.
    + lia.
    + right. reflexivity.
Defined.

(** C6: a write to 0x00400000 sets Accessed in the PDE and Accessed and
    Dirty in the PTE. *)
(** A write to 0x400000: both entries gain Accessed, the page-table entry
    Dirty. *)
Lemma accessed_dirty_written_back_witness :
  let st' := after_translation 16384 (paged_machine 0x100007) 0x400000 Write in
  translate_address_slow_case 16384 false 0x400000 Write 0xff (paged_machine 0x100007)
  = (Ok 0x100000, st')
  /\ le_load 4 (m_memory (m_mem st')) 0x2000 = 0x100067
  /\ le_load 4 (m_memory (m_mem st')) 0x1004 = 0x2027.
Proof.
  pose proof (accessed_dirty_written_back_exactly_on_success 16384 false
                (paged_machine 0x100007) 0x400000 Write 0xff) as T.
  rewrite (translate_slow_eq 16384 false (paged_machine 0x100007) 0x400000 Write 0xff eq_refl)
    in T |- *.
  change (access_permitted 16384 (paged_machine 0x100007) 0x400000 Write 0xff) with true
    in T |- *.
  cbv beta iota zeta in T |- *.
  destruct T as (_ & _ & _ & _ & _ & R).
  destruct (R eq_refl eq_refl) as (R1 & R2).
  split; [reflexivity|]. split; [exact R1 | exact R2].
Defined.

(** ** The parts of the machine outside the CPU core, made concrete *)

Definition code_segment (ring : Z) : SegmentDescriptor :=
  mkSegmentDescriptor false true 0 0xffffffff ring true true false true false ring false.

Definition data_segment (ring : Z) : SegmentDescriptor :=
  mkSegmentDescriptor false false 0 0xffffffff ring true true false true true ring false.

(** A descriptor table: ring-0 code at 0x08, ring-0 data at 0x10, ring-3 code
    at 0x18, a 32-bit call gate to 0x08:0x1000 open to ring 3 at 0x20, and
    ring-3 data at 0x28. *)
Definition descriptor_table (selector : Z) : Descriptor :=
  let index := Z.land selector 0xfff8 in
  if index =? 0 then ErrorDescriptor NullSelector
  else if index =? 0x08 then Segment (code_segment 0)
  else if index =? 0x10 then Segment (data_segment 0)
  else if index =? 0x18 then Segment (code_segment 3)
  else if index =? 0x20 then CallGate (mkGate 0x08 0x1000 0 3 true true)
  else if index =? 0x28 then Segment (data_segment 3)
  else ErrorDescriptor LimitExceeded.

Definition table_lookup (selector : Z) : @M SimpleMemoryProvider Descriptor :=
  ret (descriptor_table selector).

(** A protected-mode segment load from [descriptor_table], without checks. *)
Definition table_load (segreg : SegmentRegisterIndex) (selector : Z)
    : @M SimpleMemoryProvider unit :=
  bind (modify (fun st =>
          set_descriptor segreg
            (with_rpl (Z.land selector 3)
               (with_loaded_in_ss (segreg_eqb segreg SS)
                  (as_segment_descriptor (descriptor_table selector))))
            (set_selector segreg selector st)))
       (fun _ => match segreg with
                 | CS => update_default_sizes
                 | SS => update_stack_size
                 | _ => ret tt
                 end).

(** A task state segment whose inner stacks are all 0x10:0x9000. *)
Definition ring_stack_segment (ring : Z) : @M SimpleMemoryProvider Z := ret 0x10.
Definition ring_stack_pointer (ring : Z) : @M SimpleMemoryProvider Z := ret 0x9000.

Definition no_task_switch (selector : Z) (tss : TSSDescriptor) (type : JumpType)
    : @M SimpleMemoryProvider unit := ret tt.

Definition idle : @M SimpleMemoryProvider unit := ret tt.

(** The FLAGS image of the flag bits, bit 1 always set. *)
Definition flags_image (st : @CPU SimpleMemoryProvider) : Z :=
  let f := m_fl st in
  Z.lor 2
    (Vomit8086.bit (m_cf f) 0 + Vomit8086.bit (m_pf f) 2 + Vomit8086.bit (m_af f) 4
     + Vomit8086.bit (m_zf f) 6 + Vomit8086.bit (m_sf f) 7 + Vomit8086.bit (m_tf f) 8
     + Vomit8086.bit (m_if f) 9 + Vomit8086.bit (m_df f) 10 + Vomit8086.bit (m_of f) 11
     + Z.shiftl (m_iopl f) 12 + Vomit8086.bit (m_nt f) 14).

Lemma table_lookup_preserves_gpr selector : preserves_gpr (table_lookup selector).
Proof. apply preserves_ret. Qed.

Lemma table_load_preserves_gpr segreg selector : preserves_gpr (table_load segreg selector).
Proof.
  unfold table_load. apply preserves_bind.
  - apply preserves_modify. reflexivity.
  - intros _. destruct segreg; try apply preserves_ret;
      unfold update_default_sizes, update_stack_size; apply preserves_modify; reflexivity.
Qed.

(** ** HLT outside ring 0 *)

Definition ring3_machine : @CPU SimpleMemoryProvider :=
  machine (fun _ => 0) 0x100 (fun r => match r with CS => 0x1b | _ => 0x2b end)
    (fun r => match r with CS => code_segment 3 | _ => data_segment 3 end)
    1 0 true (fun _ => 0).

(** HLT in ring 3. *)
Lemma hlt_requires_ring0_witness :
  _HLT 16384 false false 0 0 table_lookup table_load ring_stack_segment ring_stack_pointer
    no_task_switch idle idle (fun _ => false) idle idle 1 ring3_machine
  = (Throw (mkException 13 (Some 0) None), ring3_machine)
  /\ m_state ring3_machine = Alive.
Proof.
  split; [|reflexivity].
  apply (proj1 (hlt_requires_ring0 16384 false false 0 0 table_lookup table_load
                  ring_stack_segment ring_stack_pointer no_task_switch idle idle
                  (fun _ => false) idle idle 1 ring3_machine)).
  discriminate.
Defined.

(** ** PUSHA *)

Definition pusha_registers (i : Z) : Z :=
  if i =? RegisterEAX then 1 else if i =? RegisterECX then 2
  else if i =? RegisterEDX then 3 else if i =? RegisterEBX then 4
  else if i =? RegisterESP then 0x1000 else if i =? RegisterEBP then 6
  else if i =? RegisterESI then 7 else if i =? RegisterEDI then 8 else 0.

Definition pusha_machine : @CPU SimpleMemoryProvider :=
  machine pusha_registers 0x100 (fun _ => 0) (fun _ => flat_segment 0 false 0) 0 0 false
    (fun _ => 0).

Lemma pusha_machine_stack : real_stack_window 16384 pusha_machine 0x0FF0 0x1000.
Proof.
  unfold real_stack_window. repeat split; try reflexivity; try (vm_compute; discriminate).
  intros a _. unfold ram_backed, memory_provider_for_address.
  destruct (1048576 <=? a); reflexivity.
Qed.

(** PUSHA on the machine of the scenario. *)
Lemma pusha_words_in_push_order_witness :
  exists st',
    _PUSHA 16384 false pusha_machine = (Ok tt, st')
    /\ get_sp st' = 0x0FF0
    /\ stack_word st' 0x0FFE = 1 /\ stack_word st' 0x0FFC = 2
    /\ stack_word st' 0x0FFA = 3 /\ stack_word st' 0x0FF8 = 4
    /\ stack_word st' 0x0FF6 = 0x1000 /\ stack_word st' 0x0FF4 = 6
    /\ stack_word st' 0x0FF2 = 7 /\ stack_word st' 0x0FF0 = 8.
Proof.
  apply (pusha_words_in_push_order 16384 false pusha_machine pusha_machine_stack);
    reflexivity.
Defined.

(** The claim's order fails on the same machine: the word at SP-2 is AX = 1
    (the claim: DI = 8) and the word at SP-16 is DI = 8 (the claim: AX = 1). *)
Lemma pusha_claimed_order_fails :
  fst (_PUSHA 16384 false pusha_machine) = Ok tt
  /\ read_register16 RegisterEAX pusha_machine = 1
  /\ read_register16 RegisterEDI pusha_machine = 8
  /\ stack_word (snd (_PUSHA 16384 false pusha_machine)) 0x0FFE = 1
  /\ stack_word (snd (_PUSHA 16384 false pusha_machine)) 0x0FF0 = 8.
Proof. vm_compute. repeat split. Qed.

(** ** Reset and guest memory *)

(** A machine in use: registers loaded, flags clear, and the byte 0x42 in
    guest RAM at 0x500. *)
Definition used_machine : @CPU SimpleMemoryProvider :=
  machine pusha_registers 0x100 (fun _ => 0x1000) (fun _ => flat_segment 0x10000 false 0)
    0 0 false (poke (fun _ => 0) 0x500 0x42).

(** The machine in use in VM86 mode, with carry, NT, RF and AC set, IOPL 0
    and interrupts off. *)
Definition flagged_machine : @CPU SimpleMemoryProvider :=
  with_fl (mkFlags true false false false false false false false false 0 true true true true
                   false false false 0 0 ByteSize) used_machine.

(** A hard reboot of that machine: the registers are zero, the flags are
    those of 0x0200 with IOPL 3, execution is at F000:0000 and the byte at
    0x500 is still there. *)
Lemma reset_keeps_guest_memory_witness :
  exists st',
    hard_reboot 16384 false false 0 0 table_lookup table_load ring_stack_segment
      ring_stack_pointer no_task_switch idle flagged_machine = (Ok tt, st')
    /\ (forall i, m_gpr st' i = 0)
    /\ m_fl st' = reset_flags
    /\ get_cs st' = 0xf000 /\ get_eip st' = 0
    /\ m_state st' = Alive
    /\ m_should_hard_reboot st' = false
    /\ m_mem st' = m_mem flagged_machine
    /\ m_memory (m_mem st') 0x500 = 0x42.
Proof.
  destruct (reset_keeps_guest_memory 16384 false false 0 0 table_lookup table_load
              ring_stack_segment ring_stack_pointer no_task_switch idle flagged_machine)
    as (_ & R & _).
  destruct (R flagged_machine eq_refl) as (st' & E & G & F & C & I & S & B & M).
  exists st'. repeat split; try assumption.
  rewrite M. reflexivity.
Defined.

(** After a reset, and after the reset of a hard reboot, the byte at 0x500 is
    still 0x42: guest memory is not zeroed. *)
Lemma reset_does_not_zero_memory :
  fst (reset 16384 false false 0 0 table_lookup table_load ring_stack_segment
         ring_stack_pointer no_task_switch used_machine) = Ok tt
  /\ m_memory (m_mem (snd (reset 16384 false false 0 0 table_lookup table_load
                             ring_stack_segment ring_stack_pointer no_task_switch
                             used_machine))) 0x500 = 0x42
  /\ fst (hard_reboot 16384 false false 0 0 table_lookup table_load ring_stack_segment
            ring_stack_pointer no_task_switch idle used_machine) = Ok tt
  /\ m_memory (m_mem (snd (hard_reboot 16384 false false 0 0 table_lookup table_load
                             ring_stack_segment ring_stack_pointer no_task_switch idle
                             used_machine))) 0x500 = 0x42.
Proof. vm_compute. repeat split. Qed.

(** ** POP CS *)

(** An 8086 machine at 1000:0100 with SP = 0x1000, whose vector 6 is
    F000:1234. *)
Definition pop_cs_machine : Vomit8086.Cpu :=
  Vomit8086.mkCpu 0x1000 0 0 0x2000 0 0 0 0 0 0x1000 0 0 0x0101
    false false false false false false false true false
    (le_store 2 (le_store 2 (fun _ => 0) 0x18 0x1234) 0x1a 0xf000)
    0x1000 0x0100 [].

(** POP CS does not deliver vector 6: control stays at 1000:0101 with
    SP = 0x1000, where the delivery of #UD would be at F000:1234 with the
    three words of the interrupt frame pushed. *)
Lemma pop_cs_raises_nothing :
  Vomit8086.CS (Vomit8086._POP_CS pop_cs_machine) = 0x1000
  /\ Vomit8086.IP (Vomit8086._POP_CS pop_cs_machine) = 0x0101
  /\ Vomit8086.StackPointer (Vomit8086._POP_CS pop_cs_machine) = 0x1000
  /\ Vomit8086.CS (Vomit8086.int_call 6 pop_cs_machine) = 0xf000
  /\ Vomit8086.IP (Vomit8086.int_call 6 pop_cs_machine) = 0x1234
  /\ Vomit8086.StackPointer (Vomit8086.int_call 6 pop_cs_machine) = 0x0ffa
  /\ Vomit8086.alerts (Vomit8086._POP_CS pop_cs_machine) = [(0x1000, 0x0100)].
Proof. vm_compute. repeat split. Qed.

(** ** A real-mode interrupt *)

(** Real mode at 1000:0100 with the stack at 2000:1000 and vector 0x21 set
    to F000:1234. *)
Definition int21_machine : @CPU SimpleMemoryProvider :=
  machine (fun i => if i =? RegisterESP then 0x1000 else 0) 0x100
    (fun r => match r with CS => 0x1000 | SS => 0x2000 | _ => 0 end)
    (fun r => match r with
              | CS => flat_segment 0x10000 false 0
              | SS => flat_segment 0x20000 false 0
              | _ => flat_segment 0 false 0
              end)
    0 0 false (le_store 2 (le_store 2 (fun _ => 0) 0x84 0x1234) 0x86 0xf000).

Lemma int21_machine_stack : real_stack_window 16384 int21_machine 0x0FFA 0x1000.
Proof.
  unfold real_stack_window. repeat split; try reflexivity; try (vm_compute; discriminate).
  intros a _. unfold ram_backed, memory_provider_for_address.
  destruct (1048576 <=? a); reflexivity.
Qed.

(** INT 21h: the frame is FLAGS = 0x0002, CS = 0x1000, IP = 0x0100. *)
Lemma real_mode_interrupt_delivery_witness :
  exists st',
    realModeInterrupt 16384 false table_load flags_image 0x21 SrcInternal int21_machine
    = (Ok tt, st')
    /\ get_cs st' = 0xf000 /\ get_eip st' = 0x1234
    /\ get_if st' = false /\ get_tf st' = false
    /\ get_sp st' = 0x0FFA
    /\ stack_word st' 0x0FFE = 2
    /\ stack_word st' 0x0FFC = 0x1000
    /\ stack_word st' 0x0FFA = 0x100.
Proof.
  destruct (real_mode_interrupt_delivery 16384 false table_lookup table_load
              ring_stack_segment ring_stack_pointer no_task_switch flags_image
              int21_machine 0x21 SrcInternal eq_refl eq_refl)
    as (st' & E & Hcs & Hip & Hif & Htf & _ & S).
  destruct (S int21_machine_stack) as (Hsp & W1 & W2 & W3).
  exists st'. repeat split; assumption.
Defined.

(** ** A far return to a null selector *)

(** Ring 0 of protected mode, ESP = 0x8000; the stack holds the return
    offset 0x1234 and, above it, a null return selector. *)
Definition far_return_machine : @CPU SimpleMemoryProvider :=
  machine (fun i => if i =? RegisterESP then 0x8000 else 0) 0x100
    (fun r => match r with CS => 0x08 | _ => 0x10 end)
    (fun r => match r with CS => code_segment 0 | _ => data_segment 0 end)
    1 0 true (le_store 4 (fun _ => 0) 0x8000 0x1234).

(** RETF to the null selector: #GP, ESP still 0x8000. *)
Lemma far_return_fault_keeps_stack_pointer_witness :
  exists code st',
    protected_far_return 16384 false table_lookup table_load 0 far_return_machine
    = (Throw (GeneralProtectionFault code), st')
    /\ get_esp st' = 0x8000.
Proof.
  destruct (far_return_fault_keeps_stack_pointer 16384 false table_lookup table_load
              table_lookup_preserves_gpr table_load_preserves_gpr far_return_machine 0)
    as [_ F].
  destruct (F (0x1234, mkPopper 4) far_return_machine (0, mkPopper 8) far_return_machine
              (ErrorDescriptor NullSelector) far_return_machine
              eq_refl eq_refl eq_refl eq_refl eq_refl) as (code & E & Hesp).
  exists code, far_return_machine. split; [exact E | exact Hesp].
Defined.

(** ** A far call from ring 3 through the gate *)

(** Ring 3 of protected mode at 0x1b:0x100 with the stack at 0x2b:0x8000. *)
Definition calling_machine : @CPU SimpleMemoryProvider :=
  machine (fun i => if i =? RegisterESP then 0x8000 else 0) 0x100
    (fun r => match r with CS => 0x1b | _ => 0x2b end)
    (fun r => match r with CS => code_segment 3 | _ => data_segment 3 end)
    1 0 true (fun _ => 0).

Definition gate_call : @M SimpleMemoryProvider unit :=
  far_jump 16384 false table_lookup table_load ring_stack_segment ring_stack_pointer
    no_task_switch 2 0x23 0 CALL None.

(** CALL 0x23:0 from ring 3: the new stack 0x10:0x9000 holds the old SS, ESP,
    CS and EIP as dwords, highest address first. *)
Lemma far_call_through_gate_to_inner_ring_witness :
  gate_call calling_machine
  = inner_ring_call_frame 16384 false table_load 0x10 0x9000 0x2b 0x8000 0x1b 0x100 0 DWordSize
      (with_eip 0x1000 (snd (set_cs table_load 0x08 calling_machine)))
  /\ fst (gate_call calling_machine) = Ok tt
  /\ get_cs (snd (gate_call calling_machine)) = 0x08
  /\ get_eip (snd (gate_call calling_machine)) = 0x1000
  /\ get_cpl (snd (gate_call calling_machine)) = 0
  /\ get_ss (snd (gate_call calling_machine)) = 0x10
  /\ get_esp (snd (gate_call calling_machine)) = 0x8ff0
  /\ le_load 4 (m_memory (m_mem (snd (gate_call calling_machine)))) 0x8ffc = 0x2b
  /\ le_load 4 (m_memory (m_mem (snd (gate_call calling_machine)))) 0x8ff8 = 0x8000
  /\ le_load 4 (m_memory (m_mem (snd (gate_call calling_machine)))) 0x8ff4 = 0x1b
  /\ le_load 4 (m_memory (m_mem (snd (gate_call calling_machine)))) 0x8ff0 = 0x100.
Proof.
  split; [|vm_compute; repeat split].
  apply (far_call_through_gate_to_inner_ring 16384 false table_lookup table_load
           ring_stack_segment ring_stack_pointer no_task_switch
           0 calling_machine 0x23 0 (mkGate 0x08 0x1000 0 3 true true)
           (code_segment 0) (data_segment 0) 0x10 0x9000
           calling_machine calling_machine (snd (set_cs table_load 0x08 calling_machine))
           (with_eip 0x1000 (snd (set_cs table_load 0x08 calling_machine)))
           (with_eip 0x1000 (snd (set_cs table_load 0x08 calling_machine)))
           (with_eip 0x1000 (snd (set_cs table_load 0x08 calling_machine))));
    try reflexivity; try (vm_compute; discriminate).
Defined.

(** * More machines *)

(** ** Guest memory with paging off *)



(** The machine of PUSHA with the A20 line disabled. *)
Definition a20_off_machine : @CPU SimpleMemoryProvider :=
  mkCPU pusha_registers 0x100 (fun _ => 0) (fun _ => flat_segment 0 false 0) None
        (mkCR 0 0 0 0 0 0 0 0 0 0 0 0) clear_flags
        (mkDTR 0 0xffff) (mkDTR 0 0xffff) (mkDTR 0 0xffff) (mkTR 0 0xffff 0 false)
        Alive (mkSizes false false false false false) false false 0
        (flat_memory (poke (fun _ => 0) 0x500 0x42))
        false false NoDebuggerRequest [] [] false false.


(** ** Memory providers *)

(** A machine whose provider 0 is a [SimpleMemoryProvider] of [size] bytes at
    [base], dispatched to for the blocks [blocks] says. *)
Definition provider_machine (base size : Z) (blocks : Z -> bool) : @CPU SimpleMemoryProvider :=
  with_mem (mkMemory (fun _ => 0) 8388608 (fun b => if blocks b then Some 0 else None)
                     (fun _ => mkSimple base size false (fun _ => 0)))
           pusha_machine.

(** 128 KiB at 0xA0000, not yet registered. *)
Definition video_machine : @CPU SimpleMemoryProvider :=
  provider_machine 0xA0000 0x20000 (fun _ => false).

(** Registering it claims 0xA0000-0xBFFFF and nothing else. *)
Lemma registered_provider_is_dispatched_witness :
  exists st',
    register_memory_provider 16384 0 video_machine = (Ok tt, st')
    /\ memory_provider_for_address 16384 st' 0xA0000 = Some 0
    /\ memory_provider_for_address 16384 st' 0xBFFFF = Some 0
    /\ memory_provider_for_address 16384 st' 0x9FFFF = None
    /\ memory_provider_for_address 16384 st' 0xC0000 = None.
Proof.
  destruct (registered_provider_is_dispatched 16384 video_machine 0)
    as (st' & E & Hin & Hout & _);
    [reflexivity | vm_compute; discriminate | vm_compute; discriminate
    | vm_compute; discriminate |].
  exists st'. split; [exact E|].
  split; [apply Hin; vm_compute; split; [discriminate|reflexivity]|].
  split; [apply Hin; vm_compute; split; [discriminate|reflexivity]|].
  split.
  - rewrite Hout; [reflexivity|]. left. reflexivity.
  - rewrite Hout; [reflexivity|]. right. vm_compute. discriminate.
Defined.


(** The provider at 0xA0000, registered. *)
Definition video_mapped_machine : @CPU SimpleMemoryProvider :=
  provider_machine 0xA0000 0x20000 (fun b => (40 <=? b) && (b <? 48)).


(** ** Segment checks *)

(** A code segment may be read, not written. *)
Lemma validate_address_decides_witness :
  validate_address WordSize (code_segment 0) 0x10 Write pusha_machine
  = (Throw (GeneralProtectionFault 0), pusha_machine)
  /\ validate_address WordSize (code_segment 0) 0x10 Read pusha_machine
     = (Ok tt, pusha_machine).
Proof.
  exact (validate_address_decides pusha_machine WordSize (code_segment 0) 0x10 eq_refl).
Defined.

(** Ring 0 code at selector 0x08 moved to CPL 3. *)
Lemma set_cpl_sets_selector_rpl_witness :
  exists st',
    set_cpl 3 far_return_machine = (Ok tt, st')
    /\ get_cpl st' = 3 /\ Z.land (get_cs st') 3 = 3
    /\ Z.land (get_cs st') 0xfffc = 0x08.
Proof.
  destruct (set_cpl_sets_selector_rpl far_return_machine 3) as (st' & E & Hc & Hpe & _);
    [lia|].
  exists st'. split; [exact E|]. split; [exact Hc|].
  destruct (Hpe eq_refl) as (R & S). split; [exact R|exact S].
Defined.

(** ** PUSHA and POPA, ENTER and LEAVE *)

(** PUSHA then POPA on the machine of PUSHA. *)
Lemma pusha_popa_round_trip_witness :
  exists st',
    bind (_PUSHA 16384 false) (fun _ => _POPA 16384 false) pusha_machine = (Ok tt, st')
    /\ (forall i, read_register16 i st' = read_register16 i pusha_machine)
    /\ m_fl st' = m_fl pusha_machine.
Proof.
  destruct (pusha_popa_round_trip 16384 false table_lookup ring_stack_segment
              ring_stack_pointer no_task_switch flags_image pusha_machine
              pusha_machine_stack) as (st' & E & R & _ & _ & F & _).
  exists st'. split; [exact E|]. split; [exact R|exact F].
Defined.

Lemma pusha_machine_frame : real_stack_window 16384 pusha_machine 0x0FFA 0x1000.
Proof.
  unfold real_stack_window. repeat split; try reflexivity; try (vm_compute; discriminate).
  intros a _. unfold ram_backed, memory_provider_for_address.
  destruct (1048576 <=? a); reflexivity.
Qed.


(** ** Far calls and returns *)

Lemma int21_machine_frame : real_stack_window 16384 int21_machine 0x0FFC 0x1000.
Proof.
  unfold real_stack_window. repeat split; try reflexivity; try (vm_compute; discriminate).
  intros a _. unfold ram_backed, memory_provider_for_address.
  destruct (1048576 <=? a); reflexivity.
Qed.

(** CALL 3000:0200 from 1000:0100 and the RETF that ends it. *)
Lemma real_mode_far_call_returns_witness :
  exists st1 st',
    far_jump 16384 false table_lookup table_load ring_stack_segment ring_stack_pointer
      no_task_switch 1 0x3000 0x200 CALL None int21_machine = (Ok tt, st1)
    /\ get_cs st1 = 0x3000 /\ get_eip st1 = 0x200
    /\ stack_word st1 0x0FFE = 0x1000 /\ stack_word st1 0x0FFC = 0x100
    /\ far_return 16384 false table_lookup table_load 0 st1 = (Ok tt, st')
    /\ get_cs st' = 0x1000 /\ get_eip st' = 0x100 /\ get_sp st' = 0x1000.
Proof.
  destruct (real_mode_far_call_returns 16384 false table_lookup table_load
              ring_stack_segment ring_stack_pointer no_task_switch flags_image
              int21_machine 0 0x3000 0x200 int21_machine_frame eq_refl)
    as (st1 & st' & E1 & C1 & I1 & _ & W1 & W2 & E2 & C2 & I2 & S2 & _).
  exists st1, st'. repeat split; assumption.
Defined.

(** A far jump to the null selector, and to one beyond the table. *)
Lemma far_jump_rejects_bad_selector_witness :
  far_jump 16384 false table_lookup table_load ring_stack_segment ring_stack_pointer
    no_task_switch 1 0 0x100 JMP None far_return_machine
  = (Throw (GeneralProtectionFault 0), far_return_machine)
  /\ far_jump 16384 false table_lookup table_load ring_stack_segment ring_stack_pointer
       no_task_switch 1 0x43 0x100 JMP None far_return_machine
     = (Throw (GeneralProtectionFault 0x40), far_return_machine).
Proof.
  split.
  - apply (proj1 (far_jump_rejects_bad_selector 16384 false table_lookup table_load
                    ring_stack_segment ring_stack_pointer no_task_switch far_return_machine
                    0 0 0x100 JMP None (ErrorDescriptor NullSelector) far_return_machine
                    eq_refl eq_refl eq_refl)).
    reflexivity.
  - apply (proj2 (far_jump_rejects_bad_selector 16384 false table_lookup table_load
                    ring_stack_segment ring_stack_pointer no_task_switch far_return_machine
                    0 0x43 0x100 JMP None (ErrorDescriptor LimitExceeded) far_return_machine
                    eq_refl eq_refl eq_refl)).
    + reflexivity.
    + left. reflexivity.
Defined.

(** JMP 0x08:0x2000 in ring 0 of protected mode. *)
Definition direct_jump : @M SimpleMemoryProvider unit :=
  far_jump 16384 false table_lookup table_load ring_stack_segment ring_stack_pointer
    no_task_switch 1 0x08 0x2000 JMP None.

(** The jump succeeds and the CPL is still 0. *)
Lemma direct_far_jump_keeps_cpl_witness :
  direct_jump far_return_machine = (Ok tt, snd (direct_jump far_return_machine))
  /\ get_cpl (snd (direct_jump far_return_machine)) = get_cpl far_return_machine
  /\ get_eip (snd (direct_jump far_return_machine)) = 0x2000.
Proof.
  assert (E : direct_jump far_return_machine = (Ok tt, snd (direct_jump far_return_machine)))
    by (vm_compute; reflexivity).
  split; [exact E|]. split; [|reflexivity].
  apply (proj1 (direct_far_jump_keeps_cpl 16384 false table_lookup table_load
                  ring_stack_segment ring_stack_pointer no_task_switch far_return_machine
                  0 0x08 0x2000 JMP (code_segment 0) far_return_machine
                  (snd (direct_jump far_return_machine))
                  eq_refl eq_refl ltac:(vm_compute; split; discriminate) eq_refl E)).
Defined.

(** RETF in ring 0 with the null selector on the stack: #GP(0), whatever the
    offset. *)
Lemma far_return_error_codes_witness :
  popper_pop_operand_sized_value 16384 false (mkPopper 0) far_return_machine
  = (Ok (0x1234, mkPopper 4), far_return_machine)
  /\ protected_far_return 16384 false table_lookup table_load 0 far_return_machine
     = (Throw (GeneralProtectionFault 0), far_return_machine).
Proof.
  assert (E1 : popper_pop_operand_sized_value 16384 false (mkPopper 0) far_return_machine
               = (Ok (0x1234, mkPopper 4), far_return_machine)) by reflexivity.
  split; [exact E1|].
  apply (proj1 (far_return_error_codes 16384 false table_lookup table_load far_return_machine 0
                  (0x1234, mkPopper 4) far_return_machine (0, mkPopper 8) far_return_machine
                  (ErrorDescriptor NullSelector) far_return_machine
                  eq_refl E1 eq_refl eq_refl)).
  reflexivity.
Defined.

(** ** HLT *)

(** HLT in ring 0 with IF clear: still halted after five rounds of the loop. *)
Lemma hlt_with_interrupts_off_sleeps_witness :
  _HLT 16384 false false 0 0 table_lookup table_load ring_stack_segment ring_stack_pointer
    no_task_switch idle idle (fun _ => true) idle idle 5 far_return_machine
  = (OutOfFuel, with_state Halted far_return_machine).
Proof.
  apply (hlt_with_interrupts_off_sleeps 16384 false false 0 0 table_lookup table_load
           ring_stack_segment ring_stack_pointer no_task_switch idle idle (fun _ => true)
           idle idle far_return_machine 5); reflexivity.
Defined.

(** A HardReboot command, then HLT: the machine in use restarts at F000:0000. *)
Lemma hard_reboot_wakes_halted_cpu_witness :
  exists st',
    bind (queue_command false HardReboot)
         (fun _ => _HLT 16384 false false 0 0 table_lookup table_load ring_stack_segment
                     ring_stack_pointer no_task_switch idle idle (fun _ => false) idle idle 1)
         used_machine = (Ok tt, st')
    /\ m_state st' = Alive /\ m_should_hard_reboot st' = false
    /\ (forall i, m_gpr st' i = 0)
    /\ get_cs st' = 0xf000 /\ get_eip st' = 0.
Proof.
  destruct (hard_reboot_wakes_halted_cpu 16384 false false 0 0 table_lookup table_load
              ring_stack_segment ring_stack_pointer no_task_switch idle idle
              (fun _ => false) idle idle used_machine 0
              (with_state Halted (snd (queue_command false HardReboot used_machine)))
              eq_refl eq_refl) as (_ & st' & E & A & R & G & C & I).
  exists st'. repeat split; assumption.
Defined.

(** ** RDTSC *)

(** The machine in use after 0x100000005 cycles. *)
Definition counting_machine : @CPU SimpleMemoryProvider :=
  mkCPU pusha_registers 0x100 (fun _ => 0x1000) (fun _ => flat_segment 0x10000 false 0) None
        (mkCR 0 0 0 0 0 0 0 0 0 0 0 0) clear_flags
        (mkDTR 0 0xffff) (mkDTR 0 0xffff) (mkDTR 0 0xffff) (mkTR 0 0xffff 0 false)
        Alive (mkSizes false false false false false) true false 0x100000005
        (flat_memory (fun _ => 0))
        false false NoDebuggerRequest [] [] false false.

(** RDTSC loads EDX:EAX with 1:5 and leaves EBX alone. *)
Lemma rdtsc_returns_cycle_counter_witness :
  exists st',
    _RDTSC counting_machine = (Ok tt, st')
    /\ read_register32 RegisterEDX st' * 2 ^ 32 + read_register32 RegisterEAX st'
       = 0x100000005
    /\ m_gpr st' RegisterEBX = 4.
Proof.
  destruct (rdtsc_returns_cycle_counter counting_machine) as (_ & Hok & _);
    [vm_compute; split; [discriminate|reflexivity]|].
  destruct (Hok eq_refl) as (st' & E & V & _ & B & _).
  exists st'. split; [exact E|]. split; [exact V|exact B].
Defined.

(** ** Page protection *)

(** A user-mode write to 0x400000, whose page-table entry is present and
    user-accessible but read-only. *)
Lemma page_protection_faults_witness :
  exists err st',
    translate_address_slow_case 16384 false 0x400000 Write 3 (paged_machine 0x100005)
    = (Throw (mkException 14 (Some err) (Some 0x400000)), st')
    /\ Z.testbit err 0 = true /\ Z.testbit err 1 = true /\ Z.testbit err 2 = true
    /\ get_cr2 st' = 0x400000.
Proof.
  destruct (page_protection_faults 16384 false (paged_machine 0x100005) 0x400000 Write 3
              eq_refl eq_refl eq_refl eq_refl) as (F & _).
  destruct (F eq_refl) as (err & st' & E & B0 & B1 & B2 & C & _).
  exists err, st'. repeat split; assumption.
Defined.

(** The translation of 0x400123 through the entry 0x100007. *)
Definition translated : Result Z * @CPU SimpleMemoryProvider :=
  translate_address_slow_case 16384 false 0x400123 Read 0xff (paged_machine 0x100007).

Lemma translation_keeps_page_offset_witness :
  fst translated = Ok 0x100123
  /\ Z.land 0x100123 0xFFF = Z.land 0x400123 0xFFF
  /\ Z.land 0x100123 0xfffff000
     = Z.land (page_table_entry 16384 (paged_machine 0x100007) 0x400123) 0xfffff000.
Proof.
  split; [reflexivity|].
  assert (E : translate_address_slow_case 16384 false 0x400123 Read 0xff
                (paged_machine 0x100007) = (Ok 0x100123, snd translated))
    by (vm_compute; reflexivity).
  destruct (translation_keeps_page_offset 16384 false (paged_machine 0x100007) 0x400123
              Read 0xff 0x100123 (snd translated) eq_refl E) as (L & U & _).
  split; [exact L|exact U].
Defined.

(** ** Interrupts in protected mode *)

(** Vector 0x21 from the PIC, and a fault on selector 0x1234. *)
Lemma error_code_layout_witness :
  makeErrorCode 0x21 true SrcExternal = 0x10b
  /\ makeErrorCode 0x21 true SrcExternal / 8 = 0x21
  /\ makeErrorCode 0x1234 false SrcExternal = 0x34.
Proof.
  destruct (error_code_layout 0x21 0x1234 SrcExternal) as (E & D & _ & _ & S & _); [lia|].
  split; [exact E|]. split; [exact D|exact S].
Defined.

(** An IDT: vector 0x21 is an interrupt gate to 0x08:0x2000 with DPL 0,
    vector 0x30 a gate with DPL 3 to the data segment 0x10, vector 0x31 a task
    gate with DPL 3 to the code segment 0x08; all other vectors are not
    present. *)
Definition idt_lookup (isr : Z) : @M SimpleMemoryProvider InterruptGate :=
  ret (if isr =? 0x21 then mkInterruptGate (mkGate 0x08 0x2000 0 0 true true) 0xe false false
       else if isr =? 0x30 then
         mkInterruptGate (mkGate 0x10 0x2000 0 3 true true) 0xe false false
       else if isr =? 0x31 then
         mkInterruptGate (mkGate 0x08 0 0 3 true false) 0x5 false true
       else mkInterruptGate (mkGate 0 0 0 3 false false) 0 false false).

Definition in_gdt (d : Descriptor) : bool := true.

Definition no_switch (tss : TSSDescriptor) (type : JumpType) : @M SimpleMemoryProvider unit :=
  ret tt.

(** Delivery on the tables above. *)
Definition deliver (isr : Z) (source : InterruptSource) : @M SimpleMemoryProvider unit :=
  protectedModeInterrupt 16384 false table_lookup table_load ring_stack_segment
    ring_stack_pointer idt_lookup table_lookup in_gdt no_switch flags_image isr source None.

(** INT 21h in ring 3 is refused with #GP(0x10a); vector 0x40 from the PIC
    is not present: #NP(0x203). *)
Lemma interrupt_gate_is_checked_witness :
  deliver 0x21 SrcInternal calling_machine
  = (Throw (GeneralProtectionFault 0x10a), calling_machine)
  /\ deliver 0x40 SrcExternal calling_machine
     = (Throw (NotPresent 0x203), calling_machine).
Proof.
  split.
  - apply (proj1 (interrupt_gate_is_checked 16384 false table_lookup table_load
                    ring_stack_segment ring_stack_pointer idt_lookup table_lookup in_gdt
                    no_switch flags_image calling_machine 0x21 SrcInternal None
                    (mkInterruptGate (mkGate 0x08 0x2000 0 0 true true) 0xe false false)
                    calling_machine eq_refl ltac:(lia) eq_refl)).
    + reflexivity.
    + reflexivity.
  - apply (proj1 (proj2 (interrupt_gate_is_checked 16384 false table_lookup table_load
                    ring_stack_segment ring_stack_pointer idt_lookup table_lookup in_gdt
                    no_switch flags_image calling_machine 0x40 SrcExternal None
                    (mkInterruptGate (mkGate 0 0 0 3 false false) 0 false false)
                    calling_machine eq_refl ltac:(lia) eq_refl))).
    + left. reflexivity.
    + reflexivity.
Defined.

(** INT 30h in ring 3 names a data segment: #GP(0x10); INT 31h names a task
    gate whose selector is no TSS: #GP(0x08). *)
Lemma interrupt_target_is_checked_witness :
  deliver 0x30 SrcInternal calling_machine
  = (Throw (GeneralProtectionFault 0x10), calling_machine)
  /\ deliver 0x31 SrcInternal calling_machine
     = (Throw (GeneralProtectionFault 0x08), calling_machine).
Proof.
  assert (L : get_cpl calling_machine <= 3) by (vm_compute; discriminate).
  split.
  - destruct (interrupt_target_is_checked 16384 false table_lookup table_load
                ring_stack_segment ring_stack_pointer idt_lookup table_lookup in_gdt
                no_switch flags_image calling_machine 0x30 SrcInternal None
                (mkInterruptGate (mkGate 0x10 0x2000 0 3 true true) 0xe false false)
                calling_machine (Segment (data_segment 0)) calling_machine
                eq_refl eq_refl (or_intror L) eq_refl eq_refl eq_refl) as (_ & K & _).
    exact (K eq_refl (or_introl eq_refl)).
  - destruct (interrupt_target_is_checked 16384 false table_lookup table_load
                ring_stack_segment ring_stack_pointer idt_lookup table_lookup in_gdt
                no_switch flags_image calling_machine 0x31 SrcInternal None
                (mkInterruptGate (mkGate 0x08 0 0 3 true false) 0x5 false true)
                calling_machine (Segment (code_segment 0)) calling_machine
                eq_refl eq_refl (or_intror L) eq_refl eq_refl eq_refl) as (K & _).
    exact (K eq_refl (or_intror (or_introl eq_refl))).
Defined.

(** ** The renderers *)

(** CGA video memory whose byte 1 of the odd scan line 3 is 0x1B, the four
    colours 0, 1, 2, 3 side by side. *)
Definition cga_memory : Bytes := fun a => if a =? 0x2000 + 80 + 1 then 0x1B else 0.

(** Line 3, columns 4 to 7. *)
Lemma mode04_pixels_witness :
  length (Renderer.Mode04Renderer_render cga_memory) = 200%nat
  /\ nth 5 (nth 3 (Renderer.Mode04Renderer_render cga_memory) nil) 0 = 1
  /\ 64 * nth 4 (nth 3 (Renderer.Mode04Renderer_render cga_memory) nil) 0
     + 16 * nth 5 (nth 3 (Renderer.Mode04Renderer_render cga_memory) nil) 0
     + 4 * nth 6 (nth 3 (Renderer.Mode04Renderer_render cga_memory) nil) 0
     + nth 7 (nth 3 (Renderer.Mode04Renderer_render cga_memory) nil) 0 = 0x1B.
Proof.
  destruct (RendererFacts.mode04_pixels cga_memory 3 5 ltac:(lia) ltac:(lia))
    as (L & _ & Px & _ & Pk).
  split; [exact L|]. split; [exact Px|exact Pk].
Defined.

(** Four planes whose byte 81 is 0x80, 0x00, 0x80 and 0x00: the leftmost pixel
    of the byte has colour 5. *)
Definition plane_with (v : Z) : Bytes := fun a => if a =? 81 then v else 0.

Lemma planar_pixels_witness :
  Z.testbit (nth 8 (nth 1 (Renderer.Mode12Renderer_render (plane_with 0x80) (plane_with 0)
                             (plane_with 0x80) (plane_with 0)) nil) 0) 2 = true
  /\ nth 8 (nth 1 (Renderer.Mode12Renderer_render (plane_with 0x80) (plane_with 0)
                     (plane_with 0x80) (plane_with 0)) nil) 0 < 16
  /\ Z.testbit (nth 8 (nth 2 (Renderer.Mode0DRenderer_render 1 (plane_with 0x80)
                                (plane_with 0) (plane_with 0x80) (plane_with 0)) nil) 0) 1
     = false.
Proof.
  destruct (RendererFacts.planar_pixels (plane_with 0x80) (plane_with 0) (plane_with 0x80)
              (plane_with 0) 1 1 8 2 ltac:(lia)) as (A & _).
  destruct (A ltac:(lia) ltac:(lia)) as (R & B).
  destruct (RendererFacts.planar_pixels (plane_with 0x80) (plane_with 0) (plane_with 0x80)
              (plane_with 0) 1 2 8 1 ltac:(lia)) as (_ & C).
  destruct (C ltac:(lia) ltac:(lia)) as (_ & B').
  split; [exact B|]. split; [exact (proj2 R)|exact B'].
Defined.
